(** * Dual-core panel: traffic statistics, configuration translation,
      template self-healing, core switching, process supervision and the
      health check

    A shallow embedding of the Go code of the panel that drives the two proxy
    cores (Xray and sing-box), together with the properties its specification
    states about it.

    Conventions used throughout:
    - a Go [string] is a [string] of bytes; an [int64] counter is a [Z] (the
      code only copies counters, it never does arithmetic on them);
    - a Go [map[string]T] is a [gmap string T]; a map of pointers that the
      code mutates through the pointer is a map whose entry is replaced;
    - a Go [(value, error)] result is a [result];
    - the answers of collaborators that live outside the process (the RPC
      server of a core, the database, the operating system) are inputs of the
      embedded functions. *)

From Stdlib Require Import String Ascii ZArith List Bool Lia.
From stdpp Require Import base option list gmap strings fin_maps.

Local Open Scope string_scope.
Local Open Scope Z_scope.

(** ** Results of fallible Go functions *)

Inductive result (A : Type) : Type :=
| Ok (a : A)
| Err (msg : string).
Arguments Ok {A} a.
Arguments Err {A} msg.

Definition is_err {A} (r : result A) : bool :=
  match r with Ok _ => false | Err _ => true end.

(** ** Bytes and literal prefixes *)

(** [strings.HasPrefix] followed by [strings.TrimPrefix]: the rest of [s]
    after the literal [p], if [s] starts with [p]. *)
Fixpoint strip_prefix (p s : string) : option string :=
  match p with
  | EmptyString => Some s
  | String a p' =>
      match s with
      | EmptyString => None
      | String b s' => if Ascii.eqb a b then strip_prefix p' s' else None
      end
  end.

Definition HasPrefix (s p : string) : bool :=
  match strip_prefix p s with Some _ => true | None => false end.

Definition TrimPrefix (s p : string) : string :=
  match strip_prefix p s with Some r => r | None => s end.

(** No byte of [s] is the separator byte [>]. *)
Fixpoint no_gt (s : string) : bool :=
  match s with
  | EmptyString => true
  | String c s' => negb (Ascii.eqb c ">") && no_gt s'
  end.

(** * Traffic statistics (both Control-API clients) *)

Module Stats.

(** [Traffic] and [ClientTraffic]: package [singbox] declares them in
    traffic.go, and the adapter copies them field by field into the records of
    the same shape of package [xray]. *)
Record Traffic := mkTraffic {
  IsInbound : bool;
  IsOutbound : bool;
  Tag : string;
  Up : Z;
  Down : Z
}.

Module Client.
Record ClientTraffic := mkClientTraffic {
  Email : string;
  Up : Z;
  Down : Z
}.
End Client.
Abbreviation ClientTraffic := Client.ClientTraffic.

Definition set_Down (t : Traffic) (v : Z) : Traffic :=
  mkTraffic (IsInbound t) (IsOutbound t) (Tag t) (Up t) v.
Definition set_Up (t : Traffic) (v : Z) : Traffic :=
  mkTraffic (IsInbound t) (IsOutbound t) (Tag t) v (Down t).
Definition set_CDown (t : ClientTraffic) (v : Z) : ClientTraffic :=
  Client.mkClientTraffic (Client.Email t) (Client.Up t) v.
Definition set_CUp (t : ClientTraffic) (v : Z) : ClientTraffic :=
  Client.mkClientTraffic (Client.Email t) v (Client.Down t).

(** [mapToSlice]: the values of the map.  Go enumerates a map in an
    unspecified order; the properties below are stated on membership, or on
    maps with one entry. *)
Definition mapToSlice {T} (m : gmap string T) : list T := (map_to_list m).*2.

(** The well-formed stat names of both cores:
    [<type>>>><id>>>>traffic>>><direction>]. *)
Definition stat_key (type id direction : string) : string :=
  type +:+ ">>>" +:+ id +:+ ">>>traffic>>>" +:+ direction.

(** *** The Xray gRPC client *)

Module Xray.

(** One entry of the answer of [QueryStats]. *)
Record Stat := mkStat { Name : string; Value : Z }.

(** The longest run of bytes other than [>], and what follows it.  Both
    patterns use the class [[^>]+] followed by the literal [>>>]: the greedy
    run is the only candidate, since a shorter run is followed by a byte that
    is not [>]. *)
Fixpoint span_not_gt (s : string) : string * string :=
  match s with
  | EmptyString => (EmptyString, EmptyString)
  | String c s' =>
      if Ascii.eqb c ">" then (EmptyString, s)
      else let '(a, b) := span_not_gt s' in (String c a, b)
  end.

(** An alternation of two literals, first alternative first. *)
Definition alt2 (a b s : string) : option (string * string) :=
  match strip_prefix a s with
  | Some r => Some (a, r)
  | None => match strip_prefix b s with
            | Some r => Some (b, r)
            | None => None
            end
  end.

(** [(inbound|outbound)>>>([^>]+)>>>traffic>>>(downlink|uplink)] matched at
    the start of [s]: the whole match and the three groups. *)
Definition trafficRegex_at (s : string) : option (list string) :=
  match alt2 "inbound" "outbound" s with
  | None => None
  | Some (ty, r1) =>
      match strip_prefix ">>>" r1 with
      | None => None
      | Some r2 =>
          let '(tag, r3) := span_not_gt r2 in
          if String.eqb tag "" then None
          else match strip_prefix ">>>traffic>>>" r3 with
               | None => None
               | Some r4 =>
                   match alt2 "downlink" "uplink" r4 with
                   | None => None
                   | Some (dir, _) => Some [stat_key ty tag dir; ty; tag; dir]
                   end
               end
      end
  end.

(** [user>>>([^>]+)>>>traffic>>>(downlink|uplink)] matched at the start of
    [s]. *)
Definition clientTrafficRegex_at (s : string) : option (list string) :=
  match strip_prefix "user>>>" s with
  | None => None
  | Some r2 =>
      let '(email, r3) := span_not_gt r2 in
      if String.eqb email "" then None
      else match strip_prefix ">>>traffic>>>" r3 with
           | None => None
           | Some r4 =>
               match alt2 "downlink" "uplink" r4 with
               | None => None
               | Some (dir, _) => Some [stat_key "user" email dir; email; dir]
               end
           end
  end.

(** The leftmost match of an unanchored pattern, given its matcher at the
    start of a string. *)
Fixpoint leftmost (at_start : string -> option (list string))
    (s : string) : option (list string) :=
  match at_start s with
  | Some m => Some m
  | None => match s with
            | EmptyString => None
            | String _ s' => leftmost at_start s'
            end
  end.

(** [FindStringSubmatch]: the leftmost match and its groups, or the nil slice
    (of length 0) when the pattern matches nowhere. *)
Definition FindStringSubmatch (at_start : string -> option (list string))
    (s : string) : list string :=
  default [] (leftmost at_start s).

(** [processTraffic].  Indexing [matches] out of range panics in Go ([None]
    here); [GetTraffic] calls it with four elements only. *)
Definition processTraffic (matches : list string) (value : Z)
    (trafficMap : gmap string Traffic) : option (gmap string Traffic) :=
  match matches with
  | _ :: m1 :: tag :: m3 :: _ =>
      let isInbound := String.eqb m1 "inbound" in
      let isDown := String.eqb m3 "downlink" in
      if String.eqb tag "api" then Some trafficMap
      else
        let traffic :=
          match trafficMap !! tag with
          | Some t => t
          | None => mkTraffic isInbound (negb isInbound) tag 0 0
          end in
        Some (<[tag := if isDown then set_Down traffic value
                       else set_Up traffic value]> trafficMap)
  | _ => None
  end.

(** [processClientTraffic]. *)
Definition processClientTraffic (matches : list string) (value : Z)
    (clientTrafficMap : gmap string ClientTraffic)
    : option (gmap string ClientTraffic) :=
  match matches with
  | _ :: email :: m2 :: _ =>
      let isDown := String.eqb m2 "downlink" in
      let traffic :=
        match clientTrafficMap !! email with
        | Some t => t
        | None => Client.mkClientTraffic email 0 0
        end in
      Some (<[email := if isDown then set_CDown traffic value
                       else set_CUp traffic value]> clientTrafficMap)
  | _ => None
  end.

(** The body of the loop of [GetTraffic] over the stats of the answer. *)
Definition loop_body (acc : gmap string Traffic * gmap string ClientTraffic)
    (stat : Stat) : gmap string Traffic * gmap string ClientTraffic :=
  let '(tagTrafficMap, emailTrafficMap) := acc in
  let matches := FindStringSubmatch trafficRegex_at (Name stat) in
  if (length matches =? 4)%nat then
    match processTraffic matches (Value stat) tagTrafficMap with
    | Some tm => (tm, emailTrafficMap)
    | None => acc
    end
  else
    let matches := FindStringSubmatch clientTrafficRegex_at (Name stat) in
    if (length matches =? 3)%nat then
      match processClientTraffic matches (Value stat) emailTrafficMap with
      | Some em => (tagTrafficMap, em)
      | None => acc
      end
    else acc.

(** The client: which of its pointers are set. *)
Record XrayAPI := mkXrayAPI {
  grpcClient : bool;
  StatsServiceClient : bool;
  isConnected : bool
}.

(** [XrayAPI.GetTraffic]; [resp] is the answer of the core to [QueryStats]. *)
Definition GetTraffic (x : XrayAPI) (resp : result (list Stat))
    : result (list Traffic * list ClientTraffic) :=
  if negb (grpcClient x) then Err "xray api is not initialized"
  else if negb (StatsServiceClient x)
  then Err "xray StatusServiceClient is not initialized"
  else match resp with
       | Err e => Err e
       | Ok stats =>
           let '(tm, em) := fold_left loop_body stats (∅, ∅) in
           Ok (mapToSlice tm, mapToSlice em)
       end.

End Xray.

(** *** The sing-box HTTP client *)

Module SingBox.

(** [bytes.Split(key, ">>>")]: cut at each occurrence of the separator, from
    the left; [cur] is the piece being read. *)
Fixpoint Split (cur s : string) : list string :=
  match s with
  | EmptyString => [cur]
  | String c s' =>
      match s' with
      | String c2 (String c3 r) =>
          if Ascii.eqb c ">" && Ascii.eqb c2 ">" && Ascii.eqb c3 ">"
          then cur :: Split EmptyString r
          else Split (cur +:+ String c EmptyString) s'
      | _ => Split (cur +:+ String c EmptyString) s'
      end
  end.

(** Reading a Go map of strings: a missing key reads as the empty string. *)
Definition index (m : gmap string string) (k : string) : string :=
  default EmptyString (m !! k).

(** [parseTrafficKey]; [None] is the nil map. *)
Definition parseTrafficKey (key : string) : option (gmap string string) :=
  let parts := Split EmptyString key in
  if negb (length parts =? 4)%nat then None
  else
    let part i := nth i parts EmptyString in
    let result : gmap string string := {["type" := part 0%nat]} in
    let result :=
      if String.eqb (part 0%nat) "inbound" || String.eqb (part 0%nat) "outbound"
      then <["tag" := part 1%nat]> result
      else if String.eqb (part 0%nat) "user"
           then <["email" := part 1%nat]> result
           else result in
    let result :=
      if String.eqb (part 2%nat) "traffic"
      then <["direction" := part 3%nat]> result
      else result in
    Some result.

(** The body of the loop of [GetTraffic] over the decoded stats. *)
Definition loop_body (acc : gmap string Traffic * gmap string ClientTraffic)
    (kv : string * Z) : gmap string Traffic * gmap string ClientTraffic :=
  let '(tagTrafficMap, emailTrafficMap) := acc in
  let '(key, value) := kv in
  match parseTrafficKey key with
  | None => acc
  | Some matches =>
      if String.eqb (index matches "type") "inbound"
         || String.eqb (index matches "type") "outbound"
      then
        let tag := index matches "tag" in
        let isInbound := String.eqb (index matches "type") "inbound" in
        let isDown := String.eqb (index matches "direction") "downlink" in
        let traffic :=
          match tagTrafficMap !! tag with
          | Some t => t
          | None => mkTraffic isInbound (negb isInbound) tag 0 0
          end in
        (<[tag := if isDown then set_Down traffic value
                  else set_Up traffic value]> tagTrafficMap, emailTrafficMap)
      else if String.eqb (index matches "type") "user"
      then
        let email := index matches "email" in
        let isDown := String.eqb (index matches "direction") "downlink" in
        let clientTraffic :=
          match emailTrafficMap !! email with
          | Some t => t
          | None => Client.mkClientTraffic email 0 0
          end in
        (tagTrafficMap,
         <[email := if isDown then set_CDown clientTraffic value
                    else set_CUp clientTraffic value]> emailTrafficMap)
      else acc
  end.

(** The answer of the core to [GET /stats]. *)
Inductive HttpAnswer :=
| TransportError (e : string)
| Status (code : Z) (body : result (result (list (string * Z)))).

(** [SingBoxAPI.GetTraffic].  The body of an answer with status 200 either
    cannot be read, or is not a JSON object of integers, or decodes to a map;
    the decoded map is given as the pairs the loop ranges over, in the order
    it meets them. *)
Definition GetTraffic (isConnected : bool) (answer : HttpAnswer)
    : result (list Traffic * list ClientTraffic) :=
  if negb isConnected then Err "sing-box API is not initialized"
  else match answer with
       | TransportError e => Err ("failed to query sing-box stats: " +:+ e)
       | Status code body =>
           if negb (code =? 200) then Err "sing-box API returned status"
           else match body with
                | Err e => Err ("failed to read response: " +:+ e)
                | Ok (Err e) => Err ("failed to parse stats: " +:+ e)
                | Ok (Ok stats) =>
                    let '(tm, em) := fold_left loop_body stats (∅, ∅) in
                    Ok (mapToSlice tm, mapToSlice em)
                end
       end.

End SingBox.

End Stats.


(** * JSON documents and Go values *)

Module Json.

(** The dynamic values the translator handles.  [json.Unmarshal] into an
    [interface{}] produces [Nil], [Bool], [Number] (a float64, which the code
    only copies), [Str], [Slice] and [Map]; the code itself also builds typed
    slices ([Strings] for [[]string], [Maps] for [[]map[string]interface{}]),
    which the type assertion [.([]interface{})] does not accept. *)
#[warnings="-register-all"]
Inductive any :=
| Nil
| Bool (b : bool)
| Number (x : Z)
| Str (s : string)
| Slice (l : list any)
| Strings (l : list string)
| Maps (l : list (gmap string any))
| Map (m : gmap string any).

(** What a value decodes to after [json.Marshal]: typed slices become plain
    arrays.  (All typed slices of the code are made non-nil.) *)
Fixpoint decoded (v : any) : any :=
  match v with
  | Slice l => Slice (map decoded l)
  | Strings l => Slice (map Str l)
  | Maps l => Slice (map (fun m => Map (decoded <$> m)) l)
  | Map m => Map (decoded <$> m)
  | _ => v
  end.

(** [json_util.RawMessage]: no bytes, bytes that are not a JSON document, or
    a JSON document.  A document is identified with the value it decodes to:
    the layout of the text (key order, spacing) is not modelled. *)
Inductive RawMessage :=
| RawEmpty
| RawText (text : string)
| RawJSON (v : any).

(** [len(raw) > 0]. *)
Definition nonempty (r : RawMessage) : bool :=
  match r with
  | RawEmpty => false
  | RawText t => negb (String.eqb t "")
  | RawJSON _ => true
  end.

(** [json.Marshal], whose error the code ignores. *)
Definition Marshal (v : any) : RawMessage := RawJSON (decoded v).

(** [json.Unmarshal] into a [map[string]interface{}] variable: an error
    ([None]), the nil map left by [null] ([Some None]), or a map. *)
Definition UnmarshalMap (r : RawMessage) : option (option (gmap string any)) :=
  match r with
  | RawJSON Nil => Some None
  | RawJSON (Map m) => Some (Some m)
  | _ => None
  end.

(** Reading a possibly nil map. *)
Definition fields (m : option (gmap string any)) : gmap string any :=
  default ∅ m.

Definition as_map (v : any) : option (option (gmap string any)) :=
  match v with
  | Nil => Some None
  | Map m => Some (Some m)
  | _ => None
  end.

(** [json.Unmarshal] into a [[]map[string]interface{}] variable: an error
    ([None]), the nil slice left by [null] ([Some None]), or a slice, whose
    [null] elements are nil maps. *)
Definition UnmarshalMaps (r : RawMessage)
    : option (option (list (option (gmap string any)))) :=
  match r with
  | RawJSON Nil => Some None
  | RawJSON (Slice l) => Some <$> mapM as_map l
  | _ => None
  end.

(** Ranging over a possibly nil slice. *)
Definition elements {A} (l : option (list A)) : list A := default [] l.

(** A slice of possibly nil maps as a value to marshal. *)
Definition of_maps (l : list (option (gmap string any))) : any :=
  Slice (map (fun m => match m with Some m => Map m | None => Nil end) l).

(** [m[k]]: a missing key reads as nil. *)
Definition get (m : gmap string any) (k : string) : any :=
  default Nil (m !! k).

(** The type assertions [m[k].(string)], [.(bool)],
    [.(map[string]interface{})] and [.([]interface{})]. *)
Definition str_field (m : gmap string any) (k : string) : option string :=
  match m !! k with Some (Str s) => Some s | _ => None end.
Definition bool_field (m : gmap string any) (k : string) : option bool :=
  match m !! k with Some (Bool b) => Some b | _ => None end.
Definition map_field (m : gmap string any) (k : string)
    : option (gmap string any) :=
  match m !! k with Some (Map x) => Some x | _ => None end.
Definition slice_field (m : gmap string any) (k : string) : option (list any) :=
  match m !! k with Some (Slice l) => Some l | _ => None end.

(** [s, ok := m[k].(string); ok && s != ""]. *)
Definition str_nonempty (m : gmap string any) (k : string) : option string :=
  match str_field m k with
  | Some s => if String.eqb s "" then None else Some s
  | None => None
  end.

(** The string elements of a slice, in order. *)
Definition strings_of (l : list any) : list string :=
  omap (fun v => match v with Str s => Some s | _ => None end) l.

(** The map elements of a slice, in order. *)
Definition maps_of (l : list any) : list (gmap string any) :=
  omap (fun v => match v with Map m => Some m | _ => None end) l.

End Json.

(** * The configuration models of the two cores *)

(** [xray.Config] and [xray.InboundConfig].  Their declarations are not
    among the sources: these are the fields the translator reads and
    writes, at the types it uses them at. *)
Module XrayCfg.
Import Json.
Record InboundConfig := mkInbound {
  Listen : RawMessage;
  Port : Z;
  Protocol : string;
  Settings : RawMessage;
  StreamSettings : RawMessage;
  Tag : string;
  Sniffing : RawMessage
}.
Record Config := mkConfig {
  LogConfig : RawMessage;
  RouterConfig : RawMessage;
  DNSConfig : RawMessage;
  InboundConfigs : list InboundConfig;
  OutboundConfigs : RawMessage
}.
End XrayCfg.

(** [singbox.Config] and [singbox.InboundConfig]. *)
Module SingBoxCfg.
Import Json.
Record InboundConfig := mkInbound {
  Type_ : string;
  Tag : string;
  Listen : RawMessage;
  ListenPort : Z;
  Users : RawMessage;
  Method : string;
  Password : string;
  Network : RawMessage;
  Transport : RawMessage;
  TLS : RawMessage;
  Sniff : bool;
  SniffOverrideDestination : bool;
  Settings : RawMessage
}.
Record Config := mkConfig {
  Log : RawMessage;
  DNS : RawMessage;
  NTP : RawMessage;
  Inbounds : list InboundConfig;
  Outbounds : RawMessage;
  Route : RawMessage;
  Experimental : RawMessage
}.
End SingBoxCfg.

(** * The configuration translator *)

Module Translate.
Import Json.

(** ** Xray to sing-box *)

(** The log section. *)
Definition convert_log (LogConfig : RawMessage) : RawMessage :=
  if nonempty LogConfig then
    match UnmarshalMap LogConfig with
    | Some xrayLog =>
        let xrayLog := fields xrayLog in
        let singboxLog : gmap string any := ∅ in
        let singboxLog :=
          match str_field xrayLog "loglevel" with
          | Some level => <["level" := Str level]> singboxLog
          | None => <["level" := Str "warn"]> singboxLog
          end in
        let singboxLog :=
          match str_nonempty xrayLog "error" with
          | Some errorLog => <["output" := Str errorLog]> singboxLog
          | None =>
              match str_nonempty xrayLog "access" with
              | Some access => <["output" := Str access]> singboxLog
              | None => singboxLog
              end
          end in
        Marshal (Map (<["timestamp" := Bool true]> singboxLog))
    | None => RawEmpty
    end
  else Marshal (Map (<["timestamp" := Bool true]> {["level" := Str "warn"]})).

Definition supportedProtocols : list string :=
  ["direct"; "mixed"; "socks"; "http"; "shadowsocks"; "vmess"; "trojan";
   "naive"; "hysteria"; "shadowtls"; "tuic"; "hysteria2"; "vless"; "anytls";
   "tun"; "redirect"; "tproxy"].

Definition supported (protocol : string) : bool :=
  existsb (String.eqb protocol) supportedProtocols.

(** One client of a vmess or vless inbound as a sing-box user. *)
Definition convert_client (protocol : string) (c : gmap string any)
    : gmap string any :=
  let user : gmap string any := ∅ in
  let user :=
    match str_field c "id" with
    | Some uuid => <["uuid" := Str uuid]> user
    | None => user
    end in
  let user :=
    match str_nonempty c "email" with
    | Some email =>
        if String.eqb protocol "vless" then <["name" := Str email]> user
        else user
    | None => user
    end in
  match str_nonempty c "flow" with
  | Some flow => <["flow" := Str flow]> user
  | None => user
  end.

(** The users of a vmess or vless inbound: [None] leaves [Users] unset. *)
Definition convert_users (protocol : string) (settings : gmap string any)
    : option RawMessage :=
  match slice_field settings "clients" with
  | Some clients =>
      let users := convert_client protocol <$> maps_of clients in
      if (0 <? length users)%nat then Some (Marshal (Maps users)) else None
  | None => None
  end.

(** The TLS section of an inbound with [security: "tls"]. *)
Definition convert_tls (tlsSettings : gmap string any) : gmap string any :=
  let tls : gmap string any := ∅ in
  let tls := match str_field tlsSettings "certificateFile" with
             | Some certPath => <["certificate_path" := Str certPath]> tls
             | None => tls
             end in
  let tls := match str_field tlsSettings "keyFile" with
             | Some keyPath => <["key_path" := Str keyPath]> tls
             | None => tls
             end in
  let tls := match str_field tlsSettings "serverName" with
             | Some serverName => <["server_name" := Str serverName]> tls
             | None => tls
             end in
  let tls := match slice_field tlsSettings "alpn" with
             | Some alpn => <["alpn" := Slice alpn]> tls
             | None => tls
             end in
  <["enabled" := Bool true]> tls.

(** The server name of a Reality inbound: [dest], or else the first of
    [serverNames] when it is a string. *)
Definition reality_server_name (realitySettings : gmap string any)
    : option string :=
  match str_field realitySettings "dest" with
  | Some dest => Some dest
  | None =>
      match slice_field realitySettings "serverNames" with
      | Some (Str firstServerName :: _) => Some firstServerName
      | _ => None
      end
  end.

(** The [reality] object.  The [maxTimeDiff.(int64)] assertion of the source
    never holds on a decoded document, whose numbers are float64, so
    [max_time_difference] is never written. *)
Definition convert_reality_object (realitySettings : gmap string any)
    : gmap string any :=
  let reality : gmap string any := {["enabled" := Bool true]} in
  let reality :=
    match reality_server_name realitySettings with
    | Some server => <["handshake" := Map {["server" := Str server]}]> reality
    | None => reality
    end in
  let reality :=
    match str_field realitySettings "privateKey" with
    | Some privateKey => <["private_key" := Str privateKey]> reality
    | None => reality
    end in
  match slice_field realitySettings "shortIds" with
  | Some shortIds =>
      if (0 <? length shortIds)%nat && (0 <? length (strings_of shortIds))%nat
      then <["short_id" := Strings (strings_of shortIds)]> reality
      else reality
  | None => reality
  end.

(** The TLS section of an inbound with [security: "reality"]. *)
Definition convert_reality (realitySettings : gmap string any)
    : gmap string any :=
  let tls : gmap string any := {["enabled" := Bool true]} in
  let tls :=
    match reality_server_name realitySettings with
    | Some server => <["server_name" := Str server]> tls
    | None => tls
    end in
  <["reality" := Map (convert_reality_object realitySettings)]> tls.

(** The TLS section from the stream settings: [None] leaves [TLS] unset. *)
Definition convert_security (stream : gmap string any) : option RawMessage :=
  match str_field stream "security" with
  | Some security =>
      if String.eqb security "tls" then
        match map_field stream "tlsSettings" with
        | Some tlsSettings => Some (Marshal (Map (convert_tls tlsSettings)))
        | None => None
        end
      else if String.eqb security "reality" then
        match map_field stream "realitySettings" with
        | Some realitySettings =>
            Some (Marshal (Map (convert_reality realitySettings)))
        | None => None
        end
      else None
  | None => None
  end.

(** The V2Ray transport from the stream settings. *)
Definition convert_transport (stream : gmap string any) : gmap string any :=
  let transport : gmap string any := ∅ in
  match str_field stream "network" with
  | Some network =>
      if negb (String.eqb network "tcp") then
        let transport := <["type" := Str network]> transport in
        if String.eqb network "ws" then
          match map_field stream "wsSettings" with
          | Some wsSettings =>
              let transport := <["path" := get wsSettings "path"]> transport in
              match map_field wsSettings "headers" with
              | Some headers => <["headers" := Map headers]> transport
              | None => transport
              end
          | None => transport
          end
        else if String.eqb network "grpc" then
          match map_field stream "grpcSettings" with
          | Some grpcSettings =>
              <["service_name" := get grpcSettings "serviceName"]> transport
          | None => transport
          end
        else transport
      else transport
  | None => transport
  end.

Definition or_keep (new : option RawMessage) (old : RawMessage) : RawMessage :=
  default old new.

(** The part of [convertXrayInboundToSingBox] that reads the settings:
    [Users], [Method] and [Password]. *)
Definition convert_settings (protocol : string) (Settings : RawMessage)
    : RawMessage * string * string :=
  match UnmarshalMap Settings with
  | Some settings =>
      let settings := fields settings in
      if String.eqb protocol "vmess" || String.eqb protocol "vless" then
        (or_keep (convert_users protocol settings) RawEmpty, "", "")
      else if String.eqb protocol "trojan" then
        match slice_field settings "clients" with
        | Some (Map c :: _) =>
            match str_field c "password" with
            | Some password => (RawEmpty, "", password)
            | None => (RawEmpty, "", "")
            end
        | _ => (RawEmpty, "", "")
        end
      else if String.eqb protocol "shadowsocks" then
        (RawEmpty,
         default "" (str_field settings "method"),
         default "" (str_field settings "password"))
      else (RawEmpty, "", "")
  | None => (RawEmpty, "", "")
  end.

(** The part that reads the stream settings: [Transport] and [TLS]. *)
Definition convert_stream (StreamSettings : RawMessage)
    : RawMessage * RawMessage :=
  if nonempty StreamSettings then
    match UnmarshalMap StreamSettings with
    | Some stream =>
        let stream := fields stream in
        let transport := convert_transport stream in
        (match transport !! "type" with
         | Some _ => Marshal (Map transport)
         | None => RawEmpty
         end,
         or_keep (convert_security stream) RawEmpty)
    | None => (RawEmpty, RawEmpty)
    end
  else (RawEmpty, RawEmpty).

(** The part that reads the sniffing settings: [Sniff] and
    [SniffOverrideDestination]. *)
Definition convert_sniffing (Sniffing : RawMessage) : bool * bool :=
  if nonempty Sniffing then
    match UnmarshalMap Sniffing with
    | Some sniff =>
        let sniff := fields sniff in
        (default false (bool_field sniff "enabled"),
         match slice_field sniff "destOverride" with
         | Some destOverride => (0 <? length destOverride)%nat
         | None => false
         end)
    | None => (false, false)
    end
  else (false, false).

(** [convertXrayInboundToSingBox]; [None] is the nil result for a protocol
    sing-box does not support. *)
Definition convertXrayInboundToSingBox (xrayInbound : XrayCfg.InboundConfig)
    : option SingBoxCfg.InboundConfig :=
  let protocol := XrayCfg.Protocol xrayInbound in
  if negb (supported protocol) then None
  else
    let Listen :=
      if nonempty (XrayCfg.Listen xrayInbound) then XrayCfg.Listen xrayInbound
      else RawJSON Nil in
    let settings := convert_settings protocol (XrayCfg.Settings xrayInbound) in
    let stream := convert_stream (XrayCfg.StreamSettings xrayInbound) in
    let sniffing := convert_sniffing (XrayCfg.Sniffing xrayInbound) in
    Some (SingBoxCfg.mkInbound protocol (XrayCfg.Tag xrayInbound) Listen
            (XrayCfg.Port xrayInbound) settings.1.1 settings.1.2 settings.2
            RawEmpty stream.1 stream.2 sniffing.1 sniffing.2 RawEmpty).

(** One outbound of the Xray list: [None] when the loop skips it; a nil map
    (a [null] element) is kept as it is. *)
Definition convert_outbound (outboundMap : option (gmap string any))
    : option (option (gmap string any)) :=
  match outboundMap with
  | None => Some None
  | Some m =>
      let protocol := str_field m "protocol" in
      if match protocol with
         | Some p => String.eqb p "tun" || String.eqb p "tunnel"
         | None => false
         end
      then None
      else
        let m :=
          match protocol with
          | Some p =>
              if String.eqb p "freedom" then
                let m := <["protocol" := Str "direct"]> m in
                match map_field m "settings" with
                | Some settings =>
                    <["settings" :=
                        Map (delete "noises"
                               (delete "redirect"
                                  (delete "domainStrategy" settings)))]> m
                | None => m
                end
              else if String.eqb p "blackhole" then
                <["settings" := Map ∅]> (<["protocol" := Str "block"]> m)
              else m
          | None => m
          end in
        let m :=
          match str_field m "protocol" with
          | Some protocol => delete "protocol" (<["type" := Str protocol]> m)
          | None => m
          end in
        let m :=
          match map_field m "settings" with
          | Some settings =>
              match str_field settings "domainStrategy" with
              | Some domainStrategy =>
                  <["settings" := Map (delete "domainStrategy" settings)]>
                    (<["domain_strategy" := Str domainStrategy]> m)
              | None => m
              end
          | None => m
          end in
        Some (Some m)
  end.

(** The outbound section. *)
Definition convert_outbounds (OutboundConfigs : RawMessage) : RawMessage :=
  if nonempty OutboundConfigs then
    match UnmarshalMaps OutboundConfigs with
    | Some outboundArray =>
        Marshal (of_maps (omap convert_outbound (elements outboundArray)))
    | None => RawEmpty
    end
  else RawEmpty.

(** The [geoip:]-prefixed strings of an [ip] list, without the prefix. *)
Definition geoip_values (ip : list any) : list string :=
  omap (fun ipItem =>
          match ipItem with
          | Str ipStr => if HasPrefix ipStr "geoip:"
                         then Some (TrimPrefix ipStr "geoip:") else None
          | _ => None
          end) ip.

(** The other strings of an [ip] list. *)
Definition regular_ips (ip : list any) : list any :=
  omap (fun ipItem =>
          match ipItem with
          | Str ipStr => if HasPrefix ipStr "geoip:"
                         then None else Some (Str ipStr)
          | _ => None
          end) ip.

(** The renaming steps on a rule object, before its [ip] field is looked at. *)
Definition rename_rule_fields (ruleMap : gmap string any) : gmap string any :=
  let ruleMap := delete "type" ruleMap in
  let ruleMap :=
    match str_field ruleMap "outboundTag" with
    | Some outboundTag =>
        delete "outboundTag" (<["outbound" := Str outboundTag]> ruleMap)
    | None => ruleMap
    end in
  match slice_field ruleMap "inboundTag" with
  | Some inboundTag =>
      delete "inboundTag" (<["inbound" := Slice inboundTag]> ruleMap)
  | None => ruleMap
  end.

(** The [ip] step on a rule object: the rewritten object and whether the
    loop goes on with this rule ([false] is the [continue] that drops it). *)
Definition convert_rule_ip (hasGeoipConfig : bool) (ruleMap : gmap string any)
    : gmap string any * bool :=
  match slice_field ruleMap "ip" with
  | Some ip =>
      let geoipList := geoip_values ip in
      let regularIPs := regular_ips ip in
      if (0 <? length geoipList)%nat && negb hasGeoipConfig
      then (ruleMap, false)
      else
        let ruleMap :=
          if (0 <? length geoipList)%nat
          then delete "ip" (<["geoip" := Strings geoipList]> ruleMap)
          else ruleMap in
        let ruleMap :=
          if (0 <? length regularIPs)%nat
          then <["ip" := Slice regularIPs]> ruleMap
          else if (length geoipList =? 0)%nat then delete "ip" ruleMap
               else ruleMap in
        (ruleMap, true)
  | None => (ruleMap, true)
  end.

(** The last check of the loop: a rule that carries a [geoip] field of its
    own is dropped when no geoip database is configured. *)
Definition keeps_geoip_field (hasGeoipConfig : bool)
    (ruleMap : gmap string any) : bool :=
  match ruleMap !! "geoip" with
  | Some (Slice geoip) =>
      if (0 <? length geoip)%nat then hasGeoipConfig else true
  | Some (Str geoipStr) =>
      if negb (String.eqb geoipStr "") then hasGeoipConfig else true
  | _ => true
  end.

(** One turn of the loop over the rules: the rule as the loop leaves it (a
    rule object is rewritten in place, also when it is dropped) and whether
    it is appended to [filteredRules]. *)
Definition convert_rule (hasGeoipConfig : bool) (rule : any) : any * bool :=
  match rule with
  | Map ruleMap =>
      let '(ruleMap, goes_on) :=
        convert_rule_ip hasGeoipConfig (rename_rule_fields ruleMap) in
      if goes_on then (Map ruleMap, keeps_geoip_field hasGeoipConfig ruleMap)
      else (Map ruleMap, false)
  | _ => (rule, true)
  end.

(** [filteredRules]. *)
Definition filter_rules (hasGeoipConfig : bool) (rules : list any) : list any :=
  omap (fun rule => let '(r, kept) := convert_rule hasGeoipConfig rule in
                    if kept then Some r else None) rules.

(** Whether a geoip database object is configured in the route. *)
Definition hasGeoipConfig (route : gmap string any) : bool :=
  match map_field route "geoip" with Some _ => true | None => false end.

(** The route object after the rewriting. *)
Definition convert_route_map (route : gmap string any) : gmap string any :=
  let route := delete "domainStrategy" route in
  let route := delete "domain_strategy" route in
  let hasGeoipConfig := hasGeoipConfig route in
  match slice_field route "rules" with
  | Some rules =>
      let filteredRules := filter_rules hasGeoipConfig rules in
      if negb (length filteredRules =? length rules)%nat
      then <["rules" := Slice filteredRules]> route
      else
        (* no rule was dropped: [route["rules"]] is still the slice the
           rule objects were rewritten in *)
        <["rules" := Slice (map (fun rule => (convert_rule hasGeoipConfig rule).1)
                              rules)]> route
  | None => route
  end.

(** The route section. *)
Definition convert_route (RouterConfig : RawMessage) : RawMessage :=
  if nonempty RouterConfig then
    match UnmarshalMap RouterConfig with
    | Some (Some route) => Marshal (Map (convert_route_map route))
    | Some None => Marshal Nil
    | None => RouterConfig
    end
  else RawEmpty.

(** [ConvertXrayToSingBox]; its error is always nil. *)
Definition ConvertXrayToSingBox (xrayConfig : XrayCfg.Config)
    : result SingBoxCfg.Config :=
  Ok (SingBoxCfg.mkConfig
        (convert_log (XrayCfg.LogConfig xrayConfig))
        (if nonempty (XrayCfg.DNSConfig xrayConfig)
         then XrayCfg.DNSConfig xrayConfig else RawEmpty)
        RawEmpty
        (omap convertXrayInboundToSingBox (XrayCfg.InboundConfigs xrayConfig))
        (convert_outbounds (XrayCfg.OutboundConfigs xrayConfig))
        (convert_route (XrayCfg.RouterConfig xrayConfig))
        RawEmpty).

(** ** sing-box to Xray *)

(** The log section: [None] leaves [LogConfig] unset. *)
Definition revert_log (Log : RawMessage) : RawMessage :=
  if nonempty Log then
    match UnmarshalMap Log with
    | Some sbLog =>
        let sbLog := fields sbLog in
        let xrayLog : gmap string any := ∅ in
        let xrayLog := match str_field sbLog "level" with
                       | Some level => <["loglevel" := Str level]> xrayLog
                       | None => xrayLog
                       end in
        let xrayLog := match str_field sbLog "output" with
                       | Some output => <["access" := Str output]> xrayLog
                       | None => xrayLog
                       end in
        let xrayLog := match str_field sbLog "error" with
                       | Some errorLog => <["error" := Str errorLog]> xrayLog
                       | None => xrayLog
                       end in
        Marshal (Map xrayLog)
    | None => RawEmpty
    end
  else RawEmpty.

(** One sing-box user of a vmess or vless inbound as an Xray client; a nil
    map (a [null] element) reads as the empty map. *)
Definition revert_user (user : option (gmap string any)) : gmap string any :=
  let user := fields user in
  let client : gmap string any := ∅ in
  let client := match str_field user "uuid" with
                | Some uuid => <["id" := Str uuid]> client
                | None => client
                end in
  let client :=
    match str_nonempty user "name" with
    | Some name => <["email" := Str name]> client
    | None =>
        match str_nonempty user "email" with
        | Some email => <["email" := Str email]> client
        | None => client
        end
    end in
  match str_field user "flow" with
  | Some flow => <["flow" := Str flow]> client
  | None => client
  end.

(** The [settings] object of the Xray inbound. *)
Definition revert_settings (sbInbound : SingBoxCfg.InboundConfig)
    : gmap string any :=
  let settings : gmap string any := ∅ in
  let type := SingBoxCfg.Type_ sbInbound in
  if String.eqb type "vmess" || String.eqb type "vless" then
    if nonempty (SingBoxCfg.Users sbInbound) then
      match UnmarshalMaps (SingBoxCfg.Users sbInbound) with
      | Some users =>
          <["clients" := Maps (revert_user <$> elements users)]> settings
      | None => settings
      end
    else settings
  else if String.eqb type "trojan" then
    if negb (String.eqb (SingBoxCfg.Password sbInbound) "")
    then <["clients" :=
             Maps [{["password" := Str (SingBoxCfg.Password sbInbound)]}]]>
           settings
    else settings
  else if String.eqb type "shadowsocks" then
    let settings :=
      if negb (String.eqb (SingBoxCfg.Method sbInbound) "")
      then <["method" := Str (SingBoxCfg.Method sbInbound)]> settings
      else settings in
    if negb (String.eqb (SingBoxCfg.Password sbInbound) "")
    then <["password" := Str (SingBoxCfg.Password sbInbound)]> settings
    else settings
  else settings.

(** The transport part of the stream settings. *)
Definition revert_transport (Transport : RawMessage)
    (stream : gmap string any) : gmap string any :=
  if nonempty Transport then
    match UnmarshalMap Transport with
    | Some transport =>
        let transport := fields transport in
        match str_field transport "type" with
        | Some networkType =>
            let stream := <["network" := Str networkType]> stream in
            if String.eqb networkType "ws" then
              let wsSettings : gmap string any := ∅ in
              let wsSettings :=
                match str_field transport "path" with
                | Some path => <["path" := Str path]> wsSettings
                | None => wsSettings
                end in
              let wsSettings :=
                match map_field transport "headers" with
                | Some headers => <["headers" := Map headers]> wsSettings
                | None => wsSettings
                end in
              <["wsSettings" := Map wsSettings]> stream
            else if String.eqb networkType "grpc" then
              let grpcSettings : gmap string any := ∅ in
              let grpcSettings :=
                match str_field transport "service_name" with
                | Some serviceName =>
                    <["serviceName" := Str serviceName]> grpcSettings
                | None => grpcSettings
                end in
              <["grpcSettings" := Map grpcSettings]> stream
            else stream
        | None => stream
        end
    | None => stream
    end
  else stream.

(** The [realitySettings] object from a TLS section with a [reality]
    object. *)
Definition revert_reality (tlsConfig reality : gmap string any)
    : gmap string any :=
  let realitySettings : gmap string any := ∅ in
  let realitySettings :=
    match str_field tlsConfig "server_name" with
    | Some serverName =>
        <["serverNames" := Strings [serverName]]>
          (<["dest" := Str serverName]> realitySettings)
    | None => realitySettings
    end in
  let realitySettings :=
    match str_field reality "private_key" with
    | Some privateKey => <["privateKey" := Str privateKey]> realitySettings
    | None => realitySettings
    end in
  match reality !! "short_id" with
  | Some (Slice shortIdArray) =>
      if (0 <? length shortIdArray)%nat then
        if (0 <? length (strings_of shortIdArray))%nat
        then <["shortIds" := Strings (strings_of shortIdArray)]> realitySettings
        else realitySettings
      else realitySettings
  | Some (Str shortId) => <["shortIds" := Strings [shortId]]> realitySettings
  | _ => realitySettings
  end.

(** The [tlsSettings] object from a TLS section without a [reality]
    object. *)
Definition revert_tls (tlsConfig : gmap string any) : gmap string any :=
  let tlsSettings : gmap string any := ∅ in
  let tlsSettings :=
    match str_field tlsConfig "certificate_path" with
    | Some certPath => <["certificateFile" := Str certPath]> tlsSettings
    | None => tlsSettings
    end in
  let tlsSettings :=
    match str_field tlsConfig "key_path" with
    | Some keyPath => <["keyFile" := Str keyPath]> tlsSettings
    | None => tlsSettings
    end in
  let tlsSettings :=
    match str_field tlsConfig "server_name" with
    | Some serverName => <["serverName" := Str serverName]> tlsSettings
    | None => tlsSettings
    end in
  match slice_field tlsConfig "alpn" with
  | Some alpn => <["alpn" := Slice alpn]> tlsSettings
  | None => tlsSettings
  end.

(** The security part of the stream settings. *)
Definition revert_security (TLS : RawMessage) (stream : gmap string any)
    : gmap string any :=
  if nonempty TLS then
    match UnmarshalMap TLS with
    | Some tlsConfig =>
        let tlsConfig := fields tlsConfig in
        match map_field tlsConfig "reality" with
        | Some reality =>
            <["realitySettings" := Map (revert_reality tlsConfig reality)]>
              (<["security" := Str "reality"]> stream)
        | None =>
            <["tlsSettings" := Map (revert_tls tlsConfig)]>
              (<["security" := Str "tls"]> stream)
        end
    | None => stream
    end
  else stream.

(** [convertSingBoxInboundToXray]. *)
Definition convertSingBoxInboundToXray (sbInbound : SingBoxCfg.InboundConfig)
    : XrayCfg.InboundConfig :=
  let Listen :=
    if nonempty (SingBoxCfg.Listen sbInbound) then SingBoxCfg.Listen sbInbound
    else RawEmpty in
  let Settings := Marshal (Map (revert_settings sbInbound)) in
  let stream : gmap string any :=
    revert_security (SingBoxCfg.TLS sbInbound)
      (revert_transport (SingBoxCfg.Transport sbInbound) ∅) in
  let StreamSettings :=
    if (0 <? size stream)%nat then Marshal (Map stream) else RawEmpty in
  let Sniffing :=
    if SingBoxCfg.Sniff sbInbound then
      let sniffing : gmap string any := {["enabled" := Bool true]} in
      let sniffing :=
        if SingBoxCfg.SniffOverrideDestination sbInbound
        then <["destOverride" := Strings ["http"; "tls"]]> sniffing
        else sniffing in
      Marshal (Map sniffing)
    else RawEmpty in
  XrayCfg.mkInbound Listen (SingBoxCfg.ListenPort sbInbound)
    (SingBoxCfg.Type_ sbInbound) Settings StreamSettings
    (SingBoxCfg.Tag sbInbound) Sniffing.

(** One outbound of the sing-box list; a nil map is left as it is. *)
Definition revert_outbound (outboundMap : option (gmap string any))
    : option (gmap string any) :=
  match outboundMap with
  | None => None
  | Some m =>
      let m :=
        match str_field m "domain_strategy" with
        | Some domainStrategy =>
            let settings := default ∅ (map_field m "settings") in
            delete "domain_strategy"
              (<["settings" :=
                   Map (<["domainStrategy" := Str domainStrategy]> settings)]> m)
        | None => m
        end in
      match str_field m "type" with
      | Some obType => Some (delete "type" (<["protocol" := Str obType]> m))
      | None => Some m
      end
  end.

(** The outbound section; the nil slice left by [null] is marshalled back
    to [null]. *)
Definition revert_outbounds (Outbounds : RawMessage) : RawMessage :=
  if nonempty Outbounds then
    match UnmarshalMaps Outbounds with
    | Some (Some outboundArray) =>
        Marshal (of_maps (revert_outbound <$> outboundArray))
    | Some None => Marshal Nil
    | None => Outbounds
    end
  else RawEmpty.

(** [ConvertSingBoxToXray]; its error is always nil. *)
Definition ConvertSingBoxToXray (singboxConfig : SingBoxCfg.Config)
    : result XrayCfg.Config :=
  Ok (XrayCfg.mkConfig
        (revert_log (SingBoxCfg.Log singboxConfig))
        (if nonempty (SingBoxCfg.Route singboxConfig)
         then SingBoxCfg.Route singboxConfig else RawEmpty)
        (SingBoxCfg.DNS singboxConfig)
        (convertSingBoxInboundToXray <$> SingBoxCfg.Inbounds singboxConfig)
        (revert_outbounds (SingBoxCfg.Outbounds singboxConfig))).

End Translate.

(** * The sing-box process supervisor *)

Module Supervisor.

(** What the supervisor reads of an [exec.Cmd]: the process once it has been
    started, and whether its exit status has been collected. *)
Record Cmd := mkCmd {
  Process : option positive;
  ProcessState : bool
}.

(** The [process] struct. [lastLine] is the last line of its log writer. *)
Record process := mkProcess {
  cmd : option Cmd;
  version : string;
  apiPort : Z;
  config : SingBoxCfg.Config;
  lastLine : string;
  exitErr : option string
}.

Definition set_cmd (p : process) (c : option Cmd) : process :=
  mkProcess c (version p) (apiPort p) (config p) (lastLine p) (exitErr p).
Definition set_exitErr (p : process) (e : option string) : process :=
  mkProcess (cmd p) (version p) (apiPort p) (config p) (lastLine p) e.
Definition set_version_port (p : process) (v : string) (port : Z) : process :=
  mkProcess (cmd p) v port (config p) (lastLine p) (exitErr p).

(** [newProcess]. *)
Definition newProcess (config : SingBoxCfg.Config) : process :=
  mkProcess None "Unknown" 0 config "" None.

(** [process.IsRunning]. *)
Definition IsRunning (p : process) : bool :=
  match cmd p with
  | None => false
  | Some c =>
      match Process c with
      | None => false
      | Some _ => negb (ProcessState c)
      end
  end.

(** What the supervisor does to the machine, in order. *)
Inductive Event :=
| MkdirLogFolder
| WriteConfigFile (path : string)
| CheckConfig (path : string)
| SpawnCore (path : string)
| QueryVersion
| SignalTerminate (pid : positive)
| SignalKill (pid : positive).

(** The answers of the machine to [Start]: the written config path or the
    error of the write, whether the binary exists, the error of the [check]
    subcommand if any, the pid of the launched process if it has started by
    the time [Start] returns, and the version and API port that
    [refreshVersion] and [refreshAPIPort] come up with. *)
Record StartAnswers := mkStartAnswers {
  written : result string;
  binaryExists : bool;
  checkError : option string;
  started : option positive;
  refreshedVersion : string;
  refreshedAPIPort : Z
}.

(** [process.Start]: the result, the process and the events.  The deferred
    function records a returned error in [exitErr]; it is registered after
    the running check. *)
Definition Start (a : StartAnswers) (p : process)
    : result unit * process * list Event :=
  if IsRunning p then (Err "sing-box is already running", p, [])
  else
    match written a with
    | Err e => (Err e, set_exitErr p (Some e), [MkdirLogFolder])
    | Ok configPath =>
        if negb (binaryExists a) then
          (Err "sing-box binary not found",
           set_exitErr p (Some "sing-box binary not found"),
           [MkdirLogFolder; WriteConfigFile configPath])
        else
          match checkError a with
          | Some errorOutput =>
              let e := "sing-box config validation failed: " +:+ errorOutput in
              (Err e, set_exitErr p (Some e),
               [MkdirLogFolder; WriteConfigFile configPath;
                CheckConfig configPath])
          | None =>
              let p := set_cmd p (Some (mkCmd (started a) false)) in
              (Ok tt,
               set_version_port p (refreshedVersion a) (refreshedAPIPort a),
               [MkdirLogFolder; WriteConfigFile configPath;
                CheckConfig configPath; SpawnCore configPath; QueryVersion])
          end
    end.

(** The answers of the machine to [Stop]: the error of the first signal if
    any, whether the process exits within the five seconds, the error of the
    kill if any, and whether the process exits within the second after the
    kill. *)
Record StopAnswers := mkStopAnswers {
  signalError : option string;
  exitsInTime : bool;
  killError : option string;
  exitsAfterKill : bool
}.

Definition exited (p : process) : process :=
  match cmd p with
  | Some c => set_cmd p (Some (mkCmd (Process c) true))
  | None => p
  end.

(** [process.Stop]. *)
Definition Stop (a : StopAnswers) (p : process)
    : result unit * process * list Event :=
  if negb (IsRunning p) then (Err "sing-box is not running", p, [])
  else
    match cmd p with
    | Some (mkCmd (Some pid) _) =>
        match signalError a with
        | Some e => (Err e, p, [SignalTerminate pid])
        | None =>
            if exitsInTime a then (Ok tt, exited p, [SignalTerminate pid])
            else
              match killError a with
              | Some e =>
                  (Err ("failed to kill sing-box process: " +:+ e), p,
                   [SignalTerminate pid; SignalKill pid])
              | None =>
                  if exitsAfterKill a
                  then (Ok tt, exited p, [SignalTerminate pid; SignalKill pid])
                  else (Err "sing-box process didn't exit after kill", p,
                        [SignalTerminate pid; SignalKill pid])
              end
        end
    | _ => (Err "sing-box is not running", p, [])
    end.

(** The package-level variables of the sing-box service: the process, the
    manually-stopped flag and the pool of API connections (by port, with
    whether each is connected).  The lock that serialises the operations is
    not modelled: an operation runs from start to end. *)
Record Service := mkService {
  singboxProcess : option process;
  isManuallyStoppedSB : bool;
  singboxAPIConnectionPool : gmap Z bool
}.

(** [SingBoxService.IsSingBoxRunning]. *)
Definition IsSingBoxRunning (s : Service) : bool :=
  match singboxProcess s with
  | Some p => IsRunning p
  | None => false
  end.

(** [SingBoxService.StopSingBox]. *)
Definition StopSingBox (a : StopAnswers) (s : Service)
    : result unit * Service * list Event :=
  let s := mkService (singboxProcess s) true (singboxAPIConnectionPool s) in
  if IsSingBoxRunning s then
    match singboxProcess s with
    | Some p =>
        let '(r, p', events) := Stop a p in
        (r, mkService (Some p') true ∅, events)
    | None => (Ok tt, s, [])
    end
  else (Ok tt, s, []).

(** [SingBoxCoreAdapter.Stop]. *)
Definition AdapterStop (a : StopAnswers) (s : Service)
    : result unit * Service * list Event :=
  StopSingBox a s.

End Supervisor.

(** * Settings, template self-healing and the core switch *)

Module Settings.
Import Json.

(** The settings table, and which of the coming database accesses are
    refused (an exhausted list refuses none).  A refused write writes
    nothing.  The cache in front of the table is taken to be coherent (every
    write of the code invalidates it): a read gives the stored row. *)
Record World := mkWorld {
  table : gmap string string;
  faults : list bool
}.

Definition db_access (w : World) : bool * World :=
  match faults w with
  | [] => (false, w)
  | refused :: rest => (refused, mkWorld (table w) rest)
  end.

(** [First] on the row of a key: an error, not found ([Ok None]), or the
    value. *)
Definition db_first (key : string) (w : World)
    : result (option string) * World :=
  let '(refused, w) := db_access w in
  if refused then (Err "database error", w) else (Ok (table w !! key), w).

(** [Create] or [Save] of the row of a key. *)
Definition db_write (key value : string) (w : World) : result unit * World :=
  let '(refused, w) := db_access w in
  if refused then (Err "database error", w)
  else (Ok tt, mkWorld (<[key := value]> (table w)) (faults w)).

(** [getSetting]. *)
Definition getSetting (key : string) (w : World)
    : result (option string) * World :=
  db_first key w.

(** [saveSetting].  After a successful save of [multiNodeMode] the code reads
    the row again to learn the old value; reading after the write it gets the
    new one, so its clean-up of duplicate inbounds never runs. *)
Definition saveSetting (key value : string) (w : World) : result unit * World :=
  let '(found, w) := getSetting key w in
  match found with
  | Err e => (Err e, w)
  | Ok _ =>
      let '(r, w) := db_write key value w in
      match r with
      | Err e => (Err e, w)
      | Ok _ =>
          if String.eqb key "multiNodeMode"
          then (Ok tt, (getSetting "multiNodeMode" w).2)
          else (Ok tt, w)
      end
  end.

(** [strconv.ParseBool]. *)
Definition ParseBool (str : string) : result bool :=
  if existsb (String.eqb str) ["1"; "t"; "T"; "TRUE"; "true"; "True"]
  then Ok true
  else if existsb (String.eqb str) ["0"; "f"; "F"; "FALSE"; "false"; "False"]
  then Ok false
  else Err "invalid syntax".

Section Panel.

(** The standard library and the embedded files the code relies on:
    [strings.TrimSpace]; whether [json.Unmarshal] accepts a text as an
    [xray.Config], as a [singbox.Config]; [json.Unmarshal] into a
    [map[string]interface{}] (an error, the nil map, or a map);
    [json.MarshalIndent] of the two configurations; and the two default
    templates. *)
Variable TrimSpace : string -> string.
Variable decodesXrayConfig : string -> bool.
Variable decodesSingBoxConfig : string -> bool.
Variable Unmarshal : string -> option (option (gmap string any)).
Variable MarshalIndentXray : XrayCfg.Config -> result string.
Variable MarshalIndentSingBox : SingBoxCfg.Config -> result string.
Variable defaultXrayTemplateConfig : string.
Variable defaultSingBoxTemplateConfig : string.

(** The clean-up passes that [EnsureSingBoxTemplateConfigValid] runs on a
    template that decodes (log fields, unsupported inbounds and outbounds,
    route rules): the re-marshalled template when a pass changed something
    and marshalling it succeeded.  They run after the three cases the
    self-healing is about, and are a parameter here. *)
Variable cleanedTemplate : option (gmap string any) -> option string.

(** [defaultValueMap], for the keys the functions below read. *)
Definition defaultValueMap : gmap string string :=
  <["xrayTemplateConfig" := defaultXrayTemplateConfig]>
    (<["singboxTemplateConfig" := defaultSingBoxTemplateConfig]>
       (<["multiNodeMode" := "false"]> {["coreType" := "xray"]})).

(** [getString]. *)
Definition getString (key : string) (w : World) : result string * World :=
  let '(found, w) := getSetting key w in
  match found with
  | Ok None =>
      match defaultValueMap !! key with
      | Some value => (Ok value, w)
      | None => (Err "key not in defaultValueMap", w)
      end
  | Err e => (Err e, w)
  | Ok (Some value) => (Ok value, w)
  end.

Definition setString (key value : string) (w : World) : result unit * World :=
  saveSetting key value w.

(** [getBool]. *)
Definition getBool (key : string) (w : World) : result bool * World :=
  let '(str, w) := getString key w in
  match str with
  | Err e => (Err e, w)
  | Ok str =>
      if String.eqb str "" then
        match defaultValueMap !! key with
        | Some defaultValue => (ParseBool defaultValue, w)
        | None => (Err "key not in defaultValueMap", w)
        end
      else (ParseBool str, w)
  end.

Definition GetMultiNodeMode (w : World) : result bool * World :=
  getBool "multiNodeMode" w.

Definition GetXrayConfigTemplate (w : World) : result string * World :=
  getString "xrayTemplateConfig" w.

Definition GetSingBoxConfigTemplate (w : World) : result string * World :=
  getString "singboxTemplateConfig" w.

(** [EnsureXrayTemplateConfigValid]. *)
Definition EnsureXrayTemplateConfigValid (w : World) : result unit * World :=
  let '(current, w) := db_first "xrayTemplateConfig" w in
  match current with
  | Ok None => saveSetting "xrayTemplateConfig" defaultXrayTemplateConfig w
  | Err e => (Err e, w)
  | Ok (Some current) =>
      let value := TrimSpace current in
      if String.eqb value "" || String.eqb value "{}" then
        saveSetting "xrayTemplateConfig" defaultXrayTemplateConfig w
      else if negb (decodesXrayConfig value) then
        saveSetting "xrayTemplateConfig" defaultXrayTemplateConfig w
      else (Ok tt, w)
  end.

(** [EnsureSingBoxTemplateConfigValid]. *)
Definition EnsureSingBoxTemplateConfigValid (w : World) : result unit * World :=
  let '(current, w) := db_first "singboxTemplateConfig" w in
  match current with
  | Ok None => saveSetting "singboxTemplateConfig" defaultSingBoxTemplateConfig w
  | Err e => (Err e, w)
  | Ok (Some current) =>
      let value := TrimSpace current in
      if String.eqb value "" || String.eqb value "{}" then
        saveSetting "singboxTemplateConfig" defaultSingBoxTemplateConfig w
      else
        match Unmarshal value with
        | None =>
            saveSetting "singboxTemplateConfig" defaultSingBoxTemplateConfig w
        | Some cfg =>
            match cleanedTemplate cfg with
            | Some cleanedJSON =>
                saveSetting "singboxTemplateConfig" cleanedJSON w
            | None => (Ok tt, w)
            end
        end
  end.

(** The start of [GetSingBoxConfig]: the template is validated (an error of
    the validation is only logged), read and decoded; the result is the
    template the rest of the build goes on from. *)
Definition GetSingBoxConfig_template (w : World)
    : result string * World :=
  let '(_, w) := EnsureSingBoxTemplateConfigValid w in
  let '(templateConfig, w) := GetSingBoxConfigTemplate w in
  match templateConfig with
  | Err e => (Err e, w)
  | Ok templateConfig =>
      if decodesSingBoxConfig templateConfig then (Ok templateConfig, w)
      else (Err "invalid sing-box template", w)
  end.

(** [SetCoreType]. *)
Definition SetCoreType (coreType : string) (w : World) : result unit * World :=
  if negb (String.eqb coreType "xray") && negb (String.eqb coreType "sing-box")
  then (Err "invalid core type", w)
  else setString "coreType" coreType w.

(** [GetCoreType]: the type and the error. *)
Definition GetCoreType (w : World) : string * result unit * World :=
  let '(coreType, w) := getString "coreType" w in
  match coreType with
  | Err e => ("xray", Err e, w)
  | Ok coreType =>
      if negb (String.eqb coreType "xray")
         && negb (String.eqb coreType "sing-box")
      then let '(r, w) := SetCoreType "xray" w in ("xray", r, w)
      else (coreType, Ok tt, w)
  end.

End Panel.
End Settings.

(** * The health-check job *)

Module HealthCheck.
Import Settings.

(** The adapter that [GetCoreService] returns. *)
Inductive CoreService :=
| XrayCoreAdapter
| SingBoxCoreAdapter.

(** What the Xray service answers the job: [IsXrayRunning] and
    [DidXrayCrash].  The service is not among the sources; the job only
    reads the two. *)
Record XrayAnswers := mkXrayAnswers {
  IsXrayRunning : bool;
  DidXrayCrash : bool
}.

(** [CheckXrayRunningJob]; [checkTime] is an [int], and a new job has it
    zero. *)
Record CheckXrayRunningJob := mkJob {
  checkTime : Z
}.

(** The increment of an [int] (64 bits, two's complement). *)
Definition incr (n : Z) : Z :=
  ((n + 1 + 2 ^ 63) mod 2 ^ 64 - 2 ^ 63)%Z.

Section Job.

Variable defaultXrayTemplateConfig : string.
Variable defaultSingBoxTemplateConfig : string.
Variable xray : XrayAnswers.

(** [GetCoreService]. *)
Definition GetCoreService (w : World) : result CoreService * World :=
  let '(coreType, err, w) :=
    GetCoreType defaultXrayTemplateConfig defaultSingBoxTemplateConfig w in
  match err with
  | Err e => (Err e, w)
  | Ok _ =>
      if String.eqb coreType "xray" then (Ok XrayCoreAdapter, w)
      else if String.eqb coreType "sing-box" then (Ok SingBoxCoreAdapter, w)
      else (Ok XrayCoreAdapter, w)
  end.

(** [CoreService.IsRunning] of the two adapters. *)
Definition IsRunning (coreService : CoreService) (s : Supervisor.Service)
    : bool :=
  match coreService with
  | XrayCoreAdapter => IsXrayRunning xray
  | SingBoxCoreAdapter => Supervisor.IsSingBoxRunning s
  end.

(** [CheckXrayRunningJob.Run], on the sing-box service and the settings: the
    job and the settings after the run, and the adapter whose
    [Restart(false)] the run called, if it called one.  The result of the
    restart is only logged. *)
Definition Run (s : Supervisor.Service) (w : World) (j : CheckXrayRunningJob)
    : CheckXrayRunningJob * World * option CoreService :=
  let '(multiMode, w) :=
    GetMultiNodeMode defaultXrayTemplateConfig defaultSingBoxTemplateConfig w in
  match multiMode with
  | Ok true => (j, w, None)
  | _ =>
      let '(coreService, w) := GetCoreService w in
      match coreService with
      | Err _ => (j, w, None)
      | Ok coreService =>
          if IsRunning coreService s then (mkJob 0, w, None)
          else
            let xrayNotCrashed :=
              match coreService with
              | XrayCoreAdapter => negb (DidXrayCrash xray)
              | SingBoxCoreAdapter => false
              end in
            if xrayNotCrashed then (mkJob 0, w, None)
            else
              let checkTime := incr (checkTime j) in
              if (1 <? checkTime)%Z then (mkJob 0, w, Some coreService)
              else (mkJob checkTime, w, None)
      end
  end.

End Job.
End HealthCheck.

(** * The core-switch orchestrator *)

Module Switch.
Import Json.

(** The panel as the switch sees it: the settings, and which core process is
    running. *)
Record Panel := mkPanel {
  settings : Settings.World;
  xrayRunning : bool;
  singboxRunning : bool
}.

(** The answers of the collaborators of one switch: what the rest of each
    config build gives once the template has been read, whether a stop
    brings each process down, the result of the last phase of the forced
    restart (the start of the new process or, in multi-node mode, the sending
    of the configurations to the nodes), and, in multi-node mode, whether the
    nodes and the inbounds can be read. *)
Record Answers := mkAnswers {
  xrayBuilt : result XrayCfg.Config;
  singboxBuilt : result SingBoxCfg.Config;
  xrayStops : bool;
  singboxStops : bool;
  restarted : result unit;
  nodesRead : result unit
}.

(** A step on the panel that may fail; a failed step ends the switch. *)
Definition step (A : Type) : Type := Panel -> result A * Panel.

Definition bind {A B} (m : step A) (k : A -> step B) : step B :=
  fun p => let '(r, p') := m p in
           match r with
           | Ok a => k a p'
           | Err e => (Err e, p')
           end.

Definition ret {A} (a : A) : step A := fun p => (Ok a, p).
Definition fail {A} (e : string) : step A := fun p => (Err e, p).

Notation "'let!' x ':=' m 'in' k" := (bind m (fun x => k))
  (at level 10, x name, m at level 100, k at level 200).

(** A settings operation as a step. *)
Definition on_settings {A} (f : Settings.World -> result A * Settings.World)
    : step A :=
  fun p => let '(r, w) := f (settings p) in
           (r, mkPanel w (xrayRunning p) (singboxRunning p)).

Inductive CoreConfig :=
| XrayConfig (c : XrayCfg.Config)
| SingBoxConfig (c : SingBoxCfg.Config).

Section Orchestrator.

Variable TrimSpace : string -> string.
Variable decodesXrayConfig : string -> bool.
Variable decodesSingBoxConfig : string -> bool.
Variable Unmarshal : string -> option (option (gmap string any)).
Variable MarshalIndentXray : XrayCfg.Config -> result string.
Variable MarshalIndentSingBox : SingBoxCfg.Config -> result string.
Variable defaultXrayTemplateConfig : string.
Variable defaultSingBoxTemplateConfig : string.
Variable cleanedTemplate : option (gmap string any) -> option string.
Variable answers : Answers.

Definition getString :=
  Settings.getString defaultXrayTemplateConfig defaultSingBoxTemplateConfig.

(** [GetCoreType] as a step: the type, also when the error is set. *)
Definition GetCoreType : Panel -> string * result unit * Panel :=
  fun p =>
    let '(coreType, r, w) :=
      Settings.GetCoreType defaultXrayTemplateConfig
        defaultSingBoxTemplateConfig (settings p) in
    (coreType, r, mkPanel w (xrayRunning p) (singboxRunning p)).

Definition SetCoreType (coreType : string) : step unit :=
  on_settings (Settings.SetCoreType coreType).

(** [SingBoxService.GetSingBoxConfig]: the template phase, then the rest of
    the build. *)
Definition GetSingBoxConfig : step SingBoxCfg.Config :=
  let! _ := on_settings
              (Settings.GetSingBoxConfig_template TrimSpace decodesSingBoxConfig
                 Unmarshal defaultXrayTemplateConfig
                 defaultSingBoxTemplateConfig cleanedTemplate) in
  fun p => (singboxBuilt answers, p).

(** Modelled from the spec: [XrayService.GetXrayConfig], which is not among
    the sources.  By the Config Builder contract it validates the stored
    template first (replacing an empty, placeholder or invalid one), reads
    it, and builds from it. *)
Definition GetXrayConfig : step XrayCfg.Config :=
  fun p =>
    let '(_, w) :=
      Settings.EnsureXrayTemplateConfigValid TrimSpace decodesXrayConfig
        defaultXrayTemplateConfig (settings p) in
    let '(templateConfig, w) :=
      Settings.GetXrayConfigTemplate defaultXrayTemplateConfig
        defaultSingBoxTemplateConfig w in
    let p := mkPanel w (xrayRunning p) (singboxRunning p) in
    match templateConfig with
    | Err e => (Err e, p)
    | Ok templateConfig =>
        if decodesXrayConfig templateConfig then (xrayBuilt answers, p)
        else (Err "invalid xray template", p)
    end.

(** [StopXray] and [StopSingBox], as far as the running flags go: a stop
    that works brings the process down; its error is only logged. *)
Definition StopXray (p : Panel) : Panel :=
  if xrayStops answers then mkPanel (settings p) false (singboxRunning p)
  else p.
Definition StopSingBox (p : Panel) : Panel :=
  if singboxStops answers then mkPanel (settings p) (xrayRunning p) false
  else p.

(** The adapter [GetCoreService] selects: its [IsRunning] and [Stop]. *)
Definition adapter_IsRunning (coreType : string) (p : Panel) : bool :=
  if String.eqb coreType "sing-box" then singboxRunning p else xrayRunning p.
Definition adapter_Stop (coreType : string) (p : Panel) : Panel :=
  if String.eqb coreType "sing-box" then StopSingBox p else StopXray p.

(** The stops before the conversion; nothing here ends the switch.  The
    three-second wait that follows only polls the two processes. *)
Definition stop_cores (newType : string) (p : Panel) : Panel :=
  let '(coreType, err, p) := GetCoreType p in
  let p :=
    match err with
    | Ok _ => if adapter_IsRunning coreType p then adapter_Stop coreType p
              else p
    | Err _ => p
    end in
  if String.eqb newType "sing-box" then
    if xrayRunning p then StopXray p else p
  else if String.eqb newType "xray" then
    if singboxRunning p then StopSingBox p else p
  else p.

(** The log section of the translated sing-box config, before it is saved. *)
Definition clean_log (c : SingBoxCfg.Config) : SingBoxCfg.Config :=
  if nonempty (SingBoxCfg.Log c) then
    match UnmarshalMap (SingBoxCfg.Log c) with
    | Some (Some logSection) =>
        match logSection !! "error" with
        | Some _ =>
            let logSection := delete "error" logSection in
            let logSection :=
              match logSection !! "output" with
              | Some _ => logSection
              | None => <["output" := Str "sing-box.log"]> logSection
              end in
            SingBoxCfg.mkConfig (Marshal (Map logSection)) (SingBoxCfg.DNS c)
              (SingBoxCfg.NTP c) (SingBoxCfg.Inbounds c)
              (SingBoxCfg.Outbounds c) (SingBoxCfg.Route c)
              (SingBoxCfg.Experimental c)
        | None => c
        end
    | _ => c
    end
  else c.

(** Modelled from the spec: [XrayService.RestartXray], which is not among
    the sources.  By the data flow of the specification a restart builds the
    configuration afresh with the Config Builder ([GetXrayConfig], which
    validates the stored template first) and hands it to the supervisor; the
    process runs afterwards when the start succeeded. *)
Definition RestartXray : step unit :=
  let! _ := GetXrayConfig in
  fun p => (restarted answers,
            mkPanel (settings p) (negb (is_err (restarted answers)))
              (singboxRunning p)).

(** [restartSingBoxMultiMode]: the nodes and the inbounds are read, the
    template is validated, read and decoded, and the configurations are sent
    to the nodes; the local process is left alone. *)
Definition restartSingBoxMultiMode : step unit :=
  let! _ := (fun p => (nodesRead answers, p)) in
  let! _ := on_settings
              (Settings.GetSingBoxConfig_template TrimSpace decodesSingBoxConfig
                 Unmarshal defaultXrayTemplateConfig
                 defaultSingBoxTemplateConfig cleanedTemplate) in
  fun p => (restarted answers, p).

(** [RestartSingBox(true)], on the settings and the running flags.  An error
    of [GetMultiNodeMode] reads as single mode.  In single mode the
    configuration is built ([GetSingBoxConfig] validates the stored template
    and may save it again), a running process is stopped, and a new one is
    made and started: sing-box runs afterwards when the start succeeded. *)
Definition RestartSingBox : step unit :=
  fun p =>
    let '(multiMode, w) :=
      Settings.GetMultiNodeMode defaultXrayTemplateConfig
        defaultSingBoxTemplateConfig (settings p) in
    let p := mkPanel w (xrayRunning p) (singboxRunning p) in
    match multiMode with
    | Ok true => restartSingBoxMultiMode p
    | _ =>
        (let! _ := GetSingBoxConfig in
         fun p => (restarted answers,
                   mkPanel (settings p) (xrayRunning p)
                     (negb (is_err (restarted answers))))) p
    end.

(** [Restart(true)] of the adapter that [GetCoreService] selects. *)
Definition Restart (coreType : string) : step unit :=
  if String.eqb coreType "sing-box" then RestartSingBox else RestartXray.

(** The phases of [SwitchCoreWithConversion], in the order of the source. *)

(** The configuration of the current core, straight from its service. *)
Definition read_current (oldType : string) : step CoreConfig :=
  if String.eqb oldType "xray" then
    let! c := GetXrayConfig in ret (XrayConfig c)
  else if String.eqb oldType "sing-box" then
    let! c := GetSingBoxConfig in ret (SingBoxConfig c)
  else fail "unknown old core type".

(** The conversion. *)
Definition convert (oldType newType : string) (currentConfig : CoreConfig)
    : step CoreConfig :=
  match currentConfig with
  | XrayConfig xrayConfig =>
      if String.eqb oldType "xray" && String.eqb newType "sing-box"
      then match Translate.ConvertXrayToSingBox xrayConfig with
           | Ok c => ret (SingBoxConfig c)
           | Err e => fail e
           end
      else fail "unsupported core type conversion"
  | SingBoxConfig singboxConfig =>
      if String.eqb oldType "sing-box" && String.eqb newType "xray"
      then match Translate.ConvertSingBoxToXray singboxConfig with
           | Ok c => ret (XrayConfig c)
           | Err e => fail e
           end
      else fail "unsupported core type conversion"
  end.

(** The translated configuration saved as the template of the new core. *)
Definition persist (newConfig : CoreConfig) : step unit :=
  match newConfig with
  | XrayConfig xrayConfig =>
      match MarshalIndentXray xrayConfig with
      | Err e => fail e
      | Ok configJSON =>
          on_settings (Settings.saveSetting "xrayTemplateConfig" configJSON)
      end
  | SingBoxConfig singboxConfig =>
      match MarshalIndentSingBox (clean_log singboxConfig) with
      | Err e => fail e
      | Ok configJSON =>
          on_settings (Settings.saveSetting "singboxTemplateConfig" configJSON)
      end
  end.

(** The flip of the active-core-type setting and the forced restart of the
    core it now selects. *)
Definition flip_and_restart (newType : string) : step unit :=
  let! _ := SetCoreType newType in
  fun p =>
    let '(coreType, err, p) := GetCoreType p in
    match err with
    | Err e => (Err e, p)
    | Ok _ => Restart coreType p
    end.

(** [SwitchCoreWithConversion]. *)
Definition SwitchCoreWithConversion (newType : string) : step unit :=
  fun p =>
    let '(oldType, err, p) := GetCoreType p in
    match err with
    | Err e => (Err e, p)
    | Ok _ =>
        if String.eqb oldType newType then (Ok tt, p)
        else
          (let! currentConfig := read_current oldType in
           let! _ := (fun p => (Ok tt, stop_cores newType p)) in
           let! newConfig := convert oldType newType currentConfig in
           let! _ := persist newConfig in
           flip_and_restart newType) p
    end.

End Orchestrator.
End Switch.

(** * Keeping the Xray config file in step with the running core *)

Module UserSync.
Import Json XrayCfg.

(** What a call comes to: it returns, with an error or without one, or it
    panics. *)
Inductive Outcome :=
| Returns (err : option string)
| Panics (reason : string).

(** What the body of the loop does with the inbound it stops at: it returns
    at once, or it stores new settings and writes the file, or it panics. *)
Inductive Step :=
| Return (err : option string)
| Store (updatedSettings : RawMessage)
| Panic (reason : string).

Definition set_Settings (inbound : InboundConfig) (settings : RawMessage)
    : InboundConfig :=
  mkInbound (Listen inbound) (Port inbound) (Protocol inbound) settings
    (StreamSettings inbound) (Tag inbound) (Sniffing inbound).

Definition set_InboundConfigs (config : Config) (inbounds : list InboundConfig)
    : Config :=
  mkConfig (LogConfig config) (RouterConfig config) (DNSConfig config) inbounds
    (OutboundConfigs config).

(** The first index [i] with [InboundConfigs[i].Tag == inboundTag], counted
    from [i]. *)
Fixpoint first_tagged (inboundTag : string) (inbounds : list InboundConfig)
    (i : nat) : option (nat * InboundConfig) :=
  match inbounds with
  | [] => None
  | inbound :: rest =>
      if String.eqb (Tag inbound) inboundTag then Some (i, inbound)
      else first_tagged inboundTag rest (S i)
  end.

(** [clientMap, ok := client.(map[string]interface{})] and then
    [clientEmail, ok := clientMap["email"].(string)]; [None] where the loops
    [continue]. *)
Definition client_email (client : any) : option string :=
  match client with
  | Map clientMap => str_field clientMap "email"
  | _ => None
  end.

Section Sync.

(** [strings.EqualFold], and [xray.WriteConfigFile], which is not among the
    sources: the path written to, or the error. *)
Variable EqualFold : string -> string -> bool.
Variable WriteConfigFile : Config -> result string.

(** One round of the loop that removes a user: the flag [found] and the
    slice [newClients]. *)
Definition remove_client (email : string) (acc : bool * list any)
    (client : any) : bool * list any :=
  let '(found, newClients) := acc in
  match client_email client with
  | None => (found, newClients)
  | Some clientEmail =>
      if EqualFold clientEmail email then (true, newClients)
      else (found, (newClients ++ [client])%list)
  end.

(** The body of the loop of [UpdateConfigFileAfterUserRemoval], up to the
    assignment of the new settings.  [json.Marshal] does not fail on these
    values. *)
Definition removal_step (inbound : InboundConfig) (email : string) : Step :=
  match UnmarshalMap (Settings inbound) with
  | None => Return (Some "failed to parse settings")
  | Some settings =>
      let remove (clients : list any) : Step :=
        let '(found, newClients) :=
          fold_left (remove_client email) clients (false, []) in
        if negb found then Return None
        else
          Store (Marshal (Map (<["clients" := Slice newClients]>
                                 (fields settings)))) in
      match slice_field (fields settings) "clients" with
      | Some clients => remove clients
      | None =>
          match fields settings !! "clients" with
          | Some clientsRaw =>
              match clientsRaw with
              | Slice clientsArray => remove clientsArray
              | _ => Return (Some "clients is not an array")
              end
          | None => Return None
          end
      end
  end.

(** Whether the loop that looks for the user returns early. *)
Definition already_there (userEmail : string) (clients : list any) : bool :=
  existsb (fun client =>
             match client_email client with
             | Some clientEmail => EqualFold clientEmail userEmail
             | None => false
             end) clients.

(** The body of the loop of [UpdateConfigFileAfterUserAddition].  The
    assignment [settings["clients"] = clients] panics when [settings] is the
    nil map that [null] leaves. *)
Definition addition_step (inbound : InboundConfig) (userEmail : string)
    (user : gmap string any) : Step :=
  match UnmarshalMap (Settings inbound) with
  | None => Return (Some "failed to parse settings")
  | Some settings =>
      let clients := default [] (slice_field (fields settings) "clients") in
      if already_there userEmail clients then Return None
      else
        let clients := (clients ++ [Map user])%list in
        match settings with
        | None => Panic "assignment to entry in nil map"
        | Some settings =>
            Store (Marshal (Map (<["clients" := Slice clients]> settings)))
        end
  end.

(** The end of both functions: the step is carried out on the config of the
    process, which is changed in place.  The result is the outcome, the
    config after the call, and the configs handed to [WriteConfigFile]. *)
Definition carry_out (processConfig : Config) (i : nat)
    (inbound : InboundConfig) (step : Step)
    : Outcome * Config * list Config :=
  match step with
  | Return err => (Returns err, processConfig, [])
  | Panic reason => (Panics reason, processConfig, [])
  | Store updatedSettings =>
      let processConfig :=
        set_InboundConfigs processConfig
          (<[i := set_Settings inbound updatedSettings]>
             (InboundConfigs processConfig)) in
      match WriteConfigFile processConfig with
      | Err e =>
          (Returns (Some ("failed to write config file: " +:+ e)),
           processConfig, [processConfig])
      | Ok _ => (Returns None, processConfig, [processConfig])
      end
  end.

(** [UpdateConfigFileAfterUserRemoval]; [None] is the nil config. *)
Definition UpdateConfigFileAfterUserRemoval (processConfig : option Config)
    (inboundTag email : string) : Outcome * option Config * list Config :=
  match processConfig with
  | None => (Returns (Some "process config is nil"), None, [])
  | Some processConfig =>
      match first_tagged inboundTag (InboundConfigs processConfig) 0 with
      | Some (i, inbound) =>
          let '(outcome, processConfig, written) :=
            carry_out processConfig i inbound (removal_step inbound email) in
          (outcome, Some processConfig, written)
      | None => (Returns None, Some processConfig, [])
      end
  end.

(** [UpdateConfigFileAfterUserAddition]. *)
Definition UpdateConfigFileAfterUserAddition (processConfig : option Config)
    (inboundTag : string) (user : gmap string any)
    : Outcome * option Config * list Config :=
  match processConfig with
  | None => (Returns (Some "process config is nil"), None, [])
  | Some processConfig =>
      match str_field user "email" with
      | None => (Returns (Some "user email not found"), Some processConfig, [])
      | Some userEmail =>
          match first_tagged inboundTag (InboundConfigs processConfig) 0 with
          | Some (i, inbound) =>
              let '(outcome, processConfig, written) :=
                carry_out processConfig i inbound
                  (addition_step inbound userEmail user) in
              (outcome, Some processConfig, written)
          | None => (Returns None, Some processConfig, [])
          end
      end
  end.

End Sync.
End UserSync.

(** * Comparing sing-box configurations *)

Module Compare.
Import Json SingBoxCfg.

Section Equality.

(** [bytes.Equal] on two raw messages.  It compares texts, which
    [RawMessage] does not hold, so it is left open here. *)
Variable bytes_Equal : RawMessage -> RawMessage -> bool.

(** [InboundConfig.Equals]. *)
Definition InboundEquals (c other : InboundConfig) : bool :=
  if negb (String.eqb (Type_ c) (Type_ other)) then false
  else if negb (String.eqb (Tag c) (Tag other)) then false
  else if negb (ListenPort c =? ListenPort other) then false
  else if negb (String.eqb (Method c) (Method other)) then false
  else if negb (String.eqb (Password c) (Password other)) then false
  else if negb (Bool.eqb (Sniff c) (Sniff other)) then false
  else if negb (Bool.eqb (SniffOverrideDestination c)
                  (SniffOverrideDestination other)) then false
  else if negb (bytes_Equal (Listen c) (Listen other)) then false
  else if negb (bytes_Equal (Users c) (Users other)) then false
  else if negb (bytes_Equal (Network c) (Network other)) then false
  else if negb (bytes_Equal (Transport c) (Transport other)) then false
  else if negb (bytes_Equal (TLS c) (TLS other)) then false
  else if negb (bytes_Equal (Settings c) (Settings other)) then false
  else true.

(** The loop of [Config.Equals] over the inbounds, which are as many on both
    sides. *)
Fixpoint inbounds_equal (inbounds others : list InboundConfig) : bool :=
  match inbounds, others with
  | inbound :: inbounds, other :: others =>
      if negb (InboundEquals inbound other) then false
      else inbounds_equal inbounds others
  | _, _ => true
  end.

(** [Config.Equals]. *)
Definition Equals (c other : Config) : bool :=
  if negb (length (Inbounds c) =? length (Inbounds other))%nat then false
  else if negb (inbounds_equal (Inbounds c) (Inbounds other)) then false
  else if negb (bytes_Equal (Log c) (Log other)) then false
  else if negb (bytes_Equal (DNS c) (DNS other)) then false
  else if negb (bytes_Equal (NTP c) (NTP other)) then false
  else if negb (bytes_Equal (Outbounds c) (Outbounds other)) then false
  else if negb (bytes_Equal (Route c) (Route other)) then false
  else if negb (bytes_Equal (Experimental c) (Experimental other)) then false
  else true.

End Equality.
End Compare.

(** * The sing-box manager of a node *)

Module Node.
Import Json.

(** [Manager]: the process and the config, either of which may be nil.  The
    lock is not modelled: an operation runs from start to end. *)
Record Manager := mkManager {
  process : option Supervisor.process;
  config : option SingBoxCfg.Config
}.

(** [m.process != nil && m.process.IsRunning()]. *)
Definition IsRunning (m : Manager) : bool :=
  match process m with
  | Some p => Supervisor.IsRunning p
  | None => false
  end.

Section Operations.

(** [bytes.Equal], and [json.Unmarshal] of the bytes of a config into a
    [singbox.Config]. *)
Variable bytes_Equal : RawMessage -> RawMessage -> bool.
Variable Unmarshal : string -> result SingBoxCfg.Config.

(** [singbox.NewProcess] followed by [Start], as three of the operations end.
    (The finalizer that [NewProcess] sets on the process is not modelled.) *)
Definition start_new (start : Supervisor.StartAnswers)
    (config : SingBoxCfg.Config) (events : list Supervisor.Event)
    : result unit * Manager * list Supervisor.Event :=
  let '(r, p, started) :=
    Supervisor.Start start (Supervisor.newProcess config) in
  (match r with
   | Ok _ => Ok tt
   | Err e => Err ("failed to start Sing-box: " +:+ e)
   end,
   mkManager (Some p) (Some config), (events ++ started)%list).

(** [Manager.ApplyConfig].  The config of a process is never nil; an error
    of the stop is only logged. *)
Definition ApplyConfig (stop : Supervisor.StopAnswers)
    (start : Supervisor.StartAnswers) (configJSON : string) (m : Manager)
    : result unit * Manager * list Supervisor.Event :=
  match Unmarshal configJSON with
  | Err e => (Err ("failed to parse config: " +:+ e), m, [])
  | Ok newConfig =>
      match process m with
      | Some p =>
          if Supervisor.IsRunning p then
            if Compare.Equals bytes_Equal (Supervisor.config p) newConfig
            then (Ok tt, m, [])
            else
              let '(_, _, stopped) := Supervisor.Stop stop p in
              start_new start newConfig stopped
          else start_new start newConfig []
      | None => start_new start newConfig []
      end
  end.

(** [Manager.Reload]. *)
Definition Reload (stop : Supervisor.StopAnswers)
    (start : Supervisor.StartAnswers) (m : Manager)
    : result unit * Manager * list Supervisor.Event :=
  match process m with
  | Some p =>
      if negb (Supervisor.IsRunning p) then (Err "Sing-box is not running", m, [])
      else
        match config m with
        | None => (Err "no config to reload", m, [])
        | Some config =>
            let '(r, p, stopped) := Supervisor.Stop stop p in
            match r with
            | Err e =>
                (Err ("failed to stop Sing-box: " +:+ e),
                 mkManager (Some p) (Some config), stopped)
            | Ok _ => start_new start config stopped
            end
        end
  | None => (Err "Sing-box is not running", m, [])
  end.

(** [Manager.ForceReload]. *)
Definition ForceReload (stop : Supervisor.StopAnswers)
    (start : Supervisor.StartAnswers) (m : Manager)
    : result unit * Manager * list Supervisor.Event :=
  match config m with
  | None => (Err "no config to reload", m, [])
  | Some config =>
      match process m with
      | Some p =>
          if Supervisor.IsRunning p then
            let '(_, _, stopped) := Supervisor.Stop stop p in
            start_new start config stopped
          else start_new start config []
      | None => start_new start config []
      end
  end.

(** [Manager.Stop]. *)
Definition Stop (stop : Supervisor.StopAnswers) (m : Manager)
    : result unit * Manager * list Supervisor.Event :=
  match process m with
  | None => (Ok tt, m, [])
  | Some p =>
      let '(r, p, stopped) := Supervisor.Stop stop p in
      match r with
      | Err e =>
          (Err ("failed to stop Sing-box: " +:+ e),
           mkManager (Some p) (config m), stopped)
      | Ok _ => (Ok tt, mkManager None (config m), stopped)
      end
  end.

End Operations.
End Node.

(** * The life of the two API clients *)

Module XrayClient.
Import Stats.Xray.

(** [XrayAPI.Init]; [dial] is the error of [grpc.NewClient], if any. *)
Definition Init (dial : option string) (apiPort : Z) (x : XrayAPI)
    : result unit * XrayAPI :=
  if (apiPort <=? 0) || (65535 <? apiPort)
  then (Err "invalid Xray API port", x)
  else
    match dial with
    | Some e => (Err ("failed to connect to Xray API: " +:+ e), x)
    | None => (Ok tt, mkXrayAPI true true true)
    end.

(** [XrayAPI.IsConnected]. *)
Definition IsConnected (x : XrayAPI) : bool :=
  isConnected x && grpcClient x.

(** [XrayAPI.Close]: the connection is closed, the pointer to it is kept. *)
Definition Close (x : XrayAPI) : XrayAPI :=
  mkXrayAPI (grpcClient x) false false.

End XrayClient.

Module SingBoxClient.
Import Stats.

(** [SingBoxAPI]: whether its HTTP client is set, and its flag. *)
Record SingBoxAPI := mkSingBoxAPI {
  httpClient : bool;
  isConnected : bool
}.

(** [SingBoxAPI.Init]; [ping] is the error of the request that [ping] sends,
    if any. *)
Definition Init (ping : option string) (apiPort : Z) (s : SingBoxAPI)
    : result unit * SingBoxAPI :=
  if (apiPort <=? 0) || (65535 <? apiPort)
  then (Err "invalid sing-box API port", s)
  else
    match ping with
    | Some e =>
        (Err ("failed to connect to sing-box API: " +:+ e),
         mkSingBoxAPI true false)
    | None => (Ok tt, mkSingBoxAPI true true)
    end.

(** [SingBoxAPI.IsConnected]. *)
Definition IsConnected (s : SingBoxAPI) : bool :=
  isConnected s && httpClient s.

(** [SingBoxAPI.Close]. *)
Definition Close (s : SingBoxAPI) : SingBoxAPI :=
  mkSingBoxAPI false false.

(** [SingBoxAPI.GetTraffic] of a client. *)
Definition GetTraffic (s : SingBoxAPI) (answer : SingBox.HttpAnswer)
    : result (list Traffic * list ClientTraffic) :=
  SingBox.GetTraffic (isConnected s) answer.

End SingBoxClient.

(** * The sing-box service of the panel *)

Module SingBoxService.
Import Json Stats Supervisor.

Definition set_pool (s : Service) (pool : gmap Z bool) : Service :=
  mkService (singboxProcess s) (isManuallyStoppedSB s) pool.

(** [SingBoxService.GetOrCreateAPI]: the error if any, and the service with
    its pool.  The pool holds, by port, whether [IsConnected] holds of the
    client; the client that is returned is a connected one. *)
Definition GetOrCreateAPI (ping : option string) (apiPort : Z) (s : Service)
    : result unit * Service :=
  if apiPort <=? 0 then (Err "invalid API port", s)
  else
    match singboxAPIConnectionPool s !! apiPort with
    | Some true => (Ok tt, s)
    | found =>
        let s :=
          match found with
          | Some _ => set_pool s (delete apiPort (singboxAPIConnectionPool s))
          | None => s
          end in
        match singboxAPIConnectionPool s !! apiPort with
        | Some true => (Ok tt, s)
        | _ =>
            match SingBoxClient.Init ping apiPort
                    (SingBoxClient.mkSingBoxAPI false false) with
            | (Err e, _) => (Err ("failed to init SingBoxAPI: " +:+ e), s)
            | (Ok _, api) =>
                (Ok tt,
                 set_pool s (<[apiPort := SingBoxClient.IsConnected api]>
                               (singboxAPIConnectionPool s)))
            end
        end
    end.

(** [SingBoxService.CloseAPIConnections]. *)
Definition CloseAPIConnections (s : Service) : Service := set_pool s ∅.

(** [SingBoxService.GetSingBoxTraffic]; [answer] is the answer of the core
    to the request for the stats. *)
Definition GetSingBoxTraffic (ping : option string)
    (answer : SingBox.HttpAnswer) (s : Service)
    : result (list Traffic * list ClientTraffic) * Service :=
  match singboxProcess s with
  | Some p =>
      if negb (IsRunning p) then (Err "sing-box is not running", s)
      else
        let '(r, s) := GetOrCreateAPI ping (apiPort p) s in
        match r with
        | Err e => (Err e, s)
        | Ok _ =>
            (SingBoxClient.GetTraffic (SingBoxClient.mkSingBoxAPI true true)
               answer, s)
        end
  | None => (Err "sing-box is not running", s)
  end.

(** [process.GetResult]. *)
Definition GetResult (p : process) : string :=
  match exitErr p with
  | Some e => if String.eqb (lastLine p) "" then e else lastLine p
  | None => lastLine p
  end.

(** The other package-level variables of the service that the functions
    below use. *)
Record Package := mkPackage {
  service : Service;
  isNeedSingBoxRestart : bool;
  singboxResult : string
}.

(** [SingBoxService.GetSingBoxResult]; [GOOS] is [runtime.GOOS]. *)
Definition GetSingBoxResult (GOOS : string) (pk : Package)
    : string * Package :=
  if negb (String.eqb (singboxResult pk) "") then (singboxResult pk, pk)
  else if IsSingBoxRunning (service pk) then ("", pk)
  else
    match singboxProcess (service pk) with
    | None => ("", pk)
    | Some p =>
        let pk := mkPackage (service pk) (isNeedSingBoxRestart pk)
                    (GetResult p) in
        if String.eqb GOOS "windows"
           && String.eqb (singboxResult pk) "exit status 1"
        then ("", pk)
        else (singboxResult pk, pk)
    end.

(** What the collaborators of a restart answer: the settings service its
    multi-node mode, the restart in multi-node mode its result, the build of
    the config its result, and the machine the stop and the start. *)
Record RestartAnswers := mkRestartAnswers {
  multiMode : result bool;
  multiModeRestart : result unit;
  built : result SingBoxCfg.Config;
  stop : StopAnswers;
  start : StartAnswers
}.

Section Restart.

Variable bytes_Equal : RawMessage -> RawMessage -> bool.

(** [SingBoxService.RestartSingBox]; the result of the stop is dropped. *)
Definition RestartSingBox (a : RestartAnswers) (isForce : bool) (pk : Package)
    : result unit * Package * list Event :=
  let s :=
    mkService (singboxProcess (service pk)) false
      (singboxAPIConnectionPool (service pk)) in
  let pk := mkPackage s (isNeedSingBoxRestart pk) (singboxResult pk) in
  if match multiMode a with Ok multiMode => multiMode | Err _ => false end
  then (multiModeRestart a, pk, [])
  else
    match built a with
    | Err e => (Err e, pk, [])
    | Ok singboxConfig =>
        let start_new (s : Service) (events : list Event) :=
          let '(r, p, started) :=
            Start (start a) (newProcess singboxConfig) in
          (r,
           mkPackage (mkService (Some p) false (singboxAPIConnectionPool s))
             (isNeedSingBoxRestart pk) "",
           (events ++ started)%list) in
        match singboxProcess s with
        | Some p =>
            if IsRunning p then
              if negb isForce
                 && Compare.Equals bytes_Equal (config p) singboxConfig
                 && negb (isNeedSingBoxRestart pk)
              then (Ok tt, pk, [])
              else
                let s := CloseAPIConnections s in
                let '(_, _, stopped) := Stop (stop a) p in
                start_new s stopped
            else start_new s []
        | None => start_new s []
        end
    end.

End Restart.
End SingBoxService.

(** * The clean-up passes of the sing-box template *)

Module Template.
Import Json.

(** The passes of [EnsureSingBoxTemplateConfigValid] on a template that
    decodes.  Each works on the decoded object in place and sets
    [needsUpdate] when it changes something; here each returns what it
    leaves and the flag. *)

(** The log section. *)
Definition clean_log (logSection : gmap string any) (needsUpdate : bool)
    : gmap string any * bool :=
  let '(logSection, needsUpdate) :=
    match logSection !! "error" with
    | Some _ => (delete "error" logSection, true)
    | None => (logSection, needsUpdate)
    end in
  let '(logSection, needsUpdate) :=
    match logSection !! "timestamp" with
    | None => (<["timestamp" := Bool true]> logSection, true)
    | Some _ => (logSection, needsUpdate)
    end in
  let '(logSection, needsUpdate) :=
    match logSection !! "level" with
    | None => (<["level" := Str "warn"]> logSection, true)
    | Some _ => (logSection, needsUpdate)
    end in
  match logSection !! "output" with
  | None =>
      if needsUpdate
      then (<["output" := Str "sing-box.log"]> logSection, true)
      else (logSection, needsUpdate)
  | Some _ => (logSection, needsUpdate)
  end.

Definition validTransportTypes : list string :=
  ["ws"; "grpc"; "quic"; "http"; "httpupgrade"].

Definition valid_transport (transportType : string) : bool :=
  existsb (String.eqb transportType) validTransportTypes.

(** The transport of an inbound object. *)
Definition clean_transport (ibMap : gmap string any) (needsUpdate : bool)
    : gmap string any * bool :=
  match map_field ibMap "transport" with
  | None => (ibMap, needsUpdate)
  | Some transport =>
      let '(transport, needsUpdate) :=
        match transport !! "reality" with
        | Some _ => (delete "reality" transport, true)
        | None => (transport, needsUpdate)
        end in
      let '(transport, needsUpdate) :=
        match transport !! "tls" with
        | Some _ => (delete "tls" transport, true)
        | None => (transport, needsUpdate)
        end in
      let ibMap := <["transport" := Map transport]> ibMap in
      let hasType := bool_decide (is_Some (str_field transport "type")) in
      let transportType := default "" (str_field transport "type") in
      if negb hasType || String.eqb transportType ""
         || negb (valid_transport transportType)
      then
        if (size transport =? 0)%nat
           || (negb hasType && (size transport =? 0)%nat)
        then (delete "transport" ibMap, true)
        else if hasType && negb (valid_transport transportType)
        then (delete "transport" ibMap, true)
        else (ibMap, needsUpdate)
      else (ibMap, needsUpdate)
  end.

(** One user of an inbound of type [ibType]. *)
Definition clean_user (ibType : string) (user : any) (needsUpdate : bool)
    : any * bool :=
  match user with
  | Map userMap =>
      let '(userMap, needsUpdate) :=
        if String.eqb ibType "vless" then
          match str_nonempty userMap "email" with
          | Some email =>
              (delete "email" (<["name" := Str email]> userMap), true)
          | None => (userMap, needsUpdate)
          end
        else (userMap, needsUpdate) in
      let '(userMap, needsUpdate) :=
        if String.eqb ibType "vmess" then
          match userMap !! "email" with
          | Some _ => (delete "email" userMap, true)
          | None => (userMap, needsUpdate)
          end
        else (userMap, needsUpdate) in
      (Map userMap, needsUpdate)
  | _ => (user, needsUpdate)
  end.

(** The users of an inbound object. *)
Definition clean_users (ibType : string) (ibMap : gmap string any)
    (needsUpdate : bool) : gmap string any * bool :=
  match slice_field ibMap "users" with
  | Some users =>
      let '(users, needsUpdate) :=
        fold_left (fun '(users, needsUpdate) user =>
                     let '(user, needsUpdate) :=
                       clean_user ibType user needsUpdate in
                     ((users ++ [user])%list, needsUpdate))
          users ([], needsUpdate) in
      (<["users" := Slice users]> ibMap, needsUpdate)
  | None => (ibMap, needsUpdate)
  end.

(** The Reality object of the TLS object of an inbound. *)
Definition clean_reality (tls reality : gmap string any) (needsUpdate : bool)
    : gmap string any * gmap string any * bool :=
  let '(tls, reality, needsUpdate) :=
    match str_field reality "server_name" with
    | Some serverName =>
        (<["server_name" := Str serverName]> tls,
         delete "server_name" reality, true)
    | None => (tls, reality, needsUpdate)
    end in
  let '(tls, reality, needsUpdate) :=
    match slice_field reality "server_names" with
    | Some serverNames =>
        if (0 <? length serverNames)%nat then
          (match serverNames with
           | Str firstServerName :: _ =>
               <["server_name" := Str firstServerName]> tls
           | _ => tls
           end,
           delete "server_names" reality, true)
        else (tls, reality, needsUpdate)
    | None => (tls, reality, needsUpdate)
    end in
  let '(reality, needsUpdate) :=
    match str_field reality "short_id" with
    | Some shortId => (<["short_id" := Strings [shortId]]> reality, true)
    | None => (reality, needsUpdate)
    end in
  match reality !! "handshake" with
  | Some _ => (tls, reality, needsUpdate)
  | None =>
      match str_nonempty tls "server_name" with
      | Some serverName =>
          (tls,
           <["handshake" := Map {["server" := Str serverName]}]> reality,
           true)
      | None => (tls, reality, needsUpdate)
      end
  end.

(** The TLS object of an inbound object. *)
Definition clean_tls (ibMap : gmap string any) (needsUpdate : bool)
    : gmap string any * bool :=
  match map_field ibMap "tls" with
  | Some tls =>
      match map_field tls "reality" with
      | Some reality =>
          let '(tls, reality, needsUpdate) :=
            clean_reality tls reality needsUpdate in
          (<["tls" := Map (<["reality" := Map reality]> tls)]> ibMap,
           needsUpdate)
      | None => (ibMap, needsUpdate)
      end
  | None => (ibMap, needsUpdate)
  end.

(** One turn of the loop over the inbounds: [None] is the [continue] that
    drops the inbound. *)
Definition clean_inbound (ib : any) (needsUpdate : bool) : option any * bool :=
  match ib with
  | Map ibMap =>
      let ibType := default "" (str_field ibMap "type") in
      if String.eqb ibType "tunnel" || String.eqb ibType "wireguard"
      then (None, true)
      else
        let '(ibMap, needsUpdate) := clean_transport ibMap needsUpdate in
        let '(ibMap, needsUpdate) := clean_users ibType ibMap needsUpdate in
        let '(ibMap, needsUpdate) := clean_tls ibMap needsUpdate in
        (Some (Map ibMap), needsUpdate)
  | _ => (Some ib, needsUpdate)
  end.

(** One turn of the loop over the outbounds. *)
Definition clean_outbound (ob : any) (needsUpdate : bool) : option any * bool :=
  match ob with
  | Map obMap =>
      let obType := default "" (str_field obMap "type") in
      let obProtocol := default "" (str_field obMap "protocol") in
      let actualType := if String.eqb obType "" then obProtocol else obType in
      if String.eqb actualType "tun" || String.eqb actualType "tunnel"
      then (None, true)
      else
        let '(obMap, needsUpdate) :=
          if negb (String.eqb obProtocol "") && String.eqb obType "" then
            if String.eqb obProtocol "freedom" then
              let obMap := delete "protocol" (<["type" := Str "direct"]> obMap) in
              (match map_field obMap "settings" with
               | Some settings =>
                   <["settings" :=
                       Map (delete "noises"
                              (delete "redirect"
                                 (delete "domainStrategy" settings)))]> obMap
               | None => obMap
               end, true)
            else if String.eqb obProtocol "blackhole" then
              (<["settings" := Map ∅]>
                 (delete "protocol" (<["type" := Str "block"]> obMap)), true)
            else (obMap, needsUpdate)
          else (obMap, needsUpdate) in
        let '(obMap, needsUpdate) :=
          match map_field obMap "settings" with
          | Some settings =>
              match str_field settings "domainStrategy" with
              | Some domainStrategy =>
                  (<["settings" := Map (delete "domainStrategy" settings)]>
                     (<["domain_strategy" := Str domainStrategy]> obMap), true)
              | None => (obMap, needsUpdate)
              end
          | None => (obMap, needsUpdate)
          end in
        (Some (Map obMap), needsUpdate)
  | _ => (Some ob, needsUpdate)
  end.

(** A loop that filters a slice: the elements it appends and the flag. *)
Definition filter_loop (body : any -> bool -> option any * bool)
    (elements : list any) (needsUpdate : bool) : list any * bool :=
  fold_left (fun '(filtered, needsUpdate) element =>
               let '(kept, needsUpdate) := body element needsUpdate in
               (match kept with
                | Some element => (filtered ++ [element])%list
                | None => filtered
                end, needsUpdate))
    elements ([], needsUpdate).

(** One turn of the loop over the rules of the route: the rule object as the
    turn leaves it, whether it is appended, and the flag.  The lists of the
    [ip] field and the last check are those of the translator. *)
Definition clean_rule (hasGeoipConfig : bool) (rule : any) (needsUpdate : bool)
    : any * bool * bool :=
  match rule with
  | Map ruleMap =>
      let '(ruleMap, needsUpdate) :=
        match ruleMap !! "type" with
        | Some _ => (delete "type" ruleMap, true)
        | None => (ruleMap, needsUpdate)
        end in
      let '(ruleMap, needsUpdate) :=
        match str_field ruleMap "outboundTag" with
        | Some outboundTag =>
            (delete "outboundTag" (<["outbound" := Str outboundTag]> ruleMap),
             true)
        | None => (ruleMap, needsUpdate)
        end in
      let '(ruleMap, needsUpdate) :=
        match slice_field ruleMap "inboundTag" with
        | Some inboundTag =>
            (delete "inboundTag" (<["inbound" := Slice inboundTag]> ruleMap),
             true)
        | None => (ruleMap, needsUpdate)
        end in
      let '(ruleMap, goes_on, needsUpdate) :=
        match slice_field ruleMap "ip" with
        | Some ip =>
            let geoipList := Translate.geoip_values ip in
            let regularIPs := Translate.regular_ips ip in
            if (0 <? length geoipList)%nat && negb hasGeoipConfig
            then (ruleMap, false, true)
            else
              let '(ruleMap, needsUpdate) :=
                if (0 <? length geoipList)%nat
                then (delete "ip" (<["geoip" := Strings geoipList]> ruleMap),
                      true)
                else (ruleMap, needsUpdate) in
              let ruleMap :=
                if (0 <? length regularIPs)%nat
                then <["ip" := Slice regularIPs]> ruleMap
                else if (length geoipList =? 0)%nat then delete "ip" ruleMap
                     else ruleMap in
              (ruleMap, true, needsUpdate)
        | None => (ruleMap, true, needsUpdate)
        end in
      if goes_on then
        if Translate.keeps_geoip_field hasGeoipConfig ruleMap
        then (Map ruleMap, true, needsUpdate)
        else (Map ruleMap, false, true)
      else (Map ruleMap, false, needsUpdate)
  | _ => (rule, true, needsUpdate)
  end.

(** The loop over the rules: the rules as the loop leaves them, those that
    it appends, and the flag. *)
Definition clean_rules (hasGeoipConfig : bool) (rules : list any)
    (needsUpdate : bool) : list any * list any * bool :=
  fold_left (fun '(rewritten, filtered, needsUpdate) rule =>
               let '(rule, kept, needsUpdate) :=
                 clean_rule hasGeoipConfig rule needsUpdate in
               ((rewritten ++ [rule])%list,
                if kept then (filtered ++ [rule])%list else filtered,
                needsUpdate))
    rules ([], [], needsUpdate).

(** The route object. *)
Definition clean_route (route : gmap string any) (needsUpdate : bool)
    : gmap string any * bool :=
  let '(route, needsUpdate) :=
    match route !! "domainStrategy" with
    | Some _ => (delete "domainStrategy" route, true)
    | None => (route, needsUpdate)
    end in
  let '(route, needsUpdate) :=
    match route !! "domain_strategy" with
    | Some _ => (delete "domain_strategy" route, true)
    | None => (route, needsUpdate)
    end in
  let hasGeoipConfig := Translate.hasGeoipConfig route in
  match slice_field route "rules" with
  | Some rules =>
      let '(rewritten, filteredRules, needsUpdate) :=
        clean_rules hasGeoipConfig rules needsUpdate in
      if negb (length filteredRules =? length rules)%nat
      then (<["rules" := Slice filteredRules]> route, needsUpdate)
      else (<["rules" := Slice rewritten]> route, needsUpdate)
  | None => (route, needsUpdate)
  end.

(** The four passes, on the decoded template.  An object that a pass has
    changed in place is put back under its key; the filtered inbounds and
    outbounds are assigned when the flag is set, and with the flag unset
    nothing has changed in them. *)
Definition clean (cfg : gmap string any) : gmap string any * bool :=
  let needsUpdate := false in
  let '(cfg, needsUpdate) :=
    match map_field cfg "log" with
    | Some logSection =>
        let '(logSection, needsUpdate) := clean_log logSection needsUpdate in
        (<["log" := Map logSection]> cfg, needsUpdate)
    | None => (cfg, needsUpdate)
    end in
  let '(cfg, needsUpdate) :=
    match slice_field cfg "inbounds" with
    | Some inbounds =>
        let '(filteredInbounds, needsUpdate) :=
          filter_loop clean_inbound inbounds needsUpdate in
        if needsUpdate
        then (<["inbounds" := Slice filteredInbounds]> cfg, needsUpdate)
        else (cfg, needsUpdate)
    | None => (cfg, needsUpdate)
    end in
  let '(cfg, needsUpdate) :=
    match slice_field cfg "outbounds" with
    | Some outbounds =>
        let '(filteredOutbounds, needsUpdate) :=
          filter_loop clean_outbound outbounds needsUpdate in
        if needsUpdate
        then (<["outbounds" := Slice filteredOutbounds]> cfg, needsUpdate)
        else (cfg, needsUpdate)
    | None => (cfg, needsUpdate)
    end in
  match map_field cfg "route" with
  | Some route =>
      let '(route, needsUpdate) := clean_route route needsUpdate in
      (<["route" := Map route]> cfg, needsUpdate)
  | None => (cfg, needsUpdate)
  end.

(** The end of the function: the text that is saved, if any.
    [MarshalIndent] is [json.MarshalIndent] of the template. *)
Definition cleanedTemplate (MarshalIndent : gmap string any -> result string)
    (cfg : option (gmap string any)) : option string :=
  match cfg with
  | Some cfg =>
      let '(cfg, needsUpdate) := clean cfg in
      if needsUpdate then
        match MarshalIndent cfg with
        | Ok cleanedJSON => Some cleanedJSON
        | Err _ => None
        end
      else None
  | None => None
  end.

End Template.

(** * Properties *)

Section StringFacts.
Import Stats.

Lemma app_nil_s (s : string) : "" +:+ s = s.
Proof. reflexivity. Qed.

Lemma app_cons_s a (s t : string) : String a s +:+ t = String a (s +:+ t).
Proof. reflexivity. Qed.

Lemma app_assoc_s (a b c : string) : (a +:+ b) +:+ c = a +:+ (b +:+ c).
Proof.
  induction a as [|x a IH]; [done|].
  by rewrite !app_cons_s, IH.
Qed.

Lemma strip_prefix_nil s : strip_prefix "" s = Some s.
Proof. reflexivity. Qed.

Lemma strip_prefix_cons a p b s :
  strip_prefix (String a p) (String b s)
  = if Ascii.eqb a b then strip_prefix p s else None.
Proof. reflexivity. Qed.

Lemma strip_prefix_app p s : strip_prefix p (p +:+ s) = Some s.
Proof.
  induction p as [|a p IH]; [done|].
  by rewrite app_cons_s, strip_prefix_cons, Ascii.eqb_refl.
Qed.

Lemma no_gt_cons c s :
  no_gt (String c s) = true -> c <> ">"%char /\ no_gt s = true.
Proof.
  change (no_gt (String c s)) with (negb (Ascii.eqb c ">") && no_gt s).
  intros [H1 H2]%andb_true_iff. split; [|done].
  by apply negb_true_iff, Ascii.eqb_neq in H1.
Qed.

Lemma span_not_gt_cons c s :
  Xray.span_not_gt (String c s)
  = if Ascii.eqb c ">" then ("", String c s)
    else let '(a, b) := Xray.span_not_gt s in (String c a, b).
Proof. reflexivity. Qed.

Lemma span_not_gt_app id r :
  no_gt id = true ->
  Xray.span_not_gt (id +:+ String ">" r) = (id, String ">" r).
Proof.
  induction id as [|c id IH]; intros H; [done|].
  apply no_gt_cons in H as [Hc Hid].
  apply Ascii.eqb_neq in Hc.
  by rewrite app_cons_s, span_not_gt_cons, Hc, (IH Hid).
Qed.

(** A literal without [>] that matches at the start of [e +:+ ">"...] lies
    inside [e]. *)
Lemma strip_prefix_inside p e r out :
  no_gt p = true -> no_gt e = true ->
  strip_prefix p (e +:+ String ">" r) = Some out ->
  exists e2, e = p +:+ e2 /\ out = e2 +:+ String ">" r.
Proof.
  revert e out. induction p as [|a p IH]; intros e out Hp He.
  - intros [= <-]. by exists e.
  - apply no_gt_cons in Hp as [Ha Hp].
    destruct e as [|b e].
    + rewrite app_nil_s, strip_prefix_cons.
      apply Ascii.eqb_neq in Ha. by rewrite Ha.
    + apply no_gt_cons in He as [Hb He].
      rewrite app_cons_s, strip_prefix_cons.
      destruct (Ascii.eqb a b) eqn:Hab; [|done].
      apply Ascii.eqb_eq in Hab as ->. intros H.
      destruct (IH e out Hp He H) as (e2 & -> & ->). by exists e2.
Qed.

Lemma strip_gt_no_gt e r :
  no_gt e = true -> e <> "" -> strip_prefix ">>>" (e +:+ r) = None.
Proof.
  destruct e as [|b e]; [done|]. intros [Hb _]%no_gt_cons _.
  rewrite app_cons_s, strip_prefix_cons.
  destruct (Ascii.eqb ">" b) eqn:E; [|done].
  apply Ascii.eqb_eq in E. congruence.
Qed.

Definition is_direction (dir : string) : Prop :=
  dir = "downlink" \/ dir = "uplink".

Lemma alt2_direction dir :
  is_direction dir -> Xray.alt2 "downlink" "uplink" dir = Some (dir, "").
Proof. by intros [-> | ->]. Qed.

Lemma eqb_empty_false (s : string) : s <> "" -> String.eqb s "" = false.
Proof. by intros H; apply String.eqb_neq. Qed.

(** The rest of a stat name after its type and the first separator. *)
Lemma regex_tail id dir :
  id <> "" -> no_gt id = true -> is_direction dir ->
  Xray.span_not_gt (id +:+ ">>>traffic>>>" +:+ dir)
  = (id, ">>>traffic>>>" +:+ dir).
Proof. intros _ Hid _. by apply (span_not_gt_app id). Qed.

Lemma trafficRegex_at_key ty id dir :
  ty = "inbound" \/ ty = "outbound" ->
  id <> "" -> no_gt id = true -> is_direction dir ->
  Xray.trafficRegex_at (stat_key ty id dir) = Some [stat_key ty id dir; ty; id; dir].
Proof.
  intros Hty Hid Hgt Hdir. unfold Xray.trafficRegex_at.
  assert (Xray.alt2 "inbound" "outbound" (stat_key ty id dir)
          = Some (ty, ">>>" +:+ id +:+ ">>>traffic>>>" +:+ dir)) as ->.
  { by destruct Hty as [-> | ->]. }
  change (strip_prefix ">>>" (">>>" +:+ id +:+ ">>>traffic>>>" +:+ dir))
    with (Some (id +:+ ">>>traffic>>>" +:+ dir)).
  cbv beta iota. rewrite regex_tail by done.
  rewrite eqb_empty_false by done.
  change (strip_prefix ">>>traffic>>>" (">>>traffic>>>" +:+ dir)) with (Some dir).
  cbv beta iota. by rewrite alt2_direction.
Qed.

Lemma clientTrafficRegex_at_key id dir :
  id <> "" -> no_gt id = true -> is_direction dir ->
  Xray.clientTrafficRegex_at (stat_key "user" id dir)
  = Some [stat_key "user" id dir; id; dir].
Proof.
  intros Hid Hgt Hdir. unfold Xray.clientTrafficRegex_at.
  change (strip_prefix "user>>>" (stat_key "user" id dir))
    with (Some (id +:+ ">>>traffic>>>" +:+ dir)).
  cbv beta iota. rewrite regex_tail by done.
  rewrite eqb_empty_false by done.
  change (strip_prefix ">>>traffic>>>" (">>>traffic>>>" +:+ dir)) with (Some dir).
  cbv beta iota. by rewrite alt2_direction.
Qed.

Lemma leftmost_here at_start s m :
  at_start s = Some m -> Xray.leftmost at_start s = Some m.
Proof. intros H. destruct s; simpl; by rewrite H. Qed.

Lemma leftmost_cons at_start c s :
  at_start (String c s) = None ->
  Xray.leftmost at_start (String c s) = Xray.leftmost at_start s.
Proof. intros H. simpl. by rewrite H. Qed.

(** The inbound/outbound pattern matches nowhere in the tail of a user stat
    name. *)
Lemma trafficRegex_at_tail e dir :
  no_gt e = true -> is_direction dir ->
  Xray.trafficRegex_at (e +:+ ">>>traffic>>>" +:+ dir) = None.
Proof.
  intros He Hdir. unfold Xray.trafficRegex_at, Xray.alt2.
  destruct (strip_prefix "inbound" _) as [out|] eqn:H1.
  - apply (strip_prefix_inside "inbound" e) in H1 as (e2 & -> & ->); [|done..].
    destruct e2 as [|b e2]; [by destruct Hdir as [-> | ->]|].
    rewrite strip_gt_no_gt; [done| |done].
    clear -He. revert He. 
    change (no_gt ("inbound" +:+ String b e2)) with (no_gt (String b e2)). done.
  - destruct (strip_prefix "outbound" _) as [out|] eqn:H2; [|done].
    apply (strip_prefix_inside "outbound" e) in H2 as (e2 & -> & ->); [|done..].
    destruct e2 as [|b e2]; [by destruct Hdir as [-> | ->]|].
    rewrite strip_gt_no_gt; [done| |done].
    clear -He. revert He. 
    change (no_gt ("outbound" +:+ String b e2)) with (no_gt (String b e2)). done.
Qed.

Lemma leftmost_traffic_tail e dir :
  no_gt e = true -> is_direction dir ->
  Xray.leftmost Xray.trafficRegex_at (e +:+ ">>>traffic>>>" +:+ dir) = None.
Proof.
  intros He Hdir. induction e as [|c e IH].
  - by destruct Hdir as [-> | ->]; vm_compute.
  - rewrite app_cons_s, leftmost_cons.
    + apply IH. by apply no_gt_cons in He as [_ ?].
    + rewrite <- app_cons_s. by apply trafficRegex_at_tail.
Qed.

Lemma leftmost_traffic_user id dir :
  no_gt id = true -> is_direction dir ->
  Xray.leftmost Xray.trafficRegex_at (stat_key "user" id dir) = None.
Proof.
  intros Hid Hdir.
  change (stat_key "user" id dir)
    with (String "u" (String "s" (String "e" (String "r" (String ">"
           (String ">" (String ">" (id +:+ ">>>traffic>>>" +:+ dir)))))))).
  do 7 (rewrite leftmost_cons; [|reflexivity]).
  by apply leftmost_traffic_tail.
Qed.

End StringFacts.

Section SplitFacts.
Import Stats.

Lemma app_nil_r_s (s : string) : s +:+ "" = s.
Proof. induction s as [|c s IH]; [done|]. by rewrite app_cons_s, IH. Qed.

Lemma Split_step c s cur :
  c <> ">"%char ->
  SingBox.Split cur (String c s) = SingBox.Split (cur +:+ String c "") s.
Proof.
  intros Hc%Ascii.eqb_neq.
  destruct s as [|c2 [|c3 r]]; try reflexivity.
  change (SingBox.Split cur (String c (String c2 (String c3 r))))
    with (if Ascii.eqb c ">" && Ascii.eqb c2 ">" && Ascii.eqb c3 ">"
          then cur :: SingBox.Split "" r
          else SingBox.Split (cur +:+ String c "") (String c2 (String c3 r))).
  by rewrite Hc.
Qed.

Lemma Split_no_gt cur e :
  no_gt e = true -> SingBox.Split cur e = [cur +:+ e].
Proof.
  revert cur. induction e as [|c e IH]; intros cur He.
  - by rewrite app_nil_r_s.
  - apply no_gt_cons in He as [Hc He].
    rewrite Split_step, IH by done. by rewrite app_assoc_s.
Qed.

Lemma Split_app cur e rest :
  no_gt e = true ->
  SingBox.Split cur (e +:+ ">>>" +:+ rest)
  = (cur +:+ e) :: SingBox.Split "" rest.
Proof.
  revert cur. induction e as [|c e IH]; intros cur He.
  - by rewrite app_nil_r_s.
  - apply no_gt_cons in He as [Hc He].
    rewrite app_cons_s, Split_step, IH by done. by rewrite app_assoc_s.
Qed.

Lemma Split_stat_key ty id dir :
  no_gt ty = true -> no_gt id = true -> no_gt dir = true ->
  SingBox.Split "" (stat_key ty id dir) = [ty; id; "traffic"; dir].
Proof.
  intros Hty Hid Hdir. unfold stat_key.
  change (">>>traffic>>>" +:+ dir) with (">>>" +:+ "traffic" +:+ ">>>" +:+ dir).
  rewrite (Split_app "" ty) by done.
  rewrite (Split_app "" id) by done.
  rewrite (Split_app "" "traffic" dir) by done.
  by rewrite Split_no_gt.
Qed.

End SplitFacts.

Section TrafficSteps.
Import Stats.

Definition is_tag_type (ty : string) : Prop :=
  ty = "inbound" \/ ty = "outbound".

(** The record a stat of [tag] is written to: the one already in the map, or
    the fresh one the code creates. *)
Definition prev_traffic (tm : gmap string Traffic) (ty tag : string) : Traffic :=
  default (mkTraffic (String.eqb ty "inbound") (negb (String.eqb ty "inbound"))
             tag 0 0) (tm !! tag).

Definition prev_client (em : gmap string ClientTraffic) (email : string)
    : ClientTraffic :=
  default (Client.mkClientTraffic email 0 0) (em !! email).

(** What a stat of direction [dir] and value [v] does to a pair of counters:
    [downlink] writes the down counter and [uplink] the up counter, the other
    one is kept. *)
Definition directed (dir : string) (v old_up old_down up down : Z) : Prop :=
  (dir = "downlink" -> down = v /\ up = old_up)
  /\ (dir = "uplink" -> up = v /\ down = old_down).

Lemma is_direction_no_gt dir : is_direction dir -> no_gt dir = true.
Proof. by intros [-> | ->]. Qed.

Lemma is_tag_type_no_gt ty : is_tag_type ty -> no_gt ty = true.
Proof. by intros [-> | ->]. Qed.

Lemma directed_traffic dir v (t : Traffic) :
  is_direction dir ->
  let t' := if String.eqb dir "downlink" then set_Down t v else set_Up t v in
  Tag t' = Tag t /\ IsInbound t' = IsInbound t
  /\ directed dir v (Up t) (Down t) (Up t') (Down t').
Proof. intros [-> | ->]; cbn; unfold directed; repeat split; done. Qed.

Lemma directed_client dir v (t : ClientTraffic) :
  is_direction dir ->
  let t' := if String.eqb dir "downlink" then set_CDown t v else set_CUp t v in
  Client.Email t' = Client.Email t
  /\ directed dir v (Client.Up t) (Client.Down t) (Client.Up t') (Client.Down t').
Proof. intros [-> | ->]; cbn; unfold directed; repeat split; done. Qed.

Lemma xray_find_tag ty id dir :
  is_tag_type ty -> id <> "" -> no_gt id = true -> is_direction dir ->
  Xray.FindStringSubmatch Xray.trafficRegex_at (stat_key ty id dir)
  = [stat_key ty id dir; ty; id; dir].
Proof.
  intros. unfold Xray.FindStringSubmatch.
  by rewrite (leftmost_here _ _ _ (trafficRegex_at_key ty id dir H H0 H1 H2)).
Qed.

Lemma xray_find_user id dir :
  id <> "" -> no_gt id = true -> is_direction dir ->
  Xray.FindStringSubmatch Xray.trafficRegex_at (stat_key "user" id dir) = []
  /\ Xray.FindStringSubmatch Xray.clientTrafficRegex_at (stat_key "user" id dir)
     = [stat_key "user" id dir; id; dir].
Proof.
  intros. unfold Xray.FindStringSubmatch.
  rewrite leftmost_traffic_user by done.
  by rewrite (leftmost_here _ _ _ (clientTrafficRegex_at_key id dir H H0 H1)).
Qed.

Lemma xray_body_tag ty id dir v tm em :
  is_tag_type ty -> id <> "" -> no_gt id = true -> is_direction dir ->
  id <> "api" ->
  Xray.loop_body (tm, em) (Xray.mkStat (stat_key ty id dir) v)
  = (<[id := if String.eqb dir "downlink"
             then set_Down (prev_traffic tm ty id) v
             else set_Up (prev_traffic tm ty id) v]> tm, em).
Proof.
  intros Hty Hid Hgt Hdir Hapi. unfold Xray.loop_body.
  cbn [Xray.Name Xray.Value]. rewrite xray_find_tag by done.
  cbn [length Nat.eqb]. unfold Xray.processTraffic.
  apply String.eqb_neq in Hapi. rewrite Hapi.
  unfold prev_traffic. by destruct (tm !! id).
Qed.

Lemma xray_body_user id dir v tm em :
  id <> "" -> no_gt id = true -> is_direction dir ->
  Xray.loop_body (tm, em) (Xray.mkStat (stat_key "user" id dir) v)
  = (tm, <[id := if String.eqb dir "downlink"
                 then set_CDown (prev_client em id) v
                 else set_CUp (prev_client em id) v]> em).
Proof.
  intros Hid Hgt Hdir. unfold Xray.loop_body.
  cbn [Xray.Name Xray.Value].
  destruct (xray_find_user id dir Hid Hgt Hdir) as [-> ->].
  cbn [length Nat.eqb]. unfold Xray.processClientTraffic.
  unfold prev_client. by destruct (em !! id).
Qed.

Lemma parseTrafficKey_stat_key ty id dir :
  no_gt ty = true -> no_gt id = true -> no_gt dir = true ->
  SingBox.parseTrafficKey (stat_key ty id dir)
  = Some (<["direction" := dir]>
            (if String.eqb ty "inbound" || String.eqb ty "outbound"
             then <["tag" := id]> {["type" := ty]}
             else if String.eqb ty "user"
                  then <["email" := id]> {["type" := ty]}
                  else {["type" := ty]})).
Proof.
  intros. unfold SingBox.parseTrafficKey. by rewrite Split_stat_key.
Qed.

Lemma singbox_body_tag ty id dir v tm em :
  is_tag_type ty -> no_gt id = true -> is_direction dir ->
  SingBox.loop_body (tm, em) (stat_key ty id dir, v)
  = (<[id := if String.eqb dir "downlink"
             then set_Down (prev_traffic tm ty id) v
             else set_Up (prev_traffic tm ty id) v]> tm, em).
Proof.
  intros Hty Hgt Hdir. unfold SingBox.loop_body.
  rewrite parseTrafficKey_stat_key
    by auto using is_tag_type_no_gt, is_direction_no_gt.
  unfold prev_traffic.
  destruct Hty as [-> | ->]; cbn [String.eqb orb]; unfold SingBox.index;
    simplify_map_eq; cbn; by destruct (tm !! id).
Qed.

End TrafficSteps.

Section TrafficProperties.
Import Stats.

Lemma singbox_body_user id dir v tm em :
  no_gt id = true -> is_direction dir ->
  SingBox.loop_body (tm, em) (stat_key "user" id dir, v)
  = (tm, <[id := if String.eqb dir "downlink"
                 then set_CDown (prev_client em id) v
                 else set_CUp (prev_client em id) v]> em).
Proof.
  intros Hgt Hdir. unfold SingBox.loop_body.
  rewrite parseTrafficKey_stat_key by auto using is_direction_no_gt.
  unfold prev_client. cbn [String.eqb orb]; unfold SingBox.index;
    simplify_map_eq; cbn; by destruct (em !! id).
Qed.

Lemma mapToSlice_empty {T} : mapToSlice (∅ : gmap string T) = [].
Proof. unfold mapToSlice. by rewrite map_to_list_empty. Qed.

Lemma mapToSlice_one {T} (k : string) (x : T) :
  mapToSlice (<[k := x]> (∅ : gmap string T)) = [x].
Proof. unfold mapToSlice. by rewrite insert_empty, map_to_list_singleton. Qed.

Lemma elem_of_mapToSlice {T} (m : gmap string T) (x : T) :
  x ∈ mapToSlice m <-> exists k, m !! k = Some x.
Proof.
  unfold mapToSlice. rewrite list_elem_of_fmap. split.
  - intros ([k y] & -> & H). exists k. by apply elem_of_map_to_list.
  - intros (k & H). exists (k, x). split; [done|]. by apply elem_of_map_to_list.
Qed.

(** The client with both of its service clients set. *)
Definition ready : Xray.XrayAPI := Xray.mkXrayAPI true true true.

(** C1, as amended.  Directionality, for both Control-API clients, on the
    stat names of the form [<type>>>><id>>>>traffic>>><direction>] (an
    identifier that is not empty and holds no [>]).  For every such name and
    every state of the two maps, the turn of the loop of [GetTraffic] on that
    stat writes the value to the [Down] field of the record of [id] when the
    direction is [downlink], and to its [Up] field when it is [uplink], and
    keeps the other counter: for the [Traffic] records of inbound and
    outbound tags (Xray leaves out the tag [api]) and for the
    [ClientTraffic] records of users.  In particular the single stat
    [user>>>E>>>traffic>>>downlink] with value [v] yields
    [ClientTraffic{Email:E, Down:v, Up:0}] from either client.  How a name
    ends does not decide the field by itself, as the example after the
    witness shows. *)
Theorem directionality ty id dir v tm em :
  id <> "" -> no_gt id = true -> is_direction dir ->
  (is_tag_type ty -> id <> "api" ->
   exists t,
     Xray.loop_body (tm, em) (Xray.mkStat (stat_key ty id dir) v)
     = (<[id := t]> tm, em)
     /\ Tag t = Tag (prev_traffic tm ty id)
     /\ directed dir v (Up (prev_traffic tm ty id)) (Down (prev_traffic tm ty id))
          (Up t) (Down t))
  /\ (is_tag_type ty ->
      exists t,
        SingBox.loop_body (tm, em) (stat_key ty id dir, v) = (<[id := t]> tm, em)
        /\ Tag t = Tag (prev_traffic tm ty id)
        /\ directed dir v (Up (prev_traffic tm ty id))
             (Down (prev_traffic tm ty id)) (Up t) (Down t))
  /\ (exists c,
        Xray.loop_body (tm, em) (Xray.mkStat (stat_key "user" id dir) v)
        = (tm, <[id := c]> em)
        /\ Client.Email c = Client.Email (prev_client em id)
        /\ directed dir v (Client.Up (prev_client em id))
             (Client.Down (prev_client em id)) (Client.Up c) (Client.Down c))
  /\ (exists c,
        SingBox.loop_body (tm, em) (stat_key "user" id dir, v)
        = (tm, <[id := c]> em)
        /\ Client.Email c = Client.Email (prev_client em id)
        /\ directed dir v (Client.Up (prev_client em id))
             (Client.Down (prev_client em id)) (Client.Up c) (Client.Down c))
  /\ Xray.GetTraffic ready (Ok [Xray.mkStat (stat_key "user" id "downlink") v])
     = Ok ([], [Client.mkClientTraffic id 0 v])
  /\ SingBox.GetTraffic true
       (SingBox.Status 200 (Ok (Ok [(stat_key "user" id "downlink", v)])))
     = Ok ([], [Client.mkClientTraffic id 0 v]).
Proof.
  intros Hid Hgt Hdir. repeat split.
  - intros Hty Hapi. eexists. split; [by apply xray_body_tag|].
    destruct (directed_traffic dir v (prev_traffic tm ty id) Hdir) as (? & _ & ?).
    done.
  - intros Hty. eexists. split; [by apply singbox_body_tag|].
    destruct (directed_traffic dir v (prev_traffic tm ty id) Hdir) as (? & _ & ?).
    done.
  - eexists. split; [by apply xray_body_user|].
    by apply directed_client.
  - eexists. split; [by apply singbox_body_user|].
    by apply directed_client.
  - unfold Xray.GetTraffic. cbn [ready Xray.grpcClient Xray.StatsServiceClient negb].
    cbn [fold_left]. rewrite xray_body_user by (done || by left).
    rewrite String.eqb_refl.
    by rewrite mapToSlice_empty, mapToSlice_one.
  - unfold SingBox.GetTraffic. cbn [negb Z.eqb Pos.eqb]. cbn [fold_left].
    rewrite singbox_body_user by (done || by left).
    rewrite String.eqb_refl.
    by rewrite mapToSlice_empty, mapToSlice_one.
Qed.

Lemma directionality_witness :
  Xray.GetTraffic ready
    (Ok [Xray.mkStat "user>>>alice@example.com>>>traffic>>>downlink" 1000])
  = Ok ([], [Client.mkClientTraffic "alice@example.com" 0 1000]).
Proof.
  refine (proj1 (proj2 (proj2 (proj2 (proj2
    (directionality "inbound" "alice@example.com" "downlink" 1000 ∅ ∅
       _ _ _)))))).
  - discriminate.
  - reflexivity.
  - left. reflexivity.
Defined.

(** C1, the claim as stated fails.  Both clients parse names that end in a
    direction without counting them by that ending.  The sing-box client
    takes the direction from the fourth piece only when the third is
    [traffic]: the key [inbound>>>t>>>x>>>downlink] ends in [downlink] and
    its value goes to [Up].  The pattern of the Xray client is not anchored
    and its leftmost match decides: the name
    [user>>>alice>>>traffic>>>downlink>>>traffic>>>uplink] ends in [uplink]
    and its value goes to [Down]. *)
Lemma key_ending_does_not_decide :
  SingBox.GetTraffic true
    (SingBox.Status 200 (Ok (Ok [("inbound>>>t>>>x>>>downlink", 7)])))
  = Ok ([mkTraffic true false "t" 7 0], [])
  /\ Xray.GetTraffic ready
       (Ok [Xray.mkStat
              "user>>>alice>>>traffic>>>downlink>>>traffic>>>uplink" 7])
     = Ok ([], [Client.mkClientTraffic "alice" 0 7]).
Proof. split; by vm_compute. Qed.

(** Every record of the tag map sits under its own tag, which is not the
    reserved one. *)
Definition tags_inv (tm : gmap string Traffic) : Prop :=
  forall k t, tm !! k = Some t -> Tag t = k /\ k <> "api".

Lemma processTraffic_inv matches v tm tm' :
  tags_inv tm -> Xray.processTraffic matches v tm = Some tm' -> tags_inv tm'.
Proof.
  intros Hinv. unfold Xray.processTraffic.
  destruct matches as [|m0 [|m1 [|tag [|m3 rest]]]]; try done.
  destruct (String.eqb tag "api") eqn:Hapi; [by intros [= <-]|].
  apply String.eqb_neq in Hapi. intros [= <-] k t.
  destruct (decide (k = tag)) as [->|Hne].
  - rewrite lookup_insert_eq. intros [= <-]. split; [|done].
    destruct (tm !! tag) as [t0|] eqn:Ht0.
    + destruct (Hinv _ _ Ht0) as [<- _]. by destruct (String.eqb m3 "downlink").
    + by destruct (String.eqb m3 "downlink").
  - rewrite lookup_insert_ne by done. apply Hinv.
Qed.

Lemma xray_loop_body_inv acc stat :
  tags_inv acc.1 -> tags_inv (Xray.loop_body acc stat).1.
Proof.
  destruct acc as [tm em]. intros Hinv. unfold Xray.loop_body.
  destruct (length _ =? 4)%nat.
  - destruct (Xray.processTraffic _ _ tm) as [tm'|] eqn:Hp; [|done].
    by eapply processTraffic_inv.
  - destruct (length _ =? 3)%nat; [|done].
    by destruct (Xray.processClientTraffic _ _ em).
Qed.

Lemma xray_fold_inv stats acc :
  tags_inv acc.1 -> tags_inv (fold_left Xray.loop_body stats acc).1.
Proof.
  revert acc. induction stats as [|st stats IH]; intros acc Hinv; [done|].
  cbn [fold_left]. by apply IH, xray_loop_body_inv.
Qed.

Lemma xray_excludes_api x resp ts cs t :
  Xray.GetTraffic x resp = Ok (ts, cs) -> t ∈ ts -> Tag t <> "api".
Proof.
  unfold Xray.GetTraffic.
  destruct (negb (Xray.grpcClient x)); [done|].
  destruct (negb (Xray.StatsServiceClient x)); [done|].
  destruct resp as [stats|e]; [|done].
  pose proof (xray_fold_inv stats (∅, ∅)) as Hinv.
  destruct (fold_left Xray.loop_body stats (∅, ∅)) as [tm em].
  intros [= <- <-] (k & Hk)%elem_of_mapToSlice.
  assert (tags_inv (∅ : gmap string Traffic)) as H0 by (by intros ? ? ?).
  destruct (Hinv H0 k t Hk) as [Htag Hk']. by rewrite Htag.
Qed.

(** C9, as amended.  The Xray client leaves the reserved tag [api] out of
    the tag records: whatever the core reports, no [Traffic] record of the
    returned slice carries it.  The sing-box client has no such exclusion: a
    stat of an inbound or outbound tagged [api] yields a record with that
    tag. *)
Theorem api_tag_excluded_by_xray_client_only :
  (forall x resp ts cs t,
     Xray.GetTraffic x resp = Ok (ts, cs) -> t ∈ ts -> Tag t <> "api")
  /\ (forall ty dir v,
        is_tag_type ty -> is_direction dir ->
        exists t,
          SingBox.GetTraffic true
            (SingBox.Status 200 (Ok (Ok [(stat_key ty "api" dir, v)])))
          = Ok ([t], [])
          /\ Tag t = "api").
Proof.
  split; [apply xray_excludes_api|].
  intros ty dir v Hty Hdir. eexists. split.
  - unfold SingBox.GetTraffic. cbn [negb Z.eqb Pos.eqb fold_left].
    rewrite singbox_body_tag by done.
    by rewrite mapToSlice_empty, mapToSlice_one.
  - unfold prev_traffic. rewrite lookup_empty. cbn [default from_option id].
    by destruct (String.eqb dir "downlink").
Qed.

Lemma api_tag_excluded_witness :
  Tag (mkTraffic true false "inbound-443" 9 0) <> "api".
Proof.
  apply (proj1 api_tag_excluded_by_xray_client_only ready
           (Ok [Xray.mkStat "inbound>>>api>>>traffic>>>uplink" 7;
                Xray.mkStat "inbound>>>inbound-443>>>traffic>>>uplink" 9])
           [mkTraffic true false "inbound-443" 9 0] []).
  - vm_compute. reflexivity.
  - apply list_elem_of_here.
Defined.

(** The sing-box client returns a record tagged [api]. *)
Lemma singbox_client_reports_api_tag :
  exists ts cs t,
    SingBox.GetTraffic true
      (SingBox.Status 200
         (Ok (Ok [("inbound>>>api>>>traffic>>>uplink", 7)])))
    = Ok (ts, cs)
    /\ t ∈ ts /\ Tag t = "api".
Proof.
  exists [mkTraffic true false "api" 7 0], [], (mkTraffic true false "api" 7 0).
  split; [by vm_compute|]. split; [apply list_elem_of_here | reflexivity].
Qed.

End TrafficProperties.
Section UserEntries.
Import Json Translate.

Ltac case_fields :=
  repeat match goal with
         | |- context [match str_field ?m ?k with _ => _ end] =>
             destruct (str_field m k)
         | |- context [match str_nonempty ?m ?k with _ => _ end] =>
             destruct (str_nonempty m k)
         | |- context [match slice_field ?m ?k with _ => _ end] =>
             destruct (slice_field m k)
         | |- context [match map_field ?m ?k with _ => _ end] =>
             destruct (map_field m k)
         | |- context [if String.eqb ?a ?b then _ else _] =>
             destruct (String.eqb a b)
         end.

(** A user entry holds strings only: marshalling leaves it as it is. *)
Lemma decoded_convert_client protocol c :
  decoded <$> convert_client protocol c = convert_client protocol c.
Proof.
  unfold convert_client. case_fields;
    rewrite ?fmap_insert, ?fmap_empty; done.
Qed.

Lemma convert_client_fields protocol c :
  let u := convert_client protocol c in
  u !! "email" = None
  /\ u !! "uuid" = Str <$> str_field c "id"
  /\ u !! "flow" = Str <$> str_nonempty c "flow"
  /\ (protocol = "vless" -> u !! "name" = Str <$> str_nonempty c "email")
  /\ (protocol = "vmess" -> u !! "name" = None).
Proof.
  unfold convert_client. repeat split.
  - case_fields; by simplify_map_eq.
  - case_fields; by simplify_map_eq.
  - case_fields; by simplify_map_eq.
  - intros ->. rewrite String.eqb_refl. case_fields; by simplify_map_eq.
  - intros ->. change (String.eqb "vmess" "vless") with false.
    case_fields; by simplify_map_eq.
Qed.

Lemma Marshal_users (users : list (gmap string any)) :
  (forall u, u ∈ users -> decoded <$> u = u) ->
  Marshal (Maps users) = RawJSON (Slice (Map <$> users)).
Proof.
  intros H. unfold Marshal. cbn [decoded]. do 2 f_equal.
  induction users as [|u us IH]; [done|].
  cbn. rewrite H by apply list_elem_of_here. f_equal.
  apply IH. intros ? ?. apply H. by apply list_elem_of_further.
Qed.

(** The users of a translated vmess or vless inbound: one entry per client
    object, in order. *)
Lemma convert_inbound_users (xrayInbound : XrayCfg.InboundConfig)
    settings clients :
  XrayCfg.Protocol xrayInbound = "vless"
  \/ XrayCfg.Protocol xrayInbound = "vmess" ->
  XrayCfg.Settings xrayInbound = RawJSON (Map settings) ->
  settings !! "clients" = Some (Slice clients) ->
  exists sbInbound,
    convertXrayInboundToSingBox xrayInbound = Some sbInbound
    /\ SingBoxCfg.Users sbInbound
       = match maps_of clients with
         | [] => RawEmpty
         | cs => RawJSON (Slice (Map <$>
                   (convert_client (XrayCfg.Protocol xrayInbound) <$> cs)))
         end.
Proof.
  intros Hp Hs Hc. unfold convertXrayInboundToSingBox.
  assert (supported (XrayCfg.Protocol xrayInbound) = true) as ->
    by (by destruct Hp as [-> | ->]).
  eexists. split; [reflexivity|].
  cbn [SingBoxCfg.Users negb]. rewrite Hs. unfold convert_settings.
  cbn [UnmarshalMap fields default from_option id].
  assert (String.eqb (XrayCfg.Protocol xrayInbound) "vmess"
          || String.eqb (XrayCfg.Protocol xrayInbound) "vless" = true) as ->
    by (by destruct Hp as [-> | ->]).
  cbn [fst snd]. unfold convert_users, slice_field. rewrite Hc.
  destruct (maps_of clients) as [|c cs]; [done|].
  rewrite length_fmap. cbn [or_keep default from_option id length Nat.ltb Nat.leb].
  rewrite Marshal_users; [done|].
  intros u (c' & -> & _)%list_elem_of_fmap. apply decoded_convert_client.
Qed.

(** C3.  Translating a vless or vmess inbound from the Xray model to the
    sing-box model gives one user entry per client object, in order.  No
    entry has an [email] key.  The [uuid] of an entry is the client's [id],
    its [flow] is the client's flow (when that is a non-empty string); for
    vless its [name] is the client's email (when that is a non-empty string:
    the code skips an empty one), and for vmess the entry has no [name]
    either, so the email is dropped. *)
Theorem vless_email_renamed_vmess_email_dropped
    (xrayInbound : XrayCfg.InboundConfig) settings clients :
  XrayCfg.Protocol xrayInbound = "vless"
  \/ XrayCfg.Protocol xrayInbound = "vmess" ->
  XrayCfg.Settings xrayInbound = RawJSON (Map settings) ->
  settings !! "clients" = Some (Slice clients) ->
  exists sbInbound,
    convertXrayInboundToSingBox xrayInbound = Some sbInbound
    /\ SingBoxCfg.Users sbInbound
       = match maps_of clients with
         | [] => RawEmpty
         | cs => RawJSON (Slice (Map <$>
                   (convert_client (XrayCfg.Protocol xrayInbound) <$> cs)))
         end
    /\ forall c,
         let user := convert_client (XrayCfg.Protocol xrayInbound) c in
         user !! "email" = None
         /\ user !! "uuid" = Str <$> str_field c "id"
         /\ user !! "flow" = Str <$> str_nonempty c "flow"
         /\ (XrayCfg.Protocol xrayInbound = "vless" ->
             user !! "name" = Str <$> str_nonempty c "email")
         /\ (XrayCfg.Protocol xrayInbound = "vmess" -> user !! "name" = None).
Proof.
  intros Hp Hs Hc.
  destruct (convert_inbound_users xrayInbound settings clients Hp Hs Hc)
    as (sb & H1 & H2).
  exists sb. split; [done|]. split; [done|]. apply convert_client_fields.
Qed.

Definition scenarioA_client : gmap string any :=
  <["id" := Str "04b2592e-..."]>
    (<["email" := Str "kpichugin@icloud.com"]>
       {["flow" := Str "xtls-rprx-vision"]}).

Definition scenarioA_inbound : XrayCfg.InboundConfig :=
  XrayCfg.mkInbound RawEmpty 443 "vless"
    (RawJSON (Map {["clients" := Slice [Map scenarioA_client]]}))
    RawEmpty "inbound-443" RawEmpty.

Lemma vless_email_renamed_witness :
  exists sbInbound,
    convertXrayInboundToSingBox scenarioA_inbound = Some sbInbound
    /\ SingBoxCfg.Users sbInbound
       = RawJSON (Slice [Map (<["uuid" := Str "04b2592e-..."]>
                    (<["name" := Str "kpichugin@icloud.com"]>
                       {["flow" := Str "xtls-rprx-vision"]}))]).
Proof.
  destruct (vless_email_renamed_vmess_email_dropped scenarioA_inbound
              {["clients" := Slice [Map scenarioA_client]]}
              [Map scenarioA_client])
    as (sb & H1 & H2 & _).
  - left. reflexivity.
  - reflexivity.
  - reflexivity.
  - exists sb. split; [exact H1|]. rewrite H2. vm_compute. reflexivity.
Defined.

End UserEntries.

Section RealitySection.
Import Json Translate.

(** Where the server name of a Reality inbound comes from: [dest], or the
    first of [serverNames] when there is no [dest] string. *)
Definition server_name_source (rs : gmap string any) (name : string) : Prop :=
  rs !! "dest" = Some (Str name)
  \/ (str_field rs "dest" = None
      /\ exists rest, rs !! "serverNames" = Some (Slice (Str name :: rest))).

Lemma reality_server_name_source rs name :
  server_name_source rs name -> reality_server_name rs = Some name.
Proof.
  unfold reality_server_name, str_field, slice_field.
  intros [-> | [Hd (rest & ->)]]; [done|].
  unfold str_field in Hd. by destruct (rs !! "dest") as [[]|].
Qed.

Lemma strings_of_Str ids : strings_of (Str <$> ids) = ids.
Proof.
  unfold strings_of. induction ids as [|i ids IH]; [done|].
  cbn. by rewrite IH.
Qed.

Lemma reality_object_fields rs :
  let reality := decoded <$> convert_reality_object rs in
  reality !! "enabled" = Some (Bool true)
  /\ reality !! "server_name" = None
  /\ reality !! "private_key" = Str <$> str_field rs "privateKey"
  /\ (forall name, server_name_source rs name ->
        reality !! "handshake" = Some (Map {["server" := Str name]}))
  /\ (forall ids, rs !! "shortIds" = Some (Slice (Str <$> ids)) -> ids <> [] ->
        reality !! "short_id" = Some (Slice (Str <$> ids))).
Proof.
  cbn zeta. rewrite !lookup_fmap. unfold convert_reality_object.
  repeat split.
  - destruct (reality_server_name rs), (str_field rs "privateKey"),
      (slice_field rs "shortIds"); try destruct (_ && _); by simplify_map_eq.
  - destruct (reality_server_name rs), (str_field rs "privateKey"),
      (slice_field rs "shortIds"); try destruct (_ && _); by simplify_map_eq.
  - destruct (reality_server_name rs), (str_field rs "privateKey"),
      (slice_field rs "shortIds"); try destruct (_ && _); by simplify_map_eq.
  - intros name ->%reality_server_name_source.
    destruct (str_field rs "privateKey"), (slice_field rs "shortIds");
      try destruct (_ && _); simplify_map_eq; cbn;
      by rewrite map_fmap_singleton.
  - intros ids Hids Hne. unfold slice_field. rewrite Hids, strings_of_Str.
    rewrite length_fmap.
    destruct ids as [|i ids]; [done|]. cbn [length Nat.ltb Nat.leb andb].
    by simplify_map_eq.
Qed.

Lemma reality_tls_fields rs :
  let tls := decoded <$> convert_reality rs in
  tls !! "enabled" = Some (Bool true)
  /\ tls !! "reality" = Some (Map (decoded <$> convert_reality_object rs))
  /\ forall name, server_name_source rs name ->
       tls !! "server_name" = Some (Str name).
Proof.
  cbn zeta. rewrite !lookup_fmap. unfold convert_reality. repeat split.
  - destruct (reality_server_name rs); by simplify_map_eq.
  - by simplify_map_eq.
  - intros name ->%reality_server_name_source. by simplify_map_eq.
Qed.

Definition scenarioB_reality : gmap string any :=
  <["dest" := Str "aws.amazon.com:443"]>
    (<["shortIds" := Slice [Str "837fc8948286"; Str "01"]]>
       {["privateKey" := Str "EOx_0GUMZDiA..."]}).

Definition scenarioB_stream : gmap string any :=
  <["security" := Str "reality"]>
    {["realitySettings" := Map scenarioB_reality]}.

Definition scenarioB_inbound : XrayCfg.InboundConfig :=
  XrayCfg.mkInbound RawEmpty 443 "vless" RawEmpty
    (RawJSON (Map scenarioB_stream)) "inbound-443" RawEmpty.

Definition scenarioB_tls : gmap string any :=
  <["enabled" := Bool true]>
    (<["server_name" := Str "aws.amazon.com:443"]>
       {["reality" :=
           Map (<["enabled" := Bool true]>
                  (<["handshake" := Map {["server" := Str "aws.amazon.com:443"]}]>
                     (<["private_key" := Str "EOx_0GUMZDiA..."]>
                        {["short_id" := Slice [Str "837fc8948286"; Str "01"]]})))]}).

(** The TLS section of a translated Reality inbound. *)
Lemma reality_tls_general (xrayInbound : XrayCfg.InboundConfig) stream rs :
  supported (XrayCfg.Protocol xrayInbound) = true ->
  XrayCfg.StreamSettings xrayInbound = RawJSON (Map stream) ->
  stream !! "security" = Some (Str "reality") ->
  stream !! "realitySettings" = Some (Map rs) ->
  exists sbInbound tls reality,
    convertXrayInboundToSingBox xrayInbound = Some sbInbound
    /\ SingBoxCfg.TLS sbInbound = RawJSON (Map tls)
    /\ tls !! "enabled" = Some (Bool true)
    /\ tls !! "reality" = Some (Map reality)
    /\ reality !! "enabled" = Some (Bool true)
    /\ reality !! "server_name" = None
    /\ reality !! "private_key" = Str <$> str_field rs "privateKey"
    /\ (forall name, server_name_source rs name ->
          tls !! "server_name" = Some (Str name)
          /\ reality !! "handshake" = Some (Map {["server" := Str name]}))
    /\ (forall ids,
          rs !! "shortIds" = Some (Slice (Str <$> ids)) -> ids <> [] ->
          reality !! "short_id" = Some (Slice (Str <$> ids))).
Proof.
  intros Hsup Hstream Hsec Hrs.
  unfold convertXrayInboundToSingBox. rewrite Hsup. cbn [negb].
  eexists _, (decoded <$> convert_reality rs),
    (decoded <$> convert_reality_object rs).
  split; [reflexivity|]. cbn [SingBoxCfg.TLS].
  destruct (reality_tls_fields rs) as (He & Hr & Hn).
  destruct (reality_object_fields rs) as (Hre & Hrn & Hpk & Hh & Hs).
  split.
  - rewrite Hstream. unfold convert_stream. cbn [nonempty UnmarshalMap snd].
    unfold convert_security, str_field, map_field, fields.
    cbn [default from_option id]. rewrite Hsec.
    change (String.eqb "reality" "tls") with false.
    rewrite String.eqb_refl, Hrs. done.
  - repeat split; auto.
Qed.

(** C4.  Translating an Xray inbound whose stream security is [reality]
    (with a [realitySettings] object, and a protocol sing-box supports) gives
    a TLS section with [enabled: true], the server name at the TLS level and
    not under [reality] (it is [dest], or the first of [serverNames] when
    there is no [dest] string), and a nested [reality] object with
    [enabled: true], the handshake [{server: <server name>}], the private key
    copied and the short ids copied as an array of strings.  The example of
    the specification yields exactly the TLS section it states. *)
Theorem reality_tls_section :
  (forall (xrayInbound : XrayCfg.InboundConfig) stream rs,
     supported (XrayCfg.Protocol xrayInbound) = true ->
     XrayCfg.StreamSettings xrayInbound = RawJSON (Map stream) ->
     stream !! "security" = Some (Str "reality") ->
     stream !! "realitySettings" = Some (Map rs) ->
     exists sbInbound tls reality,
       convertXrayInboundToSingBox xrayInbound = Some sbInbound
       /\ SingBoxCfg.TLS sbInbound = RawJSON (Map tls)
       /\ tls !! "enabled" = Some (Bool true)
       /\ tls !! "reality" = Some (Map reality)
       /\ reality !! "enabled" = Some (Bool true)
       /\ reality !! "server_name" = None
       /\ reality !! "private_key" = Str <$> str_field rs "privateKey"
       /\ (forall name, server_name_source rs name ->
             tls !! "server_name" = Some (Str name)
             /\ reality !! "handshake" = Some (Map {["server" := Str name]}))
       /\ (forall ids,
             rs !! "shortIds" = Some (Slice (Str <$> ids)) -> ids <> [] ->
             reality !! "short_id" = Some (Slice (Str <$> ids))))
  /\ SingBoxCfg.TLS <$> convertXrayInboundToSingBox scenarioB_inbound
     = Some (RawJSON (Map scenarioB_tls)).
Proof.
  split; [apply reality_tls_general | by vm_compute].
Qed.

Lemma reality_tls_section_witness :
  exists sbInbound tls,
    convertXrayInboundToSingBox scenarioB_inbound = Some sbInbound
    /\ SingBoxCfg.TLS sbInbound = RawJSON (Map tls)
    /\ tls !! "server_name" = Some (Str "aws.amazon.com:443").
Proof.
  destruct (proj1 reality_tls_section scenarioB_inbound scenarioB_stream
              scenarioB_reality)
    as (sb & tls & reality & H1 & H2 & _ & _ & _ & _ & _ & Hn & _).
  - reflexivity.
  - reflexivity.
  - reflexivity.
  - reflexivity.
  - exists sb, tls. split; [exact H1|]. split; [exact H2|].
    apply (Hn "aws.amazon.com:443"). left. reflexivity.
Defined.

End RealitySection.

Section RouteRules.
Import Json Translate.

Lemma strip_prefix_Some p s r : strip_prefix p s = Some r <-> s = p +:+ r.
Proof.
  split.
  - revert s. induction p as [|a p IH]; intros s.
    + by intros [= ->].
    + destruct s as [|b s]; [done|]. rewrite strip_prefix_cons.
      destruct (Ascii.eqb a b) eqn:E; [|done].
      apply Ascii.eqb_eq in E as ->. intros ->%IH. done.
  - intros ->. apply strip_prefix_app.
Qed.

(** The extracted values are the strings that follow the literal prefix. *)
Lemma elem_of_geoip_values ip v :
  v ∈ geoip_values ip <-> Str ("geoip:" +:+ v) ∈ ip.
Proof.
  unfold geoip_values. rewrite list_elem_of_omap. split.
  - intros (x & Hx & Hf). destruct x as [| | |s| | | |]; try done.
    unfold HasPrefix, TrimPrefix in Hf.
    destruct (strip_prefix "geoip:" s) as [r|] eqn:E; [|done].
    injection Hf as <-. apply strip_prefix_Some in E as ->. done.
  - intros H. eexists. split; [exact H|]. unfold HasPrefix, TrimPrefix.
    by rewrite strip_prefix_app.
Qed.

(** What the loop appends for a rule, as the marshalled route shows it;
    [None] when the rule is dropped. *)
Definition translated_rule (geoipConfigured : bool) (rule : any) : option any :=
  let '(r, kept) := convert_rule geoipConfigured rule in
  if kept then Some (decoded r) else None.

Lemma length_omap_le {A B} (f : A -> option B) l :
  (length (omap f l) <= length l)%nat.
Proof.
  induction l as [|x l IH]; [done|]. cbn. destruct (f x); cbn; lia.
Qed.

Lemma omap_full {A B} (f : A -> B * bool) (l : list A) :
  length (omap (fun x => let '(r, kept) := f x in
                         if kept then Some r else None) l) = length l ->
  map (fun x => (f x).1) l
  = omap (fun x => let '(r, kept) := f x in if kept then Some r else None) l.
Proof.
  induction l as [|x l IH]; [done|]. cbn.
  destruct (f x) as [r [|]] eqn:E; cbn.
  - intros [= H]. by rewrite IH.
  - intros H.
    pose proof (length_omap_le
      (fun x => let '(r, kept) := f x in if kept then Some r else None) l).
    lia.
Qed.

Lemma decoded_filter_rules has rules :
  map decoded (filter_rules has rules) = omap (translated_rule has) rules.
Proof.
  unfold filter_rules, translated_rule.
  induction rules as [|r rules IH]; [done|]. cbn.
  destruct (convert_rule has r) as [r' [|]]; cbn; by rewrite IH.
Qed.

Lemma convert_route_map_rules route rules :
  route !! "rules" = Some (Slice rules) ->
  (decoded <$> convert_route_map route) !! "rules"
  = Some (Slice (omap (translated_rule (hasGeoipConfig route)) rules)).
Proof.
  intros Hr. unfold convert_route_map.
  assert (hasGeoipConfig (delete "domain_strategy" (delete "domainStrategy" route))
          = hasGeoipConfig route) as ->.
  { unfold hasGeoipConfig, map_field. by rewrite !lookup_delete_ne. }
  unfold slice_field. rewrite !lookup_delete_ne, Hr by done.
  rewrite lookup_fmap.
  destruct (negb _) eqn:E.
  - rewrite lookup_insert_eq. cbn. by rewrite decoded_filter_rules.
  - apply negb_false_iff, Nat.eqb_eq in E.
    rewrite lookup_insert_eq. cbn.
    unfold filter_rules in E. rewrite (omap_full _ _ E).
    by rewrite <- decoded_filter_rules.
Qed.

Lemma rename_rule_fields_ip rm : rename_rule_fields rm !! "ip" = rm !! "ip".
Proof.
  unfold rename_rule_fields.
  destruct (str_field _ "outboundTag"), (slice_field _ "inboundTag");
    by simplify_map_eq.
Qed.

Lemma geoip_values_nonempty ip v :
  Str ("geoip:" +:+ v) ∈ ip -> geoip_values ip <> [].
Proof.
  intros H%elem_of_geoip_values E. rewrite E in H. by apply elem_of_nil in H.
Qed.

Lemma geoip_rule_dropped rm ip v :
  rm !! "ip" = Some (Slice ip) -> Str ("geoip:" +:+ v) ∈ ip ->
  translated_rule false (Map rm) = None.
Proof.
  intros Hip Hg%geoip_values_nonempty. unfold translated_rule, convert_rule, convert_rule_ip.
  unfold slice_field. rewrite rename_rule_fields_ip, Hip.
  destruct (geoip_values ip); [done|]. done.
Qed.

Lemma geoip_rule_rewritten rm ip v :
  rm !! "ip" = Some (Slice ip) -> Str ("geoip:" +:+ v) ∈ ip ->
  exists rm',
    translated_rule true (Map rm) = Some (Map rm')
    /\ rm' !! "geoip" = Some (Slice (Str <$> geoip_values ip)).
Proof.
  intros Hip Hg%geoip_values_nonempty. unfold translated_rule, convert_rule, convert_rule_ip.
  unfold slice_field. rewrite rename_rule_fields_ip, Hip.
  destruct (geoip_values ip) as [|g gs] eqn:Eg; [done|].
  destruct (regular_ips ip) as [|r rs];
    cbn [length Nat.ltb Nat.leb negb andb Nat.eqb];
    unfold keeps_geoip_field; simplify_map_eq;
    (eexists; split; [done|]); rewrite lookup_fmap; by simplify_map_eq.
Qed.

Definition scenarioC_rule : gmap string any :=
  <["type" := Str "field"]>
    (<["outboundTag" := Str "direct"]>
       {["ip" := Slice [Str "geoip:private"]]}).

Definition scenarioC_route : gmap string any :=
  {["rules" := Slice [Map scenarioC_rule]]}.

Definition config_with_route (route : gmap string any) : XrayCfg.Config :=
  XrayCfg.mkConfig RawEmpty (RawJSON (Map route)) RawEmpty [] RawEmpty.

(** C6.  In the translation of the Xray route section, the translated rule
    list is the list of the translations of the rules, in order, without the
    dropped ones.  A rule whose [ip] list holds a [geoip:]-prefixed string is
    dropped whole when the route has no [geoip] database object, and
    otherwise is kept with the extracted values (the strings that follow the
    prefix) in a [geoip] array.  The rule
    [{type:"field", outboundTag:"direct", ip:["geoip:private"]}] without a
    database yields an empty rule list. *)
Theorem geoip_rule_rewritten_or_dropped :
  (forall (xrayConfig : XrayCfg.Config) route rules,
     XrayCfg.RouterConfig xrayConfig = RawJSON (Map route) ->
     route !! "rules" = Some (Slice rules) ->
     exists singboxConfig route',
       ConvertXrayToSingBox xrayConfig = Ok singboxConfig
       /\ SingBoxCfg.Route singboxConfig = RawJSON (Map route')
       /\ route' !! "rules"
          = Some (Slice (omap (translated_rule (hasGeoipConfig route)) rules))
       /\ (hasGeoipConfig route = true
           <-> exists db, route !! "geoip" = Some (Map db))
       /\ forall rm ip v,
            rm !! "ip" = Some (Slice ip) -> Str ("geoip:" +:+ v) ∈ ip ->
            translated_rule false (Map rm) = None
            /\ exists rm',
                 translated_rule true (Map rm) = Some (Map rm')
                 /\ rm' !! "geoip" = Some (Slice (Str <$> geoip_values ip)))
  /\ (forall ip v, v ∈ geoip_values ip <-> Str ("geoip:" +:+ v) ∈ ip)
  /\ (exists singboxConfig,
        ConvertXrayToSingBox (config_with_route scenarioC_route)
        = Ok singboxConfig
        /\ SingBoxCfg.Route singboxConfig = RawJSON (Map {["rules" := Slice []]})).
Proof.
  split; [|split; [apply elem_of_geoip_values|]].
  - intros xrayConfig route rules Hroute Hrules.
    eexists _, (decoded <$> convert_route_map route).
    split; [reflexivity|]. cbn [SingBoxCfg.Route]. split.
    { by rewrite Hroute. }
    split; [by apply convert_route_map_rules|]. split.
    { unfold hasGeoipConfig, map_field. split.
      - destruct (route !! "geoip") as [[]|]; try done. by eexists.
      - by intros (db & ->). }
    intros rm ip v Hip Hg. split.
    + by apply (geoip_rule_dropped rm ip v).
    + by apply (geoip_rule_rewritten rm ip v).
  - eexists. split; [reflexivity|]. by vm_compute.
Qed.

Lemma geoip_rule_witness :
  exists singboxConfig route',
    ConvertXrayToSingBox (config_with_route scenarioC_route) = Ok singboxConfig
    /\ SingBoxCfg.Route singboxConfig = RawJSON (Map route')
    /\ route' !! "rules" = Some (Slice []).
Proof.
  destruct (proj1 geoip_rule_rewritten_or_dropped
              (config_with_route scenarioC_route) scenarioC_route
              [Map scenarioC_rule])
    as (sb & route' & H1 & H2 & H3 & _).
  - reflexivity.
  - reflexivity.
  - exists sb, route'. split; [exact H1|]. split; [exact H2|].
    rewrite H3. vm_compute. reflexivity.
Defined.

End RouteRules.

Section RoundTrip.
Import Json Translate.

(** Xray to sing-box and back, on one inbound and on a configuration. *)
Definition there_and_back_inbound (xrayInbound : XrayCfg.InboundConfig)
    : option XrayCfg.InboundConfig :=
  convertSingBoxInboundToXray <$> convertXrayInboundToSingBox xrayInbound.

Definition there_and_back (xrayConfig : XrayCfg.Config)
    : result XrayCfg.Config :=
  match ConvertXrayToSingBox xrayConfig with
  | Ok singboxConfig => ConvertSingBoxToXray singboxConfig
  | Err e => Err e
  end.

(** One client of a vmess or vless inbound, there and back. *)
Definition there_and_back_client (protocol : string) (c : gmap string any)
    : gmap string any :=
  revert_user (Some (convert_client protocol c)).

Lemma str_field_insert_eq (m : gmap string any) k s :
  str_field (<[k := Str s]> m) k = Some s.
Proof. unfold str_field. by rewrite lookup_insert_eq. Qed.

Lemma str_field_insert_ne (m : gmap string any) k k' v :
  k <> k' -> str_field (<[k := v]> m) k' = str_field m k'.
Proof. intros. unfold str_field. by rewrite lookup_insert_ne. Qed.

Lemma str_nonempty_Some m k s :
  str_nonempty m k = Some s -> str_field m k = Some s /\ String.eqb s "" = false.
Proof.
  unfold str_nonempty. destruct (str_field m k) as [s'|]; [|done].
  destruct (String.eqb s' "") eqn:E; [done|]. by intros [= ->].
Qed.

Lemma str_nonempty_of_lookup (m : gmap string any) k o :
  m !! k = Str <$> o -> (forall s, o = Some s -> String.eqb s "" = false) ->
  str_nonempty m k = o.
Proof.
  intros H Hne. unfold str_nonempty, str_field. rewrite H.
  destruct o as [s|]; [|done]. cbn. by rewrite (Hne s eq_refl).
Qed.

Lemma there_and_back_client_email protocol c :
  (protocol = "vless" ->
   there_and_back_client protocol c !! "email" = Str <$> str_nonempty c "email")
  /\ (protocol = "vmess" -> there_and_back_client protocol c !! "email" = None).
Proof.
  destruct (convert_client_fields protocol c) as (He & _ & _ & Hv & Hm).
  unfold there_and_back_client, revert_user. cbn [fields default from_option id].
  set (user := convert_client protocol c) in *.
  assert (str_nonempty user "email" = None) as Hemail.
  { unfold str_nonempty, str_field. by rewrite He. }
  split; intros Hp.
  - assert (str_nonempty user "name" = str_nonempty c "email") as ->.
    { apply str_nonempty_of_lookup; [by apply Hv|].
      by intros s [_ ?]%str_nonempty_Some. }
    rewrite Hemail.
    destruct (str_field user "uuid"), (str_nonempty c "email"),
      (str_field user "flow"); by simplify_map_eq.
  - assert (str_nonempty user "name" = None) as ->.
    { unfold str_nonempty, str_field. by rewrite (Hm Hp). }
    rewrite Hemail.
    destruct (str_field user "uuid"), (str_field user "flow");
      by simplify_map_eq.
Qed.

Lemma decoded_revert_user u : decoded <$> revert_user u = revert_user u.
Proof.
  unfold revert_user.
  repeat match goal with
         | |- context [match ?x with _ => _ end] => destruct x
         end; rewrite ?fmap_insert, ?fmap_empty; done.
Qed.

Lemma mapM_as_map_Map (ms : list (gmap string any)) :
  mapM as_map (Map <$> ms) = Some (Some <$> ms).
Proof.
  induction ms as [|m ms IH]; [done|].
  cbn. cbn in IH. by rewrite IH.
Qed.

Lemma revert_settings_users sb (users : list (gmap string any)) :
  SingBoxCfg.Type_ sb = "vless" \/ SingBoxCfg.Type_ sb = "vmess" ->
  SingBoxCfg.Users sb = RawJSON (Slice (Map <$> users)) ->
  Marshal (Map (revert_settings sb))
  = RawJSON (Map {["clients" :=
       Slice (Map <$> ((fun u => revert_user (Some u)) <$> users))]}).
Proof.
  intros Ht Hu. unfold revert_settings.
  assert (String.eqb (SingBoxCfg.Type_ sb) "vmess"
          || String.eqb (SingBoxCfg.Type_ sb) "vless" = true) as ->
    by (by destruct Ht as [-> | ->]).
  rewrite Hu. cbn [nonempty UnmarshalMaps]. rewrite mapM_as_map_Map.
  cbn [fmap option_fmap option_map elements default from_option id].
  unfold Marshal. cbn [decoded]. rewrite fmap_insert, fmap_empty.
  cbn [decoded]. rewrite insert_empty. do 4 f_equal.
  rewrite <- !list_fmap_compose. apply list_fmap_ext. intros _ u _. cbn.
  by rewrite decoded_revert_user.
Qed.

End RoundTrip.

Section RoundTripParts.
Import Json Translate.

Lemma revert_reality_fields tls reality :
  let rs' := decoded <$> revert_reality tls reality in
  (forall name, tls !! "server_name" = Some (Str name) ->
     rs' !! "dest" = Some (Str name)
     /\ rs' !! "serverNames" = Some (Slice [Str name]))
  /\ (forall ids, reality !! "short_id" = Some (Slice (Str <$> ids)) ->
        ids <> [] -> rs' !! "shortIds" = Some (Slice (Str <$> ids)))
  /\ rs' !! "privateKey" = Str <$> str_field reality "private_key".
Proof.
  cbn zeta. rewrite !lookup_fmap. unfold revert_reality. repeat split.
  - unfold str_field. rewrite H.
    repeat match goal with
           | |- context [match ?x with _ => _ end] => destruct x
           end; by simplify_map_eq.
  - unfold str_field. rewrite H.
    repeat match goal with
           | |- context [match ?x with _ => _ end] => destruct x
           end; by simplify_map_eq.
  - intros ids Hids Hne. rewrite Hids, strings_of_Str, length_fmap.
    destruct ids as [|i ids]; [done|]. cbn [length Nat.ltb Nat.leb].
    by simplify_map_eq.
  - destruct (str_field tls "server_name"), (str_field reality "private_key");
      repeat match goal with
             | |- context [match ?x with _ => _ end] => destruct x
             end; by simplify_map_eq.
Qed.

Lemma insert_size_pos (m : gmap string any) k v :
  (0 <? size (<[k := v]> m))%nat = true.
Proof.
  apply Nat.ltb_lt. destruct (size (<[k := v]> m)) eqn:E; [|lia].
  apply map_size_empty_iff in E. by apply insert_non_empty in E.
Qed.

Lemma reality_there_and_back (xrayInbound : XrayCfg.InboundConfig) stream rs :
  supported (XrayCfg.Protocol xrayInbound) = true ->
  XrayCfg.StreamSettings xrayInbound = RawJSON (Map stream) ->
  stream !! "security" = Some (Str "reality") ->
  stream !! "realitySettings" = Some (Map rs) ->
  exists xrayInbound' stream' rs',
    there_and_back_inbound xrayInbound = Some xrayInbound'
    /\ XrayCfg.StreamSettings xrayInbound' = RawJSON (Map stream')
    /\ stream' !! "security" = Some (Str "reality")
    /\ stream' !! "realitySettings" = Some (Map rs')
    /\ rs' !! "privateKey" = Str <$> str_field rs "privateKey"
    /\ (forall name, server_name_source rs name ->
          rs' !! "dest" = Some (Str name)
          /\ rs' !! "serverNames" = Some (Slice [Str name]))
    /\ (forall ids,
          rs !! "shortIds" = Some (Slice (Str <$> ids)) -> ids <> [] ->
          rs' !! "shortIds" = Some (Slice (Str <$> ids))).
Proof.
  intros Hsup Hstream Hsec Hrs.
  destruct (reality_tls_general xrayInbound stream rs Hsup Hstream Hsec Hrs)
    as (sb & tls & reality & Hsb & Htls & _ & Hr & _ & _ & Hpk & Hn & Hs).
  unfold there_and_back_inbound. rewrite Hsb. cbn [fmap option_fmap option_map].
  set (base := revert_transport (SingBoxCfg.Transport sb) ∅).
  assert (revert_security (SingBoxCfg.TLS sb) base
          = <["realitySettings" := Map (revert_reality tls reality)]>
              (<["security" := Str "reality"]> base)) as Hsecurity.
  { rewrite Htls. unfold revert_security, map_field.
    cbn [nonempty UnmarshalMap fields default from_option id]. by rewrite Hr. }
  destruct (revert_reality_fields tls reality) as (Hd & Hi & Hk).
  eexists _, _, (decoded <$> revert_reality tls reality).
  split; [reflexivity|]. unfold convertSingBoxInboundToXray.
  cbn [XrayCfg.StreamSettings]. fold base. rewrite Hsecurity, insert_size_pos.
  split; [reflexivity|].
  split; [rewrite lookup_fmap; by simplify_map_eq|].
  split; [rewrite lookup_fmap; by simplify_map_eq|].
  split.
  { rewrite Hk. unfold str_field at 1. rewrite Hpk.
    by destruct (str_field rs "privateKey"). }
  split.
  - intros name Hname. apply Hd. by apply Hn.
  - intros ids Hids Hne. apply Hi; [|done]. by apply Hs.
Qed.

Lemma rename_rule_fields_type rm : rename_rule_fields rm !! "type" = None.
Proof.
  unfold rename_rule_fields.
  destruct (str_field _ "outboundTag"), (slice_field _ "inboundTag");
    by simplify_map_eq.
Qed.

Lemma convert_rule_ip_type has rm :
  rm !! "type" = None -> (convert_rule_ip has rm).1 !! "type" = None.
Proof.
  intros H. unfold convert_rule_ip.
  destruct (slice_field rm "ip") as [ip|]; [|done].
  destruct (_ && negb has); [done|].
  destruct (0 <? length (geoip_values ip))%nat,
    (0 <? length (regular_ips ip))%nat,
    (length (geoip_values ip) =? 0)%nat; by simplify_map_eq.
Qed.

(** A translated rule object never carries the [type] marker. *)
Lemma translated_rule_type has rule rm' :
  translated_rule has rule = Some (Map rm') -> rm' !! "type" = None.
Proof.
  unfold translated_rule, convert_rule.
  destruct rule as [| | | | | | |rm]; try (cbn; discriminate).
  pose proof (convert_rule_ip_type has _ (rename_rule_fields_type rm)) as Ht.
  destruct (convert_rule_ip has (rename_rule_fields rm)) as [rm2 [|]];
    [|done].
  destruct (keeps_geoip_field has rm2); [|done].
  intros [= <-]. rewrite lookup_fmap. cbn in Ht. by rewrite Ht.
Qed.

End RoundTripParts.

Section RoundTripProperties.
Import Json Translate.

Lemma clients_there_and_back (xrayInbound : XrayCfg.InboundConfig)
    settings clients :
  XrayCfg.Protocol xrayInbound = "vless"
  \/ XrayCfg.Protocol xrayInbound = "vmess" ->
  XrayCfg.Settings xrayInbound = RawJSON (Map settings) ->
  settings !! "clients" = Some (Slice clients) ->
  maps_of clients <> [] ->
  exists xrayInbound',
    there_and_back_inbound xrayInbound = Some xrayInbound'
    /\ XrayCfg.Settings xrayInbound'
       = RawJSON (Map {["clients" :=
           Slice (Map <$> (there_and_back_client (XrayCfg.Protocol xrayInbound)
                             <$> maps_of clients))]}).
Proof.
  intros Hp Hs Hc Hne.
  destruct (convert_inbound_users xrayInbound settings clients Hp Hs Hc)
    as (sb & Hsb & Hu).
  unfold there_and_back_inbound. rewrite Hsb. eexists. split; [reflexivity|].
  unfold convertSingBoxInboundToXray. cbn [XrayCfg.Settings].
  assert (SingBoxCfg.Type_ sb = XrayCfg.Protocol xrayInbound) as Ht.
  { unfold convertXrayInboundToSingBox in Hsb.
    destruct (negb _); [done|]. by injection Hsb as <-. }
  destruct (maps_of clients) as [|c cs] eqn:E; [done|].
  rewrite (revert_settings_users sb _ (ltac:(by rewrite Ht)) Hu).
  by rewrite <- (list_fmap_compose (convert_client _)
                  (fun u => revert_user (Some u))).
Qed.

Definition lossy_client : gmap string any :=
  <["id" := Str "b831381d-6324-4d53-ad4f-8cda48b30811"]>
    {["email" := Str "bob@example.com"]}.

Definition lossy_config : XrayCfg.Config :=
  XrayCfg.mkConfig RawEmpty RawEmpty RawEmpty
    [XrayCfg.mkInbound RawEmpty 443 "vmess"
       (RawJSON (Map {["clients" := Slice [Map lossy_client]]}))
       RawEmpty "inbound-443" RawEmpty]
    RawEmpty.

Lemma lossy_config_changes :
  exists xrayConfig',
    there_and_back lossy_config = Ok xrayConfig' /\ xrayConfig' <> lossy_config.
Proof.
  eexists. split; [reflexivity|]. intros H.
  apply (f_equal XrayCfg.LogConfig) in H. vm_compute in H. discriminate H.
Qed.



End RoundTripProperties.
Section SupervisorProperties.
Import Supervisor.

(** C8.  At the process level, [Stop] on a process that is not running
    returns an error, leaves the process record as it is and does nothing to
    the machine (no signal); [Start] on a running process returns an error,
    leaves the record as it is and does nothing to the machine (no config
    file written, no second process).  Both are total: there is no state of
    the record on which they have no result. *)
Theorem stop_and_start_fail_closed :
  (forall a p,
     IsRunning p = false ->
     Stop a p = (Err "sing-box is not running", p, []))
  /\ (forall a p,
        IsRunning p = true ->
        Start a p = (Err "sing-box is already running", p, [])).
Proof.
  split; intros a p H.
  - unfold Stop. by rewrite H.
  - unfold Start. by rewrite H.
Qed.

Definition empty_config : SingBoxCfg.Config :=
  SingBoxCfg.mkConfig Json.RawEmpty Json.RawEmpty Json.RawEmpty []
    Json.RawEmpty Json.RawEmpty Json.RawEmpty.

Definition graceful : StopAnswers := mkStopAnswers None true None true.

Definition running_process : process :=
  mkProcess (Some (mkCmd (Some 4242%positive) false)) "1.12.17" 9090
    empty_config "" None.

Definition fine_start : StartAnswers :=
  mkStartAnswers (Ok "bin/sing-box-config.json") true None
    (Some 4243%positive) "1.12.17" 9090.

Lemma stop_and_start_fail_closed_witness :
  Stop graceful (newProcess empty_config)
  = (Err "sing-box is not running", newProcess empty_config, [])
  /\ Start fine_start running_process
     = (Err "sing-box is already running", running_process, []).
Proof.
  split.
  - apply (proj1 stop_and_start_fail_closed). reflexivity.
  - apply (proj2 stop_and_start_fail_closed). reflexivity.
Defined.

Lemma StopSingBox_flag a s :
  isManuallyStoppedSB (StopSingBox a s).1.2 = true.
Proof.
  unfold StopSingBox. cbn [singboxProcess isManuallyStoppedSB].
  destruct (IsSingBoxRunning _); [|done].
  destruct (singboxProcess s) as [p|]; [|done].
  by destruct (Stop a p) as [[r p'] ev].
Qed.

(** The run of the job reads the sing-box service through [IsSingBoxRunning]
    alone. *)
Lemma Run_reads_running_only dx ds xa s s' w j :
  IsSingBoxRunning s = IsSingBoxRunning s' ->
  HealthCheck.Run dx ds xa s w j = HealthCheck.Run dx ds xa s' w j.
Proof.
  intros H. unfold HealthCheck.Run.
  destruct (Settings.GetMultiNodeMode dx ds w) as [[[|]|e] w1]; [done| |].
  all: destruct (HealthCheck.GetCoreService dx ds w1) as [[[|]|e'] w2]; try done.
  all: unfold HealthCheck.IsRunning; by rewrite H.
Qed.

(** The run of the job with sing-box selected, in single mode, on a process
    that is not running. *)
Lemma Run_singbox_down dx ds xa s w w1 w2 j multiMode :
  Settings.GetMultiNodeMode dx ds w = (multiMode, w1) ->
  multiMode <> Ok true ->
  HealthCheck.GetCoreService dx ds w1 = (Ok HealthCheck.SingBoxCoreAdapter, w2) ->
  IsSingBoxRunning s = false ->
  HealthCheck.Run dx ds xa s w j
  = if (1 <? HealthCheck.incr (HealthCheck.checkTime j))%Z
    then (HealthCheck.mkJob 0, w2, Some HealthCheck.SingBoxCoreAdapter)
    else (HealthCheck.mkJob (HealthCheck.incr (HealthCheck.checkTime j)), w2,
          None).
Proof.
  intros Hm Hne Hc Hr. unfold HealthCheck.Run. rewrite Hm.
  assert (forall A (x y : A),
            match multiMode with Ok true => x | _ => y end = y) as ->.
  { intros A x y. by destruct multiMode as [[|]|e]. }
  rewrite Hc. cbn [HealthCheck.IsRunning]. by rewrite Hr.
Qed.

(** [StopSingBox] on an idle service, and the manually-stopped flag.
    [StopSingBox] on a service whose process is not running returns nil,
    signals nothing and only sets the flag, where the process-level [Stop]
    of the same process returns an error.  It sets the flag before it looks
    at the process: after any call, whatever the machine answers, the flag
    is set.  The adapter's [Stop] is [StopSingBox].  The run of the
    health-check job depends on the sing-box service through
    [IsSingBoxRunning] alone: with sing-box selected, in single mode, a new
    job counts a process that is not running, and a job that has counted one
    calls [Restart(false)] on the sing-box adapter. *)
Theorem StopSingBox_idle_and_manual_flag :
  (forall a s,
     IsSingBoxRunning s = false ->
     StopSingBox a s
     = (Ok tt, mkService (singboxProcess s) true (singboxAPIConnectionPool s),
        []))
  /\ (forall a s p,
        singboxProcess s = Some p -> IsSingBoxRunning s = false ->
        Stop a p = (Err "sing-box is not running", p, []))
  /\ (forall a s, isManuallyStoppedSB (StopSingBox a s).1.2 = true)
  /\ (forall a s, AdapterStop a s = StopSingBox a s)
  /\ (forall dx ds xa s s' w j,
        IsSingBoxRunning s = IsSingBoxRunning s' ->
        HealthCheck.Run dx ds xa s w j = HealthCheck.Run dx ds xa s' w j)
  /\ (forall dx ds xa s w w1 w2 multiMode,
        Settings.GetMultiNodeMode dx ds w = (multiMode, w1) ->
        multiMode <> Ok true ->
        HealthCheck.GetCoreService dx ds w1
        = (Ok HealthCheck.SingBoxCoreAdapter, w2) ->
        IsSingBoxRunning s = false ->
        HealthCheck.Run dx ds xa s w (HealthCheck.mkJob 0)
        = (HealthCheck.mkJob 1, w2, None)
        /\ HealthCheck.Run dx ds xa s w (HealthCheck.mkJob 1)
           = (HealthCheck.mkJob 0, w2, Some HealthCheck.SingBoxCoreAdapter)).
Proof.
  repeat apply conj.
  - intros a s H. unfold StopSingBox.
    assert (IsSingBoxRunning (mkService (singboxProcess s) true
              (singboxAPIConnectionPool s)) = false) as -> by exact H.
    done.
  - intros a s p Hp H. unfold Stop. assert (IsRunning p = false) as ->; [|done].
    unfold IsSingBoxRunning in H. by rewrite Hp in H.
  - apply StopSingBox_flag.
  - done.
  - apply Run_reads_running_only.
  - intros dx ds xa s w w1 w2 multiMode Hm Hne Hc Hr.
    split; by rewrite (Run_singbox_down dx ds xa s w w1 w2 _ multiMode).
Qed.

Lemma StopSingBox_idle_witness :
  StopSingBox graceful (mkService None false ∅)
  = (Ok tt, mkService None true ∅, []).
Proof.
  apply (proj1 StopSingBox_idle_and_manual_flag graceful (mkService None false ∅)).
  reflexivity.
Defined.

(** The settings of a panel on sing-box, in single mode. *)
Definition singbox_selected : Settings.World :=
  Settings.mkWorld
    (<["coreType" := "sing-box"]> {["multiNodeMode" := "false"]}) [].

(** C10.  The code after a manual stop.  [StopSingBox] of a running
    sing-box brings the process down and sets the manually-stopped flag, but
    no crash-detection query reads it: the health-check job that runs next
    (sing-box selected, single mode) counts the process as down, and the run
    after that calls [Restart(false)], which starts sing-box again and
    clears the flag.  The Xray adapter has the query: with Xray selected and
    [DidXrayCrash] answering no, as it does after a manual stop, the same
    job counts nothing and restarts nothing. *)
Lemma health_check_restarts_manually_stopped_singbox :
  let stopped := (StopSingBox graceful
                    (mkService (Some running_process) false ∅)).1.2 in
  let xa := HealthCheck.mkXrayAnswers false false in
  isManuallyStoppedSB stopped = true
  /\ IsSingBoxRunning stopped = false
  /\ HealthCheck.Run "{}" "{}" xa stopped singbox_selected (HealthCheck.mkJob 0)
     = (HealthCheck.mkJob 1, singbox_selected, None)
  /\ HealthCheck.Run "{}" "{}" xa stopped singbox_selected (HealthCheck.mkJob 1)
     = (HealthCheck.mkJob 0, singbox_selected,
        Some HealthCheck.SingBoxCoreAdapter)
  /\ HealthCheck.Run "{}" "{}" xa stopped
       (Settings.mkWorld {["coreType" := "xray"]} []) (HealthCheck.mkJob 1)
     = (HealthCheck.mkJob 0, Settings.mkWorld {["coreType" := "xray"]} [],
        None).
Proof.
  repeat split; vm_compute; reflexivity.
Qed.

End SupervisorProperties.

Section SelfHealing.
Import Json Settings.

Variable TrimSpace : string -> string.
Variable decodesXrayConfig : string -> bool.
Variable decodesSingBoxConfig : string -> bool.
Variable Unmarshal : string -> option (option (gmap string any)).
Variable defaultXrayTemplateConfig : string.
Variable defaultSingBoxTemplateConfig : string.
Variable cleanedTemplate : option (gmap string any) -> option string.

(** A stored template that the validation replaces: empty or the placeholder
    once trimmed, or not decodable. *)
Definition unusable (decodes : string -> bool) (stored : string) : Prop :=
  TrimSpace stored = "" \/ TrimSpace stored = "{}"
  \/ decodes (TrimSpace stored) = false.

Definition decodesObject (text : string) : bool :=
  match Unmarshal text with Some _ => true | None => false end.

Lemma saveSetting_works key value w :
  faults w = [] -> key <> "multiNodeMode" ->
  saveSetting key value w = (Ok tt, mkWorld (<[key := value]> (table w)) []).
Proof.
  destruct w as [t f]. cbn [faults table]. intros -> Hk.
  unfold saveSetting, getSetting, db_first, db_write, db_access.
  cbn [faults table]. apply String.eqb_neq in Hk. by rewrite Hk.
Qed.

Lemma getString_stored key value w :
  faults w = [] -> table w !! key = Some value ->
  getString defaultXrayTemplateConfig defaultSingBoxTemplateConfig key w
  = (Ok value, w).
Proof.
  destruct w as [t f]. cbn [faults table]. intros -> Hk.
  unfold getString, getSetting, db_first, db_access.
  cbn [faults table]. by rewrite Hk.
Qed.

Lemma EnsureXray_heals w stored :
  faults w = [] ->
  table w !! "xrayTemplateConfig" = Some stored ->
  unusable decodesXrayConfig stored ->
  EnsureXrayTemplateConfigValid TrimSpace decodesXrayConfig
    defaultXrayTemplateConfig w
  = (Ok tt,
     mkWorld (<["xrayTemplateConfig" := defaultXrayTemplateConfig]> (table w))
       []).
Proof.
  intros Hf Hs Hu. unfold EnsureXrayTemplateConfigValid, db_first, db_access.
  rewrite Hf. cbn. rewrite Hs.
  assert (saveSetting "xrayTemplateConfig" defaultXrayTemplateConfig w
          = (Ok tt, mkWorld (<["xrayTemplateConfig" :=
                                 defaultXrayTemplateConfig]> (table w)) []))
    as Hsave by (by apply saveSetting_works).
  destruct Hu as [-> | [-> | Hd]]; [done..|].
  destruct (_ || _); [done|]. by rewrite Hd.
Qed.

Lemma EnsureSingBox_heals w stored :
  faults w = [] ->
  table w !! "singboxTemplateConfig" = Some stored ->
  unusable decodesObject stored ->
  EnsureSingBoxTemplateConfigValid TrimSpace Unmarshal
    defaultSingBoxTemplateConfig cleanedTemplate w
  = (Ok tt,
     mkWorld (<["singboxTemplateConfig" := defaultSingBoxTemplateConfig]>
                (table w)) []).
Proof.
  intros Hf Hs Hu. unfold EnsureSingBoxTemplateConfigValid, db_first, db_access.
  rewrite Hf. cbn. rewrite Hs.
  assert (saveSetting "singboxTemplateConfig" defaultSingBoxTemplateConfig w
          = (Ok tt, mkWorld (<["singboxTemplateConfig" :=
                                 defaultSingBoxTemplateConfig]> (table w)) []))
    as Hsave by (by apply saveSetting_works).
  destruct Hu as [-> | [-> | Hd]]; [done..|].
  destruct (_ || _); [done|]. unfold decodesObject in Hd.
  by destruct (Unmarshal (TrimSpace stored)).
Qed.

(** Template self-healing where the code provides it, for both cores, when
    no database access is refused.  If the stored template is empty or the
    placeholder [{}] once trimmed, or does not decode, the validation returns
    nil and the stored setting is the embedded default; a read of the setting
    afterwards gives the default.  For sing-box, whose builder is among the
    sources, the template phase of the build then succeeds with the default
    (which has to decode as a sing-box config).  What decodes is, for Xray,
    an [xray.Config]; for sing-box it is any JSON object or [null]. *)
Theorem template_self_healing w stored :
  faults w = [] ->
  (table w !! "xrayTemplateConfig" = Some stored ->
   unusable decodesXrayConfig stored ->
   exists w',
     EnsureXrayTemplateConfigValid TrimSpace decodesXrayConfig
       defaultXrayTemplateConfig w = (Ok tt, w')
     /\ table w' !! "xrayTemplateConfig" = Some defaultXrayTemplateConfig
     /\ (GetXrayConfigTemplate defaultXrayTemplateConfig
           defaultSingBoxTemplateConfig w').1
        = Ok defaultXrayTemplateConfig)
  /\ (table w !! "singboxTemplateConfig" = Some stored ->
      unusable decodesObject stored ->
      exists w',
        EnsureSingBoxTemplateConfigValid TrimSpace Unmarshal
          defaultSingBoxTemplateConfig cleanedTemplate w = (Ok tt, w')
        /\ table w' !! "singboxTemplateConfig"
           = Some defaultSingBoxTemplateConfig
        /\ (GetSingBoxConfigTemplate defaultXrayTemplateConfig
              defaultSingBoxTemplateConfig w').1
           = Ok defaultSingBoxTemplateConfig
        /\ (decodesSingBoxConfig defaultSingBoxTemplateConfig = true ->
            (GetSingBoxConfig_template TrimSpace decodesSingBoxConfig Unmarshal
               defaultXrayTemplateConfig defaultSingBoxTemplateConfig
               cleanedTemplate w).1
            = Ok defaultSingBoxTemplateConfig)).
Proof.
  intros Hf. split; intros Hs Hu.
  - eexists. split; [by apply (EnsureXray_heals w stored)|].
    split; [apply lookup_insert_eq|].
    unfold GetXrayConfigTemplate.
    rewrite (getString_stored _ defaultXrayTemplateConfig); [done..|].
    apply lookup_insert_eq.
  - eexists. split; [by apply (EnsureSingBox_heals w stored)|].
    split; [apply lookup_insert_eq|].
    assert (forall w', faults w' = [] ->
              table w' !! "singboxTemplateConfig"
              = Some defaultSingBoxTemplateConfig ->
              GetSingBoxConfigTemplate defaultXrayTemplateConfig
                defaultSingBoxTemplateConfig w'
              = (Ok defaultSingBoxTemplateConfig, w')) as Hread.
    { intros w' ? ?. unfold GetSingBoxConfigTemplate.
      by apply getString_stored. }
    split.
    + rewrite Hread; [done..|]. apply lookup_insert_eq.
    + intros Hd. unfold GetSingBoxConfig_template.
      rewrite (EnsureSingBox_heals w stored) by done.
      rewrite Hread; [|done|apply lookup_insert_eq]. by rewrite Hd.
Qed.

End SelfHealing.


Section SelfHealingExample.
Import Json Settings.

(** A table with the placeholder the migration inserts, and stand-ins for the
    library functions: only the text [DEFAULT] decodes. *)
Definition placeholder_world : World :=
  mkWorld {["xrayTemplateConfig" := "{}"]} [].

Lemma template_self_healing_witness :
  exists w',
    EnsureXrayTemplateConfigValid (fun s => s) (String.eqb "DEFAULT") "DEFAULT"
      placeholder_world = (Ok tt, w')
    /\ table w' !! "xrayTemplateConfig" = Some "DEFAULT".
Proof.
  destruct (proj1 (template_self_healing (fun s => s) (String.eqb "DEFAULT")
                     (String.eqb "DEFAULT") (fun _ => None) "DEFAULT" "DEFAULT"
                     (fun _ => None) placeholder_world "{}" eq_refl))
    as (w' & H1 & H2 & _).
  - reflexivity.
  - right. left. reflexivity.
  - exists w'. split; [exact H1 | exact H2].
Defined.

End SelfHealingExample.

Section SettingsFrames.
Import Json Settings.

Variable TrimSpace : string -> string.
Variable decodesXrayConfig : string -> bool.
Variable decodesSingBoxConfig : string -> bool.
Variable Unmarshal : string -> option (option (gmap string any)).
Variable defaultXrayTemplateConfig : string.
Variable defaultSingBoxTemplateConfig : string.
Variable cleanedTemplate : option (gmap string any) -> option string.

(** The two core types. *)
Definition core_type (t : string) : Prop := t = "xray" \/ t = "sing-box".

(** The type the stored setting selects; a missing row reads as the
    default. *)
Definition stored_type (w : World) : string :=
  default "xray" (table w !! "coreType").

Lemma db_first_table key w r w' :
  db_first key w = (r, w') ->
  table w' = table w /\ (forall v, r = Ok v -> v = table w !! key).
Proof.
  unfold db_first, db_access. destruct w as [t [|[|] fs]]; cbn;
    intros [= <- <-]; split; try done; by intros v [= <-].
Qed.

Lemma db_write_table key value w r w' :
  db_write key value w = (r, w') ->
  (r = Ok tt /\ table w' = <[key := value]> (table w))
  \/ (is_err r = true /\ table w' = table w).
Proof.
  unfold db_write, db_access. destruct w as [t [|[|] fs]]; cbn;
    intros [= <- <-]; auto.
Qed.

(** A save either goes through or writes nothing and fails. *)
Lemma saveSetting_table key value w r w' :
  saveSetting key value w = (r, w') ->
  (r = Ok tt /\ table w' = <[key := value]> (table w))
  \/ (is_err r = true /\ table w' = table w).
Proof.
  unfold saveSetting, getSetting.
  destruct (db_first key w) as [found w1] eqn:E1.
  apply db_first_table in E1 as [Ht1 _].
  destruct found as [o|e]; [|intros [= <- <-]; auto].
  destruct (db_write key value w1) as [r2 w2] eqn:E2.
  apply db_write_table in E2 as [[-> Ht2] | [He Ht2]].
  - destruct (String.eqb key "multiNodeMode").
    + destruct (db_first "multiNodeMode" w2) as [x w3] eqn:E3.
      apply db_first_table in E3 as [Ht3 _].
      cbn. intros [= <- <-]. left. by rewrite Ht3, Ht2, Ht1.
    + intros [= <- <-]. left. by rewrite Ht2, Ht1.
  - destruct r2; [done|]. intros [= <- <-]. right. by rewrite Ht2, Ht1.
Qed.

Lemma getString_table key w r w' :
  getString defaultXrayTemplateConfig defaultSingBoxTemplateConfig key w
  = (r, w') ->
  table w' = table w
  /\ (forall v, r = Ok v ->
        v = default (default "" (defaultValueMap defaultXrayTemplateConfig
                                  defaultSingBoxTemplateConfig !! key))
              (table w !! key)).
Proof.
  unfold getString, getSetting.
  destruct (db_first key w) as [found w1] eqn:E1.
  apply db_first_table in E1 as [Ht1 Hv].
  destruct found as [[v|]|e].
  - intros [= <- <-]. split; [done|]. intros ? [= <-].
    by rewrite <- (Hv _ eq_refl).
  - rewrite <- (Hv _ eq_refl).
    destruct (defaultValueMap _ _ !! key); intros [= <- <-]; split; try done.
    by intros ? [= <-].
  - intros [= <- <-]. done.
Qed.

Lemma SetCoreType_table t w r w' :
  SetCoreType t w = (r, w') ->
  (r = Ok tt /\ core_type t /\ table w' = <["coreType" := t]> (table w))
  \/ (is_err r = true /\ table w' = table w).
Proof.
  unfold SetCoreType, setString.
  destruct (String.eqb t "xray") eqn:E1; cbn [negb andb].
  - intros [[-> ?] | ?]%saveSetting_table; [left|by right].
    apply String.eqb_eq in E1. split; [done|]. split; [by left|done].
  - destruct (String.eqb t "sing-box") eqn:E2; cbn [negb].
    + intros [[-> ?] | ?]%saveSetting_table; [left|by right].
      apply String.eqb_eq in E2. split; [done|]. split; [by right|done].
    + intros [= <- <-]. by right.
Qed.

(** With a valid stored type, [GetCoreType] only reads. *)
Lemma GetCoreType_table w t r w' :
  core_type (stored_type w) ->
  GetCoreType defaultXrayTemplateConfig defaultSingBoxTemplateConfig w
  = (t, r, w') ->
  table w' = table w /\ (r = Ok tt -> t = stored_type w).
Proof.
  intros Hv. unfold GetCoreType.
  destruct (getString _ _ "coreType" w) as [rv w1] eqn:E.
  apply getString_table in E as [Ht Hval].
  destruct rv as [ct|e]; [|intros [= <- <- <-]; done].
  specialize (Hval ct eq_refl).
  assert (ct = stored_type w) as ->.
  { rewrite Hval. unfold stored_type. by destruct (table w !! "coreType"). }
  assert (negb (String.eqb (stored_type w) "xray")
          && negb (String.eqb (stored_type w) "sing-box") = false) as ->.
  { by destruct Hv as [-> | ->]. }
  intros [= <- <- <-]. done.
Qed.

Lemma EnsureXray_frame w r w' k :
  EnsureXrayTemplateConfigValid TrimSpace decodesXrayConfig
    defaultXrayTemplateConfig w = (r, w') ->
  k <> "xrayTemplateConfig" -> table w' !! k = table w !! k.
Proof.
  intros H Hk. unfold EnsureXrayTemplateConfigValid in H.
  destruct (db_first "xrayTemplateConfig" w) as [cur w1] eqn:E1.
  apply db_first_table in E1 as [Ht1 _].
  assert (forall v r w', saveSetting "xrayTemplateConfig" v w1 = (r, w') ->
            table w' !! k = table w !! k) as Hsave.
  { intros v r0 w0 [[_ ->] | [_ ->]]%saveSetting_table; rewrite Ht1; [|done].
    by rewrite lookup_insert_ne. }
  destruct cur as [[cur|]|e]; [..|by injection H as <- <-; rewrite Ht1];
    [|by eapply Hsave].
  destruct (_ || _); [by eapply Hsave|].
  destruct (negb _); [by eapply Hsave|].
  injection H as <- <-. by rewrite Ht1.
Qed.

Lemma EnsureSingBox_frame w r w' k :
  EnsureSingBoxTemplateConfigValid TrimSpace Unmarshal
    defaultSingBoxTemplateConfig cleanedTemplate w = (r, w') ->
  k <> "singboxTemplateConfig" -> table w' !! k = table w !! k.
Proof.
  intros H Hk. unfold EnsureSingBoxTemplateConfigValid in H.
  destruct (db_first "singboxTemplateConfig" w) as [cur w1] eqn:E1.
  apply db_first_table in E1 as [Ht1 _].
  assert (forall v r w', saveSetting "singboxTemplateConfig" v w1 = (r, w') ->
            table w' !! k = table w !! k) as Hsave.
  { intros v r0 w0 [[_ ->] | [_ ->]]%saveSetting_table; rewrite Ht1; [|done].
    by rewrite lookup_insert_ne. }
  destruct cur as [[cur|]|e]; [..|by injection H as <- <-; rewrite Ht1];
    [|by eapply Hsave].
  destruct (_ || _); [by eapply Hsave|].
  destruct (Unmarshal _) as [cfg|]; [|by eapply Hsave].
  destruct (cleanedTemplate cfg); [by eapply Hsave|].
  injection H as <- <-. by rewrite Ht1.
Qed.

(** What one run of the validation makes of the stored template of a core:
    it keeps it, replaces it by the default or, for sing-box, by the template
    the clean-up passes leave. *)
Definition revalidated_xray (before after : option string) : Prop :=
  after = before \/ after = Some defaultXrayTemplateConfig.

Definition revalidated_singbox (before after : option string) : Prop :=
  after = before \/ after = Some defaultSingBoxTemplateConfig
  \/ exists current cfg cleanedJSON,
       before = Some current /\ Unmarshal (TrimSpace current) = Some cfg
       /\ cleanedTemplate cfg = Some cleanedJSON /\ after = Some cleanedJSON.

Lemma EnsureXray_own w r w' :
  EnsureXrayTemplateConfigValid TrimSpace decodesXrayConfig
    defaultXrayTemplateConfig w = (r, w') ->
  revalidated_xray (table w !! "xrayTemplateConfig")
    (table w' !! "xrayTemplateConfig").
Proof.
  intros H. unfold EnsureXrayTemplateConfigValid in H.
  destruct (db_first "xrayTemplateConfig" w) as [cur w1] eqn:E1.
  apply db_first_table in E1 as [Ht1 _].
  assert (forall r w',
            saveSetting "xrayTemplateConfig" defaultXrayTemplateConfig w1
            = (r, w') ->
            revalidated_xray (table w !! "xrayTemplateConfig")
              (table w' !! "xrayTemplateConfig")) as Hsave.
  { intros r0 w0 [[_ ->] | [_ ->]]%saveSetting_table; rewrite Ht1.
    - right. apply lookup_insert_eq.
    - by left. }
  destruct cur as [[cur|]|e];
    [..|by injection H as <- <-; left; rewrite Ht1]; [|by eapply Hsave].
  destruct (_ || _); [by eapply Hsave|].
  destruct (negb _); [by eapply Hsave|].
  injection H as <- <-. left. by rewrite Ht1.
Qed.

Lemma EnsureSingBox_own w r w' :
  EnsureSingBoxTemplateConfigValid TrimSpace Unmarshal
    defaultSingBoxTemplateConfig cleanedTemplate w = (r, w') ->
  revalidated_singbox (table w !! "singboxTemplateConfig")
    (table w' !! "singboxTemplateConfig").
Proof.
  intros H. unfold EnsureSingBoxTemplateConfigValid in H.
  destruct (db_first "singboxTemplateConfig" w) as [cur w1] eqn:E1.
  apply db_first_table in E1 as [Ht1 Hcur].
  assert (forall r w',
            saveSetting "singboxTemplateConfig" defaultSingBoxTemplateConfig w1
            = (r, w') ->
            revalidated_singbox (table w !! "singboxTemplateConfig")
              (table w' !! "singboxTemplateConfig")) as Hsave.
  { intros r0 w0 [[_ ->] | [_ ->]]%saveSetting_table; rewrite Ht1.
    - right. left. apply lookup_insert_eq.
    - by left. }
  destruct cur as [[cur|]|e];
    [..|by injection H as <- <-; left; rewrite Ht1]; [|by eapply Hsave].
  specialize (Hcur _ eq_refl).
  destruct (_ || _); [by eapply Hsave|].
  destruct (Unmarshal _) as [cfg|] eqn:Eu; [|by eapply Hsave].
  destruct (cleanedTemplate cfg) as [cleanedJSON|] eqn:Ec.
  - apply saveSetting_table in H as [[_ ->] | [_ ->]]; rewrite Ht1.
    + right. right. exists cur, cfg, cleanedJSON.
      split; [done|]. split; [done|]. split; [done|]. apply lookup_insert_eq.
    + by left.
  - injection H as <- <-. left. by rewrite Ht1.
Qed.

End SettingsFrames.

Section SwitchProperties.
Import Json Settings Switch.

Variable TrimSpace : string -> string.
Variable decodesXrayConfig : string -> bool.
Variable decodesSingBoxConfig : string -> bool.
Variable Unmarshal : string -> option (option (gmap string any)).
Variable MarshalIndentXray : XrayCfg.Config -> result string.
Variable MarshalIndentSingBox : SingBoxCfg.Config -> result string.
Variable defaultXrayTemplateConfig : string.
Variable defaultSingBoxTemplateConfig : string.
Variable cleanedTemplate : option (gmap string any) -> option string.
Variable answers : Answers.

(** The template setting of a core type. *)
Definition template_key (coreType : string) : string :=
  if String.eqb coreType "xray" then "xrayTemplateConfig"
  else "singboxTemplateConfig".

(** The text the switch persists: the marshalled translation of the
    configuration built for the current core. *)
Definition translated (oldType : string) : result string :=
  if String.eqb oldType "xray" then
    match xrayBuilt answers with
    | Ok c => match Translate.ConvertXrayToSingBox c with
              | Ok sb => MarshalIndentSingBox (clean_log sb)
              | Err e => Err e
              end
    | Err e => Err e
    end
  else
    match singboxBuilt answers with
    | Ok c => match Translate.ConvertSingBoxToXray c with
              | Ok x => MarshalIndentXray x
              | Err e => Err e
              end
    | Err e => Err e
    end.

Let Switch_ :=
  SwitchCoreWithConversion TrimSpace decodesXrayConfig decodesSingBoxConfig
    Unmarshal MarshalIndentXray MarshalIndentSingBox defaultXrayTemplateConfig
    defaultSingBoxTemplateConfig cleanedTemplate answers.

Let tbl (p : Panel) := table (settings p).

Lemma GetCoreType_panel p t r p' :
  core_type (stored_type (settings p)) ->
  Switch.GetCoreType defaultXrayTemplateConfig defaultSingBoxTemplateConfig p
  = (t, r, p') ->
  tbl p' = tbl p /\ (r = Ok tt -> t = stored_type (settings p)).
Proof.
  intros Hv. unfold Switch.GetCoreType.
  destruct (Settings.GetCoreType _ _ (settings p)) as [[t0 r0] w0] eqn:E.
  intros [= <- <- <-]. by eapply GetCoreType_table.
Qed.

Lemma stored_type_same p p' :
  tbl p' !! "coreType" = tbl p !! "coreType" ->
  stored_type (settings p') = stored_type (settings p).
Proof. unfold stored_type, tbl. by intros ->. Qed.

Lemma StopXray_tbl p : tbl (StopXray answers p) = tbl p.
Proof. unfold StopXray. by destruct (xrayStops answers). Qed.

Lemma StopSingBox_tbl p : tbl (StopSingBox answers p) = tbl p.
Proof. unfold StopSingBox. by destruct (singboxStops answers). Qed.

Lemma stop_cores_tbl newType p :
  core_type (stored_type (settings p)) ->
  tbl (stop_cores defaultXrayTemplateConfig defaultSingBoxTemplateConfig
         answers newType p) = tbl p.
Proof.
  intros Hv. unfold stop_cores.
  destruct (Switch.GetCoreType _ _ p) as [[t r] p1] eqn:E.
  apply GetCoreType_panel in E as [Ht _]; [|done].
  set (p2 := match r with Ok _ => _ | Err _ => _ end).
  assert (tbl p2 = tbl p) as H2.
  { subst p2. destruct r; [|done]. destruct (adapter_IsRunning t p1); [|done].
    unfold adapter_Stop. destruct (String.eqb t "sing-box");
      by rewrite ?StopSingBox_tbl, ?StopXray_tbl. }
  destruct (String.eqb newType "sing-box").
  - destruct (xrayRunning p2); by rewrite ?StopXray_tbl.
  - destruct (String.eqb newType "xray"); [|done].
    destruct (singboxRunning p2); by rewrite ?StopSingBox_tbl.
Qed.

(** Reading the configuration of the current core writes at most the
    template of that core, which it validates, and gives what the build
    gives. *)
Lemma GetXrayConfig_spec p r p' :
  GetXrayConfig TrimSpace decodesXrayConfig defaultXrayTemplateConfig
    defaultSingBoxTemplateConfig answers p = (r, p') ->
  (forall k, k <> "xrayTemplateConfig" -> tbl p' !! k = tbl p !! k)
  /\ (forall c, r = Ok c -> xrayBuilt answers = Ok c)
  /\ revalidated_xray defaultXrayTemplateConfig
       (tbl p !! "xrayTemplateConfig") (tbl p' !! "xrayTemplateConfig").
Proof.
  unfold GetXrayConfig.
  destruct (EnsureXrayTemplateConfigValid _ _ _ (settings p)) as [r1 w1] eqn:E1.
  destruct (GetXrayConfigTemplate _ _ w1) as [r2 w2] eqn:E2.
  unfold GetXrayConfigTemplate in E2. apply getString_table in E2 as [Ht2 _].
  assert (forall k, k <> "xrayTemplateConfig" ->
            table w2 !! k = tbl p !! k) as Hframe.
  { intros k Hk. rewrite Ht2. by eapply EnsureXray_frame. }
  assert (revalidated_xray defaultXrayTemplateConfig
            (tbl p !! "xrayTemplateConfig") (table w2 !! "xrayTemplateConfig"))
    as Hown.
  { rewrite Ht2. by eapply EnsureXray_own. }
  destruct r2 as [t|e]; [|by intros [= <- <-]].
  destruct (decodesXrayConfig t); intros [= <- <-]; done.
Qed.

Lemma GetSingBoxConfig_template_spec w r w' :
  GetSingBoxConfig_template TrimSpace decodesSingBoxConfig Unmarshal
    defaultXrayTemplateConfig defaultSingBoxTemplateConfig cleanedTemplate w
  = (r, w') ->
  (forall k, k <> "singboxTemplateConfig" -> table w' !! k = table w !! k)
  /\ revalidated_singbox TrimSpace Unmarshal defaultSingBoxTemplateConfig
       cleanedTemplate (table w !! "singboxTemplateConfig")
       (table w' !! "singboxTemplateConfig").
Proof.
  unfold GetSingBoxConfig_template.
  destruct (EnsureSingBoxTemplateConfigValid _ _ _ _ w) as [r1 w1] eqn:E1.
  destruct (GetSingBoxConfigTemplate _ _ w1) as [r2 w2] eqn:E2.
  unfold GetSingBoxConfigTemplate in E2. apply getString_table in E2 as [Ht2 _].
  assert (forall k, k <> "singboxTemplateConfig" ->
            table w2 !! k = table w !! k) as Hframe.
  { intros k Hk. rewrite Ht2. by eapply EnsureSingBox_frame. }
  assert (revalidated_singbox TrimSpace Unmarshal defaultSingBoxTemplateConfig
            cleanedTemplate (table w !! "singboxTemplateConfig")
            (table w2 !! "singboxTemplateConfig")) as Hown.
  { rewrite Ht2. by eapply EnsureSingBox_own. }
  destruct r2 as [t|e]; [|by intros [= <- <-]].
  destruct (decodesSingBoxConfig t); intros [= <- <-]; done.
Qed.

Lemma GetSingBoxConfig_spec p r p' :
  GetSingBoxConfig TrimSpace decodesSingBoxConfig Unmarshal
    defaultXrayTemplateConfig defaultSingBoxTemplateConfig cleanedTemplate
    answers p = (r, p') ->
  (forall k, k <> "singboxTemplateConfig" -> tbl p' !! k = tbl p !! k)
  /\ (forall c, r = Ok c -> singboxBuilt answers = Ok c)
  /\ revalidated_singbox TrimSpace Unmarshal defaultSingBoxTemplateConfig
       cleanedTemplate (tbl p !! "singboxTemplateConfig")
       (tbl p' !! "singboxTemplateConfig").
Proof.
  unfold GetSingBoxConfig, bind, on_settings.
  destruct (GetSingBoxConfig_template _ _ _ _ _ _ (settings p))
    as [r1 w1] eqn:E1.
  apply GetSingBoxConfig_template_spec in E1 as [Hf Hown].
  destruct r1 as [t|e]; intros [= <- <-]; done.
Qed.

(** What one run of the validation makes of the template of a core type. *)
Definition revalidated (coreType : string) (before after : option string)
    : Prop :=
  if String.eqb coreType "xray"
  then revalidated_xray defaultXrayTemplateConfig before after
  else revalidated_singbox TrimSpace Unmarshal defaultSingBoxTemplateConfig
         cleanedTemplate before after.

Lemma revalidated_same coreType before : revalidated coreType before before.
Proof. unfold revalidated. destruct (String.eqb coreType "xray"); by left. Qed.

Let Restart_ :=
  Restart TrimSpace decodesXrayConfig decodesSingBoxConfig Unmarshal
    defaultXrayTemplateConfig defaultSingBoxTemplateConfig cleanedTemplate
    answers.

(** The forced restart writes at most the template of the core it starts,
    which it validates once more, and succeeds only when its last phase
    does. *)
Lemma Restart_spec coreType p r p' :
  core_type coreType ->
  Restart_ coreType p = (r, p') ->
  (forall k, k <> template_key coreType -> tbl p' !! k = tbl p !! k)
  /\ revalidated coreType (tbl p !! template_key coreType)
       (tbl p' !! template_key coreType)
  /\ (r = Ok tt -> restarted answers = Ok tt).
Proof.
  subst Restart_. unfold Restart, revalidated, template_key.
  intros [-> | ->].
  - change (String.eqb "xray" "sing-box") with false.
    change (String.eqb "xray" "xray") with true. cbv iota.
    unfold RestartXray, bind.
    destruct (GetXrayConfig _ _ _ _ _ p) as [r1 p1] eqn:E1.
    apply GetXrayConfig_spec in E1 as (Hf & _ & Hown).
    destruct r1 as [c|e]; intros [= <- <-]; [|done].
    split; [done|]. split; [done|]. by destruct (restarted answers) as [[]|].
  - change (String.eqb "sing-box" "sing-box") with true.
    change (String.eqb "sing-box" "xray") with false. cbv iota.
    unfold RestartSingBox.
    destruct (GetMultiNodeMode _ _ (settings p)) as [multiMode w0] eqn:E0.
    unfold GetMultiNodeMode, getBool in E0.
    destruct (Settings.getString _ _ "multiNodeMode" (settings p))
      as [str w0'] eqn:Eg.
    apply getString_table in Eg as [Ht0 _].
    assert (table w0 = tbl p) as Hw0.
    { destruct str as [str|e]; [|by injection E0 as <- <-].
      destruct (String.eqb str "").
      - destruct (defaultValueMap _ _ !! "multiNodeMode");
          by injection E0 as <- <-.
      - by injection E0 as <- <-. }
    clear E0 Ht0.
    assert (forall r p',
              (let! _ := GetSingBoxConfig TrimSpace decodesSingBoxConfig
                           Unmarshal defaultXrayTemplateConfig
                           defaultSingBoxTemplateConfig cleanedTemplate
                           answers in
               fun p => (restarted answers,
                         mkPanel (settings p) (xrayRunning p)
                           (negb (is_err (restarted answers)))))
                (mkPanel w0 (xrayRunning p) (singboxRunning p)) = (r, p') ->
              (forall k, k <> "singboxTemplateConfig" ->
                 tbl p' !! k = tbl p !! k)
              /\ revalidated_singbox TrimSpace Unmarshal
                   defaultSingBoxTemplateConfig cleanedTemplate
                   (tbl p !! "singboxTemplateConfig")
                   (tbl p' !! "singboxTemplateConfig")
              /\ (r = Ok tt -> restarted answers = Ok tt)) as Hsingle.
    { intros r0 p0. unfold bind.
      destruct (GetSingBoxConfig _ _ _ _ _ _ _ _) as [r1 p1] eqn:E1.
      apply GetSingBoxConfig_spec in E1 as (Hf & _ & Hown).
      unfold tbl in *. cbn [settings] in Hf, Hown. rewrite Hw0 in Hf, Hown.
      destruct r1 as [c|e]; intros [= <- <-]; [|done].
      split; [done|]. split; [done|]. by destruct (restarted answers) as [[]|]. }
    destruct multiMode as [[|]|e]; [|by apply Hsingle..].
    unfold restartSingBoxMultiMode, bind, on_settings.
    destruct (nodesRead answers) as [[]|e].
    2:{ intros [= <- <-]. unfold tbl. cbn [settings]. rewrite Hw0.
        split; [done|]. split; [by left|done]. }
    cbn [settings].
    destruct (GetSingBoxConfig_template _ _ _ _ _ _ w0) as [r1 w1] eqn:E1.
    apply GetSingBoxConfig_template_spec in E1 as [Hf Hown].
    rewrite Hw0 in Hf, Hown.
    destruct r1 as [t|e]; intros [= <- <-]; [|done].
    split; [done|]. split; [done|]. by destruct (restarted answers) as [[]|].
Qed.

Lemma template_key_not_coreType coreType : "coreType" <> template_key coreType.
Proof. unfold template_key. by destruct (String.eqb coreType "xray"). Qed.

Lemma flip_and_restart_spec newType p r p' :
  flip_and_restart TrimSpace decodesXrayConfig decodesSingBoxConfig Unmarshal
    defaultXrayTemplateConfig defaultSingBoxTemplateConfig cleanedTemplate
    answers newType p = (r, p') ->
  (is_err r = true /\ tbl p' = tbl p)
  \/ (core_type newType
      /\ tbl p' !! "coreType" = Some newType
      /\ (forall k, k <> "coreType" -> k <> template_key newType ->
          tbl p' !! k = tbl p !! k)
      /\ revalidated newType (tbl p !! template_key newType)
           (tbl p' !! template_key newType)
      /\ (r = Ok tt -> restarted answers = Ok tt)).
Proof.
  unfold flip_and_restart, bind, Switch.SetCoreType, on_settings.
  destruct (Settings.SetCoreType newType (settings p)) as [r1 w1] eqn:E1.
  apply SetCoreType_table in E1 as [(-> & Hv & Ht) | [He Ht]].
  - destruct (Switch.GetCoreType _ _ _) as [[t r2] p2] eqn:E2.
    assert (stored_type w1 = newType) as Hst.
    { unfold stored_type. by rewrite Ht, lookup_insert_eq. }
    apply GetCoreType_panel in E2 as [Ht2 Htype].
    2:{ cbn [settings]. by rewrite Hst. }
    unfold tbl in *. cbn [settings] in Ht2, Htype.
    pose proof (template_key_not_coreType newType) as Hk.
    destruct r2 as [[]|e].
    + rewrite (Htype eq_refl), Hst.
      intros (Hf & Hown & Hr)%Restart_spec; [|done]. right.
      unfold tbl in *. rewrite Ht2, Ht in Hf, Hown.
      split; [done|]. split.
      { rewrite Hf by done. apply lookup_insert_eq. }
      split.
      { intros k Hk1 Hk2. rewrite Hf by done. by rewrite lookup_insert_ne. }
      split; [|done]. by rewrite lookup_insert_ne in Hown.
    + intros [= <- <-]. right. rewrite Ht2, Ht. split; [done|].
      split; [apply lookup_insert_eq|].
      split; [intros k ? ?; by rewrite lookup_insert_ne|].
      split; [|done]. rewrite lookup_insert_ne by done.
      apply revalidated_same.
  - destruct r1; [done|]. intros [= <- <-]. left. done.
Qed.

(** The template key and the text of a translated configuration. *)
Definition persisted (newConfig : CoreConfig) : string * result string :=
  match newConfig with
  | XrayConfig c => ("xrayTemplateConfig", MarshalIndentXray c)
  | SingBoxConfig c =>
      ("singboxTemplateConfig", MarshalIndentSingBox (clean_log c))
  end.

Lemma persist_spec newConfig p r p' :
  persist MarshalIndentXray MarshalIndentSingBox newConfig p = (r, p') ->
  (is_err r = true /\ tbl p' = tbl p)
  \/ (exists json,
        (persisted newConfig).2 = Ok json /\ r = Ok tt
        /\ tbl p' = <[(persisted newConfig).1 := json]> (tbl p)).
Proof.
  unfold persist, persisted, on_settings, fail.
  destruct newConfig as [c|c]; cbn [fst snd].
  - destruct (MarshalIndentXray c) as [json|e]; [|intros [= <- <-]; by left].
    destruct (saveSetting _ json (settings p)) as [r1 w1] eqn:E.
    apply saveSetting_table in E as [[-> Ht] | [He Ht]];
      intros [= <- <-]; [right; by exists json | by left].
  - destruct (MarshalIndentSingBox _) as [json|e]; [|intros [= <- <-]; by left].
    destruct (saveSetting _ json (settings p)) as [r1 w1] eqn:E.
    apply saveSetting_table in E as [[-> Ht] | [He Ht]];
      intros [= <- <-]; [right; by exists json | by left].
Qed.

Lemma convert_spec oldType newType cc p r p' :
  convert oldType newType cc p = (r, p') ->
  p' = p
  /\ forall nc, r = Ok nc ->
       (oldType = "xray" /\ newType = "sing-box"
        /\ exists c sb, cc = XrayConfig c
             /\ Translate.ConvertXrayToSingBox c = Ok sb
             /\ nc = SingBoxConfig sb)
       \/ (oldType = "sing-box" /\ newType = "xray"
           /\ exists c x, cc = SingBoxConfig c
                /\ Translate.ConvertSingBoxToXray c = Ok x
                /\ nc = XrayConfig x).
Proof.
  unfold convert, ret, fail. destruct cc as [c|c].
  - destruct (String.eqb oldType "xray") eqn:E1,
      (String.eqb newType "sing-box") eqn:E2; cbn [andb];
      try (intros [= <- <-]; done).
    apply String.eqb_eq in E1 as ->, E2 as ->.
    intros [= <- <-]. split; [done|]. intros nc [= <-]. left.
    split; [done|]. split; [done|]. by eexists _, _.
  - destruct (String.eqb oldType "sing-box") eqn:E1,
      (String.eqb newType "xray") eqn:E2; cbn [andb];
      try (intros [= <- <-]; done).
    apply String.eqb_eq in E1 as ->, E2 as ->.
    intros [= <- <-]. split; [done|]. intros nc [= <-]. right.
    split; [done|]. split; [done|]. by eexists _, _.
Qed.

Lemma read_current_spec oldType p r p' :
  core_type oldType ->
  read_current TrimSpace decodesXrayConfig decodesSingBoxConfig Unmarshal
    defaultXrayTemplateConfig defaultSingBoxTemplateConfig cleanedTemplate
    answers oldType p = (r, p') ->
  (forall k, k <> template_key oldType -> tbl p' !! k = tbl p !! k)
  /\ forall cc, r = Ok cc ->
       (oldType = "xray" /\ exists c, cc = XrayConfig c
                                     /\ xrayBuilt answers = Ok c)
       \/ (oldType = "sing-box" /\ exists c, cc = SingBoxConfig c
                                            /\ singboxBuilt answers = Ok c).
Proof.
  intros [-> | ->]; unfold read_current, bind, ret.
  - change (String.eqb "xray" "xray") with true. cbv beta iota.
    destruct (GetXrayConfig TrimSpace decodesXrayConfig
                defaultXrayTemplateConfig defaultSingBoxTemplateConfig answers
                p) as [r1 p1] eqn:E.
    apply GetXrayConfig_spec in E as (Hf & Hb & _).
    destruct r1 as [c|e]; cbv beta; intros [= <- <-]; (split; [done|]); [|done].
    intros cc [= <-]. left. split; [done|]. exists c. auto.
  - change (String.eqb "sing-box" "xray") with false.
    change (String.eqb "sing-box" "sing-box") with true. cbv beta iota.
    destruct (GetSingBoxConfig TrimSpace decodesSingBoxConfig Unmarshal
                defaultXrayTemplateConfig defaultSingBoxTemplateConfig
                cleanedTemplate answers p) as [r1 p1] eqn:E.
    apply GetSingBoxConfig_spec in E as (Hf & Hb & _).
    destruct r1 as [c|e]; cbv beta; intros [= <- <-]; (split; [done|]); [|done].
    intros cc [= <-]. right. split; [done|]. exists c. auto.
Qed.


Lemma template_key_ne oldType newType :
  core_type oldType -> core_type newType -> oldType <> newType ->
  template_key newType <> template_key oldType
  /\ "coreType" <> template_key oldType
  /\ "coreType" <> template_key newType.
Proof. intros [-> | ->] [-> | ->] ?; done. Qed.


End SwitchProperties.

Section SwitchExamples.
Import Json Settings Switch.

(** A panel on Xray, stand-ins for the library functions, and collaborators
    whose restart of the new core fails. *)
Definition panel_on_xray : Panel :=
  mkPanel
    (mkWorld
       (<["coreType" := "xray"]>
          (<["xrayTemplateConfig" := "stored xray template"]>
             {["singboxTemplateConfig" := "stored sing-box template"]}))
       [])
    true false.

Definition built_xray_config : XrayCfg.Config :=
  XrayCfg.mkConfig RawEmpty RawEmpty RawEmpty [] RawEmpty.

Definition restart_fails : Answers :=
  mkAnswers (Ok built_xray_config) (Ok empty_config) true true
    (Err "sing-box config validation failed") (Ok tt).

Definition build_fails : Answers :=
  mkAnswers (Err "failed to get inbounds") (Err "not read") true true (Ok tt)
    (Ok tt).

Definition all_works : Answers :=
  mkAnswers (Ok built_xray_config) (Ok empty_config) true true (Ok tt) (Ok tt).

Definition switch_with (answers : Answers) : string -> step unit :=
  SwitchCoreWithConversion (fun s => s) (fun _ => true) (fun _ => true)
    (fun _ => Some None) (fun _ => Ok "translated xray template")
    (fun _ => Ok "translated sing-box template") "default xray template"
    "default sing-box template" (fun _ => None) answers.


(** The restart of the new core validates the template the switch has just
    saved: when the clean-up passes change it, the template that is stored
    after a switch that succeeded is the cleaned one, not the marshalled
    translation. *)
Lemma restart_saves_the_template_again :
  exists p',
    SwitchCoreWithConversion (fun s => s) (fun _ => true) (fun _ => true)
      (fun _ => Some None) (fun _ => Ok "translated xray template")
      (fun _ => Ok "translated sing-box template") "default xray template"
      "default sing-box template"
      (fun _ => Some "cleaned sing-box template") all_works "sing-box"
      panel_on_xray = (Ok tt, p')
    /\ table (settings p') !! "coreType" = Some "sing-box"
    /\ table (settings p') !! "singboxTemplateConfig"
       = Some "cleaned sing-box template"
    /\ xrayRunning p' = false /\ singboxRunning p' = true.
Proof.
  eexists. split; [by vm_compute|]. by vm_compute.
Qed.


End SwitchExamples.

Section TrafficLaws.
Import Stats.

Lemma set_Down_twice (t : Traffic) v1 v2 :
  set_Down (set_Down t v1) v2 = set_Down t v2.
Proof. done. Qed.
Lemma set_Up_twice (t : Traffic) v1 v2 : set_Up (set_Up t v1) v2 = set_Up t v2.
Proof. done. Qed.
Lemma set_CDown_twice (t : ClientTraffic) v1 v2 :
  set_CDown (set_CDown t v1) v2 = set_CDown t v2.
Proof. done. Qed.
Lemma set_CUp_twice (t : ClientTraffic) v1 v2 :
  set_CUp (set_CUp t v1) v2 = set_CUp t v2.
Proof. done. Qed.

Lemma write_twice (b : bool) (t : Traffic) v1 v2 :
  (if b then set_Down (if b then set_Down t v1 else set_Up t v1) v2
   else set_Up (if b then set_Down t v1 else set_Up t v1) v2)
  = if b then set_Down t v2 else set_Up t v2.
Proof. by destruct b. Qed.

Lemma cwrite_twice (b : bool) (t : ClientTraffic) v1 v2 :
  (if b then set_CDown (if b then set_CDown t v1 else set_CUp t v1) v2
   else set_CUp (if b then set_CDown t v1 else set_CUp t v1) v2)
  = if b then set_CDown t v2 else set_CUp t v2.
Proof. by destruct b. Qed.

Lemma processTraffic_twice matches v1 v2 tm tm1 :
  Xray.processTraffic matches v1 tm = Some tm1 ->
  Xray.processTraffic matches v2 tm1 = Xray.processTraffic matches v2 tm.
Proof.
  unfold Xray.processTraffic.
  destruct matches as [|m0 [|m1 [|tag [|m3 rest]]]]; try done.
  destruct (String.eqb tag "api"); [by intros [= <-]|].
  intros [= <-]. rewrite lookup_insert_eq, insert_insert_eq. f_equal. f_equal.
  apply write_twice.
Qed.

Lemma processClientTraffic_twice matches v1 v2 em em1 :
  Xray.processClientTraffic matches v1 em = Some em1 ->
  Xray.processClientTraffic matches v2 em1
  = Xray.processClientTraffic matches v2 em.
Proof.
  unfold Xray.processClientTraffic.
  destruct matches as [|m0 [|email [|m2 rest]]]; try done.
  intros [= <-]. rewrite lookup_insert_eq, insert_insert_eq. f_equal. f_equal.
  apply cwrite_twice.
Qed.

Lemma processTraffic_Some matches v1 v2 tm tm' tm1 :
  Xray.processTraffic matches v1 tm = Some tm1 ->
  is_Some (Xray.processTraffic matches v2 tm').
Proof.
  unfold Xray.processTraffic.
  destruct matches as [|m0 [|m1 [|tag [|m3 rest]]]]; try done.
  by destruct (String.eqb tag "api").
Qed.

Lemma processClientTraffic_Some matches v1 v2 em em' em1 :
  Xray.processClientTraffic matches v1 em = Some em1 ->
  is_Some (Xray.processClientTraffic matches v2 em').
Proof.
  unfold Xray.processClientTraffic.
  by destruct matches as [|m0 [|email [|m2 rest]]].
Qed.

Lemma xray_body_eq tm em name v :
  Xray.loop_body (tm, em) (Xray.mkStat name v)
  = if (length (Xray.FindStringSubmatch Xray.trafficRegex_at name) =? 4)%nat
    then match Xray.processTraffic
                 (Xray.FindStringSubmatch Xray.trafficRegex_at name) v tm with
         | Some tm' => (tm', em)
         | None => (tm, em)
         end
    else if (length (Xray.FindStringSubmatch Xray.clientTrafficRegex_at name)
             =? 3)%nat
         then match Xray.processClientTraffic
                      (Xray.FindStringSubmatch Xray.clientTrafficRegex_at name)
                      v em with
              | Some em' => (tm, em')
              | None => (tm, em)
              end
         else (tm, em).
Proof. reflexivity. Qed.

Lemma singbox_body_eq tm em key v :
  SingBox.loop_body (tm, em) (key, v)
  = match SingBox.parseTrafficKey key with
    | None => (tm, em)
    | Some matches =>
        let type := SingBox.index matches "type" in
        let isDown :=
          String.eqb (SingBox.index matches "direction") "downlink" in
        if String.eqb type "inbound" || String.eqb type "outbound" then
          let tag := SingBox.index matches "tag" in
          let traffic :=
            default (mkTraffic (String.eqb type "inbound")
                       (negb (String.eqb type "inbound")) tag 0 0)
              (tm !! tag) in
          (<[tag := if isDown then set_Down traffic v else set_Up traffic v]> tm,
           em)
        else if String.eqb type "user" then
          let email := SingBox.index matches "email" in
          let clientTraffic :=
            default (Client.mkClientTraffic email 0 0) (em !! email) in
          (tm, <[email := if isDown then set_CDown clientTraffic v
                          else set_CUp clientTraffic v]> em)
        else (tm, em)
    end.
Proof.
  unfold SingBox.loop_body. destruct (SingBox.parseTrafficKey key); [|done].
  cbv zeta. repeat case_match; done.
Qed.

(** X1. Both clients assign the counter a stat names: a second stat of the
    same name replaces the value of the first, it is not added to it. *)
Theorem traffic_counters_are_assigned :
  (forall acc name v1 v2,
     Xray.loop_body (Xray.loop_body acc (Xray.mkStat name v1))
       (Xray.mkStat name v2)
     = Xray.loop_body acc (Xray.mkStat name v2))
  /\ (forall acc key v1 v2,
        SingBox.loop_body (SingBox.loop_body acc (key, v1)) (key, v2)
        = SingBox.loop_body acc (key, v2)).
Proof.
  split.
  - intros [tm em] name v1 v2. rewrite (xray_body_eq tm em name v1).
    rewrite (xray_body_eq tm em name v2).
    destruct (length (Xray.FindStringSubmatch Xray.trafficRegex_at name) =? 4)%nat
      eqn:E4.
    + destruct (Xray.processTraffic _ v1 tm) as [tm1|] eqn:E1.
      * rewrite xray_body_eq, E4.
        rewrite (processTraffic_twice _ v1 v2 tm tm1) by done.
        by destruct (processTraffic_Some _ v1 v2 tm tm tm1 E1) as [tm2 ->].
      * by rewrite xray_body_eq, E4.
    + destruct (length (Xray.FindStringSubmatch Xray.clientTrafficRegex_at name)
                =? 3)%nat eqn:E3.
      * destruct (Xray.processClientTraffic _ v1 em) as [em1|] eqn:E1.
        -- rewrite xray_body_eq, E4, E3.
           rewrite (processClientTraffic_twice _ v1 v2 em em1) by done.
           by destruct (processClientTraffic_Some _ v1 v2 em em em1 E1)
             as [em2 ->].
        -- by rewrite xray_body_eq, E4, E3.
      * by rewrite xray_body_eq, E4, E3.
  - intros [tm em] key v1 v2. rewrite (singbox_body_eq tm em key v1).
    rewrite (singbox_body_eq tm em key v2).
    destruct (SingBox.parseTrafficKey key) as [matches|] eqn:Ep;
      [|by rewrite singbox_body_eq, Ep].
    cbv zeta.
    destruct (String.eqb (SingBox.index matches "type") "inbound"
              || String.eqb (SingBox.index matches "type") "outbound") eqn:Et.
    + rewrite singbox_body_eq, Ep. cbv zeta. rewrite Et.
      rewrite lookup_insert_eq, insert_insert_eq.
      f_equal. f_equal. apply write_twice.
    + destruct (String.eqb (SingBox.index matches "type") "user") eqn:Eu.
      * rewrite singbox_body_eq, Ep. cbv zeta. rewrite Et, Eu.
        rewrite lookup_insert_eq, insert_insert_eq.
        f_equal. f_equal. apply cwrite_twice.
      * rewrite singbox_body_eq, Ep. cbv zeta. by rewrite Et, Eu.
Qed.

End TrafficLaws.

Section TrafficOrder.
Import Stats.

(** A well-formed entry of the stats object of sing-box. *)
Record Entry := mkEntry {
  entry_type : string;
  entry_id : string;
  entry_direction : string;
  entry_value : Z
}.

Definition entry_key (e : Entry) : string :=
  stat_key (entry_type e) (entry_id e) (entry_direction e).

Definition entry_pair (e : Entry) : string * Z := (entry_key e, entry_value e).

Definition well_formed (e : Entry) : Prop :=
  (is_tag_type (entry_type e) \/ entry_type e = "user")
  /\ no_gt (entry_id e) = true
  /\ is_direction (entry_direction e).

(** No tag is the tag of an inbound and of an outbound at once. *)
Definition one_type_per_tag (l : list Entry) : Prop :=
  forall x y, x ∈ l -> y ∈ l ->
    is_tag_type (entry_type x) -> is_tag_type (entry_type y) ->
    entry_id x = entry_id y -> entry_type x = entry_type y.

Lemma write_comm (b1 b2 : bool) (t : Traffic) v1 v2 :
  b1 <> b2 ->
  (if b2 then set_Down (if b1 then set_Down t v1 else set_Up t v1) v2
   else set_Up (if b1 then set_Down t v1 else set_Up t v1) v2)
  = (if b1 then set_Down (if b2 then set_Down t v2 else set_Up t v2) v1
     else set_Up (if b2 then set_Down t v2 else set_Up t v2) v1).
Proof. by destruct b1, b2. Qed.

Lemma cwrite_comm (b1 b2 : bool) (t : ClientTraffic) v1 v2 :
  b1 <> b2 ->
  (if b2 then set_CDown (if b1 then set_CDown t v1 else set_CUp t v1) v2
   else set_CUp (if b1 then set_CDown t v1 else set_CUp t v1) v2)
  = (if b1 then set_CDown (if b2 then set_CDown t v2 else set_CUp t v2) v1
     else set_CUp (if b2 then set_CDown t v2 else set_CUp t v2) v1).
Proof. by destruct b1, b2. Qed.

Lemma direction_eqb_ne d1 d2 :
  is_direction d1 -> is_direction d2 -> d1 <> d2 ->
  String.eqb d1 "downlink" <> String.eqb d2 "downlink".
Proof. by intros [-> | ->] [-> | ->]. Qed.

Lemma singbox_body_entry e tm em :
  well_formed e ->
  SingBox.loop_body (tm, em) (entry_pair e)
  = if bool_decide (entry_type e = "user")
    then (tm, <[entry_id e :=
                  if String.eqb (entry_direction e) "downlink"
                  then set_CDown (prev_client em (entry_id e)) (entry_value e)
                  else set_CUp (prev_client em (entry_id e)) (entry_value e)]> em)
    else (<[entry_id e :=
              if String.eqb (entry_direction e) "downlink"
              then set_Down (prev_traffic tm (entry_type e) (entry_id e))
                     (entry_value e)
              else set_Up (prev_traffic tm (entry_type e) (entry_id e))
                     (entry_value e)]> tm, em).
Proof.
  intros ([Hty | Hty] & Hid & Hdir); unfold entry_pair, entry_key.
  - rewrite bool_decide_eq_false_2 by (by destruct Hty as [-> | ->]).
    by apply singbox_body_tag.
  - rewrite Hty, bool_decide_eq_true_2 by done. by apply singbox_body_user.
Qed.

Lemma prev_traffic_insert tm ty id t :
  prev_traffic (<[id := t]> tm) ty id = t.
Proof. unfold prev_traffic. by rewrite lookup_insert_eq. Qed.

Lemma prev_traffic_insert_ne tm ty id id' t :
  id' <> id -> prev_traffic (<[id' := t]> tm) ty id = prev_traffic tm ty id.
Proof. intros. unfold prev_traffic. by rewrite lookup_insert_ne. Qed.

Lemma prev_client_insert em id c : prev_client (<[id := c]> em) id = c.
Proof. unfold prev_client. by rewrite lookup_insert_eq. Qed.

Lemma prev_client_insert_ne em id id' c :
  id' <> id -> prev_client (<[id' := c]> em) id = prev_client em id.
Proof. intros. unfold prev_client. by rewrite lookup_insert_ne. Qed.

(** Two turns of the loop on entries that differ can be swapped. *)
Lemma singbox_body_comm x y acc :
  well_formed x -> well_formed y ->
  entry_key x <> entry_key y ->
  (is_tag_type (entry_type x) -> is_tag_type (entry_type y) ->
   entry_id x = entry_id y -> entry_type x = entry_type y) ->
  SingBox.loop_body (SingBox.loop_body acc (entry_pair x)) (entry_pair y)
  = SingBox.loop_body (SingBox.loop_body acc (entry_pair y)) (entry_pair x).
Proof.
  intros Hx Hy Hne Hty. destruct acc as [tm em].
  rewrite (singbox_body_entry x tm em Hx), (singbox_body_entry y tm em Hy).
  destruct x as [tx ix dx vx], y as [ty iy dy vy].
  unfold entry_key in Hne. cbn [entry_type entry_id entry_direction entry_value] in *.
  destruct Hx as (Htx & Hix & Hdx), Hy as (Hty' & Hiy & Hdy).
  cbn [entry_type entry_id entry_direction] in *.
  assert (forall t i d v, (is_tag_type t \/ t = "user") -> no_gt i = true ->
            is_direction d -> well_formed (mkEntry t i d v)) as Hwf
    by (by intros; repeat split).
  case_bool_decide as Ex; case_bool_decide as Ey.
  - (* both users *)
    subst tx ty.
    rewrite !singbox_body_entry by (apply Hwf; auto).
    cbn [entry_type entry_id entry_direction entry_value].
    rewrite !bool_decide_eq_true_2 by done.
    destruct (decide (ix = iy)) as [<- | Hi].
    + rewrite !prev_client_insert, !insert_insert_eq. f_equal. f_equal.
      apply cwrite_comm, direction_eqb_ne; [done..|]. congruence.
    + rewrite !prev_client_insert_ne by done.
      f_equal. by apply insert_insert_ne.
  - subst tx.
    rewrite !singbox_body_entry by (apply Hwf; auto).
    cbn [entry_type entry_id entry_direction entry_value].
    rewrite (bool_decide_eq_true_2 ("user" = "user")) by done.
    by rewrite (bool_decide_eq_false_2 (ty = "user")) by done.
  - subst ty.
    rewrite !singbox_body_entry by (apply Hwf; auto).
    cbn [entry_type entry_id entry_direction entry_value].
    rewrite (bool_decide_eq_true_2 ("user" = "user")) by done.
    by rewrite (bool_decide_eq_false_2 (tx = "user")) by done.
  - destruct Htx as [Htx | ?]; [|done]. destruct Hty' as [Hty' | ?]; [|done].
    rewrite !singbox_body_entry by (apply Hwf; auto).
    cbn [entry_type entry_id entry_direction entry_value].
    rewrite !bool_decide_eq_false_2 by done.
    destruct (decide (ix = iy)) as [<- | Hi].
    + specialize (Hty Htx Hty' eq_refl) as <-.
      rewrite !prev_traffic_insert, !insert_insert_eq. f_equal. f_equal.
      apply write_comm, direction_eqb_ne; [done..|]. congruence.
    + rewrite !prev_traffic_insert_ne by done.
      f_equal. by apply insert_insert_ne.
Qed.

Lemma one_type_per_tag_perm l l' :
  l ≡ₚ l' -> one_type_per_tag l -> one_type_per_tag l'.
Proof.
  intros Hp H x y Hx Hy. apply H; by rewrite Hp.
Qed.

Lemma fold_body_perm l l' acc :
  l ≡ₚ l' ->
  Forall well_formed l -> NoDup (entry_key <$> l) -> one_type_per_tag l ->
  fold_left SingBox.loop_body (entry_pair <$> l) acc
  = fold_left SingBox.loop_body (entry_pair <$> l') acc.
Proof.
  intros Hp. revert acc.
  induction Hp as [|x l l' Hp IH|x y l|l l' l'' Hp1 IH1 Hp2 IH2];
    intros acc Hwf Hnd Hone.
  - done.
  - cbn [fmap list_fmap fold_left]. apply IH.
    + by apply Forall_inv_tail in Hwf.
    + rewrite fmap_cons in Hnd. by apply NoDup_cons in Hnd as [_ ?].
    + intros a b Ha Hb. apply Hone; by right.
  - cbn [fmap list_fmap fold_left]. f_equal.
    rewrite !fmap_cons in Hnd.
    apply NoDup_cons in Hnd as [Hy _].
    apply Forall_cons in Hwf as [Hwy Hwf]. apply Forall_cons in Hwf as [Hwx _].
    apply singbox_body_comm; [done..| |].
    + intros E. apply Hy. rewrite E. by left.
    + intros H1 H2 E. apply Hone; [by left|by right; left|done..].
  - rewrite IH1 by done. apply IH2.
    + by rewrite <- Hp1.
    + by rewrite <- Hp1.
    + by apply (one_type_per_tag_perm l).
Qed.

Lemma GetTraffic_perm l l' :
  Forall well_formed l -> NoDup (entry_key <$> l) -> one_type_per_tag l ->
  l ≡ₚ l' ->
  SingBox.GetTraffic true (SingBox.Status 200 (Ok (Ok (entry_pair <$> l))))
  = SingBox.GetTraffic true (SingBox.Status 200 (Ok (Ok (entry_pair <$> l')))).
Proof.
  intros Hwf Hnd Hone Hp. unfold SingBox.GetTraffic.
  cbn [negb Z.eqb Pos.eqb]. by rewrite (fold_body_perm l l' _ Hp).
Qed.

(** X2. The statistics object of sing-box is a Go map, which the client
    ranges over in no fixed order.  For well-formed entries under distinct
    keys the records returned do not depend on that order, as long as no tag
    names an inbound and an outbound at once; when one does, the order decides
    whether the record of that tag is an inbound or an outbound. *)
Theorem singbox_traffic_order :
  (forall l l',
     Forall well_formed l -> NoDup (entry_key <$> l) -> one_type_per_tag l ->
     l ≡ₚ l' ->
     SingBox.GetTraffic true (SingBox.Status 200 (Ok (Ok (entry_pair <$> l))))
     = SingBox.GetTraffic true
         (SingBox.Status 200 (Ok (Ok (entry_pair <$> l')))))
  /\ (exists l l',
        Forall well_formed l /\ NoDup (entry_key <$> l) /\ l ≡ₚ l'
        /\ SingBox.GetTraffic true
             (SingBox.Status 200 (Ok (Ok (entry_pair <$> l))))
           <> SingBox.GetTraffic true
                (SingBox.Status 200 (Ok (Ok (entry_pair <$> l'))))).
Proof.
  split; [apply GetTraffic_perm|].
  exists [mkEntry "inbound" "t" "uplink" 1; mkEntry "outbound" "t" "downlink" 2],
         [mkEntry "outbound" "t" "downlink" 2; mkEntry "inbound" "t" "uplink" 1].
  split.
  { constructor; [|constructor; [|constructor]];
      (split; [left; unfold is_tag_type; cbn; auto
              |split; [done|unfold is_direction; cbn; auto]]). }
  split.
  { apply NoDup_cons. split; [|apply NoDup_singleton].
    intros H%list_elem_of_singleton. by vm_compute in H. }
  split; [apply Permutation_swap|].
  by vm_compute.
Qed.

Lemma singbox_traffic_order_witness :
  SingBox.GetTraffic true
    (SingBox.Status 200
       (Ok (Ok [("inbound>>>in-1>>>traffic>>>uplink", 5);
                ("user>>>alice@example.com>>>traffic>>>downlink", 7)])))
  = SingBox.GetTraffic true
      (SingBox.Status 200
         (Ok (Ok [("user>>>alice@example.com>>>traffic>>>downlink", 7);
                  ("inbound>>>in-1>>>traffic>>>uplink", 5)]))).
Proof.
  refine (proj1 singbox_traffic_order
            [mkEntry "inbound" "in-1" "uplink" 5;
             mkEntry "user" "alice@example.com" "downlink" 7]
            [mkEntry "user" "alice@example.com" "downlink" 7;
             mkEntry "inbound" "in-1" "uplink" 5] _ _ _ _).
  - constructor; [|constructor; [|constructor]].
    + split; [left; left; reflexivity|split; [reflexivity|right; reflexivity]].
    + split; [right; reflexivity|split; [reflexivity|left; reflexivity]].
  - apply NoDup_cons. split; [|apply NoDup_singleton].
    intros H%list_elem_of_singleton. by vm_compute in H.
  - intros x y Hx Hy Tx Ty _.
    apply elem_of_cons in Hx as [-> | Hx%list_elem_of_singleton];
      apply elem_of_cons in Hy as [-> | Hy%list_elem_of_singleton];
      subst; try done; by destruct Tx as [Tx | Tx], Ty as [Ty | Ty].
  - apply Permutation_swap.
Defined.

End TrafficOrder.

Section TrafficKeys.
Import Stats.

(** The pieces of a key, put together with the separator the code splits
    at. *)
Fixpoint joined (parts : list string) : string :=
  match parts with
  | [] => ""
  | [p] => p
  | p :: rest => p +:+ ">>>" +:+ joined rest
  end.

Lemma Split_joined parts :
  parts <> [] -> Forall (fun p => no_gt p = true) parts ->
  SingBox.Split "" (joined parts) = parts.
Proof.
  induction parts as [|p [|q rest] IH]; intros Hne Hall; [done| |].
  - apply Forall_inv in Hall. cbn [joined]. by rewrite Split_no_gt.
  - change (joined (p :: q :: rest)) with (p +:+ ">>>" +:+ joined (q :: rest)).
    rewrite (Split_app "" p) by (by apply Forall_inv in Hall).
    rewrite IH; [done..|]. by apply Forall_inv_tail in Hall.
Qed.

Lemma parse_four a b c d :
  no_gt a = true -> no_gt b = true -> no_gt c = true -> no_gt d = true ->
  SingBox.parseTrafficKey (joined [a; b; c; d])
  = Some (let result : gmap string string := {["type" := a]} in
          let result :=
            if String.eqb a "inbound" || String.eqb a "outbound"
            then <["tag" := b]> result
            else if String.eqb a "user" then <["email" := b]> result
                 else result in
          if String.eqb c "traffic" then <["direction" := d]> result
          else result).
Proof.
  intros. unfold SingBox.parseTrafficKey.
  rewrite Split_joined by (done || by repeat constructor). done.
Qed.

(** X3. The sing-box client splits a key at every [>>>].  A key of other
    than four pieces is ignored.  A key of four pieces that starts with
    [inbound], [outbound] or [user] is always counted: into the down counter
    when its last two pieces are [traffic] and [downlink], and into the up
    counter in every other case, whatever those pieces are. *)
Theorem singbox_key_parsing :
  (forall parts,
     parts <> [] -> Forall (fun p => no_gt p = true) parts ->
     SingBox.Split "" (joined parts) = parts)
  /\ (forall parts v acc,
        Forall (fun p => no_gt p = true) parts -> length parts <> 4%nat ->
        SingBox.loop_body acc (joined parts, v) = acc)
  /\ (forall ty tag p2 p3 v tm em,
        is_tag_type ty ->
        no_gt tag = true -> no_gt p2 = true -> no_gt p3 = true ->
        SingBox.loop_body (tm, em) (joined [ty; tag; p2; p3], v)
        = (<[tag := if String.eqb p2 "traffic" && String.eqb p3 "downlink"
                    then set_Down (prev_traffic tm ty tag) v
                    else set_Up (prev_traffic tm ty tag) v]> tm, em))
  /\ (forall email p2 p3 v tm em,
        no_gt email = true -> no_gt p2 = true -> no_gt p3 = true ->
        SingBox.loop_body (tm, em) (joined ["user"; email; p2; p3], v)
        = (tm, <[email := if String.eqb p2 "traffic" && String.eqb p3 "downlink"
                          then set_CDown (prev_client em email) v
                          else set_CUp (prev_client em email) v]> em)).
Proof.
  repeat apply conj.
  - apply Split_joined.
  - intros parts v [tm em] Hall Hlen. unfold SingBox.loop_body.
    unfold SingBox.parseTrafficKey.
    destruct parts as [|p rest].
    + done.
    + rewrite Split_joined by done.
      apply Nat.eqb_neq in Hlen. by rewrite Hlen.
  - intros ty tag p2 p3 v tm em Hty Htag H2 H3. unfold SingBox.loop_body.
    rewrite parse_four by (done || by apply is_tag_type_no_gt).
    cbv zeta. unfold prev_traffic.
    destruct Hty as [-> | ->]; cbn [String.eqb orb];
      destruct (String.eqb p2 "traffic") eqn:E2; unfold SingBox.index;
      simplify_map_eq; cbn [andb]; by destruct (tm !! tag).
  - intros email p2 p3 v tm em He H2 H3. unfold SingBox.loop_body.
    rewrite parse_four by done.
    cbv zeta. unfold prev_client.
    destruct (String.eqb p2 "traffic") eqn:E2; unfold SingBox.index;
      simplify_map_eq; cbn [andb]; by destruct (em !! email).
Qed.

Lemma singbox_key_parsing_witness :
  SingBox.loop_body (∅, ∅) ("inbound>>>in-1>>>speed>>>downlink", 7)
  = (<["in-1" := set_Up (prev_traffic ∅ "inbound" "in-1") 7]> ∅, ∅).
Proof.
  refine (proj1 (proj2 (proj2 singbox_key_parsing))
            "inbound" "in-1" "speed" "downlink" 7 ∅ ∅ _ _ _ _).
  - left. reflexivity.
  - reflexivity.
  - reflexivity.
  - reflexivity.
Defined.

End TrafficKeys.

Section TrafficRecords.
Import Stats.

(** Every record sits under its own tag and is an inbound or an outbound, not
    both; every client record sits under its own email. *)
Definition records_inv (acc : gmap string Traffic * gmap string ClientTraffic)
    : Prop :=
  (forall k t, acc.1 !! k = Some t ->
     Tag t = k /\ IsOutbound t = negb (IsInbound t))
  /\ (forall k c, acc.2 !! k = Some c -> Client.Email c = k).

Lemma write_keeps (b : bool) (t : Traffic) v :
  let t' := if b then set_Down t v else set_Up t v in
  Tag t' = Tag t /\ IsInbound t' = IsInbound t /\ IsOutbound t' = IsOutbound t.
Proof. by destruct b. Qed.

Lemma cwrite_keeps (b : bool) (c : ClientTraffic) v :
  Client.Email (if b then set_CDown c v else set_CUp c v) = Client.Email c.
Proof. by destruct b. Qed.

Lemma records_inv_tag tm em tag (b isIn : bool) v :
  records_inv (tm, em) ->
  records_inv
    (<[tag := if b then set_Down (default (mkTraffic isIn (negb isIn) tag 0 0)
                                    (tm !! tag)) v
              else set_Up (default (mkTraffic isIn (negb isIn) tag 0 0)
                             (tm !! tag)) v]> tm, em).
Proof.
  intros [Ht Hc]. split; [|done]. intros k t. cbn [fst].
  destruct (decide (k = tag)) as [-> | Hk].
  - rewrite lookup_insert_eq. intros [= <-].
    destruct (write_keeps b (default (mkTraffic isIn (negb isIn) tag 0 0)
                               (tm !! tag)) v) as (-> & -> & ->).
    destruct (tm !! tag) as [t0|] eqn:E; [by apply Ht|done].
  - rewrite lookup_insert_ne by done. apply Ht.
Qed.

Lemma records_inv_client tm em email (b : bool) v :
  records_inv (tm, em) ->
  records_inv
    (tm, <[email := if b then set_CDown (default (Client.mkClientTraffic email 0 0)
                                           (em !! email)) v
                    else set_CUp (default (Client.mkClientTraffic email 0 0)
                                    (em !! email)) v]> em).
Proof.
  intros [Ht Hc]. split; [done|]. intros k c. cbn [snd].
  destruct (decide (k = email)) as [-> | Hk].
  - rewrite lookup_insert_eq. intros [= <-]. rewrite cwrite_keeps.
    destruct (em !! email) as [c0|] eqn:E; [by apply Hc|done].
  - rewrite lookup_insert_ne by done. apply Hc.
Qed.

Lemma xray_body_records acc stat :
  records_inv acc -> records_inv (Xray.loop_body acc stat).
Proof.
  destruct acc as [tm em], stat as [name v]. intros Hinv.
  unfold Xray.loop_body. cbn [Xray.Name Xray.Value].
  destruct (_ =? 4)%nat.
  - unfold Xray.processTraffic.
    destruct (Xray.FindStringSubmatch Xray.trafficRegex_at name)
      as [|m0 [|m1 [|tag [|m3 rest]]]]; try done.
    destruct (String.eqb tag "api"); [done|].
    pose proof (records_inv_tag tm em tag (String.eqb m3 "downlink")
                  (String.eqb m1 "inbound") v Hinv) as H.
    by destruct (tm !! tag).
  - destruct (_ =? 3)%nat; [|done].
    unfold Xray.processClientTraffic.
    destruct (Xray.FindStringSubmatch Xray.clientTrafficRegex_at name)
      as [|m0 [|email [|m2 rest]]]; try done.
    pose proof (records_inv_client tm em email (String.eqb m2 "downlink") v Hinv)
      as H.
    by destruct (em !! email).
Qed.

Lemma singbox_body_records acc kv :
  records_inv acc -> records_inv (SingBox.loop_body acc kv).
Proof.
  destruct acc as [tm em], kv as [key v]. intros Hinv.
  unfold SingBox.loop_body.
  destruct (SingBox.parseTrafficKey key) as [matches|]; [|done].
  destruct (_ || _).
  - pose proof (records_inv_tag tm em (SingBox.index matches "tag")
                  (String.eqb (SingBox.index matches "direction") "downlink")
                  (String.eqb (SingBox.index matches "type") "inbound") v Hinv)
      as H.
    by destruct (tm !! SingBox.index matches "tag").
  - destruct (String.eqb _ "user"); [|done].
    pose proof (records_inv_client tm em (SingBox.index matches "email")
                  (String.eqb (SingBox.index matches "direction") "downlink")
                  v Hinv) as H.
    by destruct (em !! SingBox.index matches "email").
Qed.

Lemma fold_records {A} (body : _ -> A -> _) l acc :
  (forall acc x, records_inv acc -> records_inv (body acc x)) ->
  records_inv acc -> records_inv (fold_left body l acc).
Proof.
  intros Hbody. revert acc. induction l as [|x l IH]; intros acc H; [done|].
  cbn [fold_left]. by apply IH, Hbody.
Qed.

Lemma records_inv_empty : records_inv (∅, ∅).
Proof. split; intros k x; cbn; by rewrite lookup_empty. Qed.

Lemma mapToSlice_keys {T} (key : T -> string) (m : gmap string T) :
  (forall k x, m !! k = Some x -> key x = k) ->
  key <$> mapToSlice m = (map_to_list m).*1.
Proof.
  intros H. unfold mapToSlice. rewrite <- list_fmap_compose.
  apply list_fmap_ext. intros i [k x] Hi. cbn.
  apply H. apply elem_of_map_to_list. by eapply list_elem_of_lookup_2.
Qed.

Lemma records_of_maps tm em :
  records_inv (tm, em) ->
  NoDup (Tag <$> mapToSlice tm)
  /\ NoDup (Client.Email <$> mapToSlice em)
  /\ (forall t, t ∈ mapToSlice tm -> IsOutbound t = negb (IsInbound t)).
Proof.
  intros [Ht Hc]. cbn [fst snd] in *. repeat split.
  - rewrite (mapToSlice_keys Tag tm); [apply NoDup_fst_map_to_list|].
    intros k t H. by apply Ht.
  - rewrite (mapToSlice_keys Client.Email em); [apply NoDup_fst_map_to_list|].
    done.
  - intros t [k H]%elem_of_mapToSlice. by apply Ht in H as [_ ?].
Qed.

(** X4. In what either client returns, no two records share a tag, no two
    client records share an email, and every record is marked as an inbound
    or as an outbound, never as both or as neither. *)
Theorem traffic_records_are_distinct :
  (forall x resp ts cs,
     Xray.GetTraffic x resp = Ok (ts, cs) ->
     NoDup (Tag <$> ts) /\ NoDup (Client.Email <$> cs)
     /\ (forall t, t ∈ ts -> IsOutbound t = negb (IsInbound t)))
  /\ (forall connected answer ts cs,
        SingBox.GetTraffic connected answer = Ok (ts, cs) ->
        NoDup (Tag <$> ts) /\ NoDup (Client.Email <$> cs)
        /\ (forall t, t ∈ ts -> IsOutbound t = negb (IsInbound t))).
Proof.
  split.
  - intros x resp ts cs. unfold Xray.GetTraffic.
    destruct (negb _); [done|]. destruct (negb _); [done|].
    destruct resp as [stats|e]; [|done].
    pose proof (fold_records Xray.loop_body stats (∅, ∅) xray_body_records
                  records_inv_empty) as H.
    destruct (fold_left Xray.loop_body stats (∅, ∅)) as [tm em].
    intros [= <- <-]. by apply records_of_maps.
  - intros connected answer ts cs. unfold SingBox.GetTraffic.
    destruct (negb _); [done|]. destruct answer as [e|code body]; [done|].
    destruct (negb _); [done|]. destruct body as [[stats|e]|e]; [|done..].
    pose proof (fold_records SingBox.loop_body stats (∅, ∅) singbox_body_records
                  records_inv_empty) as H.
    destruct (fold_left SingBox.loop_body stats (∅, ∅)) as [tm em].
    intros [= <- <-]. by apply records_of_maps.
Qed.

Lemma traffic_records_are_distinct_witness :
  NoDup (Tag <$> [mkTraffic true false "in-1" 5 0])
  /\ NoDup (Client.Email <$> [Client.mkClientTraffic "alice@example.com" 0 7])
  /\ (forall t, t ∈ [mkTraffic true false "in-1" 5 0] ->
      IsOutbound t = negb (IsInbound t)).
Proof.
  refine (proj2 traffic_records_are_distinct true
            (SingBox.Status 200
               (Ok (Ok [("inbound>>>in-1>>>traffic>>>uplink", 5);
                        ("user>>>alice@example.com>>>traffic>>>downlink", 7)])))
            [mkTraffic true false "in-1" 5 0]
            [Client.mkClientTraffic "alice@example.com" 0 7] _).
  by vm_compute.
Defined.

End TrafficRecords.

Section OutboundTranslation.
Import Json Translate.

(** The sing-box name of an Xray outbound protocol. *)
Definition outbound_type (protocol : string) : string :=
  if String.eqb protocol "freedom" then "direct"
  else if String.eqb protocol "blackhole" then "block"
  else protocol.

Lemma str_field_Some (m : gmap string any) k s :
  str_field m k = Some s <-> m !! k = Some (Str s).
Proof.
  unfold str_field. destruct (m !! k) as [[]|]; split; congruence.
Qed.

Lemma map_field_Some (m : gmap string any) k x :
  map_field m k = Some x <-> m !! k = Some (Map x).
Proof.
  unfold map_field. destruct (m !! k) as [[]|]; split; congruence.
Qed.

Lemma str_field_insert (m : gmap string any) k k' v :
  str_field (<[k' := v]> m) k
  = if decide (k' = k) then match v with Str s => Some s | _ => None end
    else str_field m k.
Proof.
  unfold str_field. destruct (decide (k' = k)) as [-> | H].
  - by rewrite lookup_insert_eq.
  - by rewrite lookup_insert_ne.
Qed.

Lemma str_field_delete (m : gmap string any) k k' :
  str_field (delete k' m) k = if decide (k' = k) then None else str_field m k.
Proof.
  unfold str_field. destruct (decide (k' = k)) as [-> | H].
  - by rewrite lookup_delete_eq.
  - by rewrite lookup_delete_ne.
Qed.

Lemma map_field_insert (m : gmap string any) k k' v :
  map_field (<[k' := v]> m) k
  = if decide (k' = k) then match v with Map x => Some x | _ => None end
    else map_field m k.
Proof.
  unfold map_field. destruct (decide (k' = k)) as [-> | H].
  - by rewrite lookup_insert_eq.
  - by rewrite lookup_insert_ne.
Qed.

Lemma map_field_delete (m : gmap string any) k k' :
  map_field (delete k' m) k = if decide (k' = k) then None else map_field m k.
Proof.
  unfold map_field. destruct (decide (k' = k)) as [-> | H].
  - by rewrite lookup_delete_eq.
  - by rewrite lookup_delete_ne.
Qed.

(** The last step on an outbound: a string [domainStrategy] of the settings
    object moves to the outbound. *)
Definition move_domain_strategy (m : gmap string any) : gmap string any :=
  match map_field m "settings" with
  | Some settings =>
      match str_field settings "domainStrategy" with
      | Some domainStrategy =>
          <["settings" := Map (delete "domainStrategy" settings)]>
            (<["domain_strategy" := Str domainStrategy]> m)
      | None => m
      end
  | None => m
  end.

Lemma move_domain_strategy_settings m settings :
  map_field (move_domain_strategy m) "settings" = Some settings ->
  str_field settings "domainStrategy" = None.
Proof.
  unfold move_domain_strategy.
  destruct (map_field m "settings") as [s0|] eqn:E; [|by rewrite E].
  destruct (str_field s0 "domainStrategy") as [ds|] eqn:E'.
  - rewrite map_field_insert. rewrite decide_True by done. intros [= <-].
    rewrite str_field_delete. by rewrite decide_True.
  - rewrite E. by intros [= <-].
Qed.

Lemma move_domain_strategy_other m k :
  k <> "settings" -> k <> "domain_strategy" ->
  move_domain_strategy m !! k = m !! k.
Proof.
  intros H1 H2. unfold move_domain_strategy.
  destruct (map_field m "settings") as [s0|]; [|done].
  destruct (str_field s0 "domainStrategy"); [|done].
  by rewrite !lookup_insert_ne.
Qed.

Lemma convert_outbound_named m p :
  str_field m "protocol" = Some p ->
  String.eqb p "tun" || String.eqb p "tunnel" = false ->
  exists m1,
    convert_outbound (Some m) = Some (Some (move_domain_strategy m1))
    /\ m1 !! "protocol" = None
    /\ m1 !! "type" = Some (Str (outbound_type p))
    /\ (p = "blackhole" -> m1 !! "settings" = Some (Map ∅))
    /\ (p = "freedom" -> move_domain_strategy m1 = m1)
    /\ (forall k, k <> "protocol" -> k <> "type" -> k <> "settings" ->
        m1 !! k = m !! k).
Proof.
  intros Hp Htun. unfold convert_outbound. rewrite Hp, Htun.
  unfold outbound_type.
  destruct (String.eqb p "freedom") eqn:Ef.
  - set (m0 := match map_field (<["protocol" := Str "direct"]> m) "settings" with
               | Some settings => _
               | None => _
               end).
    assert (str_field m0 "protocol" = Some "direct") as Hm0.
    { subst m0. destruct (map_field _ "settings").
      - rewrite str_field_insert, decide_False by done.
        by rewrite str_field_insert, decide_True.
      - by rewrite str_field_insert, decide_True. }
    assert (forall k, k <> "protocol" -> k <> "settings" -> m0 !! k = m !! k)
      as Hother.
    { intros k H1 H2. subst m0. destruct (map_field _ "settings");
        by rewrite ?lookup_insert_ne. }
    rewrite Hm0. eexists. split; [reflexivity|].
    split; [by rewrite lookup_delete_eq|].
    split; [by rewrite lookup_delete_ne, lookup_insert_eq|].
    split; [by intros ->|].
    split.
    + intros _. unfold move_domain_strategy.
      rewrite map_field_delete, decide_False by done.
      rewrite map_field_insert, decide_False by done.
      subst m0. rewrite map_field_insert, decide_False by done.
      destruct (map_field m "settings") as [settings|] eqn:Es.
      * rewrite map_field_insert, decide_True by done.
        rewrite !str_field_delete.
        rewrite (decide_False (P := "noises" = "domainStrategy")) by done.
        rewrite (decide_False (P := "redirect" = "domainStrategy")) by done.
        by rewrite decide_True.
      * rewrite map_field_insert, decide_False by done. by rewrite Es.
    + intros k H1 H2 H3. rewrite lookup_delete_ne, lookup_insert_ne by done.
      by apply Hother.
  - destruct (String.eqb p "blackhole") eqn:Eb.
    + rewrite str_field_insert, decide_False by done.
      rewrite str_field_insert, decide_True by done.
      eexists. split; [reflexivity|].
      split; [by rewrite lookup_delete_eq|].
      split; [by rewrite lookup_delete_ne, lookup_insert_eq|].
      split.
      { intros _.
        by rewrite lookup_delete_ne, lookup_insert_ne, lookup_insert_eq. }
      split; [intros ->; done|].
      intros k H1 H2 H3. by rewrite lookup_delete_ne, !lookup_insert_ne.
    + rewrite Hp. eexists. split; [reflexivity|].
      split; [by rewrite lookup_delete_eq|].
      split; [by rewrite lookup_delete_ne, lookup_insert_eq|].
      split; [intros ->; done|].
      split; [intros ->; done|].
      intros k H1 H2 H3. by rewrite lookup_delete_ne, !lookup_insert_ne.
Qed.

(** X5. Translating an Xray outbound: a [tun] or [tunnel] outbound is left
    out; any other loses its [protocol] key and gets a [type], which is
    [direct] for [freedom], [block] for [blackhole] and the protocol itself
    otherwise.  A blackhole outbound gets empty settings, no string
    [domainStrategy] is left in the settings, a freedom outbound gets no
    [domain_strategy] of its own, and every other key is kept. *)
Theorem outbound_translated m p :
  str_field m "protocol" = Some p ->
  (p = "tun" \/ p = "tunnel" -> convert_outbound (Some m) = None)
  /\ (p <> "tun" -> p <> "tunnel" ->
      exists m',
        convert_outbound (Some m) = Some (Some m')
        /\ m' !! "protocol" = None
        /\ m' !! "type" = Some (Str (outbound_type p))
        /\ (p = "blackhole" -> m' !! "settings" = Some (Map ∅))
        /\ (forall settings,
              map_field m' "settings" = Some settings ->
              str_field settings "domainStrategy" = None)
        /\ (p = "freedom" -> m' !! "domain_strategy" = m !! "domain_strategy")
        /\ (forall k, k <> "protocol" -> k <> "type" -> k <> "settings" ->
            k <> "domain_strategy" -> m' !! k = m !! k)).
Proof.
  intros Hp. split.
  - intros Htun. unfold convert_outbound. rewrite Hp.
    by destruct Htun as [-> | ->].
  - intros H1%String.eqb_neq H2%String.eqb_neq.
    destruct (convert_outbound_named m p Hp)
      as (m1 & Hc & Hproto & Hty & Hbh & Hfr & Hk).
    { by rewrite H1, H2. }
    exists (move_domain_strategy m1). split; [done|].
    split; [by rewrite move_domain_strategy_other|].
    split; [by rewrite move_domain_strategy_other|].
    split.
    { intros Hb. specialize (Hbh Hb). unfold move_domain_strategy.
      apply map_field_Some in Hbh as Hbh'. rewrite Hbh'.
      unfold str_field. by rewrite lookup_empty. }
    split; [apply move_domain_strategy_settings|].
    split.
    + intros Hf. rewrite (Hfr Hf). by apply Hk.
    + intros k K1 K2 K3 K4. rewrite move_domain_strategy_other by done.
      by apply Hk.
Qed.

Lemma outbound_translated_witness :
  exists m',
    convert_outbound
      (Some (<["protocol" := Str "freedom"]> {["tag" := Str "direct-out"]}))
    = Some (Some m')
    /\ m' !! "protocol" = None /\ m' !! "type" = Some (Str "direct")
    /\ m' !! "tag" = Some (Str "direct-out").
Proof.
  destruct (proj2 (outbound_translated
                     (<["protocol" := Str "freedom"]>
                        {["tag" := Str "direct-out"]})
                     "freedom" ltac:(by vm_compute)))
    as (m' & H1 & H2 & H3 & _ & _ & _ & H4); [discriminate..|].
  exists m'. split; [exact H1|]. split; [exact H2|]. split; [exact H3|].
  rewrite H4 by discriminate. by vm_compute.
Defined.

End OutboundTranslation.

Section OutboundRoundTrip.
Import Json Translate.

(** An outbound that the translation only renames: its protocol is a string
    other than the four the translation treats apart, and it has no key of
    the sing-box side yet. *)
Definition ordinary_outbound (m : gmap string any) : Prop :=
  (exists p, str_field m "protocol" = Some p
             /\ p <> "freedom" /\ p <> "blackhole"
             /\ p <> "tun" /\ p <> "tunnel")
  /\ m !! "type" = None
  /\ m !! "domain_strategy" = None
  /\ decoded <$> m = m.

Lemma decoded_fixed_lookup (m : gmap string any) k v :
  decoded <$> m = m -> m !! k = Some v -> decoded v = v.
Proof.
  intros Hm Hk. assert ((decoded <$> m) !! k = Some v) as H by by rewrite Hm.
  rewrite lookup_fmap, Hk in H. by injection H.
Qed.

Lemma decoded_Map_inv (m : gmap string any) :
  decoded (Map m) = Map m -> decoded <$> m = m.
Proof. cbn [decoded]. by intros [= ?]. Qed.

Lemma convert_ordinary m p :
  str_field m "protocol" = Some p ->
  p <> "freedom" -> p <> "blackhole" -> p <> "tun" -> p <> "tunnel" ->
  convert_outbound (Some m)
  = Some (Some (move_domain_strategy (delete "protocol" (<["type" := Str p]> m)))).
Proof.
  intros Hp H1%String.eqb_neq H2%String.eqb_neq H3%String.eqb_neq
    H4%String.eqb_neq.
  unfold convert_outbound. by rewrite Hp, H1, H2, H3, H4, Hp.
Qed.

Ltac read_fields :=
  repeat (progress
    (rewrite ?str_field_insert, ?str_field_delete, ?map_field_insert,
       ?map_field_delete;
     repeat (case_decide; try done);
     cbv beta iota; cbn [default from_option id])).

Lemma outbound_there_and_back m :
  ordinary_outbound m ->
  exists m2,
    convert_outbound (Some m) = Some (Some m2)
    /\ decoded <$> m2 = m2
    /\ revert_outbound (Some m2) = Some m.
Proof.
  intros ((p & Hp & H1 & H2 & H3 & H4) & Hty & Hds & Hdec).
  eexists. split; [by apply convert_ordinary|].
  apply str_field_Some in Hp as Hp'.
  assert (str_field m "domain_strategy" = None) as Hds'
    by (unfold str_field; by rewrite Hds).
  unfold move_domain_strategy. read_fields.
  destruct (map_field m "settings") as [settings|] eqn:Es.
  - apply map_field_Some in Es as Es'.
    assert (decoded <$> settings = settings) as Hsd.
    { apply decoded_Map_inv. by apply (decoded_fixed_lookup m "settings"). }
    destruct (str_field settings "domainStrategy") as [ds|] eqn:Ed.
    + apply str_field_Some in Ed as Ed'. split.
      * rewrite !fmap_insert, fmap_delete, fmap_insert, Hdec. cbn [decoded].
        by rewrite fmap_delete, Hsd.
      * unfold revert_outbound. read_fields.
        cbn [default from_option id].
        rewrite (insert_delete_eq settings).
        rewrite (insert_id settings "domainStrategy" (Str ds) Ed').
        f_equal. apply map_eq. intros k.
        destruct (decide (k = "type")) as [-> | ?]; [by simplify_map_eq|].
        destruct (decide (k = "protocol")) as [-> | ?]; [by simplify_map_eq|].
        destruct (decide (k = "domain_strategy")) as [-> | ?];
          [by simplify_map_eq|].
        destruct (decide (k = "settings")) as [-> | ?]; by simplify_map_eq.
    + split.
      * by rewrite fmap_delete, fmap_insert, Hdec.
      * unfold revert_outbound. read_fields. rewrite Hds'. read_fields.
        f_equal. apply map_eq. intros k.
        destruct (decide (k = "type")) as [-> | ?]; [by simplify_map_eq|].
        destruct (decide (k = "protocol")) as [-> | ?]; by simplify_map_eq.
  - split.
    + by rewrite fmap_delete, fmap_insert, Hdec.
    + unfold revert_outbound. read_fields. rewrite Hds'. read_fields.
      f_equal. apply map_eq. intros k.
      destruct (decide (k = "type")) as [-> | ?]; [by simplify_map_eq|].
      destruct (decide (k = "protocol")) as [-> | ?]; by simplify_map_eq.
Qed.

Lemma outbounds_there_and_back_list (ms : list (gmap string any)) :
  Forall ordinary_outbound ms ->
  exists ms2 : list (gmap string any),
    omap convert_outbound (Some <$> ms) = Some <$> ms2
    /\ Forall (fun m => decoded <$> m = m) ms2
    /\ revert_outbound <$> (Some <$> ms2) = Some <$> ms.
Proof.
  induction 1 as [|m ms Hm _ (ms2 & H1 & H2 & H3)].
  - by exists [].
  - destruct (outbound_there_and_back m Hm) as (m2 & Hc & Hd & Hr).
    exists (m2 :: ms2). rewrite !fmap_cons. cbn [omap list_omap].
    rewrite Hc. cbn [omap list_omap] in H1. rewrite H1.
    split; [done|]. split; [by constructor|]. by rewrite Hr, H3.
Qed.

Lemma of_maps_Some (ms : list (gmap string any)) : of_maps (Some <$> ms) = Slice (Map <$> ms).
Proof.
  unfold of_maps. f_equal. rewrite <- list_fmap_compose.
  by apply list_fmap_ext.
Qed.

Lemma decoded_Slice_Map (ms : list (gmap string any)) :
  Forall (fun m : gmap string any => decoded <$> m = m) ms ->
  decoded (Slice (Map <$> ms)) = Slice (Map <$> ms).
Proof.
  intros H. cbn [decoded]. f_equal.
  induction H as [|m ms Hm _ IH]; [done|].
  rewrite fmap_cons. cbn [map decoded]. by rewrite Hm, IH.
Qed.

(** X6. A list of outbounds that the translation only renames (each with a
    string protocol other than [freedom], [blackhole], [tun] and [tunnel], no
    [type] and no [domain_strategy] key) comes back unchanged from the
    translation to sing-box and back. *)
Theorem outbounds_round_trip (ms : list (gmap string any)) :
  Forall ordinary_outbound ms ->
  revert_outbounds (convert_outbounds (RawJSON (Slice (Map <$> ms))))
  = RawJSON (Slice (Map <$> ms)).
Proof.
  intros Hms.
  destruct (outbounds_there_and_back_list ms Hms) as (ms2 & H1 & H2 & H3).
  unfold convert_outbounds. cbn [nonempty UnmarshalMaps].
  rewrite mapM_as_map_Map.
  cbn [fmap option_fmap option_map elements default from_option id].
  rewrite H1, of_maps_Some. unfold Marshal at 1.
  rewrite decoded_Slice_Map by done.
  unfold revert_outbounds. cbn [nonempty UnmarshalMaps].
  rewrite mapM_as_map_Map.
  cbn [fmap option_fmap option_map].
  rewrite H3, of_maps_Some. unfold Marshal.
  rewrite decoded_Slice_Map; [done|].
  eapply Forall_impl; [exact Hms|]. by intros m (_ & _ & _ & ?).
Qed.

Lemma outbounds_round_trip_witness :
  revert_outbounds
    (convert_outbounds
       (RawJSON (Slice [Map (<["protocol" := Str "socks"]>
                               {["tag" := Str "proxy"]})])))
  = RawJSON (Slice [Map (<["protocol" := Str "socks"]>
                           {["tag" := Str "proxy"]})]).
Proof.
  refine (outbounds_round_trip
            [<["protocol" := Str "socks"]> {["tag" := Str "proxy"]}] _).
  constructor; [|constructor].
  split; [|by vm_compute].
  exists "socks". split; [by vm_compute|]. by repeat split.
Defined.

End OutboundRoundTrip.

Section OutboundNames.
Import Json Translate.

Lemma revert_outbound_type m ty :
  str_field m "type" = Some ty ->
  exists m3, revert_outbound (Some m) = Some m3
             /\ m3 !! "protocol" = Some (Str ty) /\ m3 !! "type" = None.
Proof.
  intros Hty. unfold revert_outbound.
  destruct (str_field m "domain_strategy") as [ds|].
  - rewrite str_field_delete, decide_False by done.
    rewrite str_field_insert, decide_False by done. rewrite Hty.
    eexists. split; [done|]. by simplify_map_eq.
  - rewrite Hty. eexists. split; [done|]. by simplify_map_eq.
Qed.

(** X7. What the translation renames it does not rename back: after the
    translation to sing-box and back, an outbound of protocol [freedom] has
    the protocol [direct], one of protocol [blackhole] has the protocol
    [block], and no outbound has a [type] key. *)
Theorem outbound_comes_back_renamed m p :
  str_field m "protocol" = Some p -> p <> "tun" -> p <> "tunnel" ->
  exists m2 m3,
    convert_outbound (Some m) = Some (Some m2)
    /\ revert_outbound (Some (decoded <$> m2)) = Some m3
    /\ m3 !! "protocol" = Some (Str (outbound_type p))
    /\ m3 !! "type" = None.
Proof.
  intros Hp H1%String.eqb_neq H2%String.eqb_neq.
  destruct (convert_outbound_named m p Hp) as (m1 & Hc & _ & Hty & _).
  { by rewrite H1, H2. }
  destruct (revert_outbound_type (decoded <$> move_domain_strategy m1)
              (outbound_type p)) as (m3 & Hr & H3 & H4).
  { unfold str_field.
    by rewrite lookup_fmap, move_domain_strategy_other, Hty. }
  by exists (move_domain_strategy m1), m3.
Qed.

Lemma outbound_comes_back_renamed_witness :
  exists m2 m3,
    convert_outbound
      (Some (<["protocol" := Str "freedom"]> {["tag" := Str "direct-out"]}))
    = Some (Some m2)
    /\ revert_outbound (Some (decoded <$> m2)) = Some m3
    /\ m3 !! "protocol" = Some (Str "direct").
Proof.
  destruct (outbound_comes_back_renamed
              (<["protocol" := Str "freedom"]> {["tag" := Str "direct-out"]})
              "freedom" ltac:(by vm_compute))
    as (m2 & m3 & H1 & H2 & H3 & _); [discriminate..|].
  by exists m2, m3.
Defined.

End OutboundNames.

Section LogTranslation.
Import Json Translate.

(** The file the translated log section writes to: the error log of the Xray
    section if it names one, or else its access log. *)
Definition log_output (xrayLog : gmap string any) : option string :=
  match str_nonempty xrayLog "error" with
  | Some errorLog => Some errorLog
  | None => str_nonempty xrayLog "access"
  end.

Definition log_level (xrayLog : gmap string any) : string :=
  default "warn" (str_field xrayLog "loglevel").

(** The translated log section. *)
Definition translated_log (xrayLog : gmap string any) : gmap string any :=
  <["timestamp" := Bool true]>
    (match log_output xrayLog with
     | Some output => <["output" := Str output]>
     | None => id
     end {["level" := Str (log_level xrayLog)]}).

Lemma convert_log_map xrayLog :
  convert_log (RawJSON (Map xrayLog)) = RawJSON (Map (translated_log xrayLog)).
Proof.
  unfold convert_log, translated_log, log_output, log_level.
  cbn [nonempty UnmarshalMap fields default from_option id].
  unfold Marshal. cbn [decoded]. do 2 f_equal.
  destruct (str_field xrayLog "loglevel"), (str_nonempty xrayLog "error"),
    (str_nonempty xrayLog "access"); cbn [default from_option id];
    rewrite ?fmap_insert, ?fmap_empty; cbn [decoded];
    by rewrite ?insert_empty.
Qed.

Lemma translated_log_keys xrayLog k :
  is_Some (translated_log xrayLog !! k) ->
  k = "level" \/ k = "output" \/ k = "timestamp".
Proof.
  unfold translated_log.
  destruct (decide (k = "timestamp")) as [-> | ?]; [auto|].
  rewrite lookup_insert_ne by done.
  destruct (log_output xrayLog); cbn [id].
  - destruct (decide (k = "output")) as [-> | ?]; [auto|].
    rewrite lookup_insert_ne by done.
    destruct (decide (k = "level")) as [-> | ?]; [auto|].
    rewrite lookup_singleton_ne by done. by intros [? ?].
  - destruct (decide (k = "level")) as [-> | ?]; [auto|].
    rewrite lookup_singleton_ne by done. by intros [? ?].
Qed.

Lemma translated_log_fields xrayLog :
  translated_log xrayLog !! "level" = Some (Str (log_level xrayLog))
  /\ translated_log xrayLog !! "output" = Str <$> log_output xrayLog
  /\ translated_log xrayLog !! "timestamp" = Some (Bool true)
  /\ translated_log xrayLog !! "error" = None.
Proof.
  unfold translated_log.
  destruct (log_output xrayLog); cbn [id fmap option_fmap option_map];
    repeat split; by simplify_map_eq.
Qed.

Lemma decoded_translated_log xrayLog :
  decoded <$> translated_log xrayLog = translated_log xrayLog.
Proof.
  unfold translated_log. destruct (log_output xrayLog); cbn [id];
    rewrite ?fmap_insert, ?map_fmap_singleton; done.
Qed.

(** X8. The log section.  Its translation holds the level (the log level of
    the Xray section, [warn] if it names none), the output (the error log if
    the section names one, or else the access log), a timestamp switch, and
    nothing else.  After the way back the former output is the access log and
    there is no error log.  A missing section gives the default section, and
    a section that is no JSON document gives none. *)
Theorem log_translation xrayLog :
  (exists sbLog,
     convert_log (RawJSON (Map xrayLog)) = RawJSON (Map sbLog)
     /\ sbLog !! "level" = Some (Str (log_level xrayLog))
     /\ sbLog !! "output" = Str <$> log_output xrayLog
     /\ sbLog !! "timestamp" = Some (Bool true)
     /\ (forall k, is_Some (sbLog !! k) ->
         k = "level" \/ k = "output" \/ k = "timestamp"))
  /\ (exists xrayLog',
        revert_log (convert_log (RawJSON (Map xrayLog)))
        = RawJSON (Map xrayLog')
        /\ xrayLog' !! "loglevel" = Some (Str (log_level xrayLog))
        /\ xrayLog' !! "access" = Str <$> log_output xrayLog
        /\ xrayLog' !! "error" = None)
  /\ convert_log RawEmpty
     = RawJSON (Map (<["timestamp" := Bool true]> {["level" := Str "warn"]}))
  /\ (forall text, text <> "" -> convert_log (RawText text) = RawEmpty).
Proof.
  destruct (translated_log_fields xrayLog) as (Hl & Ho & Ht & He).
  repeat apply conj.
  - exists (translated_log xrayLog). split; [apply convert_log_map|].
    repeat split; try done. apply translated_log_keys.
  - rewrite convert_log_map. unfold revert_log.
    cbn [nonempty UnmarshalMap fields default from_option id].
    unfold str_field. rewrite Hl, Ho, He.
    destruct (log_output xrayLog) as [output|];
      cbn [fmap option_fmap option_map]; eexists; (split; [reflexivity|]);
      cbn [decoded]; rewrite ?fmap_insert, ?fmap_empty; cbn [decoded];
      repeat split; by simplify_map_eq.
  - done.
  - intros text Hne. unfold convert_log. cbn [nonempty UnmarshalMap].
    apply String.eqb_neq in Hne. by rewrite Hne.
Qed.

End LogTranslation.

Section InboundList.
Import Json Translate.

(** What an inbound keeps on the way to sing-box and back: the protocol, the
    tag, the port, and the listen address, which is [null] after the trip
    when it was unset before. *)
Definition same_endpoint (a b : XrayCfg.InboundConfig) : Prop :=
  XrayCfg.Protocol b = XrayCfg.Protocol a
  /\ XrayCfg.Tag b = XrayCfg.Tag a
  /\ XrayCfg.Port b = XrayCfg.Port a
  /\ XrayCfg.Listen b
     = if nonempty (XrayCfg.Listen a) then XrayCfg.Listen a else RawJSON Nil.

Lemma convertXrayInboundToSingBox_Some i sb :
  convertXrayInboundToSingBox i = Some sb ->
  supported (XrayCfg.Protocol i) = true
  /\ SingBoxCfg.Type_ sb = XrayCfg.Protocol i
  /\ SingBoxCfg.Tag sb = XrayCfg.Tag i
  /\ SingBoxCfg.ListenPort sb = XrayCfg.Port i
  /\ SingBoxCfg.Listen sb
     = (if nonempty (XrayCfg.Listen i) then XrayCfg.Listen i else RawJSON Nil)
  /\ nonempty (SingBoxCfg.Listen sb) = true.
Proof.
  unfold convertXrayInboundToSingBox.
  destruct (supported (XrayCfg.Protocol i)); [|done]. cbn [negb].
  intros [= <-]. cbn. repeat split.
  by destruct (nonempty (XrayCfg.Listen i)) eqn:E.
Qed.

Lemma convertXrayInboundToSingBox_None i :
  convertXrayInboundToSingBox i = None <-> supported (XrayCfg.Protocol i) = false.
Proof.
  unfold convertXrayInboundToSingBox.
  by destruct (supported (XrayCfg.Protocol i)).
Qed.

Lemma inbounds_there_and_back (l : list XrayCfg.InboundConfig) :
  Forall2 same_endpoint
    (filter (fun i => supported (XrayCfg.Protocol i) = true) l)
    (convertSingBoxInboundToXray <$> omap convertXrayInboundToSingBox l).
Proof.
  induction l as [|i l IH]; [constructor|].
  cbn [omap list_omap]. rewrite filter_cons.
  destruct (convertXrayInboundToSingBox i) as [sb|] eqn:E.
  - apply convertXrayInboundToSingBox_Some in E
      as (Hs & Hty & Htag & Hport & Hlisten & Hne).
    rewrite decide_True by done. rewrite fmap_cons. constructor; [|done].
    unfold same_endpoint, convertSingBoxInboundToXray. cbn.
    by rewrite Hne, Hty, Htag, Hport, Hlisten.
  - apply convertXrayInboundToSingBox_None in E.
    rewrite decide_False by (by rewrite E). done.
Qed.

(** X9. The translation of a configuration and the way back never fail.
    The sing-box configuration holds inbounds of supported types only, and
    what comes back holds one inbound for each inbound of a supported
    protocol, in the same order, with its protocol, tag and port; its listen
    address is the one given, or [null] if none was given.  The DNS section
    comes back as it was. *)
Theorem inbounds_translated (xrayConfig : XrayCfg.Config) :
  exists sb xrayConfig',
    ConvertXrayToSingBox xrayConfig = Ok sb
    /\ ConvertSingBoxToXray sb = Ok xrayConfig'
    /\ Forall (fun i => supported (SingBoxCfg.Type_ i) = true)
         (SingBoxCfg.Inbounds sb)
    /\ Forall2 same_endpoint
         (filter (fun i => supported (XrayCfg.Protocol i) = true)
            (XrayCfg.InboundConfigs xrayConfig))
         (XrayCfg.InboundConfigs xrayConfig')
    /\ XrayCfg.DNSConfig xrayConfig'
       = (if nonempty (XrayCfg.DNSConfig xrayConfig)
          then XrayCfg.DNSConfig xrayConfig else RawEmpty).
Proof.
  eexists _, _. split; [reflexivity|]. split; [reflexivity|].
  cbn [SingBoxCfg.Inbounds XrayCfg.InboundConfigs XrayCfg.DNSConfig
       SingBoxCfg.DNS].
  split; [|split; [apply inbounds_there_and_back|done]].
  apply Forall_forall. intros sb (i & _ & Hi)%list_elem_of_omap.
  apply convertXrayInboundToSingBox_Some in Hi as (Hs & -> & _). done.
Qed.

End InboundList.

Section StreamRoundTrip.
Import Json Translate.

(** The stream settings an inbound has after the trip to sing-box and back,
    from the stream settings it had. *)
Definition stream_there_and_back (StreamSettings : RawMessage)
    : gmap string any :=
  let '(Transport, TLS) := convert_stream StreamSettings in
  revert_security TLS (revert_transport Transport ∅).

Lemma str_field_decoded (m : gmap string any) k :
  str_field (decoded <$> m) k = str_field m k.
Proof.
  unfold str_field. rewrite lookup_fmap.
  by destruct (m !! k) as [[]|].
Qed.

Lemma map_field_decoded (m : gmap string any) k :
  map_field (decoded <$> m) k = fmap (M := gmap string) decoded <$> map_field m k.
Proof.
  unfold map_field. rewrite lookup_fmap.
  by destruct (m !! k) as [[]|].
Qed.

Lemma revert_security_other TLS (stream : gmap string any) k :
  k <> "security" -> k <> "tlsSettings" -> k <> "realitySettings" ->
  revert_security TLS stream !! k = stream !! k.
Proof.
  intros H1 H2 H3. unfold revert_security.
  destruct (nonempty TLS); [|done].
  destruct (UnmarshalMap TLS) as [tlsConfig|]; [|done].
  destruct (map_field _ "reality"); by rewrite !lookup_insert_ne.
Qed.

(** The transport part alone. *)
Definition transport_there_and_back (stream : gmap string any)
    : gmap string any :=
  revert_transport
    (match convert_transport stream !! "type" with
     | Some _ => Marshal (Map (convert_transport stream))
     | None => RawEmpty
     end) ∅.

Lemma get_decoded_str (m : gmap string any) k :
  match decoded (get m k) with Str s => Some s | _ => None end
  = str_field m k.
Proof.
  unfold get, str_field. by destruct (m !! k) as [[]|].
Qed.

(** What comes back of the [wsSettings] and of the [grpcSettings]. *)
Definition ws_back (wsSettings : option (gmap string any)) : gmap string any :=
  match wsSettings with
  | Some ws =>
      let ws' : gmap string any :=
        match str_field ws "path" with
        | Some path => {["path" := Str path]}
        | None => ∅
        end in
      match map_field ws "headers" with
      | Some headers => <["headers" := Map (decoded <$> headers)]> ws'
      | None => ws'
      end
  | None => ∅
  end.

Definition grpc_back (grpcSettings : option (gmap string any))
    : gmap string any :=
  match grpcSettings with
  | Some grpc =>
      match str_field grpc "serviceName" with
      | Some serviceName => {["serviceName" := Str serviceName]}
      | None => ∅
      end
  | None => ∅
  end.

Lemma transport_back_eq stream :
  transport_there_and_back stream
  = match str_field stream "network" with
    | Some network =>
        if String.eqb network "tcp" then ∅
        else if String.eqb network "ws"
        then <["wsSettings" := Map (ws_back (map_field stream "wsSettings"))]>
               {["network" := Str network]}
        else if String.eqb network "grpc"
        then <["grpcSettings" :=
                 Map (grpc_back (map_field stream "grpcSettings"))]>
               {["network" := Str network]}
        else {["network" := Str network]}
    | None => ∅
    end.
Proof.
  unfold transport_there_and_back, convert_transport.
  assert (revert_transport RawEmpty ∅ = ∅) as Hempty by done.
  destruct (str_field stream "network") as [network|] eqn:En;
    [|by rewrite lookup_empty, Hempty].
  destruct (String.eqb network "tcp") eqn:Etcp;
    [by cbn [negb]; rewrite lookup_empty, Hempty|].
  cbn [negb].
  destruct (String.eqb network "ws") eqn:Ews.
  { apply String.eqb_eq in Ews as ->.
    destruct (map_field stream "wsSettings") as [ws|] eqn:Ew.
    - set (transport := match map_field ws "headers" with
                        | Some headers => _
                        | None => _
                        end).
      assert (transport !! "type" = Some (Str "ws")) as Hty.
      { subst transport. destruct (map_field ws "headers"); by simplify_map_eq. }
      assert (transport !! "path" = Some (get ws "path")) as Hpath.
      { subst transport. destruct (map_field ws "headers"); by simplify_map_eq. }
      assert (map_field transport "headers" = map_field ws "headers") as Hh.
      { subst transport. unfold map_field at 1.
        destruct (map_field ws "headers") eqn:E; by simplify_map_eq. }
      rewrite Hty. unfold revert_transport, Marshal.
      cbn [nonempty decoded UnmarshalMap fields default from_option id].
      rewrite !str_field_decoded. unfold str_field at 1. rewrite Hty.
      rewrite String.eqb_refl.
      rewrite map_field_decoded, Hh.
      assert (str_field transport "path" = str_field ws "path") as ->.
      { unfold str_field at 1. rewrite Hpath. unfold get, str_field.
        by destruct (ws !! "path") as [[]|]. }
      unfold ws_back.
      destruct (str_field ws "path"), (map_field ws "headers");
        cbn [fmap option_fmap option_map]; by rewrite ?insert_empty.
    - unfold revert_transport, Marshal. rewrite lookup_insert_eq.
      cbn [nonempty decoded UnmarshalMap fields default from_option id].
      rewrite fmap_insert, fmap_empty. cbn [decoded].
      unfold str_field, map_field. rewrite !lookup_insert_eq.
      rewrite String.eqb_refl.
      rewrite !lookup_insert_ne, !lookup_empty by done.
      by rewrite insert_empty. }
  destruct (String.eqb network "grpc") eqn:Egrpc.
  { apply String.eqb_eq in Egrpc as ->.
    destruct (map_field stream "grpcSettings") as [grpc|] eqn:Eg.
    - unfold revert_transport, Marshal. rewrite lookup_insert_ne by done.
      rewrite lookup_insert_eq.
      cbn [nonempty decoded UnmarshalMap fields default from_option id].
      rewrite !fmap_insert, fmap_empty. cbn [decoded].
      unfold str_field at 1. rewrite lookup_insert_ne by done.
      rewrite lookup_insert_eq.
      change (String.eqb "grpc" "ws") with false. rewrite String.eqb_refl.
      cbv beta iota.
      unfold str_field at 1. rewrite lookup_insert_eq.
      rewrite get_decoded_str. unfold grpc_back.
      destruct (str_field grpc "serviceName"); by rewrite ?insert_empty.
    - unfold revert_transport, Marshal. rewrite lookup_insert_eq.
      cbn [nonempty decoded UnmarshalMap fields default from_option id].
      rewrite fmap_insert, fmap_empty. cbn [decoded].
      unfold str_field. rewrite !lookup_insert_eq.
      change (String.eqb "grpc" "ws") with false. rewrite String.eqb_refl.
      cbv beta iota.
      rewrite !lookup_insert_ne, !lookup_empty by done.
      by rewrite insert_empty. }
  unfold revert_transport, Marshal. rewrite lookup_insert_eq.
  cbn [nonempty decoded UnmarshalMap fields default from_option id].
  rewrite fmap_insert, fmap_empty. cbn [decoded].
  unfold str_field at 1. rewrite lookup_insert_eq. rewrite Ews, Egrpc.
  by rewrite insert_empty.
Qed.

Lemma slice_field_Some (m : gmap string any) k l :
  slice_field m k = Some l <-> m !! k = Some (Slice l).
Proof.
  unfold slice_field. destruct (m !! k) as [[]|]; split; congruence.
Qed.

Lemma convert_tls_fields ts :
  convert_tls ts !! "certificate_path" = Str <$> str_field ts "certificateFile"
  /\ convert_tls ts !! "key_path" = Str <$> str_field ts "keyFile"
  /\ convert_tls ts !! "server_name" = Str <$> str_field ts "serverName"
  /\ convert_tls ts !! "alpn" = Slice <$> slice_field ts "alpn"
  /\ convert_tls ts !! "reality" = None.
Proof.
  unfold convert_tls.
  destruct (str_field ts "certificateFile"), (str_field ts "keyFile"),
    (str_field ts "serverName"), (slice_field ts "alpn");
    cbn [fmap option_fmap option_map]; repeat split; by simplify_map_eq.
Qed.

Lemma revert_tls_fields tlsConfig :
  revert_tls tlsConfig !! "certificateFile"
  = Str <$> str_field tlsConfig "certificate_path"
  /\ revert_tls tlsConfig !! "keyFile" = Str <$> str_field tlsConfig "key_path"
  /\ revert_tls tlsConfig !! "serverName"
     = Str <$> str_field tlsConfig "server_name"
  /\ revert_tls tlsConfig !! "alpn" = Slice <$> slice_field tlsConfig "alpn"
  /\ (forall k, k <> "certificateFile" -> k <> "keyFile" ->
      k <> "serverName" -> k <> "alpn" -> revert_tls tlsConfig !! k = None).
Proof.
  unfold revert_tls.
  destruct (str_field tlsConfig "certificate_path"),
    (str_field tlsConfig "key_path"), (str_field tlsConfig "server_name"),
    (slice_field tlsConfig "alpn");
    cbn [fmap option_fmap option_map]; repeat split;
    try (intros k ? ? ? ?); by simplify_map_eq.
Qed.

Lemma str_field_of_lookup (m : gmap string any) k o :
  m !! k = Str <$> o -> str_field m k = o.
Proof. unfold str_field. intros ->. by destruct o. Qed.

Lemma slice_field_decoded_of_lookup (m : gmap string any) k o :
  m !! k = Slice <$> o -> slice_field (decoded <$> m) k = map decoded <$> o.
Proof. unfold slice_field. rewrite lookup_fmap. intros ->. by destruct o. Qed.

(** The security part alone, for plain TLS. *)
Lemma tls_back ts (base : gmap string any) :
  exists ts',
    revert_security (Marshal (Map (convert_tls ts))) base
    = <["tlsSettings" := Map ts']> (<["security" := Str "tls"]> base)
    /\ ts' !! "certificateFile" = Str <$> str_field ts "certificateFile"
    /\ ts' !! "keyFile" = Str <$> str_field ts "keyFile"
    /\ ts' !! "serverName" = Str <$> str_field ts "serverName"
    /\ ts' !! "alpn"
       = (fun l => Slice (map decoded l)) <$> slice_field ts "alpn"
    /\ (forall k, k <> "certificateFile" -> k <> "keyFile" ->
        k <> "serverName" -> k <> "alpn" -> ts' !! k = None).
Proof.
  destruct (convert_tls_fields ts) as (Hc & Hk & Hs & Ha & Hr).
  unfold revert_security, Marshal.
  cbn [nonempty decoded UnmarshalMap fields default from_option id].
  set (tlsConfig := decoded <$> convert_tls ts).
  assert (map_field tlsConfig "reality" = None) as ->.
  { unfold map_field, tlsConfig. by rewrite lookup_fmap, Hr. }
  exists (revert_tls tlsConfig). split; [done|].
  destruct (revert_tls_fields tlsConfig) as (-> & -> & -> & -> & Hother).
  unfold tlsConfig. rewrite !str_field_decoded.
  rewrite (str_field_of_lookup _ _ _ Hc), (str_field_of_lookup _ _ _ Hk),
    (str_field_of_lookup _ _ _ Hs), (slice_field_decoded_of_lookup _ _ _ Ha).
  repeat split; try done.
  by destruct (slice_field ts "alpn").
Qed.

(** X10. What is left of the stream settings of an inbound after the
    translation to sing-box and back: the network unless it is [tcp]; of the
    WebSocket settings the path and the headers, of the gRPC settings the
    service name; of the TLS settings the certificate file, the key file, the
    server name and the ALPN list and nothing else; and no [security] key
    when the security was neither [tls] nor [reality]. *)
Theorem stream_round_trip (stream : gmap string any) :
  let stream' := stream_there_and_back (RawJSON (Map stream)) in
  stream' !! "network"
  = match str_field stream "network" with
    | Some network =>
        if String.eqb network "tcp" then None else Some (Str network)
    | None => None
    end
  /\ (str_field stream "network" = Some "ws" ->
      stream' !! "wsSettings"
      = Some (Map (ws_back (map_field stream "wsSettings"))))
  /\ (str_field stream "network" = Some "grpc" ->
      stream' !! "grpcSettings"
      = Some (Map (grpc_back (map_field stream "grpcSettings"))))
  /\ (forall ts,
        str_field stream "security" = Some "tls" ->
        map_field stream "tlsSettings" = Some ts ->
        stream' !! "security" = Some (Str "tls")
        /\ exists ts',
             stream' !! "tlsSettings" = Some (Map ts')
             /\ ts' !! "certificateFile" = Str <$> str_field ts "certificateFile"
             /\ ts' !! "keyFile" = Str <$> str_field ts "keyFile"
             /\ ts' !! "serverName" = Str <$> str_field ts "serverName"
             /\ ts' !! "alpn"
                = (fun l => Slice (map decoded l)) <$> slice_field ts "alpn"
             /\ (forall k, k <> "certificateFile" -> k <> "keyFile" ->
                 k <> "serverName" -> k <> "alpn" -> ts' !! k = None))
  /\ (forall security,
        str_field stream "security" = Some security ->
        security <> "tls" -> security <> "reality" ->
        stream' !! "security" = None).
Proof.
  intros stream'.
  assert (stream'
          = revert_security (or_keep (convert_security stream) RawEmpty)
              (transport_there_and_back stream)) as Hs by done.
  pose proof (transport_back_eq stream) as Ht.
  repeat apply conj.
  - rewrite Hs, revert_security_other by done. rewrite Ht.
    destruct (str_field stream "network") as [n|]; [|done].
    destruct (String.eqb n "tcp"); [done|].
    destruct (String.eqb n "ws"); [by simplify_map_eq|].
    destruct (String.eqb n "grpc"); by simplify_map_eq.
  - intros Hn. rewrite Hs, revert_security_other by done. rewrite Ht, Hn.
    change (String.eqb "ws" "tcp") with false. rewrite String.eqb_refl.
    by simplify_map_eq.
  - intros Hn. rewrite Hs, revert_security_other by done. rewrite Ht, Hn.
    change (String.eqb "grpc" "tcp") with false.
    change (String.eqb "grpc" "ws") with false. rewrite String.eqb_refl.
    by simplify_map_eq.
  - intros ts Hsec Hts. rewrite Hs. unfold convert_security.
    rewrite Hsec, String.eqb_refl, Hts. cbn [or_keep default from_option id].
    destruct (tls_back ts (transport_there_and_back stream))
      as (ts' & -> & H1 & H2 & H3 & H4 & H5).
    split; [by simplify_map_eq|]. exists ts'. split; [by simplify_map_eq|done].
  - intros security Hsec H1%String.eqb_neq H2%String.eqb_neq.
    rewrite Hs. unfold convert_security. rewrite Hsec, H1, H2.
    cbn [or_keep default from_option id revert_security nonempty].
    rewrite Ht.
    destruct (str_field stream "network") as [n|]; [|done].
    destruct (String.eqb n "tcp"); [done|].
    destruct (String.eqb n "ws"); [by simplify_map_eq|].
    destruct (String.eqb n "grpc"); by simplify_map_eq.
Qed.

Lemma stream_round_trip_witness :
  stream_there_and_back
    (RawJSON (Map (<["network" := Str "ws"]>
                     {["security" := Str "none"]}))) !! "security"
  = None.
Proof.
  refine (proj2 (proj2 (proj2 (proj2
            (stream_round_trip (<["network" := Str "ws"]>
                                  {["security" := Str "none"]})))))
            "none" _ _ _).
  - by vm_compute.
  - discriminate.
  - discriminate.
Defined.

End StreamRoundTrip.

Section Credentials.
Import Json Translate.

(** X11. The credentials of an inbound after the translation to sing-box
    and back.  Of a trojan inbound only the password of the first client is
    left, as the only field of the only client; of a shadowsocks inbound the
    method and the password are left. *)
Theorem credentials_round_trip (xrayInbound : XrayCfg.InboundConfig) settings :
  XrayCfg.Settings xrayInbound = RawJSON (Map settings) ->
  (forall c rest password,
     XrayCfg.Protocol xrayInbound = "trojan" ->
     slice_field settings "clients" = Some (Map c :: rest) ->
     str_field c "password" = Some password -> password <> "" ->
     exists xrayInbound',
       there_and_back_inbound xrayInbound = Some xrayInbound'
       /\ XrayCfg.Settings xrayInbound'
          = RawJSON (Map {["clients" :=
                             Slice [Map {["password" := Str password]}]]}))
  /\ (forall method password,
        XrayCfg.Protocol xrayInbound = "shadowsocks" ->
        str_field settings "method" = Some method -> method <> "" ->
        str_field settings "password" = Some password -> password <> "" ->
        exists xrayInbound',
          there_and_back_inbound xrayInbound = Some xrayInbound'
          /\ XrayCfg.Settings xrayInbound'
             = RawJSON (Map (<["password" := Str password]>
                               {["method" := Str method]}))).
Proof.
  intros Hs. split.
  - intros c rest password Hp Hc Hpw Hne%String.eqb_neq.
    unfold there_and_back_inbound, convertXrayInboundToSingBox.
    rewrite Hp. change (supported "trojan") with true. cbn [negb].
    eexists. split; [reflexivity|].
    unfold convertSingBoxInboundToXray. cbn [XrayCfg.Settings].
    unfold revert_settings. cbn [SingBoxCfg.Type_ SingBoxCfg.Password].
    change (String.eqb "trojan" "vmess" || String.eqb "trojan" "vless")
      with false.
    rewrite String.eqb_refl. cbv beta iota.
    unfold convert_settings. rewrite Hs.
    cbn [UnmarshalMap fields default from_option id].
    change (String.eqb "trojan" "vmess" || String.eqb "trojan" "vless")
      with false.
    rewrite String.eqb_refl. cbv beta iota. rewrite Hc, Hpw.
    cbn [snd]. rewrite Hne. cbn [negb]. unfold Marshal. cbn [decoded].
    rewrite fmap_insert, fmap_empty. cbn [decoded map].
    by rewrite map_fmap_singleton, ?insert_empty.
  - intros method password Hp Hm Hmne%String.eqb_neq Hpw Hne%String.eqb_neq.
    unfold there_and_back_inbound, convertXrayInboundToSingBox.
    rewrite Hp. change (supported "shadowsocks") with true. cbn [negb].
    eexists. split; [reflexivity|].
    unfold convertSingBoxInboundToXray. cbn [XrayCfg.Settings].
    unfold revert_settings.
    cbn [SingBoxCfg.Type_ SingBoxCfg.Password SingBoxCfg.Method].
    change (String.eqb "shadowsocks" "vmess" || String.eqb "shadowsocks" "vless")
      with false.
    change (String.eqb "shadowsocks" "trojan") with false.
    rewrite String.eqb_refl. cbv beta iota.
    unfold convert_settings. rewrite Hs.
    cbn [UnmarshalMap fields default from_option id].
    change (String.eqb "shadowsocks" "vmess" || String.eqb "shadowsocks" "vless")
      with false.
    change (String.eqb "shadowsocks" "trojan") with false.
    rewrite String.eqb_refl. cbv beta iota. rewrite Hm, Hpw.
    cbn [fst snd default from_option id]. rewrite Hmne, Hne. cbn [negb].
    unfold Marshal. cbn [decoded].
    by rewrite !fmap_insert, fmap_empty, !insert_empty.
Qed.

Lemma credentials_round_trip_witness :
  exists xrayInbound',
    there_and_back_inbound
      (XrayCfg.mkInbound RawEmpty 443 "trojan"
         (RawJSON (Map {["clients" :=
            Slice [Map (<["password" := Str "secret"]>
                          {["email" := Str "alice@example.com"]});
                   Map {["password" := Str "other"]}]]}))
         RawEmpty "in-1" RawEmpty)
    = Some xrayInbound'
    /\ XrayCfg.Settings xrayInbound'
       = RawJSON (Map {["clients" :=
                          Slice [Map {["password" := Str "secret"]}]]}).
Proof.
  refine (proj1 (credentials_round_trip
            (XrayCfg.mkInbound RawEmpty 443 "trojan"
               (RawJSON (Map {["clients" :=
                  Slice [Map (<["password" := Str "secret"]>
                                {["email" := Str "alice@example.com"]});
                         Map {["password" := Str "other"]}]]}))
               RawEmpty "in-1" RawEmpty)
            _ eq_refl)
            (<["password" := Str "secret"]>
               {["email" := Str "alice@example.com"]})
            [Map {["password" := Str "other"]}] "secret" _ _ _ _).
  - reflexivity.
  - by vm_compute.
  - by vm_compute.
  - discriminate.
Defined.

End Credentials.

Section RouteRuleFields.
Import Json Translate.

Lemma rename_rule_fields_spec rm :
  let rm' := rename_rule_fields rm in
  rm' !! "type" = None
  /\ (forall tag, str_field rm "outboundTag" = Some tag ->
      rm' !! "outbound" = Some (Str tag) /\ rm' !! "outboundTag" = None)
  /\ (forall tags, slice_field rm "inboundTag" = Some tags ->
      rm' !! "inbound" = Some (Slice tags) /\ rm' !! "inboundTag" = None)
  /\ (forall k, k <> "type" -> k <> "outboundTag" -> k <> "inboundTag" ->
      k <> "outbound" -> k <> "inbound" -> rm' !! k = rm !! k).
Proof.
  unfold rename_rule_fields. cbv zeta.
  assert (str_field (delete "type" rm) "outboundTag" = str_field rm "outboundTag")
    as -> by (unfold str_field; by rewrite lookup_delete_ne).
  destruct (str_field rm "outboundTag") as [tag|] eqn:Et.
  - assert (slice_field
              (delete "outboundTag" (<["outbound" := Str tag]> (delete "type" rm)))
              "inboundTag" = slice_field rm "inboundTag") as ->.
    { unfold slice_field.
      by rewrite lookup_delete_ne, lookup_insert_ne, lookup_delete_ne. }
    destruct (slice_field rm "inboundTag") as [tags|] eqn:Ei.
    + repeat split; try (intros ? [= <-]); try (intros k ? ? ? ? ?);
        by simplify_map_eq.
    + repeat split; try (intros ? [= <-]); try (intros k ? ? ? ? ?);
        try done; by simplify_map_eq.
  - assert (slice_field (delete "type" rm) "inboundTag"
            = slice_field rm "inboundTag") as ->.
    { unfold slice_field. by rewrite lookup_delete_ne. }
    destruct (slice_field rm "inboundTag") as [tags|] eqn:Ei.
    + repeat split; try (intros ? [= <-]); try (intros k ? ? ? ? ?);
        try done; by simplify_map_eq.
    + repeat split; try (intros ? [= <-]); try (intros k ? ? ? ? ?);
        try done; by simplify_map_eq.
Qed.

Lemma rename_rule_fields_geoip rm :
  rename_rule_fields rm !! "geoip" = rm !! "geoip".
Proof. by apply (rename_rule_fields_spec rm). Qed.

Lemma regular_ips_decoded ip : map decoded (regular_ips ip) = regular_ips ip.
Proof.
  induction ip as [|x ip IH]; [done|]. unfold regular_ips in *.
  cbn [omap list_omap]. destruct x; try done.
  destruct (HasPrefix s "geoip:"); [done|]. cbn [map decoded]. by rewrite IH.
Qed.

(** X12. The fields of a routing rule that names no [geoip] key.  Without
    an [ip] field the rule is kept: its [type] goes, [outboundTag] becomes
    [outbound], [inboundTag] becomes [inbound], and every other key is kept.
    With an [ip] list that has no [geoip:] entry the rule is kept with the
    strings of the list, and without the field when the list has none. *)
Theorem route_rule_fields (geoipConfigured : bool) (rm : gmap string any) :
  rm !! "geoip" = None ->
  (rm !! "ip" = None ->
   exists rm',
     translated_rule geoipConfigured (Map rm) = Some (Map rm')
     /\ rm' !! "type" = None
     /\ (forall tag, str_field rm "outboundTag" = Some tag ->
         rm' !! "outbound" = Some (Str tag) /\ rm' !! "outboundTag" = None)
     /\ (forall tags, slice_field rm "inboundTag" = Some tags ->
         rm' !! "inbound" = Some (Slice (map decoded tags))
         /\ rm' !! "inboundTag" = None)
     /\ (forall k, k <> "type" -> k <> "outboundTag" -> k <> "inboundTag" ->
         k <> "outbound" -> k <> "inbound" ->
         rm' !! k = decoded <$> rm !! k))
  /\ (forall ip,
        rm !! "ip" = Some (Slice ip) -> geoip_values ip = [] ->
        exists rm',
          translated_rule geoipConfigured (Map rm) = Some (Map rm')
          /\ rm' !! "ip"
             = match regular_ips ip with
               | [] => None
               | ips => Some (Slice ips)
               end).
Proof.
  intros Hg.
  destruct (rename_rule_fields_spec rm) as (Hty & Hout & Hin & Hother).
  split.
  - intros Hip. unfold translated_rule, convert_rule, convert_rule_ip.
    unfold slice_field. rewrite rename_rule_fields_ip, Hip.
    unfold keeps_geoip_field. rewrite rename_rule_fields_geoip, Hg.
    eexists. split; [reflexivity|].
    rewrite !lookup_fmap, Hty. split; [done|].
    split; [|split].
    + intros tag Ht. destruct (Hout tag Ht) as [-> ->]. done.
    + intros tags Ht. destruct (Hin tags Ht) as [-> ->]. done.
    + intros k ? ? ? ? ?. rewrite lookup_fmap. by rewrite Hother.
  - intros ip Hip Hgeo.
    unfold translated_rule, convert_rule, convert_rule_ip.
    unfold slice_field. rewrite rename_rule_fields_ip, Hip, Hgeo.
    cbn [length Nat.ltb Nat.leb andb Nat.eqb].
    destruct (regular_ips ip) as [|r rs] eqn:Er.
    + cbn [length Nat.ltb Nat.leb]. unfold keeps_geoip_field.
      rewrite lookup_delete_ne, rename_rule_fields_geoip, Hg by done.
      eexists. split; [reflexivity|].
      by rewrite lookup_fmap, lookup_delete_eq.
    + cbn [length Nat.ltb Nat.leb]. unfold keeps_geoip_field.
      rewrite lookup_insert_ne, rename_rule_fields_geoip, Hg by done.
      eexists. split; [reflexivity|].
      rewrite lookup_fmap, lookup_insert_eq. cbn [fmap option_fmap option_map].
      cbn [decoded]. rewrite <- Er. by rewrite regular_ips_decoded.
Qed.

Lemma route_rule_fields_witness :
  exists rm',
    translated_rule true
      (Map (<["type" := Str "field"]> {["outboundTag" := Str "blocked"]}))
    = Some (Map rm')
    /\ rm' !! "type" = None
    /\ rm' !! "outbound" = Some (Str "blocked")
    /\ rm' !! "outboundTag" = None.
Proof.
  destruct (proj1 (route_rule_fields true
                     (<["type" := Str "field"]>
                        {["outboundTag" := Str "blocked"]})
                     ltac:(by vm_compute)) ltac:(by vm_compute))
    as (rm' & H1 & H2 & H3 & _).
  destruct (H3 "blocked" ltac:(by vm_compute)) as [H4 H5].
  by exists rm'.
Defined.

End RouteRuleFields.

Section SettingsStore.
Import Settings.

Variable defaultXrayTemplateConfig : string.
Variable defaultSingBoxTemplateConfig : string.

Let getString_ := getString defaultXrayTemplateConfig defaultSingBoxTemplateConfig.
Let GetCoreType_ :=
  GetCoreType defaultXrayTemplateConfig defaultSingBoxTemplateConfig.
Let defaults :=
  defaultValueMap defaultXrayTemplateConfig defaultSingBoxTemplateConfig.

Lemma db_first_faults key w r w' :
  db_first key w = (r, w') -> faults w = [] -> faults w' = [].
Proof.
  unfold db_first, db_access. destruct w as [t f]. cbn. intros H ->.
  by injection H as <- <-.
Qed.

Lemma saveSetting_faults key value w r w' :
  saveSetting key value w = (r, w') -> faults w = [] ->
  r = Ok tt /\ faults w' = [].
Proof.
  destruct w as [t f]. cbn [faults]. intros H ->. revert H.
  unfold saveSetting, getSetting, db_first, db_write, db_access.
  cbn [faults table]. destruct (String.eqb key "multiNodeMode"); cbn;
    by intros [= <- <-].
Qed.

(** X13. The settings store.  A save either writes exactly its row or fails
    and leaves the table as it was.  Reading a string never changes the
    table, and what it returns is the stored value, or the default of the key
    when there is no row.  With a working database, a value that was saved is
    the value read next, and the save touches no other key. *)
Theorem settings_store_laws :
  (forall key value w r w',
     saveSetting key value w = (r, w') ->
     (r = Ok tt /\ table w' = <[key := value]> (table w))
     \/ (is_err r = true /\ table w' = table w))
  /\ (forall key w r w',
        getString_ key w = (r, w') ->
        table w' = table w
        /\ (forall v, r = Ok v ->
              table w !! key = Some v
              \/ (table w !! key = None /\ defaults !! key = Some v)))
  /\ (forall key value w,
        faults w = [] ->
        exists w',
          saveSetting key value w = (Ok tt, w')
          /\ getString_ key w' = (Ok value, w')
          /\ (forall k, k <> key -> table w' !! k = table w !! k)).
Proof.
  repeat apply conj.
  - apply saveSetting_table.
  - intros key w r w'. subst getString_. unfold getString, getSetting.
    destruct (db_first key w) as [found w1] eqn:E1.
    apply db_first_table in E1 as [Ht1 Hv].
    destruct found as [[v|]|e].
    + intros [= <- <-]. split; [done|]. intros ? [= <-]. left.
      by rewrite <- (Hv _ eq_refl).
    + rewrite <- (Hv _ eq_refl). subst defaults.
      destruct (defaultValueMap _ _ !! key); intros [= <- <-]; split; try done.
      intros ? [= <-]. by right.
    + by intros [= <- <-].
  - intros key value w Hf.
    destruct (saveSetting key value w) as [r w'] eqn:E.
    destruct (saveSetting_faults _ _ _ _ _ E Hf) as [-> Hf'].
    apply saveSetting_table in E as [[_ Ht] | [? _]]; [|done].
    exists w'. split; [done|]. split.
    + apply getString_stored; [done|]. by rewrite Ht, lookup_insert_eq.
    + intros k Hk. by rewrite Ht, lookup_insert_ne.
Qed.

(** X14. The core-type setting.  Reading it always yields [xray] or
    [sing-box], and after a read without error the stored value is the one
    returned.  Setting any other value is refused with the settings
    untouched; a valid value that was set is the value read next; and a
    stored value that is neither is overwritten with [xray] by the read. *)
Theorem core_type_setting :
  (forall w t r w',
     GetCoreType_ w = (t, r, w') ->
     core_type t /\ (r = Ok tt -> stored_type w' = t))
  /\ (forall t w, ~ core_type t -> exists e, SetCoreType t w = (Err e, w))
  /\ (forall t w,
        faults w = [] -> core_type t ->
        exists w',
          SetCoreType t w = (Ok tt, w')
          /\ GetCoreType_ w' = (t, Ok tt, w'))
  /\ (forall w stored,
        faults w = [] -> table w !! "coreType" = Some stored ->
        ~ core_type stored ->
        exists w',
          GetCoreType_ w = ("xray", Ok tt, w')
          /\ table w' = <["coreType" := "xray"]> (table w)).
Proof.
  repeat apply conj.
  - intros w t r w'. subst GetCoreType_. unfold GetCoreType.
    destruct (getString _ _ "coreType" w) as [rv w1] eqn:E.
    apply getString_table in E as [Ht Hval].
    destruct rv as [ct|e]; [|intros [= <- <- <-]; split; [by left|done]].
    specialize (Hval ct eq_refl).
    destruct (String.eqb ct "xray") eqn:E1; cbn [negb andb].
    + apply String.eqb_eq in E1 as ->. intros [= <- <- <-].
      split; [by left|]. intros _. unfold stored_type. rewrite Ht.
      rewrite Hval. by destruct (table w !! "coreType").
    + destruct (String.eqb ct "sing-box") eqn:E2; cbn [negb].
      * apply String.eqb_eq in E2 as ->. intros [= <- <- <-].
        split; [by right|]. intros _. unfold stored_type. rewrite Ht.
        rewrite Hval. by destruct (table w !! "coreType").
      * destruct (SetCoreType "xray" w1) as [r1 w2] eqn:E3.
        intros [= <- <- <-]. split; [by left|]. intros ->.
        apply SetCoreType_table in E3 as [(_ & _ & Ht2) | [? _]]; [|done].
        unfold stored_type. by rewrite Ht2, lookup_insert_eq.
  - intros t w Hn. unfold SetCoreType.
    destruct (String.eqb t "xray") eqn:E1.
    { apply String.eqb_eq in E1. destruct Hn. by left. }
    destruct (String.eqb t "sing-box") eqn:E2.
    { apply String.eqb_eq in E2. destruct Hn. by right. }
    by eexists.
  - intros t w Hf Ht.
    destruct (SetCoreType t w) as [r w'] eqn:E. pose proof E as E'.
    unfold SetCoreType, setString in E.
    assert (negb (String.eqb t "xray") && negb (String.eqb t "sing-box") = false)
      as Hv by (by destruct Ht as [-> | ->]).
    rewrite Hv in E.
    destruct (saveSetting_faults _ _ _ _ _ E Hf) as [-> Hf'].
    apply SetCoreType_table in E' as [(_ & _ & Ht') | [? _]]; [|done].
    exists w'. split; [done|].
    subst GetCoreType_. unfold GetCoreType.
    rewrite (getString_stored _ _ "coreType" t w' Hf')
      by (by rewrite Ht', lookup_insert_eq).
    by rewrite Hv.
  - intros w stored Hf Hs Hn.
    subst GetCoreType_. unfold GetCoreType.
    rewrite (getString_stored _ _ "coreType" stored w Hf Hs).
    assert (negb (String.eqb stored "xray")
            && negb (String.eqb stored "sing-box") = true) as ->.
    { destruct (String.eqb stored "xray") eqn:E1.
      { apply String.eqb_eq in E1. destruct Hn. by left. }
      destruct (String.eqb stored "sing-box") eqn:E2; [|done].
      apply String.eqb_eq in E2. destruct Hn. by right. }
    destruct (SetCoreType "xray" w) as [r w'] eqn:E. pose proof E as E'.
    unfold SetCoreType, setString in E. cbn [String.eqb Ascii.eqb] in E.
    change (negb (String.eqb "xray" "xray") && negb (String.eqb "xray" "sing-box"))
      with false in E.
    destruct (saveSetting_faults _ _ _ _ _ E Hf) as [-> Hf'].
    apply SetCoreType_table in E' as [(_ & _ & Ht') | [? _]]; [|done].
    by exists w'.
Qed.

End SettingsStore.

Section SettingsStoreExamples.
Import Json Settings.

Lemma settings_store_laws_witness :
  exists w',
    saveSetting "coreType" "sing-box" (mkWorld ∅ []) = (Ok tt, w')
    /\ Settings.getString "{}" "{}" "coreType" w' = (Ok "sing-box", w').
Proof.
  destruct (proj2 (proj2 (settings_store_laws "{}" "{}"))
              "coreType" "sing-box" (mkWorld ∅ []) eq_refl)
    as (w' & H1 & H2 & _).
  by exists w'.
Defined.

Lemma core_type_setting_witness :
  exists w',
    Settings.GetCoreType "{}" "{}" (mkWorld {["coreType" := "v2ray"]} [])
    = ("xray", Ok tt, w')
    /\ table w' = <["coreType" := "xray"]> {["coreType" := "v2ray"]}.
Proof.
  refine (proj2 (proj2 (proj2 (core_type_setting "{}" "{}")))
            (mkWorld {["coreType" := "v2ray"]} []) "v2ray" eq_refl _ _).
  - by vm_compute.
  - by intros [H | H].
Defined.

End SettingsStoreExamples.

Section HealthCheckProperties.
Import Settings HealthCheck.

Variable defaultXrayTemplateConfig : string.
Variable defaultSingBoxTemplateConfig : string.
Variable xray : XrayAnswers.

Let Run_ := Run defaultXrayTemplateConfig defaultSingBoxTemplateConfig xray.
Let GetCoreService_ :=
  GetCoreService defaultXrayTemplateConfig defaultSingBoxTemplateConfig.
Let GetMultiNodeMode_ :=
  GetMultiNodeMode defaultXrayTemplateConfig defaultSingBoxTemplateConfig.

(** The core that the job looks at counts as down: it is not running and,
    when it is Xray, it has not been stopped by hand. *)
Definition down (coreService : CoreService) (s : Supervisor.Service) : Prop :=
  IsRunning xray coreService s = false
  /\ (coreService = XrayCoreAdapter -> DidXrayCrash xray = true).

Lemma incr_small n : 0 <= n < 2 ^ 62 -> incr n = n + 1.
Proof.
  intros H. unfold incr.
  rewrite Z.mod_small; lia.
Qed.

Lemma Run_cases s w j :
  let '(j', w', restart) := Run_ s w j in
  (forall coreService,
     restart = Some coreService ->
     checkTime j' = 0 /\ 1 < incr (checkTime j) /\ down coreService s
     /\ (GetMultiNodeMode_ w).1 <> Ok true
     /\ (GetCoreService_ (GetMultiNodeMode_ w).2).1 = Ok coreService)
  /\ (checkTime j = 0 -> restart = None)
  /\ ((GetMultiNodeMode_ w).1 = Ok true -> j' = j /\ restart = None)
  /\ (forall coreService,
        (GetMultiNodeMode_ w).1 <> Ok true ->
        (GetCoreService_ (GetMultiNodeMode_ w).2).1 = Ok coreService ->
        (~ down coreService s -> j' = mkJob 0 /\ restart = None)
        /\ (down coreService s -> checkTime j = 1 ->
            j' = mkJob 0 /\ restart = Some coreService)).
Proof.
  subst Run_ GetCoreService_ GetMultiNodeMode_. unfold Run.
  destruct (GetMultiNodeMode _ _ w) as [multiMode w1] eqn:Em. cbn [fst snd].
  assert (forall (A : Type) (x y : A),
            multiMode <> Ok true ->
            match multiMode with Ok true => x | _ => y end = y) as Hmm.
  { intros A x y H. by destruct multiMode as [[|]|e]. }
  assert (multiMode = Ok true \/ multiMode <> Ok true) as [-> | Hne]
    by (destruct multiMode as [[|]|]; auto).
  { repeat split; try done. }
  rewrite Hmm by done.
  destruct (GetCoreService _ _ w1) as [coreService w2] eqn:Ec. cbn [fst].
  destruct coreService as [coreService|e].
  2:{ repeat split; try done. }
  assert (forall c0 : CoreService,
            Ok coreService = Ok c0 -> c0 = coreService) as Hc
    by (by intros ? [= <-]).
  assert ((if 1 <? incr (checkTime j)
           then (mkJob 0, w2, Some coreService)
           else (mkJob (incr (checkTime j)), w2, None))
          = (if 1 <? incr (checkTime j) then mkJob 0
             else mkJob (incr (checkTime j)), w2,
             if 1 <? incr (checkTime j) then Some coreService else None))
    as Hcount by (by destruct (1 <? incr (checkTime j))).
  assert (down coreService s ->
          (let '(j', _, restart) :=
             (if 1 <? incr (checkTime j) then mkJob 0
              else mkJob (incr (checkTime j)), w2,
              if 1 <? incr (checkTime j) then Some coreService else None) in
           (forall c0, restart = Some c0 ->
              checkTime j' = 0 /\ 1 < incr (checkTime j) /\ down c0 s
              /\ multiMode <> Ok true /\ Ok coreService = Ok c0)
           /\ (checkTime j = 0 -> restart = None)
           /\ (multiMode = Ok true -> j' = j /\ restart = None)
           /\ (forall c0, multiMode <> Ok true -> Ok coreService = Ok c0 ->
                 (~ down c0 s -> j' = mkJob 0 /\ restart = None)
                 /\ (down c0 s -> checkTime j = 1 ->
                     j' = mkJob 0 /\ restart = Some c0)))) as Hdown.
  { intros Hd. cbv beta iota zeta.
    destruct (1 <? incr (checkTime j)) eqn:E1.
    - apply Z.ltb_lt in E1. split; [|split; [|split]].
      + by intros c0 [= <-].
      + intros H0. rewrite H0 in E1. by vm_compute in E1.
      + done.
      + intros c0 _ ->%Hc. split; [done|]. done.
    - apply Z.ltb_ge in E1. split; [|split; [|split]].
      + done.
      + done.
      + done.
      + intros c0 _ ->%Hc. split; [done|].
        intros _ H1. rewrite H1 in E1. by vm_compute in E1. }
  assert (~ down coreService s ->
          (forall c0 : CoreService, None = Some c0 ->
             checkTime (mkJob 0) = 0 /\ 1 < incr (checkTime j) /\ down c0 s
             /\ multiMode <> Ok true /\ Ok coreService = Ok c0)
          /\ (checkTime j = 0 -> @None CoreService = None)
          /\ (multiMode = Ok true -> mkJob 0 = j /\ @None CoreService = None)
          /\ (forall c0, multiMode <> Ok true -> Ok coreService = Ok c0 ->
                (~ down c0 s -> mkJob 0 = mkJob 0 /\ @None CoreService = None)
                /\ (down c0 s -> checkTime j = 1 ->
                    mkJob 0 = mkJob 0 /\ None = Some c0))) as Hup.
  { intros Hn. split; [done|]. split; [done|]. split; [done|].
    intros c0 _ ->%Hc. split; [done|]. done. }
  unfold down in *.
  destruct (IsRunning xray coreService s) eqn:Er.
  { apply Hup. by intros [? _]. }
  destruct coreService.
  - destruct (DidXrayCrash xray) eqn:Ed; cbn [negb].
    + rewrite Hcount. by apply Hdown.
    + apply Hup. intros [_ H]. by specialize (H eq_refl).
  - rewrite Hcount. by apply Hdown.
Qed.

Lemma Run_counter s w j :
  0 <= checkTime j <= 1 ->
  0 <= checkTime (Run_ s w j).1.1 <= 1
  /\ (forall coreService,
        (GetMultiNodeMode_ w).1 <> Ok true ->
        (GetCoreService_ (GetMultiNodeMode_ w).2).1 = Ok coreService ->
        down coreService s -> checkTime j = 0 ->
        (Run_ s w j).1.1 = mkJob 1).
Proof.
  intros Hj. subst Run_ GetCoreService_ GetMultiNodeMode_. unfold Run, down.
  destruct (GetMultiNodeMode _ _ w) as [multiMode w1]. cbn [fst snd].
  assert (multiMode = Ok true \/ multiMode <> Ok true) as [-> | Hne]
    by (destruct multiMode as [[|]|]; auto).
  { done. }
  assert (forall (A : Type) (x y : A),
            match multiMode with Ok true => x | _ => y end = y) as ->.
  { intros A x y. by destruct multiMode as [[|]|e]. }
  destruct (GetCoreService _ _ w1) as [[coreService|e] w2]; cbn [fst snd];
    [|done].
  rewrite incr_small by lia.
  destruct (IsRunning xray coreService s) eqn:Er.
  { split; [cbn; lia|]. intros c _ [= <-] [? _]. congruence. }
  destruct coreService.
  - destruct (DidXrayCrash xray); cbn [negb].
    + destruct (1 <? checkTime j + 1) eqn:E1; cbn [fst snd checkTime].
      * split; [lia|]. intros c _ _ _ H0. rewrite H0 in E1. done.
      * apply Z.ltb_ge in E1. split; [lia|]. by intros c _ _ _ ->.
    + split; [cbn; lia|]. intros c _ [= <-] [_ H]. by specialize (H eq_refl).
  - destruct (1 <? checkTime j + 1) eqn:E1; cbn [fst snd checkTime].
    + split; [lia|]. intros c _ _ _ H0. rewrite H0 in E1. done.
    + apply Z.ltb_ge in E1. split; [lia|]. by intros c _ _ _ ->.
Qed.

(** X15. The health check, run after run.  The counter of the job stays at
    zero or one.  A run asks for a restart exactly when, in single-node mode,
    it finds the selected core down (not running, and for Xray also reported
    as crashed) and the counter at one, that is on the second consecutive run
    that finds it so; the counter is then back at zero.  A run that finds the
    core down with the counter at zero only counts, a run that finds it up
    clears the counter, and in multi-node mode a run does nothing. *)
Theorem health_check_debounce s w j :
  0 <= checkTime j <= 1 ->
  let '(j', w', restart) := Run_ s w j in
  0 <= checkTime j' <= 1
  /\ (forall coreService,
        restart = Some coreService
        <-> (GetMultiNodeMode_ w).1 <> Ok true
            /\ (GetCoreService_ (GetMultiNodeMode_ w).2).1 = Ok coreService
            /\ down coreService s /\ checkTime j = 1)
  /\ (restart <> None -> checkTime j' = 0)
  /\ ((GetMultiNodeMode_ w).1 = Ok true -> j' = j)
  /\ (forall coreService,
        (GetMultiNodeMode_ w).1 <> Ok true ->
        (GetCoreService_ (GetMultiNodeMode_ w).2).1 = Ok coreService ->
        (~ down coreService s -> j' = mkJob 0)
        /\ (down coreService s -> checkTime j = 0 -> j' = mkJob 1)).
Proof.
  intros Hj. pose proof (Run_cases s w j) as H.
  pose proof (Run_counter s w j Hj) as [Hb H1].
  destruct (Run_ s w j) as [[j' w'] restart]. cbn [fst snd] in Hb, H1.
  destruct H as (Hr & H0 & Hm & Hs).
  split; [done|]. split; [|split; [|split]].
  - intros c. split.
    + intros Hc. destruct (Hr c Hc) as (_ & Hi & Hd & Hn & He).
      rewrite incr_small in Hi by lia. split; [done|]. split; [done|].
      split; [done|]. lia.
    + intros (Hn & He & Hd & Hone).
      by destruct (Hs c Hn He) as [_ Hx], (Hx Hd Hone) as [_ ->].
  - destruct restart as [c|]; [|done]. intros _. by destruct (Hr c eq_refl).
  - intros Hmulti. by destruct (Hm Hmulti).
  - intros c Hn He. split.
    + intros Hnd. by destruct (Hs c Hn He) as [Hx _], (Hx Hnd) as [-> _].
    + intros Hd Hz. by apply (H1 c).
Qed.

End HealthCheckProperties.

Section HealthCheckExamples.
Import Settings HealthCheck.

Lemma health_check_debounce_witness :
  exists j' w',
    Run "{}" "{}" (mkXrayAnswers false true)
      (Supervisor.mkService None false ∅)
      (mkWorld {["coreType" := "xray"]} []) (mkJob 1)
    = (j', w', Some XrayCoreAdapter)
    /\ checkTime j' = 0.
Proof.
  pose proof (health_check_debounce "{}" "{}" (mkXrayAnswers false true)
                (Supervisor.mkService None false ∅)
                (mkWorld {["coreType" := "xray"]} []) (mkJob 1)
                ltac:(cbn; lia)) as H.
  destruct (Run "{}" "{}" (mkXrayAnswers false true)
              (Supervisor.mkService None false ∅)
              (mkWorld {["coreType" := "xray"]} []) (mkJob 1))
    as [[j' w'] restart].
  destruct H as (_ & Hr & H0 & _).
  assert (restart = Some XrayCoreAdapter) as ->.
  { apply Hr. split; [by vm_compute|]. split; [by vm_compute|].
    split; [|reflexivity]. split; [reflexivity|]. intros _. reflexivity. }
  exists j', w'. split; [reflexivity|]. by apply H0.
Defined.

End HealthCheckExamples.

Section SwitchSameType.
Import Json Settings Switch.

Variable TrimSpace : string -> string.
Variable decodesXrayConfig : string -> bool.
Variable decodesSingBoxConfig : string -> bool.
Variable Unmarshal : string -> option (option (gmap string any)).
Variable MarshalIndentXray : XrayCfg.Config -> result string.
Variable MarshalIndentSingBox : SingBoxCfg.Config -> result string.
Variable defaultXrayTemplateConfig : string.
Variable defaultSingBoxTemplateConfig : string.
Variable cleanedTemplate : option (gmap string any) -> option string.
Variable answers : Answers.

Let Switch_ :=
  SwitchCoreWithConversion TrimSpace decodesXrayConfig decodesSingBoxConfig
    Unmarshal MarshalIndentXray MarshalIndentSingBox defaultXrayTemplateConfig
    defaultSingBoxTemplateConfig cleanedTemplate answers.

Lemma GetCoreType_reads w :
  faults w = [] -> core_type (stored_type w) ->
  Settings.GetCoreType defaultXrayTemplateConfig defaultSingBoxTemplateConfig w
  = (stored_type w, Ok tt, w).
Proof.
  destruct w as [tb fs]. cbn [faults]. intros -> Hv.
  unfold Settings.GetCoreType, Settings.getString, getSetting, db_first,
    db_access.
  unfold stored_type in *. cbn [faults table] in *.
  destruct (tb !! "coreType") as [v|] eqn:E; cbn [default from_option id] in *.
  - by destruct Hv as [-> | ->].
  - done.
Qed.

(** X16. A switch to the core type that is already stored converts
    nothing and stops nothing: the settings table and the two processes are
    as before, and with a working database the switch succeeds and the panel
    is unchanged. *)
Theorem switch_to_current_type_is_a_no_op (p : Panel) r p' :
  core_type (stored_type (settings p)) ->
  Switch_ (stored_type (settings p)) p = (r, p') ->
  table (settings p') = table (settings p)
  /\ xrayRunning p' = xrayRunning p
  /\ singboxRunning p' = singboxRunning p
  /\ (faults (settings p) = [] -> r = Ok tt /\ p' = p).
Proof.
  intros Hv. subst Switch_. unfold SwitchCoreWithConversion.
  unfold Switch.GetCoreType.
  destruct (Settings.GetCoreType _ _ (settings p)) as [[t r0] w] eqn:E.
  pose proof E as E'.
  apply GetCoreType_table in E as [Ht Hr]; [|done].
  assert (faults (settings p) = [] -> r0 = Ok tt /\ w = settings p) as Hff.
  { intros Hf. rewrite (GetCoreType_reads _ Hf Hv) in E'.
    by injection E' as <- <- <-. }
  destruct r0 as [[]|e].
  - rewrite (Hr eq_refl), String.eqb_refl. intros [= <- <-].
    cbn [settings xrayRunning singboxRunning]. split; [done|].
    split; [done|]. split; [done|].
    intros Hf. destruct (Hff Hf) as [_ ->]. split; [done|]. by destruct p.
  - intros [= <- <-]. cbn [settings xrayRunning singboxRunning].
    split; [done|]. split; [done|]. split; [done|].
    intros Hf. by destruct (Hff Hf).
Qed.

End SwitchSameType.

Section SwitchSameTypeExamples.
Import Json Settings Switch.

Lemma switch_to_current_type_is_a_no_op_witness :
  SwitchCoreWithConversion (fun s => s) (fun _ => true) (fun _ => true)
    (fun _ => Some None) (fun _ => Ok "{}") (fun _ => Ok "{}") "{}" "{}"
    (fun _ => None)
    (mkAnswers (Err "not read") (Err "not read") true true (Ok tt)
       (Ok tt))
    "sing-box"
    (mkPanel (mkWorld {["coreType" := "sing-box"]} []) false true)
  = (Ok tt, mkPanel (mkWorld {["coreType" := "sing-box"]} []) false true).
Proof.
  destruct (SwitchCoreWithConversion (fun s => s) (fun _ => true)
              (fun _ => true) (fun _ => Some None) (fun _ => Ok "{}")
              (fun _ => Ok "{}") "{}" "{}" (fun _ => None)
              (mkAnswers (Err "not read") (Err "not read") true true (Ok tt)
       (Ok tt))
              "sing-box"
              (mkPanel (mkWorld {["coreType" := "sing-box"]} []) false true))
    as [r p'] eqn:E.
  destruct (switch_to_current_type_is_a_no_op (fun s => s) (fun _ => true)
              (fun _ => true) (fun _ => Some None) (fun _ => Ok "{}")
              (fun _ => Ok "{}") "{}" "{}" (fun _ => None)
              (mkAnswers (Err "not read") (Err "not read") true true (Ok tt)
       (Ok tt))
              (mkPanel (mkWorld {["coreType" := "sing-box"]} []) false true)
              r p')
    as (_ & _ & _ & H).
  - right. reflexivity.
  - exact E.
  - destruct H as [-> ->]; reflexivity.
Defined.

End SwitchSameTypeExamples.

Section TemplateValidation.
Import Json Settings.

Variable TrimSpace : string -> string.
Variable decodesXrayConfig : string -> bool.
Variable Unmarshal : string -> option (option (gmap string any)).
Variable defaultXrayTemplateConfig : string.
Variable defaultSingBoxTemplateConfig : string.
Variable cleanedTemplate : option (gmap string any) -> option string.

Let EnsureXray :=
  EnsureXrayTemplateConfigValid TrimSpace decodesXrayConfig
    defaultXrayTemplateConfig.
Let EnsureSingBox :=
  EnsureSingBoxTemplateConfigValid TrimSpace Unmarshal
    defaultSingBoxTemplateConfig cleanedTemplate.

(** A template that the validation of the Xray template accepts. *)
Definition usable (text : string) : Prop :=
  TrimSpace text <> "" /\ TrimSpace text <> "{}"
  /\ decodesXrayConfig (TrimSpace text) = true.

Lemma usable_dec text :
  usable text \/ unusable TrimSpace decodesXrayConfig text.
Proof.
  unfold usable, unusable.
  destruct (String.eqb (TrimSpace text) "") eqn:E1;
    [apply String.eqb_eq in E1; auto|apply String.eqb_neq in E1].
  destruct (String.eqb (TrimSpace text) "{}") eqn:E2;
    [apply String.eqb_eq in E2; auto|apply String.eqb_neq in E2].
  destruct (decodesXrayConfig (TrimSpace text)); auto.
Qed.

Lemma EnsureXray_accepts w stored :
  faults w = [] -> table w !! "xrayTemplateConfig" = Some stored ->
  usable stored -> EnsureXray w = (Ok tt, w).
Proof.
  destruct w as [tb fs]. cbn [faults table]. intros -> Hs (H1 & H2 & H3).
  subst EnsureXray. unfold EnsureXrayTemplateConfigValid, db_first, db_access.
  cbn [faults table]. rewrite Hs.
  apply String.eqb_neq in H1, H2. by rewrite H1, H2, H3.
Qed.

Lemma EnsureXray_initialises w :
  faults w = [] -> table w !! "xrayTemplateConfig" = None ->
  EnsureXray w
  = (Ok tt,
     mkWorld (<["xrayTemplateConfig" := defaultXrayTemplateConfig]> (table w))
       []).
Proof.
  intros Hf Hs. subst EnsureXray.
  unfold EnsureXrayTemplateConfigValid, db_first, db_access.
  rewrite Hf. cbn. rewrite Hs. by apply saveSetting_works.
Qed.

(** X17. Validating the Xray template, with a working database and a
    default template that is itself usable (non-blank, not the empty object,
    decoding as a configuration): the validation succeeds and leaves a usable
    template stored; a stored template that was usable is not touched, no
    other key is ever touched, and validating once more changes nothing. *)
Theorem xray_template_validation_is_idempotent w :
  faults w = [] -> usable defaultXrayTemplateConfig ->
  exists w' stored,
    EnsureXray w = (Ok tt, w')
    /\ table w' !! "xrayTemplateConfig" = Some stored
    /\ usable stored
    /\ (forall old, table w !! "xrayTemplateConfig" = Some old ->
        usable old -> w' = w)
    /\ (forall k, k <> "xrayTemplateConfig" -> table w' !! k = table w !! k)
    /\ EnsureXray w' = (Ok tt, w').
Proof.
  intros Hf Hd.
  destruct (table w !! "xrayTemplateConfig") as [old|] eqn:Eo.
  - destruct (usable_dec old) as [Hu | Hu].
    + exists w, old. rewrite (EnsureXray_accepts w old) by done.
      split; [done|]. split; [done|]. split; [done|]. by repeat split.
    + eexists _, defaultXrayTemplateConfig.
      assert (EnsureXray w
              = (Ok tt, mkWorld (<["xrayTemplateConfig" :=
                                     defaultXrayTemplateConfig]> (table w)) []))
        as -> by (by apply (EnsureXray_heals _ _ _ w old)).
      split; [done|]. cbn [table]. split; [by rewrite lookup_insert_eq|].
      split; [done|]. split.
      { intros old' [= <-] (H1 & H2 & H3).
        destruct Hu as [? | [? | ?]]; congruence. }
      split; [by intros k ?; rewrite lookup_insert_ne|].
      apply (EnsureXray_accepts _ defaultXrayTemplateConfig); try done.
      cbn [table]. by rewrite lookup_insert_eq.
  - eexists _, defaultXrayTemplateConfig.
    rewrite (EnsureXray_initialises w) by done.
    split; [done|]. cbn [table]. split; [by rewrite lookup_insert_eq|].
    split; [done|]. split; [done|].
    split; [by intros k ?; rewrite lookup_insert_ne|].
    apply (EnsureXray_accepts _ defaultXrayTemplateConfig); try done.
    cbn [table]. by rewrite lookup_insert_eq.
Qed.

End TemplateValidation.

Section TemplateValidationExamples.
Import Json Settings.

Lemma xray_template_validation_witness :
  exists w' stored,
    EnsureXrayTemplateConfigValid (fun s => s) (String.eqb "DEFAULT") "DEFAULT"
      (mkWorld {["xrayTemplateConfig" := "{}"]} []) = (Ok tt, w')
    /\ table w' !! "xrayTemplateConfig" = Some stored
    /\ EnsureXrayTemplateConfigValid (fun s => s) (String.eqb "DEFAULT")
         "DEFAULT" w' = (Ok tt, w').
Proof.
  destruct (xray_template_validation_is_idempotent (fun s => s)
              (String.eqb "DEFAULT") "DEFAULT"
              (mkWorld {["xrayTemplateConfig" := "{}"]} []) eq_refl)
    as (w' & stored & H1 & H2 & _ & _ & _ & H3).
  - split; [discriminate|]. split; [discriminate|reflexivity].
  - by exists w', stored.
Defined.

End TemplateValidationExamples.

Section UserSyncProperties.
Import Json XrayCfg UserSync.
Local Open Scope list_scope.

Variable EqualFold : string -> string -> bool.
Variable WriteConfigFile : Config -> result string.

Let Removal := UpdateConfigFileAfterUserRemoval EqualFold WriteConfigFile.
Let Addition := UpdateConfigFileAfterUserAddition EqualFold WriteConfigFile.

(** A client that the removal of [email] keeps: it has a string email, and
    that is not [email] up to case. *)
Definition kept (email : string) (client : any) : bool :=
  match client_email client with
  | Some clientEmail => negb (EqualFold clientEmail email)
  | None => false
  end.

(** The config with new settings for the inbound between [before] and
    [after], and what writing it comes to. *)
Definition with_settings (config : Config)
    (before : list InboundConfig) (inbound : InboundConfig)
    (after : list InboundConfig) (settings : gmap string any) : Config :=
  set_InboundConfigs config
    (before ++ set_Settings inbound (RawJSON (Map settings)) :: after).

Definition written_as (config : Config) : Outcome :=
  match WriteConfigFile config with
  | Ok _ => Returns None
  | Err e => Returns (Some ("failed to write config file: " +:+ e))
  end.

Lemma first_tagged_app tag before inbound after i :
  Forall (fun other => Tag other <> tag) before -> Tag inbound = tag ->
  first_tagged tag (before ++ inbound :: after) i
  = Some ((i + length before)%nat, inbound).
Proof.
  intros Hb Ht. revert i.
  induction Hb as [|other before Ho Hb IH]; intros i; cbn [app first_tagged].
  - rewrite Ht, String.eqb_refl. do 2 f_equal. cbn. lia.
  - apply String.eqb_neq in Ho. rewrite Ho, IH. do 2 f_equal. cbn. lia.
Qed.

Lemma insert_middle {A} (before : list A) x y after :
  <[length before := y]> (before ++ x :: after) = before ++ y :: after.
Proof.
  by rewrite insert_app_r_alt, Nat.sub_diag.
Qed.

Lemma fold_remove email clients found newClients :
  fold_left (remove_client EqualFold email) clients (found, newClients)
  = (found || already_there EqualFold email clients,
     (newClients ++ List.filter (kept email) clients)%list).
Proof.
  revert found newClients.
  induction clients as [|client clients IH]; intros found newClients.
  - cbn. by rewrite orb_false_r, app_nil_r.
  - cbn [fold_left remove_client already_there existsb List.filter].
    unfold kept at 1. destruct (client_email client) as [clientEmail|].
    + destruct (EqualFold clientEmail email); cbn [negb orb].
      * rewrite IH. cbn [orb]. by rewrite orb_true_r.
      * rewrite IH. by rewrite <- app_assoc.
    + by rewrite IH.
Qed.

Lemma carry_out_Store config before inbound after settings :
  InboundConfigs config = (before ++ inbound :: after)%list ->
  carry_out WriteConfigFile config (length before) inbound
    (Store (RawJSON (Map settings)))
  = (written_as (with_settings config before inbound after settings),
     with_settings config before inbound after settings,
     [with_settings config before inbound after settings]).
Proof.
  intros Hi. unfold carry_out, written_as, with_settings.
  rewrite Hi, insert_middle.
  by destruct (WriteConfigFile _).
Qed.

Lemma client_email_decoded client :
  client_email (decoded client) = client_email client.
Proof.
  destruct client; try done. cbn [decoded client_email].
  apply str_field_decoded.
Qed.

Lemma kept_decoded email clients :
  List.filter (kept email) (map decoded clients)
  = map decoded (List.filter (kept email) clients).
Proof.
  induction clients as [|c clients IH]; [done|]. cbn [map List.filter].
  assert (kept email (decoded c) = kept email c) as ->
    by (unfold kept; by rewrite client_email_decoded).
  destruct (kept email c); [|done]. cbn [map]. by rewrite IH.
Qed.

Lemma already_there_decoded email clients :
  already_there EqualFold email (map decoded clients)
  = already_there EqualFold email clients.
Proof.
  induction clients as [|c clients IH]; [done|]. cbn [map already_there existsb].
  rewrite client_email_decoded. f_equal. apply IH.
Qed.

(** X18. Removing a user from the config of the process.  The first inbound
    of the tag is the one looked at.  If a client of it has the email, up to
    case, the settings get a new client list and the config is written once,
    a failed write being returned as the error with the new list already in
    place; if none has, nothing is changed and nothing is written.  The new
    list holds the clients that have a string email other than the given
    one: an entry without a string email is dropped along with the user. *)
Theorem user_removal config before inbound after settings clients email :
  InboundConfigs config = (before ++ inbound :: after)%list ->
  Forall (fun other => Tag other <> Tag inbound) before ->
  Settings inbound = RawJSON (Map settings) ->
  settings !! "clients" = Some (Slice clients) ->
  let config' :=
    with_settings config before inbound after
      (<["clients" := Slice (map decoded (List.filter (kept email) clients))]>
         (decoded <$> settings)) in
  Removal (Some config) (Tag inbound) email
  = (if already_there EqualFold email clients
     then (written_as config', Some config', [config'])
     else (Returns None, Some config, []))
  /\ Forall (fun client =>
               exists clientEmail,
                 client_email client = Some clientEmail
                 /\ EqualFold clientEmail email = false)
       (List.filter (kept email) clients).
Proof.
  intros Hi Hb Hs Hc config'. split.
  - subst Removal. unfold UpdateConfigFileAfterUserRemoval.
    rewrite Hi, first_tagged_app by done. cbn [Nat.add].
    unfold removal_step. rewrite Hs. cbn [UnmarshalMap].
    change (fields (Some settings)) with settings.
    assert (slice_field settings "clients" = Some clients) as ->
      by by apply slice_field_Some.
    rewrite fold_remove. cbn [orb app].
    destruct (already_there EqualFold email clients); cbn [negb].
    + unfold Marshal. cbn [decoded]. rewrite fmap_insert. cbn [decoded].
      by rewrite (carry_out_Store config before inbound after).
    + done.
  - clear. induction clients as [|client clients IH]; [constructor|].
    cbn [List.filter]. destruct (kept email client) eqn:Hk; [|done].
    constructor; [|done]. unfold kept in Hk.
    destruct (client_email client) as [ce|]; [|done].
    exists ce. split; [done|]. by destruct (EqualFold ce email).
Qed.

Lemma first_tagged_in config before inbound after :
  InboundConfigs config = before ++ inbound :: after ->
  Forall (fun other => Tag other <> Tag inbound) before ->
  first_tagged (Tag inbound) (InboundConfigs config) 0
  = Some (length before, inbound).
Proof. intros -> Hb. by rewrite first_tagged_app. Qed.

(** X19. Adding a user to the config of the process.  If a client of the
    first inbound of the tag has the email of the user, up to case, nothing
    is changed and nothing is written.  Otherwise the user is put at the end
    of the client list and the config is written once; a [clients] value that
    is not an array is replaced by the list of the user alone.  When the
    settings of the inbound are the document [null], the call panics. *)
Theorem user_addition config before inbound after user userEmail :
  InboundConfigs config = before ++ inbound :: after ->
  Forall (fun other => Tag other <> Tag inbound) before ->
  str_field user "email" = Some userEmail ->
  (forall settings,
     Settings inbound = RawJSON (Map settings) ->
     let clients := default [] (slice_field settings "clients") in
     let config' :=
       with_settings config before inbound after
         (<["clients" := Slice (map decoded (clients ++ [Map user]))]>
            (decoded <$> settings)) in
     Addition (Some config) (Tag inbound) user
     = if already_there EqualFold userEmail clients
       then (Returns None, Some config, [])
       else (written_as config', Some config', [config']))
  /\ (Settings inbound = RawJSON Nil ->
      exists reason,
        Addition (Some config) (Tag inbound) user
        = (Panics reason, Some config, [])).
Proof.
  intros Hi Hb He. subst Addition. unfold UpdateConfigFileAfterUserAddition.
  rewrite He, (first_tagged_in config before inbound after) by done.
  unfold addition_step. split.
  - intros settings Hs. rewrite Hs. cbn [UnmarshalMap].
    change (fields (Some settings)) with settings.
    destruct (already_there EqualFold userEmail _); [done|].
    unfold Marshal. cbn [decoded]. rewrite fmap_insert. cbn [decoded].
    by rewrite (carry_out_Store config before inbound after).
  - intros Hs. rewrite Hs. cbn [UnmarshalMap]. by eexists.
Qed.

Lemma set_Settings_same inbound :
  set_Settings inbound (Settings inbound) = inbound.
Proof. by destruct inbound. Qed.

Lemma with_settings_same config before inbound after settings :
  InboundConfigs config = before ++ inbound :: after ->
  Settings inbound = RawJSON (Map settings) ->
  with_settings config before inbound after settings = config.
Proof.
  intros Hi Hs. unfold with_settings. rewrite <- Hs, set_Settings_same, <- Hi.
  by destruct config.
Qed.

Lemma with_settings_twice config before inbound after s1 s2 :
  with_settings (with_settings config before inbound after s1) before
    (set_Settings inbound (RawJSON (Map s1))) after s2
  = with_settings config before inbound after s2.
Proof. done. Qed.

Lemma already_there_last email clients (user : gmap string any) :
  str_field user "email" = Some email -> EqualFold email email = true ->
  already_there EqualFold email (clients ++ [Map user]) = true.
Proof.
  intros He Hr. unfold already_there. rewrite existsb_app. cbn [existsb].
  cbn [client_email]. rewrite He, Hr. by rewrite orb_true_r.
Qed.

Lemma all_kept email clients :
  Forall (fun client => kept email client = true) clients ->
  List.filter (kept email) clients = clients
  /\ already_there EqualFold email clients = false.
Proof.
  induction 1 as [|client clients Hk _ [IH1 IH2]]; [done|].
  cbn [List.filter already_there existsb]. rewrite Hk, IH1. split; [done|].
  unfold already_there in IH2. rewrite IH2. unfold kept in Hk.
  destruct (client_email client) as [ce|]; [|done].
  by destruct (EqualFold ce email).
Qed.

(** X20. Adding and removing compose.  For an inbound whose clients all
    have a string email other than that of the user: after the user has been
    added, adding the same user again changes nothing and writes nothing, and
    removing the user by email gives back the config from before the
    addition. *)
Theorem add_then_remove config before inbound after settings clients user
    userEmail :
  InboundConfigs config = before ++ inbound :: after ->
  Forall (fun other => Tag other <> Tag inbound) before ->
  Settings inbound = RawJSON (Map settings) ->
  decoded <$> settings = settings ->
  settings !! "clients" = Some (Slice clients) ->
  Forall (fun client => kept userEmail client = true) clients ->
  str_field user "email" = Some userEmail ->
  EqualFold userEmail userEmail = true ->
  exists added,
    (Addition (Some config) (Tag inbound) user).1.2 = Some added
    /\ added <> config
    /\ Addition (Some added) (Tag inbound) user = (Returns None, Some added, [])
    /\ (Removal (Some added) (Tag inbound) userEmail).1.2 = Some config.
Proof.
  intros Hi Hb Hs Hd Hc Hk He Hr.
  destruct (all_kept _ _ Hk) as [Hf Hn].
  assert (map decoded clients = clients) as Hdc.
  { pose proof (decoded_fixed_lookup _ _ _ Hd Hc) as H. cbn [decoded] in H.
    by injection H. }
  assert (slice_field settings "clients" = Some clients) as Hsl
    by by apply slice_field_Some.
  destruct (user_addition config before inbound after user userEmail Hi Hb He)
    as [Hadd _].
  specialize (Hadd settings Hs). cbv zeta in Hadd.
  rewrite Hsl in Hadd. cbn [default from_option id] in Hadd.
  rewrite Hn, Hd in Hadd.
  set (settings' := <["clients" := Slice (map decoded (clients ++ [Map user]))]>
                      settings) in *.
  set (added := with_settings config before inbound after settings') in *.
  assert (InboundConfigs added
          = before ++ set_Settings inbound (RawJSON (Map settings')) :: after)
    as Hi' by done.
  assert (Forall (fun other =>
                    Tag other
                    <> Tag (set_Settings inbound (RawJSON (Map settings'))))
            before) as Hb' by done.
  assert (settings' !! "clients"
          = Some (Slice (map decoded (clients ++ [Map user])))) as Hc'
    by (subst settings'; by rewrite lookup_insert_eq).
  exists added. rewrite Hadd. cbn [fst snd]. split; [done|]. split.
  { intros Heq. assert (InboundConfigs added = InboundConfigs config) as H
      by by rewrite Heq.
    rewrite Hi', Hi in H. apply app_inv_head in H. injection H as H.
    assert (Settings (set_Settings inbound (RawJSON (Map settings')))
            = Settings inbound) as H' by by rewrite H.
    cbn [Settings set_Settings] in H'. rewrite Hs in H'. injection H' as H'.
    assert (settings' !! "clients" = settings !! "clients") as H''
      by by rewrite H'.
    rewrite Hc', Hc in H''. injection H'' as H''.
    apply (f_equal (@length any)) in H''.
    rewrite length_map, length_app in H''. cbn in H''. lia. }
  split.
  - destruct (user_addition added before
                (set_Settings inbound (RawJSON (Map settings'))) after user
                userEmail Hi' Hb' He) as [Hadd2 _].
    specialize (Hadd2 settings' eq_refl). cbv zeta in Hadd2.
    change (Tag (set_Settings inbound (RawJSON (Map settings'))))
      with (Tag inbound) in Hadd2.
    rewrite Hadd2.
    assert (slice_field settings' "clients"
            = Some (map decoded (clients ++ [Map user]))) as ->
      by by apply slice_field_Some.
    cbn [default from_option id].
    by rewrite already_there_decoded, already_there_last.
  - destruct (user_removal added before
                (set_Settings inbound (RawJSON (Map settings'))) after
                settings' (map decoded (clients ++ [Map user])) userEmail
                Hi' Hb' eq_refl Hc') as [Hrem _].
    cbv zeta in Hrem.
    change (Tag (set_Settings inbound (RawJSON (Map settings'))))
      with (Tag inbound) in Hrem.
    rewrite Hrem, already_there_decoded, already_there_last by done.
    cbn [fst snd]. f_equal. subst added. rewrite with_settings_twice.
    apply with_settings_same; [done|]. rewrite Hs. do 2 f_equal.
    rewrite kept_decoded, List.filter_app, Hf. cbn [List.filter].
    assert (kept userEmail (Map user) = false) as ->.
    { unfold kept. cbn [client_email]. by rewrite He, Hr. }
    rewrite app_nil_r, map_map.
    assert (map (fun x => decoded (decoded x)) clients = clients) as ->.
    { rewrite <- Hdc at 2. rewrite <- Hdc at 2. by rewrite map_map. }
    subst settings'. rewrite fmap_insert, Hd, insert_insert_eq.
    symmetry. by apply insert_id.
Qed.

(** Two inbounds that differ in their settings at most. *)
Definition same_but_settings (a b : InboundConfig) : Prop :=
  Listen b = Listen a /\ Port b = Port a /\ Protocol b = Protocol a
  /\ StreamSettings b = StreamSettings a /\ Tag b = Tag a
  /\ Sniffing b = Sniffing a.

(** What a call may do to the config: nothing at all, or new settings for
    inbounds of the given tag, written once. *)
Definition touches_settings_only (tag : string) (config : Config)
    (r : Outcome * option Config * list Config) : Prop :=
  exists config',
    r.1.2 = Some config'
    /\ ((r.2 = [] /\ config' = config)
        \/ (r.2 = [config'] /\ r.1.1 = written_as config'))
    /\ LogConfig config' = LogConfig config
    /\ RouterConfig config' = RouterConfig config
    /\ DNSConfig config' = DNSConfig config
    /\ OutboundConfigs config' = OutboundConfigs config
    /\ Forall2 (fun a b => same_but_settings a b /\ (Tag a <> tag -> b = a))
         (InboundConfigs config) (InboundConfigs config').

Lemma first_tagged_Some tag inbounds i0 i inbound :
  first_tagged tag inbounds i0 = Some (i, inbound) ->
  exists before after,
    inbounds = before ++ inbound :: after
    /\ i = (i0 + length before)%nat
    /\ Forall (fun other => Tag other <> tag) before
    /\ Tag inbound = tag.
Proof.
  revert i0. induction inbounds as [|x inbounds IH]; intros i0; [done|].
  cbn [first_tagged]. destruct (String.eqb (Tag x) tag) eqn:E.
  - intros [= <- <-]. apply String.eqb_eq in E. exists [], inbounds.
    cbn. split; [done|]. split; [lia|]. by split.
  - intros (before & after & -> & -> & Hb & Ht)%IH.
    apply String.eqb_neq in E. exists (x :: before), after.
    cbn. split; [done|]. split; [lia|]. split; [by constructor|done].
Qed.

Lemma Forall2_same (inbounds : list InboundConfig) tag :
  Forall2 (fun a b => same_but_settings a b /\ (Tag a <> tag -> b = a))
    inbounds inbounds.
Proof.
  induction inbounds; constructor; [|done]. by repeat split.
Qed.

Lemma untouched tag config outcome :
  touches_settings_only tag config (outcome, Some config, []).
Proof.
  exists config. cbn [fst snd]. split; [done|]. split; [by left|].
  repeat (split; [done|]). apply Forall2_same.
Qed.

Lemma carry_out_frame config before inbound after step :
  InboundConfigs config = before ++ inbound :: after ->
  let '(outcome, config', written) :=
    carry_out WriteConfigFile config (length before) inbound step in
  touches_settings_only (Tag inbound) config (outcome, Some config', written).
Proof.
  intros Hi. destruct step as [err|updatedSettings|reason]; cbn [carry_out].
  - apply untouched.
  - rewrite Hi, insert_middle.
    set (config' := set_InboundConfigs config _).
    assert ((let '(outcome, config'0, written) :=
               match WriteConfigFile config' with
               | Ok _ => (Returns None, config', [config'])
               | Err e =>
                   (Returns (Some ("failed to write config file: " +:+ e)),
                    config', [config'])
               end in
             touches_settings_only (Tag inbound) config
               (outcome, Some config'0, written))
            = touches_settings_only (Tag inbound) config
                (written_as config', Some config', [config'])) as ->.
    { unfold written_as. by destruct (WriteConfigFile config'). }
    exists config'. cbn [fst snd]. split; [done|]. split; [by right|].
    repeat (split; [done|]). subst config'. cbn [InboundConfigs set_InboundConfigs].
    rewrite Hi. apply Forall2_app; [apply Forall2_same|].
    constructor; [|apply Forall2_same]. split; [by repeat split|done].
  - apply untouched.
Qed.

(** X21. Neither function touches anything but settings: the config after
    a call has the same log, routing, DNS and outbound sections and the same
    inbounds in the same order, each with its listen address, port, protocol,
    stream settings, tag and sniffing as before, and an inbound of another
    tag as a whole.  Either nothing is written and the config is unchanged,
    or the config kept in memory is the one handed to the write, once, whose
    result is the result of the call.  A nil config is an error. *)
Theorem sync_touches_settings_only config tag :
  (forall email, touches_settings_only tag config (Removal (Some config) tag email))
  /\ (forall user,
        touches_settings_only tag config (Addition (Some config) tag user))
  /\ (forall email, Removal None tag email
                    = (Returns (Some "process config is nil"), None, []))
  /\ (forall user, Addition None tag user
                   = (Returns (Some "process config is nil"), None, [])).
Proof.
  subst Removal Addition. split; [|split; [|done]].
  - intros email. unfold UpdateConfigFileAfterUserRemoval.
    destruct (first_tagged tag (InboundConfigs config) 0)
      as [[i inbound]|] eqn:E; [|apply untouched].
    apply first_tagged_Some in E as (before & after & Hi & -> & _ & <-).
    cbn [Nat.add].
    pose proof (carry_out_frame config before inbound after
                  (removal_step EqualFold inbound email) Hi) as H.
    by destruct (carry_out _ _ _ _ _) as [[outcome config'] written].
  - intros user. unfold UpdateConfigFileAfterUserAddition.
    destruct (str_field user "email") as [userEmail|]; [|apply untouched].
    destruct (first_tagged tag (InboundConfigs config) 0)
      as [[i inbound]|] eqn:E; [|apply untouched].
    apply first_tagged_Some in E as (before & after & Hi & -> & _ & <-).
    cbn [Nat.add].
    pose proof (carry_out_frame config before inbound after
                  (addition_step EqualFold inbound userEmail user) Hi) as H.
    by destruct (carry_out _ _ _ _ _) as [[outcome config'] written].
Qed.

End UserSyncProperties.

Section UserSyncExamples.
Import Json XrayCfg UserSync.

(** A config with one inbound and two clients, and stand-ins for the two
    library functions. *)
Definition two_clients : gmap string any :=
  {["clients" := Slice [Map {["email" := Str "alice@example.com"]};
                        Map {["email" := Str "bob@example.com"]}]]}.

Definition one_inbound (settings : gmap string any) : Config :=
  mkConfig RawEmpty RawEmpty RawEmpty
    [mkInbound RawEmpty 443 "vless" (RawJSON (Map settings)) RawEmpty "in-1"
       RawEmpty]
    RawEmpty.

Lemma user_removal_witness :
  UpdateConfigFileAfterUserRemoval String.eqb (fun _ => Ok "config.json")
    (Some (one_inbound two_clients)) "in-1" "alice@example.com"
  = (Returns None,
     Some (one_inbound
             {["clients" := Slice [Map {["email" := Str "bob@example.com"]}]]}),
     [one_inbound
        {["clients" := Slice [Map {["email" := Str "bob@example.com"]}]]}]).
Proof.
  refine (proj1 (user_removal String.eqb (fun _ => Ok "config.json")
                   (one_inbound two_clients) []
                   (mkInbound RawEmpty 443 "vless" (RawJSON (Map two_clients))
                      RawEmpty "in-1" RawEmpty)
                   [] two_clients
                   [Map {["email" := Str "alice@example.com"]};
                    Map {["email" := Str "bob@example.com"]}]
                   "alice@example.com" _ _ _ _)).
  - reflexivity.
  - constructor.
  - reflexivity.
  - reflexivity.
Defined.

Lemma user_addition_witness :
  UpdateConfigFileAfterUserAddition String.eqb (fun _ => Ok "config.json")
    (Some (one_inbound ∅)) "in-1" {["email" := Str "carol@example.com"]}
  = (Returns None,
     Some (one_inbound
             {["clients" :=
                 Slice [Map {["email" := Str "carol@example.com"]}]]}),
     [one_inbound
        {["clients" := Slice [Map {["email" := Str "carol@example.com"]}]]}]).
Proof.
  refine (proj1 (user_addition String.eqb (fun _ => Ok "config.json")
                   (one_inbound ∅) []
                   (mkInbound RawEmpty 443 "vless" (RawJSON (Map ∅))
                      RawEmpty "in-1" RawEmpty)
                   [] {["email" := Str "carol@example.com"]}
                   "carol@example.com" _ _ _) ∅ _).
  - reflexivity.
  - constructor.
  - reflexivity.
  - reflexivity.
Defined.

Lemma add_then_remove_witness :
  exists added,
    (UpdateConfigFileAfterUserAddition String.eqb (fun _ => Ok "config.json")
       (Some (one_inbound two_clients)) "in-1"
       {["email" := Str "carol@example.com"]}).1.2 = Some added
    /\ added <> one_inbound two_clients
    /\ (UpdateConfigFileAfterUserRemoval String.eqb (fun _ => Ok "config.json")
          (Some added) "in-1" "carol@example.com").1.2
       = Some (one_inbound two_clients).
Proof.
  destruct (add_then_remove String.eqb (fun _ => Ok "config.json")
              (one_inbound two_clients) []
              (mkInbound RawEmpty 443 "vless" (RawJSON (Map two_clients))
                 RawEmpty "in-1" RawEmpty)
              [] two_clients
              [Map {["email" := Str "alice@example.com"]};
               Map {["email" := Str "bob@example.com"]}]
              {["email" := Str "carol@example.com"]} "carol@example.com")
    as (added & H1 & H2 & _ & H3).
  - reflexivity.
  - constructor.
  - reflexivity.
  - by vm_compute.
  - reflexivity.
  - repeat constructor.
  - reflexivity.
  - reflexivity.
  - by exists added.
Defined.

End UserSyncExamples.

Section ManagerProperties.
Import Json Node.

Variable bytes_Equal : RawMessage -> RawMessage -> bool.
Variable Unmarshal : string -> result SingBoxCfg.Config.

Let ApplyConfig_ := ApplyConfig bytes_Equal Unmarshal.

(** The manager holds the config that its process was made with. *)
Definition runs_its_config (m : Manager) : Prop :=
  forall p, process m = Some p -> config m = Some (Supervisor.config p).

Lemma Start_config a p :
  Supervisor.config (Supervisor.Start a p).1.2 = Supervisor.config p.
Proof.
  unfold Supervisor.Start. destruct (Supervisor.IsRunning p); [done|].
  destruct (Supervisor.written a); [|done].
  destruct (negb (Supervisor.binaryExists a)); [done|].
  by destruct (Supervisor.checkError a).
Qed.

Lemma exited_config p :
  Supervisor.config (Supervisor.exited p) = Supervisor.config p.
Proof. unfold Supervisor.exited. by destruct (Supervisor.cmd p). Qed.

Lemma Stop_config a p :
  Supervisor.config (Supervisor.Stop a p).1.2 = Supervisor.config p.
Proof.
  unfold Supervisor.Stop. destruct (negb (Supervisor.IsRunning p)); [done|].
  destruct (Supervisor.cmd p) as [[[pid|] st]|]; try done.
  destruct (Supervisor.signalError a); [done|].
  destruct (Supervisor.exitsInTime a); [apply exited_config|].
  destruct (Supervisor.killError a); [done|].
  destruct (Supervisor.exitsAfterKill a); [apply exited_config|done].
Qed.

Lemma start_new_spec start c events :
  exists r p started,
    Supervisor.Start start (Supervisor.newProcess c) = (r, p, started)
    /\ Supervisor.config p = c
    /\ start_new start c events
       = (match r with
          | Ok _ => Ok tt
          | Err e => Err ("failed to start Sing-box: " +:+ e)
          end, mkManager (Some p) (Some c), (events ++ started)%list).
Proof.
  pose proof (Start_config start (Supervisor.newProcess c)) as H.
  unfold start_new.
  destruct (Supervisor.Start start (Supervisor.newProcess c)) as [[r p] st].
  by exists r, p, st.
Qed.

Lemma start_new_runs start c events :
  runs_its_config (start_new start c events).1.2
  /\ config (start_new start c events).1.2 = Some c.
Proof.
  destruct (start_new_spec start c events) as (r & p & st & _ & Hc & ->).
  cbn [fst snd]. split; [|done]. intros p' [= <-]. cbn [config]. by rewrite Hc.
Qed.

Lemma not_no_config (r : result unit) e :
  match r with
  | Ok _ => Ok tt
  | Err e => Err ("failed to start Sing-box: " +:+ e)
  end <> @Err unit "no config to reload"
  /\ @Err unit ("failed to stop Sing-box: " +:+ e) <> Err "no config to reload".
Proof. split; [by destruct r|done]. Qed.

(** X22. The manager of a node holds the config that its process was made
    with: every operation keeps this so.  Reloading, force-reloading and
    stopping keep the config, and a reload of such a manager never fails for
    want of a config. *)
Theorem manager_runs_its_config stop start configJSON m :
  runs_its_config m ->
  runs_its_config (ApplyConfig_ stop start configJSON m).1.2
  /\ runs_its_config (Reload stop start m).1.2
  /\ runs_its_config (ForceReload stop start m).1.2
  /\ runs_its_config (Stop stop m).1.2
  /\ config (Reload stop start m).1.2 = config m
  /\ config (ForceReload stop start m).1.2 = config m
  /\ config (Stop stop m).1.2 = config m
  /\ (Reload stop start m).1.1 <> Err "no config to reload".
Proof.
  intros Hm. subst ApplyConfig_. repeat apply conj.
  - unfold ApplyConfig. destruct (Unmarshal configJSON) as [c|e]; [|done].
    destruct (process m) as [p|]; [|apply start_new_runs].
    destruct (Supervisor.IsRunning p); [|apply start_new_runs].
    destruct (Compare.Equals _ _ _); [done|].
    destruct (Supervisor.Stop stop p) as [[r p'] st]. apply start_new_runs.
  - unfold Reload. destruct (process m) as [p|] eqn:Ep; [|done].
    destruct (negb (Supervisor.IsRunning p)); [done|].
    destruct (config m) as [c|] eqn:Ec; [|done].
    pose proof (Stop_config stop p) as Hs.
    destruct (Supervisor.Stop stop p) as [[r p'] st]. cbn [fst snd] in Hs.
    destruct r; [apply start_new_runs|].
    intros p'' [= <-]. cbn [fst snd config]. rewrite Hs, <- Ec. by apply Hm.
  - unfold ForceReload. destruct (config m) as [c|]; [|done].
    destruct (process m) as [p|]; [|apply start_new_runs].
    destruct (Supervisor.IsRunning p); [|apply start_new_runs].
    destruct (Supervisor.Stop stop p) as [[r p'] st]. apply start_new_runs.
  - unfold Stop. destruct (process m) as [p|] eqn:Ep; [|done].
    pose proof (Stop_config stop p) as Hs.
    destruct (Supervisor.Stop stop p) as [[r p'] st]. cbn [fst snd] in Hs.
    destruct r; [done|]. intros p'' [= <-]. cbn [fst snd config]. rewrite Hs.
    by apply Hm.
  - unfold Reload. destruct (process m) as [p|] eqn:Ep; [|done].
    destruct (negb (Supervisor.IsRunning p)); [done|].
    destruct (config m) as [c|] eqn:Ec; [|done].
    destruct (Supervisor.Stop stop p) as [[r p'] st].
    destruct r; [apply start_new_runs|done].
  - unfold ForceReload. destruct (config m) as [c|] eqn:Ec; [|done].
    destruct (process m) as [p|]; [|apply start_new_runs].
    destruct (Supervisor.IsRunning p); [|apply start_new_runs].
    destruct (Supervisor.Stop stop p) as [[r p'] st]. apply start_new_runs.
  - unfold Stop. destruct (process m) as [p|] eqn:Ep; [|done].
    destruct (Supervisor.Stop stop p) as [[r p'] st]. by destruct r.
  - unfold Reload. destruct (process m) as [p|] eqn:Ep; [|done].
    destruct (negb (Supervisor.IsRunning p)); [done|].
    rewrite (Hm p Ep).
    destruct (Supervisor.Stop stop p) as [[r p'] st].
    destruct r as [[]|e]; [|done].
    destruct (start_new_spec start (Supervisor.config p) st)
      as (r & p'' & st' & _ & _ & ->).
    cbn [fst]. by destruct r.
Qed.

Section Reflexive.

Hypothesis bytes_Equal_refl : forall r, bytes_Equal r r = true.

Lemma InboundEquals_refl c : Compare.InboundEquals bytes_Equal c c = true.
Proof.
  unfold Compare.InboundEquals.
  by rewrite !String.eqb_refl, Z.eqb_refl, !Bool.eqb_reflx, !bytes_Equal_refl.
Qed.

Lemma inbounds_equal_refl l : Compare.inbounds_equal bytes_Equal l l = true.
Proof.
  induction l as [|c l IH]; [done|]. cbn [Compare.inbounds_equal].
  by rewrite InboundEquals_refl.
Qed.

Lemma Equals_refl c : Compare.Equals bytes_Equal c c = true.
Proof.
  unfold Compare.Equals.
  by rewrite Nat.eqb_refl, inbounds_equal_refl, !bytes_Equal_refl.
Qed.

End Reflexive.

(** X23. Applying a config a second time, where equal bytes compare equal:
    if the process is running after the first call, the second call does
    nothing and succeeds; if it is not, the second call makes a new process
    and starts it, although the config is the same. *)
Theorem apply_config_twice stop start stop' start' configJSON newConfig m :
  (forall r, bytes_Equal r r = true) ->
  Unmarshal configJSON = Ok newConfig ->
  let m' := (ApplyConfig_ stop start configJSON m).1.2 in
  (IsRunning m' = true ->
   ApplyConfig_ stop' start' configJSON m' = (Ok tt, m', []))
  /\ (IsRunning m' = false ->
      ApplyConfig_ stop' start' configJSON m' = start_new start' newConfig []).
Proof.
  intros Hrefl Hu. subst ApplyConfig_. cbv zeta.
  assert (forall events,
            let m' := (start_new start newConfig events).1.2 in
            (IsRunning m' = true ->
             ApplyConfig bytes_Equal Unmarshal stop' start' configJSON m'
             = (Ok tt, m', []))
            /\ (IsRunning m' = false ->
                ApplyConfig bytes_Equal Unmarshal stop' start' configJSON m'
                = start_new start' newConfig [])) as Hnew.
  { intros events.
    destruct (start_new_spec start newConfig events)
      as (r & p & st & _ & Hc & ->).
    cbn [fst snd]. unfold ApplyConfig, IsRunning. cbn [process]. rewrite Hu.
    split; intros ->; [|done]. by rewrite Hc, Equals_refl. }
  assert (((ApplyConfig bytes_Equal Unmarshal stop start configJSON m).1.2 = m
           /\ exists p, process m = Some p /\ Supervisor.IsRunning p = true
                        /\ Compare.Equals bytes_Equal (Supervisor.config p)
                             newConfig = true)
          \/ exists events,
               (ApplyConfig bytes_Equal Unmarshal stop start configJSON m).1.2
               = (start_new start newConfig events).1.2) as [[-> Hsame] | Hst].
  { unfold ApplyConfig. rewrite Hu.
    destruct (process m) as [p|] eqn:Ep; [|by right; exists []].
    destruct (Supervisor.IsRunning p) eqn:Er; [|by right; exists []].
    destruct (Compare.Equals bytes_Equal (Supervisor.config p) newConfig)
      eqn:Ee.
    - left. split; [done|]. by exists p.
    - right. destruct (Supervisor.Stop stop p) as [[r p'] st]. by exists st. }
  - destruct Hsame as (p & Ep & Er & Ee).
    unfold IsRunning, ApplyConfig. rewrite Hu, Ep, Er, Ee. by split.
  - destruct Hst as [events ->]. apply Hnew.
Qed.

(** X24. Stopping the manager.  Without a process the stop succeeds and
    does nothing.  With a process that is no longer running it fails and
    keeps the process.  After a stop that succeeded there is no process and
    the config is kept: a reload fails as not running, another stop
    succeeds and does nothing, and a forced reload starts a new process with
    the config kept. *)
Theorem manager_stop stop stop' start m :
  (process m = None -> Stop stop m = (Ok tt, m, []))
  /\ (forall p,
        process m = Some p -> Supervisor.IsRunning p = false ->
        Stop stop m
        = (Err "failed to stop Sing-box: sing-box is not running", m, []))
  /\ (forall m' events,
        Stop stop m = (Ok tt, m', events) ->
        process m' = None /\ config m' = config m
        /\ Reload stop' start m' = (Err "Sing-box is not running", m', [])
        /\ Stop stop' m' = (Ok tt, m', [])
        /\ (forall c, config m = Some c ->
            ForceReload stop' start m' = start_new start c [])).
Proof.
  repeat apply conj.
  - intros Hp. unfold Stop. by rewrite Hp.
  - intros p Hp Hr. unfold Stop, Supervisor.Stop. rewrite Hp, Hr.
    cbn [negb]. destruct m. cbn in *. by rewrite Hp.
  - intros m' events. unfold Stop.
    destruct (process m) as [p|] eqn:Ep.
    + destruct (Supervisor.Stop stop p) as [[r p'] st].
      destruct r as [[]|e]; [|done]. intros [= <- <-].
      unfold Reload, ForceReload, Stop. cbn [process config].
      repeat (split; [done|]). by intros c ->.
    + intros [= <- <-]. unfold Reload, ForceReload, Stop. rewrite Ep.
      repeat (split; [done|]). by intros c ->.
Qed.

End ManagerProperties.

Section ManagerExamples.
Import Json Node.

(** A config of a node, a machine on which the core starts, one on which it
    stops, and stand-ins for the two library functions. *)
Definition node_config : SingBoxCfg.Config :=
  SingBoxCfg.mkConfig RawEmpty RawEmpty RawEmpty [] RawEmpty RawEmpty RawEmpty.

Definition core_starts : Supervisor.StartAnswers :=
  Supervisor.mkStartAnswers (Ok "bin/sing-box-config.json") true None
    (Some 77%positive) "1.12.17" 9090.

Definition core_stops : Supervisor.StopAnswers :=
  Supervisor.mkStopAnswers None true None true.

Lemma manager_runs_its_config_witness :
  runs_its_config
    (ApplyConfig (fun _ _ => true) (fun _ => Ok node_config) core_stops
       core_starts "{}" (mkManager None None)).1.2.
Proof.
  refine (proj1 (manager_runs_its_config (fun _ _ => true)
                   (fun _ => Ok node_config) core_stops core_starts "{}"
                   (mkManager None None) _)).
  intros p H. discriminate H.
Defined.

Lemma apply_config_twice_witness :
  let m' := (ApplyConfig (fun _ _ => true) (fun _ => Ok node_config)
               core_stops core_starts "{}" (mkManager None None)).1.2 in
  ApplyConfig (fun _ _ => true) (fun _ => Ok node_config) core_stops
    core_starts "{}" m'
  = (Ok tt, m', []).
Proof.
  refine (proj1 (apply_config_twice (fun _ _ => true)
                   (fun _ => Ok node_config) core_stops core_starts core_stops
                   core_starts "{}" node_config (mkManager None None) _ _) _).
  - reflexivity.
  - reflexivity.
  - reflexivity.
Defined.

Lemma manager_stop_witness :
  Stop core_stops
    (mkManager (Some (Supervisor.newProcess node_config)) (Some node_config))
  = (Err "failed to stop Sing-box: sing-box is not running",
     mkManager (Some (Supervisor.newProcess node_config)) (Some node_config),
     []).
Proof.
  refine (proj1 (proj2 (manager_stop core_stops core_stops core_starts
                          (mkManager (Some (Supervisor.newProcess node_config))
                             (Some node_config))))
            (Supervisor.newProcess node_config) _ _).
  - reflexivity.
  - reflexivity.
Defined.

End ManagerExamples.

Section ApiClients.
Import Stats.

(** X25. The life of the two API clients.  [Init] succeeds only for a port
    between 1 and 65535, and the client is then connected and queries the
    core; a failed [Init] of the Xray client leaves it as it was, and a
    failed [Init] of the sing-box client leaves it unconnected.  After
    [Close] a client is not connected, and asking it for the traffic is an
    error whatever the core would answer. *)
Theorem api_client_life :
  (forall dial apiPort x resp,
     let '(r, x') := XrayClient.Init dial apiPort x in
     (r = Ok tt ->
      XrayClient.IsConnected x' = true
      /\ 0 < apiPort <= 65535
      /\ Xray.GetTraffic x' resp
         = Xray.GetTraffic (Xray.mkXrayAPI true true true) resp)
     /\ (r <> Ok tt -> x' = x))
  /\ (forall x resp,
        XrayClient.IsConnected (XrayClient.Close x) = false
        /\ exists e, Xray.GetTraffic (XrayClient.Close x) resp = Err e)
  /\ (forall ping apiPort s answer,
        let '(r, s') := SingBoxClient.Init ping apiPort s in
        (r = Ok tt ->
         SingBoxClient.IsConnected s' = true /\ 0 < apiPort <= 65535
         /\ ping = None
         /\ SingBoxClient.GetTraffic s' answer = SingBox.GetTraffic true answer)
        /\ (r <> Ok tt ->
            (s' = s \/ SingBoxClient.IsConnected s' = false)
            /\ (s' <> s ->
                SingBoxClient.GetTraffic s' answer
                = Err "sing-box API is not initialized")))
  /\ (forall s answer,
        SingBoxClient.IsConnected (SingBoxClient.Close s) = false
        /\ SingBoxClient.GetTraffic (SingBoxClient.Close s) answer
           = Err "sing-box API is not initialized").
Proof.
  repeat apply conj.
  - intros dial apiPort x resp. unfold XrayClient.Init.
    destruct ((apiPort <=? 0) || (65535 <? apiPort)) eqn:E; [by split|].
    apply orb_false_iff in E as [E1%Z.leb_gt E2%Z.ltb_ge].
    destruct dial as [e|]; [by split|].
    split; [|done]. intros _. split; [done|]. split; [lia|done].
  - intros x resp. split; [done|]. unfold Xray.GetTraffic, XrayClient.Close.
    cbn. destruct (negb (Xray.grpcClient x)); by eexists.
  - intros ping apiPort s answer. unfold SingBoxClient.Init.
    destruct ((apiPort <=? 0) || (65535 <? apiPort)) eqn:E.
    { split; [done|]. intros _. split; [by left|done]. }
    apply orb_false_iff in E as [E1%Z.leb_gt E2%Z.ltb_ge].
    destruct ping as [e|].
    + split; [done|]. intros _. split; [by right|done].
    + split; [|done]. intros _. split; [done|]. split; [lia|done].
  - done.
Qed.

End ApiClients.

Section PoolProperties.
Import Stats Supervisor SingBoxService.

(** Every client in the pool is connected and sits under a port that a
    client can be made for. *)
Definition pool_ok (s : Service) : Prop :=
  forall port connected,
    singboxAPIConnectionPool s !! port = Some connected ->
    connected = true /\ 0 < port <= 65535.

Lemma GetOrCreateAPI_spec ping apiPort s :
  pool_ok s ->
  GetOrCreateAPI ping apiPort s
  = if apiPort <=? 0 then (Err "invalid API port", s)
    else
      match singboxAPIConnectionPool s !! apiPort with
      | Some _ => (Ok tt, s)
      | None =>
          match SingBoxClient.Init ping apiPort
                  (SingBoxClient.mkSingBoxAPI false false) with
          | (Err e, _) => (Err ("failed to init SingBoxAPI: " +:+ e), s)
          | (Ok _, _) =>
              (Ok tt, set_pool s (<[apiPort := true]>
                                    (singboxAPIConnectionPool s)))
          end
      end.
Proof.
  intros Hs. unfold GetOrCreateAPI. destruct (apiPort <=? 0); [done|].
  destruct (singboxAPIConnectionPool s !! apiPort) as [c|] eqn:E.
  - destruct (Hs _ _ E) as [-> _]. done.
  - unfold SingBoxClient.Init.
    destruct ((apiPort <=? 0) || (65535 <? apiPort)); [done|].
    by destruct ping.
Qed.

(** X26. The pool of API connections of the sing-box service.  Every
    client in the pool is connected and sits under a valid port, and the
    functions keep it so.  Getting a client changes neither the process nor
    the manual-stop flag nor any other port of the pool, succeeds exactly
    when the pool then holds a client for the port, and reuses a pooled
    client without a ping.  Fetching the traffic fails without touching
    anything when sing-box is not running, and with a pooled client the
    result is that of the query alone.  Closing the connections, and
    stopping a running sing-box, leave the pool empty. *)
Theorem api_pool ping (port0 : Z) answer stop s :
  pool_ok s ->
  (let '(r, s') := GetOrCreateAPI ping port0 s in
   pool_ok s'
   /\ singboxProcess s' = singboxProcess s
   /\ isManuallyStoppedSB s' = isManuallyStoppedSB s
   /\ (r = Ok tt <-> singboxAPIConnectionPool s' !! port0 = Some true)
   /\ (forall port, port <> port0 ->
       singboxAPIConnectionPool s' !! port = singboxAPIConnectionPool s !! port)
   /\ (singboxAPIConnectionPool s !! port0 = Some true -> s' = s))
  /\ (let '(r, s') := GetSingBoxTraffic ping answer s in
      pool_ok s'
      /\ singboxProcess s' = singboxProcess s
      /\ isManuallyStoppedSB s' = isManuallyStoppedSB s
      /\ (IsSingBoxRunning s = false ->
          r = Err "sing-box is not running" /\ s' = s)
      /\ (forall p,
            singboxProcess s = Some p -> IsRunning p = true ->
            singboxAPIConnectionPool s !! apiPort p = Some true ->
            r = SingBox.GetTraffic true answer /\ s' = s))
  /\ singboxAPIConnectionPool (CloseAPIConnections s) = ∅
  /\ (IsSingBoxRunning s = true ->
      singboxAPIConnectionPool (StopSingBox stop s).1.2 = ∅)
  /\ pool_ok (StopSingBox stop s).1.2.
Proof.
  intros Hs.
  assert (let '(r, s') := GetOrCreateAPI ping port0 s in
          pool_ok s'
          /\ singboxProcess s' = singboxProcess s
          /\ isManuallyStoppedSB s' = isManuallyStoppedSB s
          /\ (r = Ok tt <-> singboxAPIConnectionPool s' !! port0 = Some true)
          /\ (forall port, port <> port0 ->
              singboxAPIConnectionPool s' !! port
              = singboxAPIConnectionPool s !! port)
          /\ (singboxAPIConnectionPool s !! port0 = Some true -> s' = s))
    as Hget.
  { rewrite GetOrCreateAPI_spec by done.
    destruct (port0 <=? 0) eqn:E0.
    { apply Z.leb_le in E0. repeat (split; [first [exact Hs|done]|]). split; [|done].
      split; [done|]. intros H. destruct (Hs _ _ H). lia. }
    destruct (singboxAPIConnectionPool s !! port0) as [c|] eqn:E.
    { destruct (Hs _ _ E) as [-> _]. repeat (split; [first [exact Hs|done]|]); done. }
    unfold SingBoxClient.Init.
    destruct ((port0 <=? 0) || (65535 <? port0)) eqn:Er.
    { repeat (split; [first [exact Hs|done]|]). split; [|done]. split; [done|]. by rewrite E. }
    apply orb_false_iff in Er as [E1%Z.leb_gt E2%Z.ltb_ge].
    destruct ping as [e|].
    { repeat (split; [first [exact Hs|done]|]). split; [|done]. split; [done|]. by rewrite E. }
    cbn [set_pool singboxProcess isManuallyStoppedSB singboxAPIConnectionPool].
    split.
    { intros port c. cbn [set_pool singboxAPIConnectionPool].
      destruct (decide (port = port0)) as [-> | Hne].
      - rewrite lookup_insert_eq. intros [= <-]. split; [done|lia].
      - rewrite lookup_insert_ne by done. apply Hs. }
    split; [done|]. split; [done|]. split.
    { by rewrite lookup_insert_eq. }
    split; [|done]. intros port Hne. by rewrite lookup_insert_ne. }
  split; [exact Hget|]. split; [|split; [done|split]].
  - unfold GetSingBoxTraffic, IsSingBoxRunning.
    destruct (singboxProcess s) as [p|] eqn:Ep; [|repeat (split; [first [exact Hs|done]|]); done].
    destruct (IsRunning p) eqn:Er; cbn [negb].
    2:{ split; [done|]. split; [done|]. split; [done|]. split; [done|].
        intros p' [= <-]. congruence. }
    clear Hget.
    assert (let '(r, s') := GetOrCreateAPI ping (apiPort p) s in
            pool_ok s'
            /\ singboxProcess s' = singboxProcess s
            /\ isManuallyStoppedSB s' = isManuallyStoppedSB s
            /\ (singboxAPIConnectionPool s !! apiPort p = Some true ->
                r = Ok tt /\ s' = s)) as Hget.
    { rewrite GetOrCreateAPI_spec by done.
      destruct (apiPort p <=? 0) eqn:E0.
      { apply Z.leb_le in E0. repeat (split; [first [exact Hs|done]|]).
        intros H. destruct (Hs _ _ H). lia. }
      destruct (singboxAPIConnectionPool s !! apiPort p) as [c|] eqn:E.
      { repeat (split; [first [exact Hs|done]|]); done. }
      unfold SingBoxClient.Init.
      destruct ((apiPort p <=? 0) || (65535 <? apiPort p)) eqn:Er'.
      { repeat (split; [first [exact Hs|done]|]); done. }
      apply orb_false_iff in Er' as [E1%Z.leb_gt E2%Z.ltb_ge].
      destruct ping as [e|]; [repeat (split; [first [exact Hs|done]|]); done|].
      split; [|repeat (split; [first [exact Hs|done]|]); done].
      intros port c. cbn [set_pool singboxAPIConnectionPool].
      destruct (decide (port = apiPort p)) as [-> | Hne].
      - rewrite lookup_insert_eq. intros [= <-]. split; [done|lia].
      - rewrite lookup_insert_ne by done. apply Hs. }
    destruct (GetOrCreateAPI ping (apiPort p) s) as [r s'].
    destruct Hget as (H1 & H2 & H3 & H4). rewrite Ep in H2.
    destruct r as [[]|e].
    + split; [done|]. split; [by rewrite H2|]. split; [done|].
      split; [done|]. intros p' [= <-] _ Hp. by destruct (H4 Hp) as [_ ->].
    + split; [done|]. split; [by rewrite H2|]. split; [done|].
      split; [done|]. intros p' [= <-] _ Hp. by destruct (H4 Hp).
  - intros Hr. unfold StopSingBox. unfold IsSingBoxRunning in *.
    cbn [singboxProcess]. destruct (singboxProcess s) as [p|]; [|done].
    rewrite Hr. by destruct (Stop stop p) as [[r p'] ev].
  - unfold StopSingBox, IsSingBoxRunning. cbn [singboxProcess].
    destruct (singboxProcess s) as [p|]; [|exact Hs].
    destruct (IsRunning p); [|exact Hs].
    destruct (Stop stop p) as [[r p'] ev]. by intros port c.
Qed.

End PoolProperties.

Section RestartProperties.
Import Json Stats Supervisor SingBoxService.

Variable bytes_Equal : RawMessage -> RawMessage -> bool.

Let RestartSingBox_ := RestartSingBox bytes_Equal.

(** Whether the settings put the panel in single-node mode, as a restart
    reads them. *)
Definition single_mode (a : RestartAnswers) : Prop :=
  match multiMode a with Ok multiMode => multiMode | Err _ => false end = false.

(** A restart that leaves the process, the pool and the cached result as they
    were, and one that makes a process for a config and starts it. *)
Definition untouched_by (pk pk' : Package) (events : list Event) : Prop :=
  singboxProcess (service pk') = singboxProcess (service pk)
  /\ singboxAPIConnectionPool (service pk')
     = singboxAPIConnectionPool (service pk)
  /\ singboxResult pk' = singboxResult pk
  /\ events = [].

Definition started_anew (a : RestartAnswers) (c : SingBoxCfg.Config)
    (pk : Package) (r : result unit) (pk' : Package) (events : list Event)
    : Prop :=
  exists p started,
    Start (start a) (newProcess c) = (r, p, started)
    /\ singboxProcess (service pk') = Some p
    /\ singboxResult pk' = ""
    /\ singboxAPIConnectionPool (service pk')
       = (if IsSingBoxRunning (service pk) then ∅
          else singboxAPIConnectionPool (service pk))
    /\ events
       = ((match singboxProcess (service pk) with
           | Some old => if IsRunning old then (Stop (stop a) old).2 else []
           | None => []
           end) ++ started)%list.

(** Whether a restart finds nothing to do. *)
Definition nothing_to_do (isForce : bool) (c : SingBoxCfg.Config)
    (pk : Package) : bool :=
  match singboxProcess (service pk) with
  | Some p =>
      IsRunning p && negb isForce
      && Compare.Equals bytes_Equal (config p) c
      && negb (isNeedSingBoxRestart pk)
  | None => false
  end.

(** X27. A restart of sing-box by the panel.  On every path it clears the
    manual-stop flag and leaves the restart-needed flag as it was.  In
    multi-node mode, and when the config cannot be built, the process, the
    pool and the cached result are untouched.  Otherwise it does nothing when
    the process is running, the restart is not forced, the config equals
    that of the process and no restart is needed; and in every other case it
    empties the pool of a running process, stops that process without regard
    to the result, makes a process for the new config, empties the cached
    result and returns the result of the start. *)
Theorem restart_singbox a isForce pk :
  let '(r, pk', events) := RestartSingBox_ a isForce pk in
  isManuallyStoppedSB (service pk') = false
  /\ isNeedSingBoxRestart pk' = isNeedSingBoxRestart pk
  /\ (~ single_mode a -> r = multiModeRestart a /\ untouched_by pk pk' events)
  /\ (forall e, single_mode a -> built a = Err e ->
      r = Err e /\ untouched_by pk pk' events)
  /\ (forall c, single_mode a -> built a = Ok c ->
      if nothing_to_do isForce c pk
      then r = Ok tt /\ untouched_by pk pk' events
      else started_anew a c pk r pk' events).
Proof.
  subst RestartSingBox_. unfold RestartSingBox, single_mode.
  destruct (match multiMode a with Ok m => m | Err _ => false end) eqn:Em.
  { unfold untouched_by. cbn [service singboxProcess isManuallyStoppedSB
      singboxAPIConnectionPool isNeedSingBoxRestart singboxResult].
    split; [done|]. split; [done|]. split; [done|]. split; [done|]. done. }
  destruct (built a) as [c|e] eqn:Eb.
  2:{ unfold untouched_by. cbn [service singboxProcess isManuallyStoppedSB
        singboxAPIConnectionPool isNeedSingBoxRestart singboxResult].
      split; [done|]. split; [done|]. split; [done|].
      split; [by intros e' _ [= <-]|]. done. }
  unfold nothing_to_do, started_anew, untouched_by, IsSingBoxRunning.
  cbn [service singboxProcess isManuallyStoppedSB singboxAPIConnectionPool
         isNeedSingBoxRestart singboxResult].
  destruct (singboxProcess (service pk)) as [p|] eqn:Ep.
  - destruct (IsRunning p) eqn:Er.
    + destruct (negb isForce && Compare.Equals bytes_Equal (config p) c
                && negb (isNeedSingBoxRestart pk)) eqn:En.
      * cbn [service singboxProcess isManuallyStoppedSB
               singboxAPIConnectionPool isNeedSingBoxRestart singboxResult].
        split; [done|]. split; [done|]. split; [done|]. split; [done|].
        intros c' _ [= <-]. cbn [andb] in *. rewrite <- andb_assoc in En.
        rewrite <- andb_assoc. cbn [andb]. by rewrite En.
      * destruct (Stop (stop a) p) as [[rs p'] stopped] eqn:Es.
        destruct (Start (start a) (newProcess c)) as [[r p''] started] eqn:E.
        cbn [service singboxProcess isManuallyStoppedSB
               singboxAPIConnectionPool isNeedSingBoxRestart singboxResult
               CloseAPIConnections set_pool].
        split; [done|]. split; [done|]. split; [done|]. split; [done|].
        intros c' _ [= <-]. cbn [andb] in *. rewrite <- !andb_assoc.
        rewrite <- andb_assoc in En. cbn [andb]. rewrite En, E.
        by exists p'', started.
    + destruct (Start (start a) (newProcess c)) as [[r p''] started] eqn:E.
      cbn [service singboxProcess isManuallyStoppedSB
             singboxAPIConnectionPool isNeedSingBoxRestart singboxResult].
      split; [done|]. split; [done|]. split; [done|]. split; [done|].
      intros c' _ [= <-]. cbn [andb]. rewrite E. by exists p'', started.
  - destruct (Start (start a) (newProcess c)) as [[r p''] started] eqn:E.
    cbn [service singboxProcess isManuallyStoppedSB
           singboxAPIConnectionPool isNeedSingBoxRestart singboxResult].
    split; [done|]. split; [done|]. split; [done|]. split; [done|].
    intros c' _ [= <-]. rewrite E. by exists p'', started.
Qed.

Lemma GetSingBoxResult_again GOOS s n p :
  IsSingBoxRunning s = false -> singboxProcess s = Some p ->
  GetSingBoxResult GOOS (mkPackage s n (GetResult p))
  = (GetResult p, mkPackage s n (GetResult p)).
Proof.
  intros Er Ep. unfold GetSingBoxResult.
  cbn [singboxResult service isNeedSingBoxRestart].
  destruct (String.eqb (GetResult p) "") eqn:Eg; cbn [negb]; [|done].
  rewrite Er, Ep. apply String.eqb_eq in Eg. rewrite Eg.
  change (String.eqb "" "exit status 1") with false.
  by rewrite andb_false_r.
Qed.

(** X28. The result text of the service is read through a cache.  Reading
    it changes nothing but the cache, and reading it again returns the cached
    text and leaves the state as it is.  A text in the cache is returned
    whatever has become of the process; with an empty cache a running process
    reads as the empty text, and a stopped one caches its result and returns
    it.  The text returned is the cached one except on Windows when the
    result is [exit status 1]: the first read then returns the empty text,
    and every later read returns [exit status 1]. *)
Theorem result_is_cached GOOS pk :
  let '(text, pk') := GetSingBoxResult GOOS pk in
  GetSingBoxResult GOOS pk' = (singboxResult pk', pk')
  /\ service pk' = service pk
  /\ isNeedSingBoxRestart pk' = isNeedSingBoxRestart pk
  /\ (singboxResult pk <> "" -> text = singboxResult pk /\ pk' = pk)
  /\ (singboxResult pk = "" -> IsSingBoxRunning (service pk) = true ->
      text = "" /\ pk' = pk)
  /\ (forall p,
        singboxResult pk = "" -> IsSingBoxRunning (service pk) = false ->
        singboxProcess (service pk) = Some p ->
        singboxResult pk' = GetResult p
        /\ text = if String.eqb GOOS "windows"
                     && String.eqb (GetResult p) "exit status 1"
                  then "" else GetResult p)
  /\ (text = singboxResult pk'
      \/ GOOS = "windows" /\ text = ""
         /\ singboxResult pk' = "exit status 1").
Proof.
  destruct (GetSingBoxResult GOOS pk) as [text pk'] eqn:Eq.
  unfold GetSingBoxResult in Eq.
  destruct (String.eqb (singboxResult pk) "") eqn:E; cbn [negb] in Eq.
  2:{ injection Eq as <- <-. unfold GetSingBoxResult. rewrite E. cbn [negb].
      apply String.eqb_neq in E.
      split; [done|]. split; [done|]. split; [done|]. split; [done|].
      split; [done|]. split; [by intros p H|by left]. }
  apply String.eqb_eq in E.
  destruct (IsSingBoxRunning (service pk)) eqn:Er.
  { injection Eq as <- <-. unfold GetSingBoxResult. rewrite E, Er. cbn.
    split; [done|]. split; [done|]. split; [done|].
    split; [by intros H|]. split; [done|]. split; [by intros p _ H|by left]. }
  destruct (singboxProcess (service pk)) as [p|] eqn:Ep.
  2:{ injection Eq as <- <-. unfold GetSingBoxResult. rewrite E, Er, Ep. cbn.
      split; [done|]. split; [done|]. split; [done|].
      split; [by intros H|]. split; [done|].
      split; [by intros p _ _ H|by left]. }
  cbv zeta in Eq. cbn [singboxResult] in Eq.
  assert (pk' = mkPackage (service pk) (isNeedSingBoxRestart pk) (GetResult p)
          /\ text = if String.eqb GOOS "windows"
                       && String.eqb (GetResult p) "exit status 1"
                    then "" else GetResult p) as [-> ->].
  { by destruct (_ && _); injection Eq as <- <-. }
  clear Eq. cbn [singboxResult service isNeedSingBoxRestart].
  split; [by apply GetSingBoxResult_again|].
  split; [done|]. split; [done|]. split; [by intros H|]. split; [done|].
  split; [by intros p' _ _ [= <-]|].
  destruct (String.eqb GOOS "windows") eqn:Ew; cbn [andb]; [|by left].
  destruct (String.eqb (GetResult p) "exit status 1") eqn:Ex; [|by left].
  right. apply String.eqb_eq in Ew, Ex. done.
Qed.

End RestartProperties.

Section ServiceExamples.
Import Json Stats Supervisor SingBoxService.

(** A service whose sing-box runs with its API on port 9090, and one with a
    pooled client for that port. *)
Definition serving : Service :=
  mkService
    (Some (mkProcess (Some (mkCmd (Some 4242%positive) false)) "1.12.17" 9090
             (SingBoxCfg.mkConfig RawEmpty RawEmpty RawEmpty [] RawEmpty
                RawEmpty RawEmpty) "" None))
    false ∅.

Lemma api_client_life_witness :
  SingBoxClient.GetTraffic
    (SingBoxClient.Init (Some "connection refused") 9090
       (SingBoxClient.mkSingBoxAPI false false)).2
    (SingBox.Status 200 (Ok (Ok [])))
  = Err "sing-box API is not initialized".
Proof.
  refine (proj2 (proj2 (proj1 (proj2 (proj2 api_client_life))
                          (Some "connection refused") 9090
                          (SingBoxClient.mkSingBoxAPI false false)
                          (SingBox.Status 200 (Ok (Ok [])))) _) _).
  - discriminate.
  - discriminate.
Defined.

Lemma api_pool_witness :
  exists s',
    GetSingBoxTraffic None (SingBox.Status 200 (Ok (Ok []))) serving
    = (Ok ([], []), s')
    /\ singboxAPIConnectionPool s' !! 9090 = Some true
    /\ GetSingBoxTraffic (Some "not asked")
         (SingBox.Status 200 (Ok (Ok []))) s'
       = (Ok ([], []), s').
Proof.
  exists (set_pool serving {[9090 := true]}).
  split; [by vm_compute|]. split; [by vm_compute|].
  assert (pool_ok (set_pool serving {[9090 := true]})) as Hok.
  { intros port c H. cbn in H.
    apply lookup_singleton_Some in H as [<- <-]. split; [done|lia]. }
  pose proof (proj1 (proj2 (api_pool (Some "not asked") 9090
                              (SingBox.Status 200 (Ok (Ok [])))
                              (mkStopAnswers None true None true)
                              (set_pool serving {[9090 := true]}) Hok))) as H.
  destruct H as (_ & _ & _ & _ & H).
  destruct (H _ eq_refl eq_refl) as [Hr Hs]; [by vm_compute|].
  by vm_compute.
Defined.

End ServiceExamples.

Section TemplateProperties.
Import Json Template.
Local Open Scope list_scope.

(** A value as [json.Unmarshal] leaves it: it holds no typed slice. *)
Definition plain (v : any) : Prop := decoded v = v.

Lemma clean_log_fields logSection needsUpdate :
  let logSection' := (clean_log logSection needsUpdate).1 in
  logSection' !! "error" = None
  /\ is_Some (logSection' !! "timestamp")
  /\ is_Some (logSection' !! "level")
  /\ (forall k, k <> "error" -> k <> "timestamp" -> k <> "level" ->
      k <> "output" -> logSection' !! k = logSection !! k).
Proof.
  unfold clean_log.
  set (l1 := match logSection !! "error" with
             | Some _ => (delete "error" logSection, true)
             | None => (logSection, needsUpdate)
             end).
  assert (l1.1 !! "error" = None
          /\ forall k, k <> "error" -> l1.1 !! k = logSection !! k) as [H1 F1].
  { subst l1. destruct (logSection !! "error") eqn:E; cbn [fst].
    - split; [apply lookup_delete_eq|]. intros k Hk.
      by rewrite lookup_delete_ne.
    - done. }
  destruct l1 as [l1 n1]. cbn [fst] in H1, F1.
  set (l2 := match l1 !! "timestamp" with
             | None => (<["timestamp" := Bool true]> l1, true)
             | Some _ => (l1, n1)
             end).
  assert (l2.1 !! "error" = None /\ is_Some (l2.1 !! "timestamp")
          /\ forall k, k <> "timestamp" -> l2.1 !! k = l1 !! k)
    as (H2 & T2 & F2).
  { subst l2. destruct (l1 !! "timestamp") eqn:E; cbn [fst].
    - by rewrite E.
    - rewrite lookup_insert_ne by done. rewrite lookup_insert_eq.
      split; [done|]. split; [done|]. intros k Hk.
      by rewrite lookup_insert_ne. }
  destruct l2 as [l2 n2]. cbn [fst] in H2, T2, F2.
  set (l3 := match l2 !! "level" with
             | None => (<["level" := Str "warn"]> l2, true)
             | Some _ => (l2, n2)
             end).
  assert (l3.1 !! "error" = None /\ is_Some (l3.1 !! "timestamp")
          /\ is_Some (l3.1 !! "level")
          /\ forall k, k <> "level" -> l3.1 !! k = l2 !! k)
    as (H3 & T3 & L3 & F3).
  { subst l3. destruct (l2 !! "level") eqn:E; cbn [fst].
    - by rewrite E.
    - rewrite !lookup_insert_ne by done. rewrite lookup_insert_eq.
      split; [done|]. split; [done|]. split; [done|]. intros k Hk.
      by rewrite lookup_insert_ne. }
  destruct l3 as [l3 n3]. cbn [fst] in H3, T3, L3, F3.
  assert (forall k, k <> "error" -> k <> "timestamp" -> k <> "level" ->
          l3 !! k = logSection !! k) as F.
  { intros k ? ? ?. by rewrite F3, F2, F1. }
  destruct (l3 !! "output") eqn:E; cbn [fst].
  - split; [done|]. split; [done|]. split; [done|]. intros k ? ? ? ?.
    by apply F.
  - destruct n3; cbn [fst].
    + rewrite !lookup_insert_ne by done. split; [done|]. split; [done|].
      split; [done|]. intros k ? ? ? ?. rewrite lookup_insert_ne by done.
      by apply F.
    + split; [done|]. split; [done|]. split; [done|]. intros k ? ? ? ?.
      by apply F.
Qed.

Lemma clean_log_stable logSection :
  logSection !! "error" = None ->
  is_Some (logSection !! "timestamp") -> is_Some (logSection !! "level") ->
  clean_log logSection false = (logSection, false).
Proof.
  intros E1 [? E2] [? E3]. unfold clean_log. rewrite E1, E2, E3.
  by destruct (logSection !! "output").
Qed.

Lemma delete_if_there (m : gmap string any) k :
  match m !! k with Some _ => delete k m | None => m end = delete k m.
Proof. destruct (m !! k) eqn:E; [done|]. by rewrite delete_id. Qed.

Lemma clean_rule_agrees hasGeoipConfig rule needsUpdate :
  (clean_rule hasGeoipConfig rule needsUpdate).1
  = Translate.convert_rule hasGeoipConfig rule.
Proof.
  destruct rule as [| | | | | | |ruleMap]; try done.
  unfold clean_rule, Translate.convert_rule, Translate.rename_rule_fields,
    Translate.convert_rule_ip.
  assert ((match ruleMap !! "type" with
           | Some _ => (delete "type" ruleMap, true)
           | None => (ruleMap, needsUpdate)
           end) = (delete "type" ruleMap,
                   match ruleMap !! "type" with
                   | Some _ => true | None => needsUpdate end)) as ->.
  { destruct (ruleMap !! "type") eqn:E; [done|]. by rewrite delete_id. }
  destruct (str_field (delete "type" ruleMap) "outboundTag")
    as [outboundTag|]; cbv beta iota zeta.
  - destruct (slice_field _ "inboundTag") as [inboundTag|];
      cbv beta iota zeta.
    + destruct (slice_field _ "ip") as [ip|]; cbv beta iota zeta.
      * destruct ((0 <? length (Translate.geoip_values ip))%nat
                  && negb hasGeoipConfig); [done|].
        destruct (0 <? length (Translate.geoip_values ip))%nat;
          cbv beta iota zeta; by destruct (Translate.keeps_geoip_field _ _).
      * by destruct (Translate.keeps_geoip_field _ _).
    + destruct (slice_field _ "ip") as [ip|]; cbv beta iota zeta.
      * destruct ((0 <? length (Translate.geoip_values ip))%nat
                  && negb hasGeoipConfig); [done|].
        destruct (0 <? length (Translate.geoip_values ip))%nat;
          cbv beta iota zeta; by destruct (Translate.keeps_geoip_field _ _).
      * by destruct (Translate.keeps_geoip_field _ _).
  - destruct (slice_field _ "inboundTag") as [inboundTag|];
      cbv beta iota zeta.
    + destruct (slice_field _ "ip") as [ip|]; cbv beta iota zeta.
      * destruct ((0 <? length (Translate.geoip_values ip))%nat
                  && negb hasGeoipConfig); [done|].
        destruct (0 <? length (Translate.geoip_values ip))%nat;
          cbv beta iota zeta; by destruct (Translate.keeps_geoip_field _ _).
      * by destruct (Translate.keeps_geoip_field _ _).
    + destruct (slice_field _ "ip") as [ip|]; cbv beta iota zeta.
      * destruct ((0 <? length (Translate.geoip_values ip))%nat
                  && negb hasGeoipConfig); [done|].
        destruct (0 <? length (Translate.geoip_values ip))%nat;
          cbv beta iota zeta; by destruct (Translate.keeps_geoip_field _ _).
      * by destruct (Translate.keeps_geoip_field _ _).
Qed.

Lemma filter_rules_cons hasGeoipConfig rule rules :
  Translate.filter_rules hasGeoipConfig (rule :: rules)
  = (if (Translate.convert_rule hasGeoipConfig rule).2
     then [(Translate.convert_rule hasGeoipConfig rule).1] else [])
    ++ Translate.filter_rules hasGeoipConfig rules.
Proof.
  unfold Translate.filter_rules. cbn [omap list_omap].
  by destruct (Translate.convert_rule hasGeoipConfig rule) as [r []].
Qed.

Lemma clean_rules_agrees hasGeoipConfig rules needsUpdate :
  (clean_rules hasGeoipConfig rules needsUpdate).1
  = (map (fun rule => (Translate.convert_rule hasGeoipConfig rule).1) rules,
     Translate.filter_rules hasGeoipConfig rules).
Proof.
  unfold clean_rules.
  assert (forall rewritten filtered,
            (fold_left
               (fun '(rewritten, filtered, needsUpdate) rule =>
                  let '(rule, kept, needsUpdate) :=
                    clean_rule hasGeoipConfig rule needsUpdate in
                  (rewritten ++ [rule],
                   if kept then filtered ++ [rule] else filtered,
                   needsUpdate))
               rules (rewritten, filtered, needsUpdate)).1
            = (rewritten
               ++ map (fun rule =>
                         (Translate.convert_rule hasGeoipConfig rule).1) rules,
               filtered ++ Translate.filter_rules hasGeoipConfig rules)) as H.
  { revert needsUpdate.
    induction rules as [|rule rules IH]; intros needsUpdate rewritten filtered.
    - cbn. by rewrite !app_nil_r.
    - cbn [fold_left map]. rewrite filter_rules_cons.
      pose proof (clean_rule_agrees hasGeoipConfig rule needsUpdate) as Ha.
      destruct (clean_rule hasGeoipConfig rule needsUpdate) as [[r kept] nU].
      cbn [fst] in Ha. rewrite <- Ha. rewrite IH. cbn [fst snd].
      destruct kept; cbn; by rewrite <- ?app_assoc. }
  apply (H [] []).
Qed.

Lemma clean_route_agrees route needsUpdate :
  (clean_route route needsUpdate).1 = Translate.convert_route_map route.
Proof.
  unfold clean_route, Translate.convert_route_map.
  assert (forall (nU : bool) (m : gmap string any) k,
            (match m !! k with
             | Some _ => (delete k m, true)
             | None => (m, nU)
             end) = (delete k m,
                     match m !! k with Some _ => true | None => nU end))
    as Hd.
  { intros nU m k. destruct (m !! k) eqn:E; [done|]. by rewrite delete_id. }
  rewrite Hd. cbv beta iota. rewrite Hd. cbv beta iota zeta.
  set (route' := delete "domain_strategy" (delete "domainStrategy" route)).
  destruct (slice_field route' "rules") as [rules|]; [|done].
  pose proof (clean_rules_agrees (Translate.hasGeoipConfig route') rules
                (match delete "domainStrategy" route !! "domain_strategy" with
                 | Some _ => true
                 | None => match route !! "domainStrategy" with
                           | Some _ => true
                           | None => needsUpdate
                           end
                 end)) as Ha.
  destruct (clean_rules _ _ _) as [[rewritten filtered] nU].
  cbn [fst] in Ha. injection Ha as -> ->.
  by destruct (negb _).
Qed.

(** X29. The route pass of the template validation and the route step of
    the translator from Xray compute the same route object: whatever the
    flag, the pass leaves the route that [convert_route_map] returns, with
    the same rules dropped and the same fields renamed. *)
Theorem route_cleaning_is_the_translation route needsUpdate :
  (clean_route route needsUpdate).1 = Translate.convert_route_map route.
Proof. apply clean_route_agrees. Qed.

(** *** The second run of the passes *)

Lemma plain_Map m : plain (Map m) <-> decoded <$> m = m.
Proof. unfold plain. cbn [decoded]. split; [by intros [= ?]|by intros ->]. Qed.

Lemma plain_Slice l : plain (Slice l) <-> map decoded l = l.
Proof. unfold plain. cbn [decoded]. split; [by intros [= ?]|by intros ->]. Qed.

Lemma plain_lookup (m : gmap string any) k v :
  decoded <$> m = m -> m !! k = Some v -> plain v.
Proof. apply decoded_fixed_lookup. Qed.

Lemma plain_elem l v : map decoded l = l -> v ∈ l -> plain v.
Proof.
  induction l as [|x l IH]; [by intros _ ?%elem_of_nil|].
  cbn [map]. intros [= Hx Hl] [-> | Hv]%elem_of_cons; [done|by apply IH].
Qed.

Lemma plain_not_typed v :
  plain v -> (forall l, v <> Strings l) /\ (forall l, v <> Maps l).
Proof. unfold plain. by destruct v. Qed.

Lemma lookup_decoded (m : gmap string any) k :
  (decoded <$> m) !! k = decoded <$> (m !! k).
Proof. apply lookup_fmap. Qed.

Lemma lookup_decoded_None (m : gmap string any) k :
  (decoded <$> m) !! k = None <-> m !! k = None.
Proof. rewrite lookup_fmap. by destruct (m !! k). Qed.

Lemma str_nonempty_decoded (m : gmap string any) k :
  str_nonempty (decoded <$> m) k = str_nonempty m k.
Proof. unfold str_nonempty. by rewrite str_field_decoded. Qed.

Lemma map_field_None_decoded (m : gmap string any) k :
  map_field m k = None -> map_field (decoded <$> m) k = None.
Proof. rewrite map_field_decoded. by intros ->. Qed.

(** A value under a key that is a slice after decoding, in a plain
    object. *)
Lemma slice_field_plain (m : gmap string any) k v :
  m !! k = Some v -> plain v ->
  slice_field (decoded <$> m) k = slice_field m k.
Proof.
  intros Hk Hv. unfold slice_field. rewrite lookup_fmap, Hk. cbn.
  by rewrite Hv.
Qed.

(** The flag is only ever set. *)
Lemma clean_log_flag logSection : (clean_log logSection true).2 = true.
Proof.
  unfold clean_log.
  destruct (logSection !! "error");
    repeat match goal with
           | |- context [match ?m !! ?k with _ => _ end] =>
               destruct (m !! k)
           end; done.
Qed.

Lemma filter_loop_flag body elements :
  (forall x, (body x true).2 = true) ->
  (filter_loop body elements true).2 = true.
Proof.
  intros Hb. unfold filter_loop.
  assert (forall acc,
            (fold_left
               (fun '(filtered, needsUpdate) element =>
                  let '(kept, needsUpdate) := body element needsUpdate in
                  (match kept with
                   | Some element => filtered ++ [element]
                   | None => filtered
                   end, needsUpdate))
               elements (acc, true)).2 = true) as H.
  { induction elements as [|x elements IH]; intros acc; [done|].
    cbn [fold_left]. specialize (Hb x).
    destruct (body x true) as [kept nU]. cbn [snd] in Hb. subst nU.
    apply IH. }
  apply H.
Qed.

Lemma flag_false {A} (pass : bool -> A * bool) needsUpdate :
  (pass true).2 = true -> (pass needsUpdate).2 = false -> needsUpdate = false.
Proof. destruct needsUpdate; [congruence|done]. Qed.

(** A loop whose body leaves every element as it is leaves the slice as it
    is. *)
Lemma filter_loop_stable body elements :
  Forall (fun element => body element false = (Some element, false))
    elements ->
  filter_loop body elements false = (elements, false).
Proof.
  intros H. unfold filter_loop.
  assert (forall acc,
            fold_left
              (fun '(filtered, needsUpdate) element =>
                 let '(kept, needsUpdate) := body element needsUpdate in
                 (match kept with
                  | Some element => filtered ++ [element]
                  | None => filtered
                  end, needsUpdate))
              elements (acc, false) = (acc ++ elements, false)) as Hf.
  { induction H as [|x elements Hx _ IH]; intros acc.
    - cbn. by rewrite app_nil_r.
    - cbn [fold_left]. rewrite Hx, IH. by rewrite <- app_assoc. }
  apply (Hf []).
Qed.

(** What the body of a loop establishes of an element it keeps holds of the
    elements the loop appends. *)
Lemma filter_loop_kept (P Q : any -> Prop) body elements needsUpdate :
  Forall P elements ->
  (forall x nU y nU', P x -> body x nU = (Some y, nU') -> Q y) ->
  Forall Q (filter_loop body elements needsUpdate).1.
Proof.
  intros HP Hb. unfold filter_loop.
  assert (forall acc nU,
            Forall Q acc ->
            Forall Q (fold_left
                        (fun '(filtered, needsUpdate) element =>
                           let '(kept, needsUpdate) :=
                             body element needsUpdate in
                           (match kept with
                            | Some element => filtered ++ [element]
                            | None => filtered
                            end, needsUpdate))
                        elements (acc, nU)).1) as H.
  { induction HP as [|x elements Hx _ IH]; intros acc nU Hacc; [done|].
    cbn [fold_left]. destruct (body x nU) as [[y|] nU'] eqn:E.
    - apply IH. apply Forall_app. split; [done|].
      constructor; [|done]. by apply (Hb x nU y nU').
    - by apply IH. }
  by apply H.
Qed.

End TemplateProperties.

Section TemplateSecondRun.
Import Json Template.
Local Open Scope list_scope.

(** A field that holds no typed slice. *)
Definition untyped (v : option any) : Prop :=
  match v with
  | Some (Strings _) | Some (Maps _) => False
  | _ => True
  end.

Lemma plain_untyped v : plain v -> untyped (Some v).
Proof. unfold plain. by destruct v. Qed.

Lemma untyped_lookup (m : gmap string any) k :
  decoded <$> m = m -> untyped (m !! k).
Proof.
  intros Hm. destruct (m !! k) as [v|] eqn:E; [|done].
  apply plain_untyped. by apply (plain_lookup m k).
Qed.

(** What a field that is a slice after decoding was before. *)
Lemma slice_field_decoded (m : gmap string any) k :
  untyped (m !! k) ->
  slice_field (decoded <$> m) k = map decoded <$> slice_field m k.
Proof.
  unfold slice_field. rewrite lookup_fmap.
  by destruct (m !! k) as [[]|].
Qed.

Lemma decoded_not_Map v :
  (forall m, v <> Map m) -> forall m, decoded v <> Map m.
Proof. destruct v; try done. intros H. by destruct (H m). Qed.

(** *** The transport of an inbound *)

(** The test after which the transport object is removed. *)
Definition transport_goes (transport : gmap string any) : bool :=
  let hasType := bool_decide (is_Some (str_field transport "type")) in
  let transportType := default "" (str_field transport "type") in
  (negb hasType || String.eqb transportType ""
   || negb (valid_transport transportType))
  && ((size transport =? 0)%nat
      || (negb hasType && (size transport =? 0)%nat)
      || (hasType && negb (valid_transport transportType))).

Definition transport_cleaned (v : option any) : Prop :=
  forall transport, v = Some (Map transport) ->
    transport !! "reality" = None /\ transport !! "tls" = None
    /\ transport_goes transport = false.

Lemma clean_transport_first ibMap needsUpdate :
  let ibMap' := (clean_transport ibMap needsUpdate).1 in
  (forall k, k <> "transport" -> ibMap' !! k = ibMap !! k)
  /\ transport_cleaned (ibMap' !! "transport").
Proof.
  unfold clean_transport.
  destruct (map_field ibMap "transport") as [transport|] eqn:E; cbn [fst].
  2:{ split; [done|]. intros t Ht. apply map_field_Some in Ht. congruence. }
  set (t1 := match transport !! "reality" with
             | Some _ => (delete "reality" transport, true)
             | None => (transport, needsUpdate)
             end).
  assert (t1.1 = delete "reality" transport) as H1.
  { subst t1. destruct (transport !! "reality") eqn:Er; [done|].
    cbn [fst]. by rewrite delete_id. }
  destruct t1 as [t1 n1]. cbn [fst] in H1. subst t1.
  set (t2 := match delete "reality" transport !! "tls" with
             | Some _ => (delete "tls" (delete "reality" transport), true)
             | None => (delete "reality" transport, n1)
             end).
  assert (t2.1 = delete "tls" (delete "reality" transport)) as H2.
  { subst t2. destruct (delete "reality" transport !! "tls") eqn:Er; [done|].
    cbn [fst]. symmetry. by apply delete_id. }
  destruct t2 as [t2 n2]. cbn [fst] in H2. subst t2.
  set (t' := delete "tls" (delete "reality" transport)).
  assert (t' !! "reality" = None /\ t' !! "tls" = None) as [Hr Ht].
  { subst t'. split.
    - rewrite lookup_delete_ne by done. apply lookup_delete_eq.
    - apply lookup_delete_eq. }
  assert (forall flag : bool,
            let r := (<["transport" := Map t']> ibMap, flag) in
            (forall k, k <> "transport" -> r.1 !! k = ibMap !! k)
            /\ (transport_goes t' = false ->
                transport_cleaned (r.1 !! "transport"))) as Hkeep.
  { intros flag. cbn [fst]. split.
    - intros k Hk. by rewrite lookup_insert_ne.
    - intros Hg t. rewrite lookup_insert_eq. by intros [= <-]. }
  assert (let r := (delete "transport" (<["transport" := Map t']> ibMap), true)
          in (forall k, k <> "transport" -> r.1 !! k = ibMap !! k)
             /\ transport_cleaned (r.1 !! "transport")) as Hdel.
  { cbn [fst]. split.
    - intros k Hk. by rewrite lookup_delete_ne, lookup_insert_ne.
    - intros t. by rewrite lookup_delete_eq. }
  unfold transport_goes in Hkeep.
  destruct (negb (bool_decide (is_Some (str_field t' "type")))
            || String.eqb (default "" (str_field t' "type")) ""
            || negb (valid_transport (default "" (str_field t' "type"))));
    cbn [andb] in Hkeep.
  - destruct (size t' =? 0)%nat; cbn [orb] in *; [exact Hdel|].
    rewrite andb_false_r in *. cbn [orb] in *.
    destruct (bool_decide (is_Some (str_field t' "type"))
              && negb (valid_transport (default "" (str_field t' "type"))));
      [exact Hdel|].
    destruct (Hkeep n2) as [? Hc]. split; [done|]. by apply Hc.
  - destruct (Hkeep n2) as [? Hc]. split; [done|]. by apply Hc.
Qed.

Lemma clean_transport_second (ibMap : gmap string any) :
  transport_cleaned (ibMap !! "transport") ->
  clean_transport (decoded <$> ibMap) false = (decoded <$> ibMap, false).
Proof.
  intros Hc. unfold clean_transport. rewrite map_field_decoded.
  destruct (map_field ibMap "transport") as [t|] eqn:E; [|done].
  apply map_field_Some in E. destruct (Hc t E) as (Hr & Ht & Hg).
  cbn [fmap option_fmap option_map].
  assert ((decoded <$> t) !! "reality" = None) as -> by by rewrite lookup_fmap, Hr.
  assert ((decoded <$> t) !! "tls" = None) as -> by by rewrite lookup_fmap, Ht.
  assert (<["transport" := Map (decoded <$> t)]> (decoded <$> ibMap)
          = decoded <$> ibMap) as ->.
  { apply insert_id. by rewrite lookup_fmap, E. }
  unfold transport_goes in Hg. rewrite str_field_decoded, map_size_fmap.
  destruct (negb (bool_decide (is_Some (str_field t "type")))
            || String.eqb (default "" (str_field t "type")) ""
            || negb (valid_transport (default "" (str_field t "type"))));
    [|done].
  cbn [andb] in Hg. apply orb_false_iff in Hg as [Hg1 Hg2].
  by rewrite Hg1, Hg2.
Qed.

Lemma clean_transport_flag ibMap : (clean_transport ibMap true).2 = true.
Proof.
  unfold clean_transport. destruct (map_field ibMap "transport") as [t|]; [|done].
  destruct (t !! "reality"); cbv beta iota zeta.
  - destruct (delete "reality" t !! "tls"); cbv beta iota zeta;
      repeat match goal with |- context [if ?b then _ else _] => destruct b end;
      done.
  - destruct (t !! "tls"); cbv beta iota zeta;
      repeat match goal with |- context [if ?b then _ else _] => destruct b end;
      done.
Qed.

(** *** The users of an inbound *)

Definition user_cleaned (ibType : string) (user : any) : Prop :=
  forall userMap, user = Map userMap ->
    (String.eqb ibType "vless" = true -> str_nonempty userMap "email" = None)
    /\ (String.eqb ibType "vmess" = true -> userMap !! "email" = None).

Definition users_cleaned (ibType : string) (v : option any) : Prop :=
  untyped v
  /\ forall users, v = Some (Slice users) -> Forall (user_cleaned ibType) users.

Lemma str_nonempty_delete (m : gmap string any) k :
  str_nonempty (delete k m) k = None.
Proof. unfold str_nonempty, str_field. by rewrite lookup_delete_eq. Qed.

Lemma clean_user_first ibType user needsUpdate :
  user_cleaned ibType (clean_user ibType user needsUpdate).1.
Proof.
  destruct user as [| | | | | | |userMap]; try (intros ? ?; done).
  unfold clean_user.
  destruct (String.eqb ibType "vless") eqn:Ev.
  - assert (String.eqb ibType "vmess" = false) as Em.
    { apply String.eqb_eq in Ev. by subst ibType. }
    rewrite Em.
    destruct (str_nonempty userMap "email") as [email|] eqn:Ee;
      cbn [fst]; intros um [= <-]; (split; [intros _|congruence]).
    + apply str_nonempty_delete.
    + done.
  - destruct (String.eqb ibType "vmess") eqn:Em.
    + destruct (userMap !! "email") eqn:Ee; cbn [fst]; intros um [= <-];
        (split; [congruence|intros _]); [apply lookup_delete_eq|done].
    + cbn [fst]. intros um [= <-]. split; congruence.
Qed.

Lemma clean_user_second ibType user :
  user_cleaned ibType user ->
  clean_user ibType (decoded user) false = (decoded user, false).
Proof.
  intros Hc. destruct user as [| | | | | | |userMap]; try done.
  specialize (Hc userMap eq_refl) as [Hv Hm].
  cbn [decoded]. unfold clean_user. rewrite str_nonempty_decoded.
  destruct (String.eqb ibType "vless").
  - rewrite (Hv eq_refl). destruct (String.eqb ibType "vmess"); [|done].
    rewrite lookup_fmap. by rewrite (Hm eq_refl).
  - destruct (String.eqb ibType "vmess"); [|done].
    rewrite lookup_fmap. by rewrite (Hm eq_refl).
Qed.

Lemma clean_user_flag ibType user : (clean_user ibType user true).2 = true.
Proof.
  destruct user as [| | | | | | |m]; try done. unfold clean_user.
  destruct (String.eqb ibType "vless"), (String.eqb ibType "vmess");
    try done.
  - destruct (str_nonempty m "email") as [s|]; cbv beta iota zeta.
    + by destruct (delete "email" (<["name" := Str s]> m) !! "email").
    + by destruct (m !! "email").
  - by destruct (str_nonempty m "email").
  - by destruct (m !! "email").
Qed.

(** The loop over the users. *)
Lemma users_loop_first ibType users acc needsUpdate :
  Forall (user_cleaned ibType) acc ->
  Forall (user_cleaned ibType)
    (fold_left (fun '(users, needsUpdate) user =>
                  let '(user, needsUpdate) :=
                    clean_user ibType user needsUpdate in
                  (users ++ [user], needsUpdate))
       users (acc, needsUpdate)).1.
Proof.
  revert acc needsUpdate.
  induction users as [|user users IH]; intros acc needsUpdate Hacc; [done|].
  cbn [fold_left].
  pose proof (clean_user_first ibType user needsUpdate) as Hu.
  destruct (clean_user ibType user needsUpdate) as [user' nU].
  apply IH. apply Forall_app. split; [done|]. by constructor.
Qed.

Lemma users_loop_second ibType users acc :
  Forall (user_cleaned ibType) users ->
  fold_left (fun '(users, needsUpdate) user =>
               let '(user, needsUpdate) :=
                 clean_user ibType user needsUpdate in
               (users ++ [user], needsUpdate))
    (map decoded users) (acc, false)
  = (acc ++ map decoded users, false).
Proof.
  intros H. revert acc.
  induction H as [|user users Hu _ IH]; intros acc.
  - cbn. by rewrite app_nil_r.
  - cbn [map fold_left]. rewrite (clean_user_second _ _ Hu), IH.
    by rewrite <- app_assoc.
Qed.

Lemma users_loop_flag ibType users acc :
  (fold_left (fun '(users, needsUpdate) user =>
                let '(user, needsUpdate) :=
                  clean_user ibType user needsUpdate in
                (users ++ [user], needsUpdate))
     users (acc, true)).2 = true.
Proof.
  revert acc. induction users as [|user users IH]; intros acc; [done|].
  cbn [fold_left]. pose proof (clean_user_flag ibType user) as Hu.
  destruct (clean_user ibType user true) as [user' nU]. cbn [snd] in Hu.
  subst nU. apply IH.
Qed.

Lemma clean_users_first ibType ibMap needsUpdate :
  untyped (ibMap !! "users") ->
  let ibMap' := (clean_users ibType ibMap needsUpdate).1 in
  (forall k, k <> "users" -> ibMap' !! k = ibMap !! k)
  /\ users_cleaned ibType (ibMap' !! "users").
Proof.
  intros Hu. unfold clean_users.
  destruct (slice_field ibMap "users") as [users|] eqn:E.
  - pose proof (users_loop_first ibType users [] needsUpdate
                  (Forall_nil_2 _)) as Hl.
    destruct (fold_left _ users ([], needsUpdate)) as [users' nU].
    cbn [fst] in *. split.
    + intros k Hk. by rewrite lookup_insert_ne.
    + rewrite lookup_insert_eq. split; [done|]. by intros us [= <-].
  - cbn [fst]. split; [done|]. split; [done|].
    intros us Hus. apply slice_field_Some in Hus. congruence.
Qed.

Lemma clean_users_second ibType (ibMap : gmap string any) :
  users_cleaned ibType (ibMap !! "users") ->
  clean_users ibType (decoded <$> ibMap) false = (decoded <$> ibMap, false).
Proof.
  intros [Hu Hc]. unfold clean_users. rewrite slice_field_decoded by done.
  destruct (slice_field ibMap "users") as [users|] eqn:E; [|done].
  apply slice_field_Some in E. cbn [fmap option_fmap option_map].
  rewrite (users_loop_second ibType users [] (Hc users E)). cbn [app].
  f_equal. apply insert_id. by rewrite lookup_fmap, E.
Qed.

Lemma clean_users_flag ibType ibMap : (clean_users ibType ibMap true).2 = true.
Proof.
  unfold clean_users. destruct (slice_field ibMap "users") as [users|]; [|done].
  pose proof (users_loop_flag ibType users []) as H.
  by destruct (fold_left _ users ([], true)).
Qed.

(** *** The Reality object of an inbound *)

Definition reality_cleaned (tls reality : gmap string any) : Prop :=
  str_field reality "server_name" = None
  /\ untyped (reality !! "server_names")
  /\ (forall serverNames, reality !! "server_names" = Some (Slice serverNames) ->
      serverNames = [])
  /\ str_field reality "short_id" = None
  /\ (reality !! "handshake" = None -> str_nonempty tls "server_name" = None).

Lemma clean_reality_first tls reality needsUpdate :
  untyped (reality !! "server_names") ->
  let '(tls', reality', _) := clean_reality tls reality needsUpdate in
  reality_cleaned tls' reality'
  /\ (forall k, k <> "server_name" -> tls' !! k = tls !! k).
Proof.
  intros Hu. unfold clean_reality.
  (* server_name *)
  set (s1 := match str_field reality "server_name" with
             | Some serverName =>
                 (<["server_name" := Str serverName]> tls,
                  delete "server_name" reality, true)
             | None => (tls, reality, needsUpdate)
             end).
  assert (str_field s1.1.2 "server_name" = None
          /\ (forall k, k <> "server_name" -> s1.1.2 !! k = reality !! k)
          /\ (forall k, k <> "server_name" -> s1.1.1 !! k = tls !! k))
    as (N1 & F1 & T1).
  { subst s1. destruct (str_field reality "server_name") eqn:E; cbn [fst snd].
    - split; [by rewrite str_field_delete|]. split; intros k Hk.
      + by rewrite lookup_delete_ne.
      + by rewrite lookup_insert_ne.
    - done. }
  destruct s1 as [[t1 r1] n1]. cbn [fst snd] in N1, F1, T1.
  (* server_names *)
  set (s2 := match slice_field r1 "server_names" with
             | Some serverNames =>
                 if (0 <? length serverNames)%nat then
                   (match serverNames with
                    | Str firstServerName :: _ =>
                        <["server_name" := Str firstServerName]> t1
                    | _ => t1
                    end,
                    delete "server_names" r1, true)
                 else (t1, r1, n1)
             | None => (t1, r1, n1)
             end).
  assert (untyped (s2.1.2 !! "server_names")
          /\ (forall l, s2.1.2 !! "server_names" = Some (Slice l) -> l = [])
          /\ (forall k, k <> "server_names" -> s2.1.2 !! k = r1 !! k)
          /\ (forall k, k <> "server_name" -> s2.1.1 !! k = t1 !! k))
    as (U2 & N2 & F2 & T2).
  { assert (untyped (r1 !! "server_names")) as Hu1 by by rewrite F1.
    subst s2. destruct (slice_field r1 "server_names") as [l|] eqn:E.
    - apply slice_field_Some in E. destruct l as [|x l]; cbn [length Nat.ltb Nat.leb fst snd].
      + rewrite E. split; [done|]. split; [by intros ? [= <-]|]. done.
      + rewrite lookup_delete_eq. split; [done|]. split; [done|].
        split; intros k Hk.
        * by rewrite lookup_delete_ne.
        * destruct x; try done. by rewrite lookup_insert_ne.
    - cbn [fst snd]. split; [done|]. split; [|done].
      intros l Hl. apply slice_field_Some in Hl. congruence. }
  destruct s2 as [[t2 r2] n2]. cbn [fst snd] in U2, N2, F2, T2.
  (* short_id *)
  set (s3 := match str_field r2 "short_id" with
             | Some shortId => (<["short_id" := Strings [shortId]]> r2, true)
             | None => (r2, n2)
             end).
  assert (str_field s3.1 "short_id" = None
          /\ (forall k, k <> "short_id" -> s3.1 !! k = r2 !! k)) as (N3 & F3).
  { subst s3. destruct (str_field r2 "short_id") eqn:E; cbn [fst].
    - split; [by rewrite str_field_insert|]. intros k Hk.
      by rewrite lookup_insert_ne.
    - done. }
  destruct s3 as [r3 n3]. cbn [fst] in N3, F3.
  assert (forall k, k <> "server_name" -> t2 !! k = tls !! k) as T.
  { intros k Hk. by rewrite T2, T1. }
  assert (forall r4 : gmap string any,
            (forall k, k <> "handshake" -> r4 !! k = r3 !! k) ->
            (r4 !! "handshake" = None -> str_nonempty t2 "server_name" = None) ->
            reality_cleaned t2 r4) as Hfin.
  { intros r4 F4 H4. unfold reality_cleaned, str_field in *.
    rewrite !F4 by done. rewrite !F3 by done. rewrite !F2 by done.
    done. }
  (* handshake *)
  destruct (r3 !! "handshake") eqn:E4.
  - split; [|done]. apply Hfin; [done|]. congruence.
  - destruct (str_nonempty t2 "server_name") eqn:E5.
    + split; [|done]. apply Hfin.
      * intros k Hk. by rewrite lookup_insert_ne.
      * by rewrite lookup_insert_eq.
    + split; [|done]. by apply Hfin.
Qed.

Lemma clean_reality_second (tls tls2 reality : gmap string any) :
  reality_cleaned tls reality ->
  str_nonempty tls2 "server_name" = str_nonempty tls "server_name" ->
  clean_reality tls2 (decoded <$> reality) false
  = (tls2, decoded <$> reality, false).
Proof.
  intros (N1 & U2 & N2 & N3 & N4) Ht. unfold clean_reality.
  rewrite !str_field_decoded, N1. cbv beta iota zeta.
  assert (match slice_field (decoded <$> reality) "server_names" with
          | Some serverNames =>
              if (0 <? length serverNames)%nat then
                (match serverNames with
                 | Str firstServerName :: _ =>
                     <["server_name" := Str firstServerName]> tls2
                 | _ => tls2
                 end,
                 delete "server_names" (decoded <$> reality), true)
              else (tls2, decoded <$> reality, false)
          | None => (tls2, decoded <$> reality, false)
          end = (tls2, decoded <$> reality, false)) as ->.
  { rewrite slice_field_decoded by done.
    destruct (slice_field reality "server_names") as [l|] eqn:E; [|done].
    apply slice_field_Some in E. by rewrite (N2 l E). }
  cbv beta iota zeta. rewrite str_field_decoded, N3. rewrite lookup_fmap.
  destruct (reality !! "handshake") eqn:E; [done|].
  cbn [fmap option_fmap option_map]. by rewrite Ht, (N4 eq_refl).
Qed.

Lemma clean_reality_flag tls reality : (clean_reality tls reality true).2 = true.
Proof.
  unfold clean_reality.
  destruct (str_field reality "server_name"); cbv beta iota zeta;
    (destruct (slice_field _ "server_names") as [l|];
     [destruct (0 <? length l)%nat|]); cbv beta iota zeta;
    (destruct (str_field _ "short_id")); cbv beta iota zeta;
    (destruct (_ !! "handshake"); [done|]);
    by destruct (str_nonempty _ "server_name").
Qed.

(** *** The TLS object of an inbound *)

Definition tls_cleaned (v : option any) : Prop :=
  forall tls reality,
    v = Some (Map tls) -> tls !! "reality" = Some (Map reality) ->
    reality_cleaned tls reality.

Lemma str_nonempty_insert_ne (m : gmap string any) k k' v :
  k' <> k -> str_nonempty (<[k' := v]> m) k = str_nonempty m k.
Proof.
  intros H. unfold str_nonempty, str_field. by rewrite lookup_insert_ne.
Qed.

Lemma reality_cleaned_frame (tls tls' reality : gmap string any) :
  str_nonempty tls' "server_name" = str_nonempty tls "server_name" ->
  reality_cleaned tls reality -> reality_cleaned tls' reality.
Proof. unfold reality_cleaned. intros ->. done. Qed.

Lemma clean_tls_first ibMap needsUpdate :
  (forall v, ibMap !! "tls" = Some v -> plain v) ->
  let ibMap' := (clean_tls ibMap needsUpdate).1 in
  (forall k, k <> "tls" -> ibMap' !! k = ibMap !! k)
  /\ tls_cleaned (ibMap' !! "tls").
Proof.
  intros Hp. unfold clean_tls.
  destruct (map_field ibMap "tls") as [tls|] eqn:E.
  2:{ cbn [fst]. split; [done|]. intros t r Ht. apply map_field_Some in Ht.
      congruence. }
  destruct (map_field tls "reality") as [reality|] eqn:Er.
  2:{ cbn [fst]. split; [done|]. apply map_field_Some in E.
      intros t r Ht Hr. rewrite E in Ht. injection Ht as <-.
      apply map_field_Some in Hr. congruence. }
  apply map_field_Some in E, Er.
  assert (untyped (reality !! "server_names")) as Hu.
  { apply untyped_lookup. apply plain_Map.
    apply (plain_lookup tls "reality"); [|done].
    apply plain_Map. by apply Hp. }
  pose proof (clean_reality_first tls reality needsUpdate Hu) as H.
  destruct (clean_reality tls reality needsUpdate) as [[tls' reality'] nU].
  destruct H as [Hc _]. cbn [fst]. split.
  - intros k Hk. by rewrite lookup_insert_ne.
  - rewrite lookup_insert_eq. intros t r [= <-]. rewrite lookup_insert_eq.
    intros [= <-]. revert Hc. apply reality_cleaned_frame.
    by apply str_nonempty_insert_ne.
Qed.

Lemma clean_tls_second (ibMap : gmap string any) :
  tls_cleaned (ibMap !! "tls") ->
  clean_tls (decoded <$> ibMap) false = (decoded <$> ibMap, false).
Proof.
  intros Hc. unfold clean_tls. rewrite map_field_decoded.
  destruct (map_field ibMap "tls") as [tls|] eqn:E; [|done].
  cbn [fmap option_fmap option_map]. rewrite map_field_decoded.
  destruct (map_field tls "reality") as [reality|] eqn:Er; [|done].
  cbn [fmap option_fmap option_map].
  apply map_field_Some in E, Er.
  rewrite (clean_reality_second tls (decoded <$> tls) reality).
  - f_equal. apply insert_id. rewrite lookup_fmap, E.
    cbn [fmap option_fmap option_map decoded]. do 2 f_equal.
    symmetry. apply insert_id. by rewrite lookup_fmap, Er.
  - by apply Hc.
  - apply str_nonempty_decoded.
Qed.

Lemma clean_tls_flag ibMap : (clean_tls ibMap true).2 = true.
Proof.
  unfold clean_tls. destruct (map_field ibMap "tls") as [tls|]; [|done].
  destruct (map_field tls "reality") as [reality|]; [|done].
  pose proof (clean_reality_flag tls reality) as H.
  by destruct (clean_reality tls reality true) as [[? ?] ?].
Qed.

(** *** One inbound *)

Lemma clean_inbound_second ib needsUpdate ib' needsUpdate' :
  plain ib ->
  clean_inbound ib needsUpdate = (Some ib', needsUpdate') ->
  clean_inbound (decoded ib') false = (Some (decoded ib'), false).
Proof.
  intros Hp. destruct ib as [| | | | | | |ibMap];
    try (intros [= <- <-]; done).
  apply plain_Map in Hp. unfold clean_inbound at 1.
  destruct (String.eqb (default "" (str_field ibMap "type")) "tunnel"
            || String.eqb (default "" (str_field ibMap "type")) "wireguard")
    eqn:Et; [done|].
  destruct (clean_transport_first ibMap needsUpdate) as [F1 C1].
  destruct (clean_transport ibMap needsUpdate) as [m1 n1]. cbn [fst] in F1, C1.
  destruct (clean_users_first (default "" (str_field ibMap "type")) m1 n1)
    as [F2 C2].
  { rewrite F1 by done. by apply untyped_lookup. }
  destruct (clean_users _ m1 n1) as [m2 n2]. cbn [fst] in F2, C2.
  destruct (clean_tls_first m2 n2) as [F3 C3].
  { intros v. rewrite F2, F1 by done. by apply plain_lookup. }
  destruct (clean_tls m2 n2) as [m3 n3]. cbn [fst] in F3, C3.
  intros [= <- <-]. cbn [decoded]. unfold clean_inbound.
  rewrite str_field_decoded.
  assert (str_field m3 "type" = str_field ibMap "type") as ->.
  { unfold str_field. by rewrite F3, F2, F1. }
  rewrite Et.
  rewrite clean_transport_second by (by rewrite F3, F2).
  rewrite clean_users_second by (by rewrite F3).
  by rewrite clean_tls_second.
Qed.

Lemma clean_inbound_flag ib : (clean_inbound ib true).2 = true.
Proof.
  destruct ib as [| | | | | | |ibMap]; try done. unfold clean_inbound.
  destruct (_ || _); [done|].
  pose proof (clean_transport_flag ibMap) as H1.
  destruct (clean_transport ibMap true) as [m1 n1]. cbn [snd] in H1. subst n1.
  pose proof (clean_users_flag (default "" (str_field ibMap "type")) m1) as H2.
  destruct (clean_users _ m1 true) as [m2 n2]. cbn [snd] in H2. subst n2.
  pose proof (clean_tls_flag m2) as H3.
  by destruct (clean_tls m2 true) as [m3 n3].
Qed.

(** *** One outbound *)

(** The first step on an outbound that is kept: the Xray names of the
    protocols. *)
Definition named (obMap : gmap string any) : gmap string any :=
  let obType := default "" (str_field obMap "type") in
  let obProtocol := default "" (str_field obMap "protocol") in
  if negb (String.eqb obProtocol "") && String.eqb obType "" then
    if String.eqb obProtocol "freedom" then
      let obMap := delete "protocol" (<["type" := Str "direct"]> obMap) in
      match map_field obMap "settings" with
      | Some settings =>
          <["settings" :=
              Map (delete "noises"
                     (delete "redirect"
                        (delete "domainStrategy" settings)))]> obMap
      | None => obMap
      end
    else if String.eqb obProtocol "blackhole" then
      <["settings" := Map ∅]>
        (delete "protocol" (<["type" := Str "block"]> obMap))
    else obMap
  else obMap.

Definition dropped (obMap : gmap string any) : bool :=
  let obType := default "" (str_field obMap "type") in
  let obProtocol := default "" (str_field obMap "protocol") in
  let actualType := if String.eqb obType "" then obProtocol else obType in
  String.eqb actualType "tun" || String.eqb actualType "tunnel".

Lemma clean_outbound_value obMap needsUpdate :
  (clean_outbound (Map obMap) needsUpdate).1
  = if dropped obMap then None
    else Some (Map (move_domain_strategy (named obMap))).
Proof.
  unfold clean_outbound, dropped, named, move_domain_strategy.
  cbv zeta.
  destruct (String.eqb _ "tun" || String.eqb _ "tunnel"); [done|].
  destruct (negb _ && _).
  - destruct (String.eqb _ "freedom").
    + destruct (map_field (delete _ _) "settings") as [s0|];
        cbv beta iota zeta.
      * destruct (map_field _ "settings") as [s1|]; [|done].
        by destruct (str_field s1 "domainStrategy").
      * destruct (map_field _ "settings") as [s1|]; [|done].
        by destruct (str_field s1 "domainStrategy").
    + destruct (String.eqb _ "blackhole"); cbv beta iota zeta.
      * destruct (map_field _ "settings") as [s1|]; [|done].
        by destruct (str_field s1 "domainStrategy").
      * destruct (map_field _ "settings") as [s1|]; [|done].
        by destruct (str_field s1 "domainStrategy").
  - cbv beta iota zeta.
    destruct (map_field _ "settings") as [s1|]; [|done].
    by destruct (str_field s1 "domainStrategy").
Qed.

Definition outbound_cleaned (obMap : gmap string any) : Prop :=
  let obType := default "" (str_field obMap "type") in
  let obProtocol := default "" (str_field obMap "protocol") in
  dropped obMap = false
  /\ (negb (String.eqb obProtocol "") && String.eqb obType "" = true ->
      String.eqb obProtocol "freedom" = false
      /\ String.eqb obProtocol "blackhole" = false)
  /\ (forall settings, map_field obMap "settings" = Some settings ->
      str_field settings "domainStrategy" = None).

Lemma named_types obMap :
  dropped obMap = false ->
  let obMap' := named obMap in
  let obType := default "" (str_field obMap' "type") in
  let obProtocol := default "" (str_field obMap' "protocol") in
  dropped obMap' = false
  /\ (negb (String.eqb obProtocol "") && String.eqb obType "" = true ->
      String.eqb obProtocol "freedom" = false
      /\ String.eqb obProtocol "blackhole" = false).
Proof.
  intros Hd. unfold named. cbv zeta.
  destruct (negb (String.eqb (default "" (str_field obMap "protocol")) "")
            && String.eqb (default "" (str_field obMap "type")) "") eqn:Ec.
  2:{ split; [done|]. by rewrite Ec. }
  destruct (String.eqb (default "" (str_field obMap "protocol")) "freedom")
    eqn:Ef.
  { assert (forall m : gmap string any,
              (forall k, k <> "settings" ->
                 m !! k = delete "protocol" (<["type" := Str "direct"]> obMap)
                          !! k) ->
              dropped m = false
              /\ (negb (String.eqb (default "" (str_field m "protocol")) "")
                  && String.eqb (default "" (str_field m "type")) "" = true ->
                  String.eqb (default "" (str_field m "protocol")) "freedom"
                  = false
                  /\ String.eqb (default "" (str_field m "protocol"))
                       "blackhole" = false)) as H.
    { intros m Hm. unfold dropped, str_field. rewrite !Hm by done.
      rewrite lookup_delete_eq. rewrite lookup_delete_ne by done.
      rewrite lookup_insert_eq. by cbn. }
    destruct (map_field _ "settings"); apply H; [|done].
    intros k Hk. by rewrite lookup_insert_ne. }
  destruct (String.eqb (default "" (str_field obMap "protocol")) "blackhole")
    eqn:Eb.
  { unfold dropped, str_field. rewrite !lookup_insert_ne by done.
    rewrite lookup_delete_eq. rewrite lookup_delete_ne by done.
    rewrite lookup_insert_eq. by cbn. }
  split; [done|]. by intros _.
Qed.

Lemma clean_outbound_first obMap needsUpdate ob' needsUpdate' :
  clean_outbound (Map obMap) needsUpdate = (Some ob', needsUpdate') ->
  exists obMap', ob' = Map obMap' /\ outbound_cleaned obMap'.
Proof.
  intros H. pose proof (clean_outbound_value obMap needsUpdate) as Hv.
  rewrite H in Hv. cbn [fst] in Hv.
  destruct (dropped obMap) eqn:Ed; [done|]. injection Hv as ->.
  eexists. split; [done|].
  destruct (named_types obMap Ed) as [H1 H2].
  assert (forall k, k <> "settings" -> k <> "domain_strategy" ->
            str_field (move_domain_strategy (named obMap)) k
            = str_field (named obMap) k) as Hs.
  { intros k ? ?. unfold str_field. by rewrite move_domain_strategy_other. }
  unfold outbound_cleaned, dropped in *. rewrite !Hs by done.
  split; [done|]. split; [done|]. apply move_domain_strategy_settings.
Qed.

Lemma clean_outbound_cleaned (obMap : gmap string any) :
  outbound_cleaned obMap ->
  clean_outbound (Map (decoded <$> obMap)) false
  = (Some (Map (decoded <$> obMap)), false).
Proof.
  intros (Hd & Hn & Hs). unfold clean_outbound. unfold dropped in Hd.
  rewrite !str_field_decoded. cbv zeta in *. rewrite Hd.
  destruct (negb (String.eqb (default "" (str_field obMap "protocol")) "")
            && String.eqb (default "" (str_field obMap "type")) "").
  - destruct (Hn eq_refl) as [-> ->]. rewrite map_field_decoded.
    destruct (map_field obMap "settings") as [s0|] eqn:E; [|done].
    cbn [fmap option_fmap option_map]. rewrite str_field_decoded.
    by rewrite (Hs s0 eq_refl).
  - rewrite map_field_decoded.
    destruct (map_field obMap "settings") as [s0|] eqn:E; [|done].
    cbn [fmap option_fmap option_map]. rewrite str_field_decoded.
    by rewrite (Hs s0 eq_refl).
Qed.

Lemma clean_outbound_second ob needsUpdate ob' needsUpdate' :
  clean_outbound ob needsUpdate = (Some ob', needsUpdate') ->
  clean_outbound (decoded ob') false = (Some (decoded ob'), false).
Proof.
  destruct ob as [| | | | | | |obMap]; try (intros [= <- <-]; done).
  intros H. apply clean_outbound_first in H as (obMap' & -> & Hc).
  cbn [decoded]. by apply clean_outbound_cleaned.
Qed.

Lemma clean_outbound_flag ob : (clean_outbound ob true).2 = true.
Proof.
  destruct ob as [| | | | | | |obMap]; try done. unfold clean_outbound.
  cbv zeta. destruct (String.eqb _ "tun" || String.eqb _ "tunnel"); [done|].
  destruct (negb _ && _).
  - destruct (String.eqb _ "freedom"); cbv beta iota zeta.
    + destruct (map_field _ "settings") as [s1|]; [|done].
      by destruct (str_field s1 "domainStrategy").
    + destruct (String.eqb _ "blackhole"); cbv beta iota zeta;
        (destruct (map_field _ "settings") as [s1|]; [|done]);
        by destruct (str_field s1 "domainStrategy").
  - cbv beta iota zeta. destruct (map_field _ "settings") as [s1|]; [|done].
    by destruct (str_field s1 "domainStrategy").
Qed.

(** *** One rule of the route *)

Definition rule_cleaned (hasGeoipConfig : bool) (rule : any) : Prop :=
  forall ruleMap, rule = Map ruleMap ->
    ruleMap !! "type" = None
    /\ str_field ruleMap "outboundTag" = None
    /\ untyped (ruleMap !! "inboundTag")
    /\ slice_field ruleMap "inboundTag" = None
    /\ untyped (ruleMap !! "ip")
    /\ (forall ip, ruleMap !! "ip" = Some (Slice ip) ->
        Translate.geoip_values ip = [] /\ Translate.regular_ips ip = ip
        /\ ip <> [])
    /\ Translate.keeps_geoip_field hasGeoipConfig (decoded <$> ruleMap) = true.

Lemma geoip_values_regular ip :
  Translate.geoip_values (Translate.regular_ips ip) = [].
Proof.
  unfold Translate.geoip_values, Translate.regular_ips.
  induction ip as [|x ip IH]; [done|]. cbn [omap list_omap].
  destruct x; try done.
  destruct (HasPrefix s "geoip:") eqn:E; [done|].
  cbn [omap list_omap]. by rewrite E.
Qed.

Lemma regular_ips_regular ip :
  Translate.regular_ips (Translate.regular_ips ip) = Translate.regular_ips ip.
Proof.
  unfold Translate.regular_ips.
  induction ip as [|x ip IH]; [done|]. cbn [omap list_omap].
  destruct x; try done.
  destruct (HasPrefix s "geoip:") eqn:E; [done|].
  cbn [omap list_omap]. by rewrite E, IH.
Qed.

Lemma rename_rule_fields_read rm :
  untyped (rm !! "inboundTag") ->
  let rm' := Translate.rename_rule_fields rm in
  str_field rm' "outboundTag" = None
  /\ untyped (rm' !! "inboundTag")
  /\ slice_field rm' "inboundTag" = None.
Proof.
  intros Hu. unfold Translate.rename_rule_fields. cbv zeta.
  set (r1 := match str_field (delete "type" rm) "outboundTag" with
             | Some outboundTag =>
                 delete "outboundTag"
                   (<["outbound" := Str outboundTag]> (delete "type" rm))
             | None => delete "type" rm
             end).
  assert (str_field r1 "outboundTag" = None
          /\ r1 !! "inboundTag" = rm !! "inboundTag") as [H1 F1].
  { subst r1. destruct (str_field (delete "type" rm) "outboundTag") eqn:E.
    - split; [by rewrite str_field_delete|].
      by rewrite lookup_delete_ne, lookup_insert_ne, lookup_delete_ne.
    - split; [done|]. by rewrite lookup_delete_ne. }
  clearbody r1.
  destruct (slice_field r1 "inboundTag") as [tags|] eqn:E.
  - split.
    + rewrite str_field_delete, decide_False by done.
      by rewrite str_field_insert, decide_False.
    + unfold slice_field. by rewrite lookup_delete_eq.
  - split; [done|]. split; [by rewrite F1|done].
Qed.

Lemma keeps_geoip_field_lookup g (m m' : gmap string any) :
  m !! "geoip" = m' !! "geoip" ->
  Translate.keeps_geoip_field g m = Translate.keeps_geoip_field g m'.
Proof. unfold Translate.keeps_geoip_field. by intros ->. Qed.

Lemma convert_rule_ip_spec g rm0 rm' :
  untyped (rm0 !! "ip") ->
  Translate.convert_rule_ip g rm0 = (rm', true) ->
  (forall k, k <> "ip" -> k <> "geoip" -> rm' !! k = rm0 !! k)
  /\ untyped (rm' !! "ip")
  /\ (forall ip, rm' !! "ip" = Some (Slice ip) ->
      Translate.geoip_values ip = [] /\ Translate.regular_ips ip = ip
      /\ ip <> [])
  /\ (rm' !! "geoip" = rm0 !! "geoip"
      \/ g = true /\ exists l, l <> [] /\ rm' !! "geoip" = Some (Strings l)).
Proof.
  intros Hu. unfold Translate.convert_rule_ip.
  destruct (slice_field rm0 "ip") as [ip|] eqn:E.
  2:{ intros [= <-]. split; [done|]. split; [done|]. split; [|by left].
      intros ip Hip. apply slice_field_Some in Hip. congruence. }
  cbv zeta.
  set (geoipList := Translate.geoip_values ip).
  set (regularIPs := Translate.regular_ips ip).
  destruct ((0 <? length geoipList)%nat && negb g) eqn:Ec; [done|].
  set (r1 := if (0 <? length geoipList)%nat
             then delete "ip" (<["geoip" := Strings geoipList]> rm0)
             else rm0).
  assert ((forall k, k <> "ip" -> k <> "geoip" -> r1 !! k = rm0 !! k)
          /\ (r1 !! "geoip" = rm0 !! "geoip"
              \/ g = true
                 /\ exists l, l <> [] /\ r1 !! "geoip" = Some (Strings l))
          /\ ((length geoipList =? 0)%nat = false -> r1 !! "ip" = None))
    as (F1 & G1 & I1).
  { subst r1. destruct (0 <? length geoipList)%nat eqn:El.
    - split.
      { intros k ? ?. by rewrite lookup_delete_ne, lookup_insert_ne. }
      split.
      + right. destruct g; [|done]. split; [done|]. exists geoipList.
        split.
        * intros Hl. by rewrite Hl in El.
        * rewrite lookup_delete_ne by done. apply lookup_insert_eq.
      + intros _. apply lookup_delete_eq.
    - split; [done|]. split; [by left|]. intros Hl.
      destruct geoipList; done. }
  clearbody r1.
  destruct (0 <? length regularIPs)%nat eqn:Er.
  - intros [= <-]. split.
    { intros k ? ?. by rewrite lookup_insert_ne, F1. }
    rewrite lookup_insert_eq. split; [done|]. split.
    + intros ? [= <-]. subst regularIPs.
      split; [apply geoip_values_regular|].
      split; [apply regular_ips_regular|].
      intros Hl. by rewrite Hl in Er.
    + by rewrite lookup_insert_ne.
  - destruct (length geoipList =? 0)%nat eqn:Eg.
    + intros [= <-]. split.
      { intros k ? ?. by rewrite lookup_delete_ne, F1. }
      rewrite lookup_delete_eq. split; [done|]. split; [done|].
      by rewrite lookup_delete_ne.
    + intros [= <-]. split; [done|]. rewrite (I1 eq_refl).
      split; [done|]. split; [done|]. done.
Qed.

Lemma convert_rule_first g rule rule' :
  plain rule ->
  Translate.convert_rule g rule = (rule', true) ->
  rule_cleaned g rule'.
Proof.
  intros Hp. destruct rule as [| | | | | | |rm];
    try (intros [= <-]; intros ? ?; done).
  apply plain_Map in Hp. unfold Translate.convert_rule.
  destruct (Translate.convert_rule_ip g (Translate.rename_rule_fields rm))
    as [rm' goes_on] eqn:E.
  destruct goes_on; [|done]. intros [= <- Hk] ruleMap [= <-].
  destruct (rename_rule_fields_spec rm) as (T0 & _ & _ & F0).
  destruct (rename_rule_fields_read rm) as (O0 & U0 & I0).
  { by apply untyped_lookup. }
  apply convert_rule_ip_spec in E as (F & U & I & G).
  2:{ rewrite F0 by done. by apply untyped_lookup. }
  unfold str_field, slice_field in *. rewrite !F by done.
  split; [done|]. split; [done|]. split; [done|]. split; [done|].
  split; [done|]. split; [done|].
  destruct G as [G | (-> & l & Hl & G)].
  - rewrite <- Hk. apply keeps_geoip_field_lookup.
    rewrite lookup_fmap, G, F0 by done.
    destruct (rm !! "geoip") as [v|] eqn:Ev; [|done].
    cbn. f_equal. by apply (plain_lookup rm "geoip").
  - unfold Translate.keeps_geoip_field. rewrite lookup_fmap, G. cbn.
    by destruct l.
Qed.

Lemma clean_rule_second g rule :
  rule_cleaned g rule ->
  clean_rule g (decoded rule) false = (decoded rule, true, false).
Proof.
  intros Hc. destruct rule as [| | | | | | |rm]; try done.
  destruct (Hc rm eq_refl) as (T & O & Ui & I & Up & P & K).
  cbn [decoded]. unfold clean_rule.
  rewrite lookup_fmap, T. cbn [fmap option_fmap option_map].
  rewrite str_field_decoded, O. rewrite slice_field_decoded, I by done.
  cbn [fmap option_fmap option_map].
  rewrite slice_field_decoded by done.
  destruct (slice_field rm "ip") as [ip|] eqn:E.
  2:{ cbn [fmap option_fmap option_map]. by rewrite K. }
  apply slice_field_Some in E. destruct (P ip E) as (G & R & N).
  cbn [fmap option_fmap option_map].
  assert (map decoded ip = ip) as Hd.
  { rewrite <- R. apply regular_ips_decoded. }
  rewrite Hd, G, R. cbn [length Nat.ltb Nat.leb andb].
  destruct ip as [|x ip]; [done|]. cbn [length Nat.ltb Nat.leb].
  assert (<["ip" := Slice (x :: ip)]> (decoded <$> rm) = decoded <$> rm)
    as ->.
  { apply insert_id. rewrite lookup_fmap, E.
    cbn [fmap option_fmap option_map decoded]. by rewrite Hd. }
  by rewrite K.
Qed.

(** *** The route *)

Lemma filter_rules_length g rules :
  (length (Translate.filter_rules g rules) <= length rules)%nat.
Proof.
  induction rules as [|rule rules IH]; [done|].
  rewrite filter_rules_cons, length_app. cbn [length].
  destruct (Translate.convert_rule g rule).2; cbn [length]; lia.
Qed.

(** When no rule is dropped, the rewritten rules are the appended ones. *)
Lemma filter_rules_full g rules :
  length (Translate.filter_rules g rules) = length rules ->
  map (fun rule => (Translate.convert_rule g rule).1) rules
  = Translate.filter_rules g rules.
Proof.
  induction rules as [|rule rules IH]; [done|].
  rewrite filter_rules_cons, length_app. cbn [length map].
  pose proof (filter_rules_length g rules).
  destruct (Translate.convert_rule g rule).2; cbn [length app]; [|lia].
  intros [= Hl]. by rewrite IH.
Qed.

Lemma plain_Forall l : map decoded l = l -> Forall plain l.
Proof.
  induction l as [|x l IH]; [done|]. cbn [map]. intros [= Hx Hl].
  constructor; [done|by apply IH].
Qed.

Lemma filter_rules_cleaned g rules :
  Forall plain rules ->
  Forall (rule_cleaned g) (Translate.filter_rules g rules).
Proof.
  induction 1 as [|rule rules Hp _ IH]; [done|].
  rewrite filter_rules_cons. apply Forall_app. split; [|done].
  destruct (Translate.convert_rule g rule) as [rule' kept] eqn:E.
  cbn [fst snd]. destruct kept; [|done]. constructor; [|done].
  by apply (convert_rule_first g rule).
Qed.

Lemma clean_rules_second g rules :
  Forall (rule_cleaned g) rules ->
  clean_rules g (map decoded rules) false
  = (map decoded rules, map decoded rules, false).
Proof.
  intros H. unfold clean_rules.
  assert (forall rewritten filtered,
            fold_left
              (fun '(rewritten, filtered, needsUpdate) rule =>
                 let '(rule, kept, needsUpdate) :=
                   clean_rule g rule needsUpdate in
                 (rewritten ++ [rule],
                  if kept then filtered ++ [rule] else filtered,
                  needsUpdate))
              (map decoded rules) (rewritten, filtered, false)
            = (rewritten ++ map decoded rules, filtered ++ map decoded rules,
               false)) as Hf.
  { induction H as [|rule rules Hr _ IH]; intros rewritten filtered.
    - cbn. by rewrite !app_nil_r.
    - cbn [map fold_left]. rewrite (clean_rule_second g rule Hr), IH.
      by rewrite <- !app_assoc. }
  apply (Hf [] []).
Qed.

Lemma clean_route_second route needsUpdate :
  decoded <$> route = route ->
  let route' := (clean_route route needsUpdate).1 in
  clean_route (decoded <$> route') false = (decoded <$> route', false).
Proof.
  intros Hp. rewrite clean_route_agrees. unfold Translate.convert_route_map.
  cbv zeta.
  set (r0 := delete "domain_strategy" (delete "domainStrategy" route)).
  set (g := Translate.hasGeoipConfig r0).
  assert (r0 !! "domainStrategy" = None /\ r0 !! "domain_strategy" = None
          /\ forall k, k <> "domainStrategy" -> k <> "domain_strategy" ->
               r0 !! k = route !! k) as (D1 & D2 & F0).
  { subst r0. split; [|split].
    - rewrite lookup_delete_ne by done. apply lookup_delete_eq.
    - apply lookup_delete_eq.
    - intros k ? ?. by rewrite !lookup_delete_ne. }
  assert (forall r1 : gmap string any,
            (forall k, k <> "rules" -> r1 !! k = r0 !! k) ->
            (untyped (r1 !! "rules")
             /\ forall rules, r1 !! "rules" = Some (Slice rules) ->
                  Forall (rule_cleaned g) rules) ->
            clean_route (decoded <$> r1) false = (decoded <$> r1, false))
    as Hfin.
  { intros r1 F1 [U1 R1]. unfold clean_route.
    rewrite !lookup_fmap, F1, D1 by done.
    cbn [fmap option_fmap option_map]. rewrite lookup_fmap, F1, D2 by done.
    cbn [fmap option_fmap option_map].
    assert (Translate.hasGeoipConfig (decoded <$> r1) = g) as ->.
    { subst g. unfold Translate.hasGeoipConfig. rewrite map_field_decoded.
      unfold map_field. rewrite F1 by done.
      by destruct (r0 !! "geoip") as [[]|]. }
    rewrite slice_field_decoded by done.
    destruct (slice_field r1 "rules") as [rules|] eqn:E; [|done].
    apply slice_field_Some in E. cbn [fmap option_fmap option_map].
    rewrite (clean_rules_second g rules (R1 rules E)).
    rewrite Nat.eqb_refl. cbn [negb]. f_equal. apply insert_id.
    by rewrite lookup_fmap, E. }
  destruct (slice_field r0 "rules") as [rules|] eqn:E.
  - assert ((if negb (length (Translate.filter_rules g rules)
                      =? length rules)%nat
             then <["rules" := Slice (Translate.filter_rules g rules)]> r0
             else <["rules" :=
                      Slice (map (fun rule =>
                                    (Translate.convert_rule g rule).1) rules)]>
                    r0)
            = <["rules" := Slice (Translate.filter_rules g rules)]> r0) as ->.
    { destruct (length (Translate.filter_rules g rules) =? length rules)%nat
        eqn:El; [|done].
      cbn [negb]. apply Nat.eqb_eq in El. by rewrite filter_rules_full. }
    apply Hfin.
    + intros k Hk. by rewrite lookup_insert_ne.
    + rewrite lookup_insert_eq. split; [done|]. intros ? [= <-].
      apply filter_rules_cleaned. apply plain_Forall. apply plain_Slice.
      apply (plain_lookup route "rules"); [done|].
      apply slice_field_Some in E. by rewrite <- F0.
  - apply Hfin; [done|]. split.
    + rewrite F0 by done. by apply untyped_lookup.
    + intros rules Hr. apply slice_field_Some in Hr. congruence.
Qed.

(** *** The four passes *)

Definition log_pass (cfg : gmap string any) (needsUpdate : bool)
    : gmap string any * bool :=
  match map_field cfg "log" with
  | Some logSection =>
      let '(logSection, needsUpdate) := clean_log logSection needsUpdate in
      (<["log" := Map logSection]> cfg, needsUpdate)
  | None => (cfg, needsUpdate)
  end.

Definition loop_pass (key : string) (body : any -> bool -> option any * bool)
    (cfg : gmap string any) (needsUpdate : bool) : gmap string any * bool :=
  match slice_field cfg key with
  | Some elements =>
      let '(filtered, needsUpdate) := filter_loop body elements needsUpdate in
      if needsUpdate
      then (<[key := Slice filtered]> cfg, needsUpdate)
      else (cfg, needsUpdate)
  | None => (cfg, needsUpdate)
  end.

Definition route_pass (cfg : gmap string any) (needsUpdate : bool)
    : gmap string any * bool :=
  match map_field cfg "route" with
  | Some route =>
      let '(route, needsUpdate) := clean_route route needsUpdate in
      (<["route" := Map route]> cfg, needsUpdate)
  | None => (cfg, needsUpdate)
  end.

Lemma clean_passes cfg :
  clean cfg
  = let '(cfg, needsUpdate) := log_pass cfg false in
    let '(cfg, needsUpdate) :=
      loop_pass "inbounds" clean_inbound cfg needsUpdate in
    let '(cfg, needsUpdate) :=
      loop_pass "outbounds" clean_outbound cfg needsUpdate in
    route_pass cfg needsUpdate.
Proof. reflexivity. Qed.

Definition log_cleaned (v : option any) : Prop :=
  forall logSection, v = Some (Map logSection) ->
    logSection !! "error" = None /\ is_Some (logSection !! "timestamp")
    /\ is_Some (logSection !! "level").

Lemma log_pass_first cfg needsUpdate :
  let cfg' := (log_pass cfg needsUpdate).1 in
  (forall k, k <> "log" -> cfg' !! k = cfg !! k)
  /\ log_cleaned (cfg' !! "log").
Proof.
  unfold log_pass. destruct (map_field cfg "log") as [l|] eqn:E.
  - pose proof (clean_log_fields l needsUpdate) as (H1 & H2 & H3 & _).
    destruct (clean_log l needsUpdate) as [l' nU]. cbn [fst] in *. split.
    + intros k Hk. by rewrite lookup_insert_ne.
    + rewrite lookup_insert_eq. by intros ? [= <-].
  - cbn [fst]. split; [done|]. intros l Hl. apply map_field_Some in Hl.
    congruence.
Qed.

Lemma log_pass_second (cfg : gmap string any) :
  log_cleaned (cfg !! "log") ->
  log_pass (decoded <$> cfg) false = (decoded <$> cfg, false).
Proof.
  intros Hc. unfold log_pass. rewrite map_field_decoded.
  destruct (map_field cfg "log") as [l|] eqn:E; [|done].
  apply map_field_Some in E. destruct (Hc l E) as (H1 & H2 & H3).
  cbn [fmap option_fmap option_map]. rewrite clean_log_stable.
  - f_equal. apply insert_id. by rewrite lookup_fmap, E.
  - by rewrite lookup_fmap, H1.
  - rewrite lookup_fmap. by apply fmap_is_Some.
  - rewrite lookup_fmap. by apply fmap_is_Some.
Qed.

(** A slice on which the loop finds nothing to do after decoding. *)
Definition loop_cleaned (body : any -> bool -> option any * bool)
    (v : option any) : Prop :=
  untyped v
  /\ forall elements, v = Some (Slice elements) ->
       (filter_loop body (map decoded elements) false).2 = false.

Lemma loop_pass_first key body cfg needsUpdate :
  (forall x, (body x true).2 = true) ->
  (forall x nU y nU', plain x -> body x nU = (Some y, nU') ->
     body (decoded y) false = (Some (decoded y), false)) ->
  (forall v, cfg !! key = Some v -> plain v) ->
  let cfg' := (loop_pass key body cfg needsUpdate).1 in
  (forall k, k <> key -> cfg' !! k = cfg !! k)
  /\ loop_cleaned body (cfg' !! key).
Proof.
  intros Hflag Hbody Hp. unfold loop_pass.
  destruct (slice_field cfg key) as [elements|] eqn:E.
  2:{ cbn [fst]. split; [done|]. split.
      - destruct (cfg !! key) as [v|] eqn:Ev; [|done].
        apply plain_untyped. by apply Hp.
      - intros l Hl. apply slice_field_Some in Hl. congruence. }
  apply slice_field_Some in E.
  assert (map decoded elements = elements) as Hd.
  { apply plain_Slice. by apply Hp. }
  destruct (filter_loop body elements needsUpdate) as [filtered nU] eqn:El.
  destruct nU; cbn [fst].
  - split.
    { intros k Hk. by rewrite lookup_insert_ne. }
    rewrite lookup_insert_eq. split; [done|]. intros ? [= <-].
    rewrite filter_loop_stable; [done|].
    pose proof (filter_loop_kept plain
                  (fun y => body (decoded y) false = (Some (decoded y), false))
                  body elements needsUpdate (plain_Forall _ Hd)) as Hk.
    rewrite El in Hk. cbn [fst] in Hk. apply Forall_map. apply Hk.
    intros x nU y nU'. apply Hbody.
  - split; [done|]. split.
    { rewrite E. done. }
    intros l. rewrite E. intros [= <-]. rewrite Hd.
    assert (needsUpdate = false) as ->.
    { apply (flag_false (filter_loop body elements)).
      - by apply filter_loop_flag.
      - by rewrite El. }
    by rewrite El.
Qed.

Lemma loop_pass_second key body (cfg : gmap string any) :
  loop_cleaned body (cfg !! key) ->
  loop_pass key body (decoded <$> cfg) false = (decoded <$> cfg, false).
Proof.
  intros [Hu Hc]. unfold loop_pass. rewrite slice_field_decoded by done.
  destruct (slice_field cfg key) as [elements|] eqn:E; [|done].
  apply slice_field_Some in E. cbn [fmap option_fmap option_map].
  specialize (Hc elements E).
  destruct (filter_loop body (map decoded elements) false) as [f nU].
  cbn [snd] in Hc. by subst nU.
Qed.

Definition route_cleaned (v : option any) : Prop :=
  forall route, v = Some (Map route) ->
    clean_route (decoded <$> route) false = (decoded <$> route, false).

Lemma route_pass_first cfg needsUpdate :
  (forall v, cfg !! "route" = Some v -> plain v) ->
  let cfg' := (route_pass cfg needsUpdate).1 in
  (forall k, k <> "route" -> cfg' !! k = cfg !! k)
  /\ route_cleaned (cfg' !! "route").
Proof.
  intros Hp. unfold route_pass.
  destruct (map_field cfg "route") as [route|] eqn:E.
  - apply map_field_Some in E.
    pose proof (clean_route_second route needsUpdate) as H.
    destruct (clean_route route needsUpdate) as [route' nU].
    cbn [fst] in *. split.
    + intros k Hk. by rewrite lookup_insert_ne.
    + rewrite lookup_insert_eq. intros ? [= <-]. apply H.
      apply plain_Map. by apply Hp.
  - cbn [fst]. split; [done|]. intros r Hr. apply map_field_Some in Hr.
    congruence.
Qed.

Lemma route_pass_second (cfg : gmap string any) :
  route_cleaned (cfg !! "route") ->
  route_pass (decoded <$> cfg) false = (decoded <$> cfg, false).
Proof.
  intros Hc. unfold route_pass. rewrite map_field_decoded.
  destruct (map_field cfg "route") as [route|] eqn:E; [|done].
  apply map_field_Some in E. cbn [fmap option_fmap option_map].
  rewrite (Hc route E). f_equal. apply insert_id. by rewrite lookup_fmap, E.
Qed.

Lemma clean_second cfg :
  decoded <$> cfg = cfg ->
  clean (decoded <$> (clean cfg).1) = (decoded <$> (clean cfg).1, false).
Proof.
  intros Hp. rewrite (clean_passes cfg).
  destruct (log_pass_first cfg false) as [F1 C1].
  destruct (log_pass cfg false) as [cfg1 n1]. cbn [fst] in F1, C1.
  destruct (loop_pass_first "inbounds" clean_inbound cfg1 n1
              clean_inbound_flag clean_inbound_second) as [F2 C2].
  { intros v. rewrite F1 by done. by apply plain_lookup. }
  destruct (loop_pass "inbounds" clean_inbound cfg1 n1) as [cfg2 n2].
  cbn [fst] in F2, C2.
  destruct (loop_pass_first "outbounds" clean_outbound cfg2 n2
              clean_outbound_flag) as [F3 C3].
  { intros x nU y nU' _. apply clean_outbound_second. }
  { intros v. rewrite F2, F1 by done. by apply plain_lookup. }
  destruct (loop_pass "outbounds" clean_outbound cfg2 n2) as [cfg3 n3].
  cbn [fst] in F3, C3.
  destruct (route_pass_first cfg3 n3) as [F4 C4].
  { intros v. rewrite F3, F2, F1 by done. by apply plain_lookup. }
  destruct (route_pass cfg3 n3) as [cfg4 n4]. cbn [fst] in F4, C4.
  rewrite clean_passes.
  rewrite log_pass_second by (by rewrite F4, F3, F2).
  rewrite loop_pass_second by (by rewrite F4, F3).
  rewrite loop_pass_second by (by rewrite F4).
  by apply route_pass_second.
Qed.

(** X30. The validation of the template settles after one run.  For a
    template as [json.Unmarshal] leaves it, take what the four passes leave
    and read it back as the next run does: on this template the passes
    change nothing and leave the flag unset, so the next run saves
    nothing. *)
Theorem validation_settles (cfg : gmap string any) :
  decoded <$> cfg = cfg ->
  let saved := decoded <$> (clean cfg).1 in
  clean saved = (saved, false)
  /\ forall MarshalIndent, cleanedTemplate MarshalIndent (Some saved) = None.
Proof.
  intros Hp saved. pose proof (clean_second cfg Hp) as H. fold saved in H.
  split; [done|]. intros MarshalIndent. unfold cleanedTemplate.
  by rewrite H.
Qed.

End TemplateSecondRun.

Section TemplateExamples.
Import Json Template.
Local Open Scope list_scope.

(** A template that every pass has something to do on. *)
Definition converted_template : gmap string any :=
  <["log" := Map {["error" := Str "error.log"]}]>
    (<["inbounds" :=
         Slice [Map {["type" := Str "tunnel"]};
                Map (<["type" := Str "vless"]>
                       (<["users" := Slice [Map {["email" := Str "a"]}]]>
                          {["tls" :=
                              Map {["reality" :=
                                      Map {["short_id" := Str "ab"]}]}]}))]]>
       (<["outbounds" := Slice [Map {["protocol" := Str "freedom"]}]]>
          {["route" :=
              Map (<["domainStrategy" := Str "AsIs"]>
                     {["rules" :=
                         Slice [Map (<["type" := Str "field"]>
                                       {["outboundTag" := Str "direct"]})]]})]})).

Lemma validation_settles_witness :
  (clean converted_template).2 = true
  /\ (clean (decoded <$> (clean converted_template).1)).2 = false.
Proof.
  split; [by vm_compute|].
  assert (decoded <$> converted_template = converted_template) as Hp
    by reflexivity.
  destruct (validation_settles converted_template Hp) as [H _].
  by rewrite H.
Defined.

End TemplateExamples.

Section SchemaInvalidTemplate.
Import Json Settings.

(** The text [{"inbounds":5}]: a JSON object that is not a sing-box
    configuration, whose [inbounds] is a list of inbound objects. *)
Definition schema_invalid_template : string :=
  "{" +:+ String "034" "inbounds" +:+ String "034" ":5}".

(** Stand-ins for the library on the texts of the example.  [json.Unmarshal]
    into a generic map accepts the object; as a configuration of either core
    only the default template decodes. *)
Definition decodes_generic (text : string)
    : option (option (gmap string any)) :=
  if String.eqb text schema_invalid_template
  then Some (Some {["inbounds" := Number 5]})
  else if String.eqb text "DEFAULT" then Some (Some ∅)
  else None.

Definition schema_invalid_stored (key : string) : World :=
  mkWorld {[key := schema_invalid_template]} [].

(** C7.  The code on a stored sing-box template that is a JSON object but
    not a sing-box configuration.  The validation decodes it into a generic
    map, finds nothing to clean, returns nil and keeps it; the build then
    fails to decode the template, and the setting still holds the object.
    The validation of the Xray template decodes into the configuration type
    and replaces the same text by the default. *)
Lemma schema_invalid_singbox_template_is_kept :
  Template.clean {["inbounds" := Number 5]}
  = ({["inbounds" := Number 5]}, false)
  /\ EnsureSingBoxTemplateConfigValid (fun s => s) decodes_generic "DEFAULT"
       (Template.cleanedTemplate (fun _ => Ok "cleaned"))
       (schema_invalid_stored "singboxTemplateConfig")
     = (Ok tt, schema_invalid_stored "singboxTemplateConfig")
  /\ GetSingBoxConfig_template (fun s => s) (String.eqb "DEFAULT")
       decodes_generic "DEFAULT" "DEFAULT"
       (Template.cleanedTemplate (fun _ => Ok "cleaned"))
       (schema_invalid_stored "singboxTemplateConfig")
     = (Err "invalid sing-box template",
        schema_invalid_stored "singboxTemplateConfig")
  /\ EnsureXrayTemplateConfigValid (fun s => s) (String.eqb "DEFAULT")
       "DEFAULT" (schema_invalid_stored "xrayTemplateConfig")
     = (Ok tt, mkWorld {["xrayTemplateConfig" := "DEFAULT"]} []).
Proof. repeat split; by vm_compute. Qed.

End SchemaInvalidTemplate.
